(** * RepRapFirmware G-code interpreter: a shallow embedding of GCodes.cpp

    The development follows the source file by file:
    - [Libc]: the C library calls the interpreter relies on ([strtol],
      [strtod], [snprintf] with a [%d] conversion);
    - [GCodeBuffer]: the line assembler and its field accessors;
    - [GCodes]: the interpreter state, the move slot, the state stack, the
      macro engine, homing and the [Spin] dispatcher.

    Arrays are lists indexed with stdpp's lookup and insert; single precision
    numbers are IEEE-754 binary32 values ([SpecFloat]). *)

From Stdlib Require Import ZArith Ascii String List Bool Lia.
From Stdlib Require Import Floats.SpecFloat DecimalString.
From stdpp Require Import base tactics option list strings.

Local Open Scope Z_scope.

(** Equality test on characters. *)
Notation "c =c d" := (Ascii.eqb c d) (at level 70, no associativity).

(** ** Configuration constants

    RepRapFirmware.h and the configuration headers are not part of the
    sources; the sizes they define are parameters of the development. *)
Class Config := {
  GCODE_LENGTH : nat;   (* capacity of a command buffer *)
  DRIVES : nat;         (* axes plus extruders *)
  STACK : nat;          (* depth of the push/pop stack *)
}.

(** Modelled from the spec: the header that defines these is not among the
    sources.  The axes are X, Y and Z (the source tests [axis < 2] for X
    and Y), [E] tags the extrusion list, [F] the feedrate, and the values
    of a list are separated by a colon. *)
Definition AXES : nat := 3.
Definition X_AXIS : nat := 0.
Definition Y_AXIS : nat := 1.
Definition Z_AXIS : nat := 2.
Definition gCodeLetters : list ascii := ["X"; "Y"; "Z"]%char.
Definition EXTRUDE_LETTER : ascii := "E".
Definition FEEDRATE_LETTER : ascii := "F".
Definition LIST_SEPARATOR : ascii := ":".

Definition NUL : ascii := "000".
Definition NEWLINE : ascii := "010".

(** Reading [buf[i]]; outside the list the model reads a NUL, which ends
    every scan of the source. *)
Definition char_at (buf : list ascii) (i : nat) : ascii := default NUL (buf !! i).

(** Writing [buf[i] = c]; a store outside the array has no defined result. *)
Definition store (i : nat) (c : ascii) (buf : list ascii) : option (list ascii) :=
  if decide (i < length buf)%nat then Some (<[i := c]> buf) else None.

(** The C string held at the front of an array. *)
Fixpoint cstring (buf : list ascii) : list ascii :=
  match buf with
  | [] => []
  | c :: rest => if (c =c NUL) then [] else c :: cstring rest
  end.

(** ** Single and double precision numbers

    [float] is IEEE-754 binary32 and [double] binary64, both as [spec_float]
    values with round-to-nearest-even operations. *)
Module Double.
Definition prec : Z := 53.
Definition emax : Z := 1024.
Definition div := SFdiv prec emax.
Definition mul := SFmul prec emax.

(** The double nearest to [n / d]. *)
Definition of_ratio (s : bool) (n : Z) (d : positive) : spec_float :=
  match n with
  | Zpos p =>
      let '(q, e, l) := SFdiv_core_binary prec emax (Zpos p) 0 (Zpos d) 0 in
      binary_round_aux prec emax s q e l
  | _ => S754_zero s
  end.

(** The double nearest to [n * 2 ^ e]. *)
Definition of_binary (s : bool) (n : Z) (e : Z) : spec_float :=
  binary_normalize prec emax (cond_Zopp s n) e s.
End Double.

Abbreviation float := spec_float (only parsing).

Module Float.
Definition prec : Z := 24.
Definition emax : Z := 128.

(** The conversion [(float) x] of a double. *)
Definition of_double (x : spec_float) : float :=
  match x with
  | S754_finite s m e => binary_normalize prec emax (cond_Zopp s (Zpos m)) e s
  | _ => x
  end.

Definition mul : float -> float -> float := SFmul prec emax.
Definition add : float -> float -> float := SFadd prec emax.
Definition sub : float -> float -> float := SFsub prec emax.
Definition div : float -> float -> float := SFdiv prec emax.
Definition ltb : float -> float -> bool := SFltb.

Definition of_Z (n : Z) : float := of_double (Double.of_ratio false n 1).
Definition zero : float := S754_zero false.
Definition one : float := of_Z 1.
End Float.

(** ** The C library *)
Module Libc.

Definition isspace (c : ascii) : bool :=
  (c =c " ") || (c =c "009") || (c =c "010") || (c =c "011")
  || (c =c "012") || (c =c "013").

Definition code (c : ascii) : Z := Z.of_N (N_of_ascii c).

(** Value of a digit character in bases up to 36. *)
Definition digit_value (c : ascii) : option Z :=
  let n := code c in
  if (48 <=? n) && (n <=? 57) then Some (n - 48)
  else if (97 <=? n) && (n <=? 122) then Some (n - 87)
  else if (65 <=? n) && (n <=? 90) then Some (n - 55)
  else None.

(** The longest run of digits of [base], most significant first, and what
    follows it. *)
Fixpoint digits (base : Z) (s : list ascii) (acc : Z) (seen : bool)
  : Z * bool * list ascii :=
  match s with
  | [] => (acc, seen, [])
  | c :: rest =>
      match digit_value c with
      | Some d => if d <? base then digits base rest (acc * base + d) true
                  else (acc, seen, s)
      | None => (acc, seen, s)
      end
  end.

Fixpoint skip_space (s : list ascii) : list ascii :=
  match s with
  | c :: rest => if isspace c then skip_space rest else s
  | [] => []
  end.

Definition sign (s : list ascii) : bool * list ascii :=
  match s with
  | "-"%char :: rest => (true, rest)
  | "+"%char :: rest => (false, rest)
  | _ => (false, s)
  end.

(** [long] is 32 bits wide on the target (SAM3X8E). *)
Definition LONG_MAX : Z := 2147483647.
Definition LONG_MIN : Z := -2147483648.

(** [strtol(s, 0, 0)]: leading white space, an optional sign, a base taken
    from the prefix ([0x] hexadecimal, [0] octal, decimal otherwise), the
    digits, and saturation at the ends of [long]. *)
Definition strtol (s : list ascii) : Z :=
  let '(neg, s) := sign (skip_space s) in
  let '(base, s) :=
    match s with
    | "0"%char :: "x"%char :: rest | "0"%char :: "X"%char :: rest => (16, rest)
    | "0"%char :: _ => (8, s)
    | _ => (10, s)
    end in
  let '(v, _, _) := digits base s 0 false in
  if neg then Z.max (- v) LONG_MIN else Z.min v LONG_MAX.

(** The text a [%d] conversion produces. *)
Definition print_int (n : Z) : list ascii :=
  list_ascii_of_string (NilZero.string_of_int (Z.to_int n)).

(** [snprintf(buf, size, text)] for an already formatted [text]: at most
    [size - 1] characters and a terminating NUL, nothing when [size] is 0. *)
Fixpoint store_all (i : nat) (text : list ascii) (buf : list ascii)
  : option (list ascii) :=
  match text with
  | [] => Some buf
  | c :: rest => buf' ← store i c buf; store_all (S i) rest buf'
  end.

Definition snprintf (buf : list ascii) (size : nat) (text : list ascii)
  : option (list ascii) :=
  match size with
  | O => Some buf
  | S n => store_all 0 (take n text ++ [NUL]) buf
  end.

(** *** [strtod]

    Leading white space, an optional sign, then one of: [inf] or
    [infinity], [nan], a hexadecimal number with an optional binary
    exponent, a decimal number with an optional decimal exponent.  The
    result is the double nearest to the number read, and 0 when no number
    can be read. *)
Definition lower (c : ascii) : ascii :=
  let n := code c in
  if (65 <=? n) && (n <=? 90) then ascii_of_N (Z.to_N (n + 32)) else c.

(** Digits of a fraction: the value accumulated and how many were read. *)
Fixpoint fraction (base : Z) (s : list ascii) (acc : Z) (count : Z) (seen : bool)
  : Z * Z * bool * list ascii :=
  match s with
  | [] => (acc, count, seen, [])
  | c :: rest =>
      match digit_value c with
      | Some d => if d <? base then fraction base rest (acc * base + d) (count + 1) true
                  else (acc, count, seen, s)
      | None => (acc, count, seen, s)
      end
  end.

(** Integer part, optional point and fraction: mantissa, number of
    fraction digits, whether any digit was read. *)
Definition mantissa (base : Z) (s : list ascii) : Z * Z * bool * list ascii :=
  let '(i, seen, s) := digits base s 0 false in
  match s with
  | "."%char :: rest => fraction base rest i 0 seen
  | _ => (i, 0, seen, s)
  end.

(** An exponent part introduced by [mark]; 0 when none is well formed. *)
Definition exponent (mark : ascii) (s : list ascii) : Z :=
  match s with
  | c :: rest =>
      if lower c =c mark then
        let '(neg, rest) := sign rest in
        let '(e, seen, _) := digits 10 rest 0 false in
        if seen then (if neg then - e else e) else 0
      else 0
  | [] => 0
  end.

Definition strtod_decimal (neg : bool) (s : list ascii) : spec_float :=
  let '(m, count, seen, s) := mantissa 10 s in
  if seen then
    let e := exponent "e" s - count in
    if 0 <=? e then Double.of_ratio neg (m * 10 ^ e) 1
    else Double.of_ratio neg m (Z.to_pos (10 ^ (- e)))
  else S754_zero false.

Definition strtod_hex (neg : bool) (s : list ascii) : spec_float :=
  let '(m, count, seen, s) := mantissa 16 s in
  if seen then Double.of_binary neg m (exponent "p" s - 4 * count)
  else S754_zero neg.

Definition strtod (s : list ascii) : spec_float :=
  let '(neg, s) := sign (skip_space s) in
  match map lower (take 3 s) with
  | ["i"; "n"; "f"]%char => S754_infinity neg
  | ["n"; "a"; "n"]%char => S754_nan
  | _ =>
      match s with
      | "0"%char :: "x"%char :: rest | "0"%char :: "X"%char :: rest => strtod_hex neg rest
      | _ => strtod_decimal neg s
      end
  end.

End Libc.

(** ** GCodeBuffer: one command line being assembled and parsed *)

(** Modelled from the spec: GCodes.h is not among the sources.  The parse
    state of a buffer: it is [idle] until a
    command it holds has been started and not finished ([executing]); a
    paused file print parks it in [paused]. *)
Inductive BufferState := idle | executing | paused.

Record GCodeBuffer := mkGCodeBuffer {
  gcodeBuffer : list ascii;               (* char gcodeBuffer[GCODE_LENGTH] *)
  gcodePointer : nat;
  readPointer : Z;                        (* -1: no field located *)
  inComment : bool;
  state : BufferState;
  identity : string;
  writingFileDirectory : option string;   (* NULL when not capturing *)
}.

Definition set_gcodeBuffer (v : list ascii) (gb : GCodeBuffer) : GCodeBuffer :=
  mkGCodeBuffer v (gcodePointer gb) (readPointer gb) (inComment gb) (state gb) (identity gb) (writingFileDirectory gb).
Definition set_gcodePointer (v : nat) (gb : GCodeBuffer) : GCodeBuffer :=
  mkGCodeBuffer (gcodeBuffer gb) v (readPointer gb) (inComment gb) (state gb) (identity gb) (writingFileDirectory gb).
Definition set_readPointer (v : Z) (gb : GCodeBuffer) : GCodeBuffer :=
  mkGCodeBuffer (gcodeBuffer gb) (gcodePointer gb) v (inComment gb) (state gb) (identity gb) (writingFileDirectory gb).
Definition set_inComment (v : bool) (gb : GCodeBuffer) : GCodeBuffer :=
  mkGCodeBuffer (gcodeBuffer gb) (gcodePointer gb) (readPointer gb) v (state gb) (identity gb) (writingFileDirectory gb).
Definition set_state (v : BufferState) (gb : GCodeBuffer) : GCodeBuffer :=
  mkGCodeBuffer (gcodeBuffer gb) (gcodePointer gb) (readPointer gb) (inComment gb) v (identity gb) (writingFileDirectory gb).
Definition set_writingFileDirectory (v : option string) (gb : GCodeBuffer) : GCodeBuffer :=
  mkGCodeBuffer (gcodeBuffer gb) (gcodePointer gb) (readPointer gb) (inComment gb) (state gb) (identity gb) v.

Module GCodeBuffer.

(** [GCodeBuffer::Init] *)
Definition Init (gb : GCodeBuffer) : GCodeBuffer :=
  set_state idle (set_inComment false (set_readPointer (-1) (set_gcodePointer 0%nat gb))).

(** [GCodeBuffer::CheckSum]: XOR of the bytes before the first '*' or NUL. *)
Fixpoint CheckSum_loop (buf : list ascii) (cs : Z) : Z :=
  match buf with
  | [] => cs
  | b :: rest =>
      if (b =c "*") || (b =c NUL) then cs
      else CheckSum_loop rest (Z.lxor cs (Libc.code b))
  end.

Definition CheckSum (gb : GCodeBuffer) : Z :=
  Z.land (CheckSum_loop (gcodeBuffer gb) 0) 255.

(** [GCodeBuffer::Seen]: index of the first [c] before a NUL or a ';'. *)
Fixpoint Seen_loop (c : ascii) (buf : list ascii) (i : Z) : option Z :=
  match buf with
  | [] => None
  | b :: rest =>
      if (b =c NUL) || (b =c ";") then None
      else if (b =c c) then Some i
      else Seen_loop c rest (i + 1)
  end.

Definition Seen (c : ascii) (gb : GCodeBuffer) : bool * GCodeBuffer :=
  match Seen_loop c (gcodeBuffer gb) 0 with
  | Some i => (true, set_readPointer i gb)
  | None => (false, set_readPointer (-1) gb)
  end.

(** The text at [&gcodeBuffer[readPointer + 1]]. *)
Definition field_text (gb : GCodeBuffer) : list ascii :=
  drop (Z.to_nat (readPointer gb + 1)) (gcodeBuffer gb).

(** [GCodeBuffer::GetLValue]; the third component is the messages sent to
    the host. *)
Definition GetLValue (gb : GCodeBuffer) : Z * GCodeBuffer * list string :=
  if readPointer gb <? 0 then
    (0, set_readPointer (-1) gb,
     ["GCodes: Attempt to read a GCode int before a search."
        ++ String NEWLINE EmptyString]%string)
  else (Libc.strtol (field_text gb), set_readPointer (-1) gb, []).

(** [GetIValue] casts [GetLValue] to [int], which has the width of [long]. *)
Definition GetIValue (gb : GCodeBuffer) : Z * GCodeBuffer * list string :=
  GetLValue gb.

(** First loop of the strip: advance to the first space or NUL. *)
Fixpoint skip_word (fuel : nat) (buf : list ascii) (gp : nat) : nat :=
  match fuel with
  | O => gp
  | S fuel' =>
      let b := char_at buf gp in
      if (b =c " ") || (b =c NUL) then gp else skip_word fuel' buf (S gp)
  end.

(** Second loop of the strip: copy down to the front until '*' or NUL. *)
Fixpoint strip_copy (fuel : nat) (buf : list ascii) (gp gp2 : nat)
  : option (list ascii * nat * nat) :=
  match fuel with
  | O => Some (buf, gp, gp2)
  | S fuel' =>
      let b := char_at buf gp in
      if (b =c "*") || (b =c NUL) then Some (buf, gp, gp2)
      else buf' ← store gp2 b buf; strip_copy fuel' buf' (S gp) (S gp2)
  end.

(** [GCodeBuffer::GetFValue] *)
Definition GetFValue (gb : GCodeBuffer) : float * GCodeBuffer * list string :=
  if readPointer gb <? 0 then
    (Float.zero, set_readPointer (-1) gb,
     ["GCodes: Attempt to read a GCode float before a search."
        ++ String NEWLINE EmptyString]%string)
  else (Float.of_double (Libc.strtod (field_text gb)), set_readPointer (-1) gb, []).

(** Inner loop of [GetFloatArray]: advance to a NUL, a space or a ':'. *)
Fixpoint skip_item (buf : list ascii) (rp : Z) : Z :=
  match buf with
  | [] => rp
  | b :: rest =>
      if (b =c NUL) || (b =c " ") || (b =c LIST_SEPARATOR) then rp
      else skip_item rest (rp + 1)
  end.

Definition too_long_message (buf : list ascii) : string :=
  ("GCodes: Attempt to read a GCode float array that is too long: "
     ++ string_of_list_ascii (cstring buf) ++ String NEWLINE EmptyString)%string.

(** Outer loop of [GetFloatArray]; [None] is the "too long" exit. *)
Fixpoint GetFloatArray_loop (fuel : nat) (buf : list ascii) (rp : Z)
    (a : list float) (returnedLength : nat) : option (list float) :=
  match fuel with
  | O => Some a
  | S fuel' =>
      if decide (returnedLength <= length a)%nat then None
      else
        let a := a ++ [Float.of_double (Libc.strtod (drop (Z.to_nat (rp + 1)) buf))] in
        let rp := rp + 1 in
        let rp := skip_item (drop (Z.to_nat rp) buf) rp in
        if char_at buf (Z.to_nat rp) =c LIST_SEPARATOR
        then GetFloatArray_loop fuel' buf rp a returnedLength
        else Some a
  end.

(** [GCodeBuffer::GetFloatArray]: the values read and the new
    [returnedLength]; a single value is repeated to the requested length. *)
Definition GetFloatArray (returnedLength : nat) (gb : GCodeBuffer)
  : list float * nat * GCodeBuffer * list string :=
  if readPointer gb <? 0 then
    ([], 0%nat, set_readPointer (-1) gb,
     ["GCodes: Attempt to read a GCode float array before a search."
        ++ String NEWLINE EmptyString]%string)
  else
    match GetFloatArray_loop (S (length (gcodeBuffer gb))) (gcodeBuffer gb)
            (readPointer gb) [] returnedLength with
    | None => ([], 0%nat, set_readPointer (-1) gb, [too_long_message (gcodeBuffer gb)])
    | Some a =>
        if decide (length a = 1%nat ∧ (1 < returnedLength)%nat)
        then (replicate returnedLength (default Float.zero (a !! 0%nat)),
              returnedLength, set_readPointer (-1) gb, [])
        else (a, length a, set_readPointer (-1) gb, [])
    end.

(** [GCodeBuffer::GetString]: the rest of the line after the tag. *)
Definition GetString (gb : GCodeBuffer) : list ascii * GCodeBuffer * list string :=
  if readPointer gb <? 0 then
    ([], set_readPointer (-1) gb,
     ["GCodes: Attempt to read a GCode string before a search."
        ++ String NEWLINE EmptyString]%string)
  else (cstring (field_text gb), set_readPointer (-1) gb, []).

(** Modelled from the spec: [Buffer], [Active], [SetFinished], [Pause],
    [CancelPause] and [WritingFileDirectory] are inline members declared
    in GCodes.h, which is not among the sources. *)
Definition Buffer (gb : GCodeBuffer) : list ascii := cstring (gcodeBuffer gb).
Definition Active (gb : GCodeBuffer) : bool :=
  match state gb with executing => true | _ => false end.
Definition SetFinished (f : bool) (gb : GCodeBuffer) : GCodeBuffer :=
  set_state (if f then idle else executing) gb.
Definition Pause (gb : GCodeBuffer) : GCodeBuffer :=
  match state gb with executing => set_state paused gb | _ => gb end.
Definition CancelPause (gb : GCodeBuffer) : GCodeBuffer :=
  match state gb with paused => set_state idle gb | _ => gb end.

Definition resend_text (n : Z) : list ascii :=
  list_ascii_of_string "M998 P" ++ Libc.print_int n.

Definition overflow_message : string :=
  ("G Code buffer length overflow." ++ String NEWLINE EmptyString)%string.

(** The part of [Put] run on '\n' or NUL.  [inl] is an early [return]
    of the source, [inr] falls through to the overflow test. *)
Definition end_of_line `{Config} (debug : bool) (gb : GCodeBuffer)
  : option (bool * GCodeBuffer * list string + bool * GCodeBuffer * list string) :=
  buf ← store (gcodePointer gb) NUL (gcodeBuffer gb);
  let gb := Init (set_gcodeBuffer buf gb) in
  let dbg :=
    if debug && negb (char_at buf 0 =c NUL)
       && negb (bool_decide (is_Some (writingFileDirectory gb)))
    then [identity gb; string_of_list_ascii (cstring buf); String NEWLINE EmptyString]
    else [] in
  let '(star, gb) := Seen "*" gb in
  if star then
    let '(csSent, gb, m1) := GetIValue gb in
    let csHere := CheckSum gb in
    let '(_, gb) := Seen "N" gb in
    if negb (csSent =? csHere) then
      let '(n, gb, m2) := GetIValue gb in
      buf ← Libc.snprintf (gcodeBuffer gb) GCODE_LENGTH (resend_text n);
      Some (inl (true, Init (set_gcodeBuffer buf gb), dbg ++ m1 ++ m2))
    else
      let fuel := length (gcodeBuffer gb) in
      let gp := skip_word fuel (gcodeBuffer gb) (gcodePointer gb) in
      let gb := set_gcodePointer gp gb in
      if (char_at (gcodeBuffer gb) gp =c NUL) then
        buf ← store 0 NUL (gcodeBuffer gb);
        Some (inl (true, Init (set_gcodeBuffer buf gb), dbg ++ m1))
      else
        '(buf, gp, gp2) ← strip_copy fuel (gcodeBuffer gb) (S gp) 0;
        buf ← store gp2 NUL buf;
        Some (inr (true, Init (set_gcodePointer gp (set_gcodeBuffer buf gb)), dbg ++ m1))
  else Some (inr (true, gb, dbg)).

(** [GCodeBuffer::Put]: add one byte; [true] when a line is complete.
    The result is [None] exactly when a store falls outside the array. *)
Definition Put `{Config} (debug : bool) (c : ascii) (gb : GCodeBuffer)
  : option (bool * GCodeBuffer * list string) :=
  buf ← store (gcodePointer gb) c (gcodeBuffer gb);
  let gb := set_gcodeBuffer buf gb in
  let gb := if (c =c ";") then set_inComment true gb else gb in
  r ← (if (c =c NEWLINE) || (c =c NUL) then end_of_line debug gb
       else if negb (inComment gb) || bool_decide (is_Some (writingFileDirectory gb))
            then Some (inr (false, set_gcodePointer (S (gcodePointer gb)) gb, []))
            else Some (inr (false, gb, [])));
  match r with
  | inl early => Some early
  | inr (result, gb, msgs) =>
      if decide (GCODE_LENGTH <= gcodePointer gb)%nat then
        buf ← store 0 NUL (gcodeBuffer gb);
        Some (result, set_gcodeBuffer buf (set_gcodePointer 0%nat gb),
              msgs ++ [overflow_message])
      else Some (result, gb, msgs)
  end.

(** Feeding a sequence of bytes, one [Put] each. *)
Fixpoint feed `{Config} (debug : bool) (cs : list ascii) (gb : GCodeBuffer)
  : option (list bool * GCodeBuffer * list string) :=
  match cs with
  | [] => Some ([], gb, [])
  | c :: rest =>
      '(r, gb, m) ← Put debug c gb;
      '(rs, gb, ms) ← feed debug rest gb;
      Some (r :: rs, gb, m ++ ms)
  end.

(** The array has its declared size and the write index is inside it. *)
Definition wf `{Config} (gb : GCodeBuffer) : Prop :=
  length (gcodeBuffer gb) = GCODE_LENGTH ∧ (gcodePointer gb < GCODE_LENGTH)%nat.

End GCodeBuffer.

(** ** The machine around the interpreter

    Platform, Move, Webserver and Tool are the collaborators GCodes.cpp
    calls.  Their state is modelled as far as the interpreter observes it;
    output is kept as logs. *)

Inductive MessageType :=
  | HOST_MESSAGE | WEB_MESSAGE | WEB_ERROR_MESSAGE
  | BOTH_MESSAGE | BOTH_ERROR_MESSAGE | GENERIC_MESSAGE.

Inductive Compatibility := me | reprapFirmware | marlin | teacup | sprinter | repetier.

(** A [FileStore] of Platform.cpp, without the sector buffer: [Read] hands
    out [data] byte by byte and [bytesRead] is the read position. *)
Record FileStore := mkFileStore {
  inUse : bool;
  openCount : Z;
  writing : bool;
  data : list ascii;   (* the bytes of the file *)
  bytesRead : nat;
}.

Definition set_inUse (v : bool) (x : FileStore) : FileStore :=
  mkFileStore v (openCount x) (writing x) (data x) (bytesRead x).
Definition set_openCount (v : Z) (x : FileStore) : FileStore :=
  mkFileStore (inUse x) v (writing x) (data x) (bytesRead x).
Definition set_writing (v : bool) (x : FileStore) : FileStore :=
  mkFileStore (inUse x) (openCount x) v (data x) (bytesRead x).
Definition set_data (v : list ascii) (x : FileStore) : FileStore :=
  mkFileStore (inUse x) (openCount x) (writing x) v (bytesRead x).
Definition set_bytesRead (v : nat) (x : FileStore) : FileStore :=
  mkFileStore (inUse x) (openCount x) (writing x) (data x) v.
(** [FileData] wraps a [FileStore*]: the index of the store in
    [Platform::files], [None] for a null pointer.  Copies of a handle share
    the store and its read position. *)
Abbreviation FileData := (option nat) (only parsing).

Record Platform := mkPlatform {
  files : list FileStore;   (* FileStore* files[MAX_FILES] *)
  fileStructureInitialised : bool;
  sdCard : string -> string -> option (list ascii);   (* what f_open finds under directory and file name *)
  sysDir : string;
  webDir : string;
  gcodeDir : string;
  messages : list (MessageType * string);   (* Message(type, text), oldest first *)
  lineOut : list string;   (* GetLine()->Write(text), oldest first *)
  lineIn : list ascii;   (* bytes waiting on the serial line *)
  messageIndent : nat;
  zProbeType : Z;   (* nvData.zProbeType *)
  emulating : Compatibility;
  axisMinima : list float;
  axisMaxima : list float;
  instantDvs : list float;
  slowestDrive : nat;
  combinedNameUpb : nat;   (* combinedName.Length() - 1 *)
  f_open_error : string -> string -> bool -> Z;   (* FRESULT of an f_open that is not FR_OK; for writing 0 is FR_OK *)
}.

Definition set_files (v : list FileStore) (x : Platform) : Platform :=
  mkPlatform v (fileStructureInitialised x) (sdCard x) (sysDir x) (webDir x) (gcodeDir x)
    (messages x) (lineOut x) (lineIn x) (messageIndent x) (zProbeType x) (emulating x)
    (axisMinima x) (axisMaxima x) (instantDvs x) (slowestDrive x) (combinedNameUpb x)
    (f_open_error x).
Definition set_sdCard (v : string -> string -> option (list ascii))
    (x : Platform) : Platform :=
  mkPlatform (files x) (fileStructureInitialised x) v (sysDir x) (webDir x) (gcodeDir x)
    (messages x) (lineOut x) (lineIn x) (messageIndent x) (zProbeType x) (emulating x)
    (axisMinima x) (axisMaxima x) (instantDvs x) (slowestDrive x) (combinedNameUpb x)
    (f_open_error x).
Definition set_messages (v : list (MessageType * string)) (x : Platform) : Platform :=
  mkPlatform (files x) (fileStructureInitialised x) (sdCard x) (sysDir x) (webDir x)
    (gcodeDir x) v (lineOut x) (lineIn x) (messageIndent x) (zProbeType x) (emulating x)
    (axisMinima x) (axisMaxima x) (instantDvs x) (slowestDrive x) (combinedNameUpb x)
    (f_open_error x).
Definition set_lineOut (v : list string) (x : Platform) : Platform :=
  mkPlatform (files x) (fileStructureInitialised x) (sdCard x) (sysDir x) (webDir x)
    (gcodeDir x) (messages x) v (lineIn x) (messageIndent x) (zProbeType x) (emulating x)
    (axisMinima x) (axisMaxima x) (instantDvs x) (slowestDrive x) (combinedNameUpb x)
    (f_open_error x).
Definition set_lineIn (v : list ascii) (x : Platform) : Platform :=
  mkPlatform (files x) (fileStructureInitialised x) (sdCard x) (sysDir x) (webDir x)
    (gcodeDir x) (messages x) (lineOut x) v (messageIndent x) (zProbeType x) (emulating x)
    (axisMinima x) (axisMaxima x) (instantDvs x) (slowestDrive x) (combinedNameUpb x)
    (f_open_error x).
Definition set_messageIndent (v : nat) (x : Platform) : Platform :=
  mkPlatform (files x) (fileStructureInitialised x) (sdCard x) (sysDir x) (webDir x)
    (gcodeDir x) (messages x) (lineOut x) (lineIn x) v (zProbeType x) (emulating x)
    (axisMinima x) (axisMaxima x) (instantDvs x) (slowestDrive x) (combinedNameUpb x)
    (f_open_error x).
Definition set_emulating (v : Compatibility) (x : Platform) : Platform :=
  mkPlatform (files x) (fileStructureInitialised x) (sdCard x) (sysDir x) (webDir x)
    (gcodeDir x) (messages x) (lineOut x) (lineIn x) (messageIndent x) (zProbeType x) v
    (axisMinima x) (axisMaxima x) (instantDvs x) (slowestDrive x) (combinedNameUpb x)
    (f_open_error x).
(** What the planner is asked to do. *)
Inductive MoveCall :=
  | ResumeMoving
  | Transform (m : list float)
  | SetLiveCoordinates (m : list float)
  | SetPositions (m : list float)
  | SetFeedrate (f : float).

Record Move := mkMove {
  allMovesAreFinished : bool;
  currentUserPosition : option (list float);   (* None: GetCurrentUserPosition returns false *)
  transform : list float -> list float;   (* Move::Transform *)
  moveCalls : list MoveCall;   (* calls received, oldest first *)
}.

Definition set_allMovesAreFinished (v : bool) (x : Move) : Move :=
  mkMove v (currentUserPosition x) (transform x) (moveCalls x).
Definition set_currentUserPosition (v : option (list float)) (x : Move) : Move :=
  mkMove (allMovesAreFinished x) v (transform x) (moveCalls x).
Definition set_moveCalls (v : list MoveCall) (x : Move) : Move :=
  mkMove (allMovesAreFinished x) (currentUserPosition x) (transform x) v.
Record Webserver := mkWebserver {
  gcodeInput : list ascii;   (* bytes ReadGCode will deliver *)
}.

Record Tool := mkTool {
  drives : list nat;   (* Drive(i), DriveCount() is the length *)
}.

(** The interpreter's own fields (those the modelled functions use). *)
Record GCodes := mkGCodes {
  active : bool;
  webGCode : GCodeBuffer;
  fileGCode : GCodeBuffer;
  serialGCode : GCodeBuffer;
  cannedCycleGCode : GCodeBuffer;
  moveAvailable : bool;
  moveBuffer : list float;   (* float moveBuffer[DRIVES + 1] *)
  checkEndStops : bool;
  drivesRelative : bool;
  axesRelative : bool;
  drivesRelativeStack : list bool;
  axesRelativeStack : list bool;
  feedrateStack : list float;
  fileStack : list FileData;
  stackPointer : nat;
  lastPos : list float;   (* float lastPos[DRIVES - AXES] *)
  homeX : bool;
  homeY : bool;
  homeZ : bool;
  distanceScale : float;
  fileBeingPrinted : FileData;
  fileToPrint : FileData;
  fileBeingWritten : FileData;
  doingCannedCycleFile : bool;
  eofStringCounter : nat;
  waitingForMoveToComplete : bool;
  limitAxes : bool;
  axisIsHomed : list bool;   (* bool axisIsHomed[AXES] *)
  speedFactor : float;
  speedFactorChange : float;
  extrusionFactors : list float;   (* float extrusionFactors[DRIVES - AXES] *)
}.

Definition set_active (v : bool) (x : GCodes) : GCodes :=
  mkGCodes v (webGCode x) (fileGCode x) (serialGCode x) (cannedCycleGCode x)
    (moveAvailable x) (moveBuffer x) (checkEndStops x) (drivesRelative x) (axesRelative x)
    (drivesRelativeStack x) (axesRelativeStack x) (feedrateStack x) (fileStack x)
    (stackPointer x) (lastPos x) (homeX x) (homeY x) (homeZ x) (distanceScale x)
    (fileBeingPrinted x) (fileToPrint x) (fileBeingWritten x) (doingCannedCycleFile x)
    (eofStringCounter x) (waitingForMoveToComplete x) (limitAxes x) (axisIsHomed x)
    (speedFactor x) (speedFactorChange x) (extrusionFactors x).
Definition set_webGCode (v : GCodeBuffer) (x : GCodes) : GCodes :=
  mkGCodes (active x) v (fileGCode x) (serialGCode x) (cannedCycleGCode x)
    (moveAvailable x) (moveBuffer x) (checkEndStops x) (drivesRelative x) (axesRelative x)
    (drivesRelativeStack x) (axesRelativeStack x) (feedrateStack x) (fileStack x)
    (stackPointer x) (lastPos x) (homeX x) (homeY x) (homeZ x) (distanceScale x)
    (fileBeingPrinted x) (fileToPrint x) (fileBeingWritten x) (doingCannedCycleFile x)
    (eofStringCounter x) (waitingForMoveToComplete x) (limitAxes x) (axisIsHomed x)
    (speedFactor x) (speedFactorChange x) (extrusionFactors x).
Definition set_fileGCode (v : GCodeBuffer) (x : GCodes) : GCodes :=
  mkGCodes (active x) (webGCode x) v (serialGCode x) (cannedCycleGCode x)
    (moveAvailable x) (moveBuffer x) (checkEndStops x) (drivesRelative x) (axesRelative x)
    (drivesRelativeStack x) (axesRelativeStack x) (feedrateStack x) (fileStack x)
    (stackPointer x) (lastPos x) (homeX x) (homeY x) (homeZ x) (distanceScale x)
    (fileBeingPrinted x) (fileToPrint x) (fileBeingWritten x) (doingCannedCycleFile x)
    (eofStringCounter x) (waitingForMoveToComplete x) (limitAxes x) (axisIsHomed x)
    (speedFactor x) (speedFactorChange x) (extrusionFactors x).
Definition set_serialGCode (v : GCodeBuffer) (x : GCodes) : GCodes :=
  mkGCodes (active x) (webGCode x) (fileGCode x) v (cannedCycleGCode x) (moveAvailable x)
    (moveBuffer x) (checkEndStops x) (drivesRelative x) (axesRelative x)
    (drivesRelativeStack x) (axesRelativeStack x) (feedrateStack x) (fileStack x)
    (stackPointer x) (lastPos x) (homeX x) (homeY x) (homeZ x) (distanceScale x)
    (fileBeingPrinted x) (fileToPrint x) (fileBeingWritten x) (doingCannedCycleFile x)
    (eofStringCounter x) (waitingForMoveToComplete x) (limitAxes x) (axisIsHomed x)
    (speedFactor x) (speedFactorChange x) (extrusionFactors x).
Definition set_cannedCycleGCode (v : GCodeBuffer) (x : GCodes) : GCodes :=
  mkGCodes (active x) (webGCode x) (fileGCode x) (serialGCode x) v (moveAvailable x)
    (moveBuffer x) (checkEndStops x) (drivesRelative x) (axesRelative x)
    (drivesRelativeStack x) (axesRelativeStack x) (feedrateStack x) (fileStack x)
    (stackPointer x) (lastPos x) (homeX x) (homeY x) (homeZ x) (distanceScale x)
    (fileBeingPrinted x) (fileToPrint x) (fileBeingWritten x) (doingCannedCycleFile x)
    (eofStringCounter x) (waitingForMoveToComplete x) (limitAxes x) (axisIsHomed x)
    (speedFactor x) (speedFactorChange x) (extrusionFactors x).
Definition set_moveAvailable (v : bool) (x : GCodes) : GCodes :=
  mkGCodes (active x) (webGCode x) (fileGCode x) (serialGCode x) (cannedCycleGCode x) v
    (moveBuffer x) (checkEndStops x) (drivesRelative x) (axesRelative x)
    (drivesRelativeStack x) (axesRelativeStack x) (feedrateStack x) (fileStack x)
    (stackPointer x) (lastPos x) (homeX x) (homeY x) (homeZ x) (distanceScale x)
    (fileBeingPrinted x) (fileToPrint x) (fileBeingWritten x) (doingCannedCycleFile x)
    (eofStringCounter x) (waitingForMoveToComplete x) (limitAxes x) (axisIsHomed x)
    (speedFactor x) (speedFactorChange x) (extrusionFactors x).
Definition set_moveBuffer (v : list float) (x : GCodes) : GCodes :=
  mkGCodes (active x) (webGCode x) (fileGCode x) (serialGCode x) (cannedCycleGCode x)
    (moveAvailable x) v (checkEndStops x) (drivesRelative x) (axesRelative x)
    (drivesRelativeStack x) (axesRelativeStack x) (feedrateStack x) (fileStack x)
    (stackPointer x) (lastPos x) (homeX x) (homeY x) (homeZ x) (distanceScale x)
    (fileBeingPrinted x) (fileToPrint x) (fileBeingWritten x) (doingCannedCycleFile x)
    (eofStringCounter x) (waitingForMoveToComplete x) (limitAxes x) (axisIsHomed x)
    (speedFactor x) (speedFactorChange x) (extrusionFactors x).
Definition set_checkEndStops (v : bool) (x : GCodes) : GCodes :=
  mkGCodes (active x) (webGCode x) (fileGCode x) (serialGCode x) (cannedCycleGCode x)
    (moveAvailable x) (moveBuffer x) v (drivesRelative x) (axesRelative x)
    (drivesRelativeStack x) (axesRelativeStack x) (feedrateStack x) (fileStack x)
    (stackPointer x) (lastPos x) (homeX x) (homeY x) (homeZ x) (distanceScale x)
    (fileBeingPrinted x) (fileToPrint x) (fileBeingWritten x) (doingCannedCycleFile x)
    (eofStringCounter x) (waitingForMoveToComplete x) (limitAxes x) (axisIsHomed x)
    (speedFactor x) (speedFactorChange x) (extrusionFactors x).
Definition set_drivesRelative (v : bool) (x : GCodes) : GCodes :=
  mkGCodes (active x) (webGCode x) (fileGCode x) (serialGCode x) (cannedCycleGCode x)
    (moveAvailable x) (moveBuffer x) (checkEndStops x) v (axesRelative x)
    (drivesRelativeStack x) (axesRelativeStack x) (feedrateStack x) (fileStack x)
    (stackPointer x) (lastPos x) (homeX x) (homeY x) (homeZ x) (distanceScale x)
    (fileBeingPrinted x) (fileToPrint x) (fileBeingWritten x) (doingCannedCycleFile x)
    (eofStringCounter x) (waitingForMoveToComplete x) (limitAxes x) (axisIsHomed x)
    (speedFactor x) (speedFactorChange x) (extrusionFactors x).
Definition set_axesRelative (v : bool) (x : GCodes) : GCodes :=
  mkGCodes (active x) (webGCode x) (fileGCode x) (serialGCode x) (cannedCycleGCode x)
    (moveAvailable x) (moveBuffer x) (checkEndStops x) (drivesRelative x) v
    (drivesRelativeStack x) (axesRelativeStack x) (feedrateStack x) (fileStack x)
    (stackPointer x) (lastPos x) (homeX x) (homeY x) (homeZ x) (distanceScale x)
    (fileBeingPrinted x) (fileToPrint x) (fileBeingWritten x) (doingCannedCycleFile x)
    (eofStringCounter x) (waitingForMoveToComplete x) (limitAxes x) (axisIsHomed x)
    (speedFactor x) (speedFactorChange x) (extrusionFactors x).
Definition set_drivesRelativeStack (v : list bool) (x : GCodes) : GCodes :=
  mkGCodes (active x) (webGCode x) (fileGCode x) (serialGCode x) (cannedCycleGCode x)
    (moveAvailable x) (moveBuffer x) (checkEndStops x) (drivesRelative x)
    (axesRelative x) v (axesRelativeStack x) (feedrateStack x) (fileStack x)
    (stackPointer x) (lastPos x) (homeX x) (homeY x) (homeZ x) (distanceScale x)
    (fileBeingPrinted x) (fileToPrint x) (fileBeingWritten x) (doingCannedCycleFile x)
    (eofStringCounter x) (waitingForMoveToComplete x) (limitAxes x) (axisIsHomed x)
    (speedFactor x) (speedFactorChange x) (extrusionFactors x).
Definition set_axesRelativeStack (v : list bool) (x : GCodes) : GCodes :=
  mkGCodes (active x) (webGCode x) (fileGCode x) (serialGCode x) (cannedCycleGCode x)
    (moveAvailable x) (moveBuffer x) (checkEndStops x) (drivesRelative x) (axesRelative x)
    (drivesRelativeStack x) v (feedrateStack x) (fileStack x) (stackPointer x) (lastPos x)
    (homeX x) (homeY x) (homeZ x) (distanceScale x) (fileBeingPrinted x) (fileToPrint x)
    (fileBeingWritten x) (doingCannedCycleFile x) (eofStringCounter x)
    (waitingForMoveToComplete x) (limitAxes x) (axisIsHomed x) (speedFactor x)
    (speedFactorChange x) (extrusionFactors x).
Definition set_feedrateStack (v : list float) (x : GCodes) : GCodes :=
  mkGCodes (active x) (webGCode x) (fileGCode x) (serialGCode x) (cannedCycleGCode x)
    (moveAvailable x) (moveBuffer x) (checkEndStops x) (drivesRelative x) (axesRelative x)
    (drivesRelativeStack x) (axesRelativeStack x) v (fileStack x) (stackPointer x)
    (lastPos x) (homeX x) (homeY x) (homeZ x) (distanceScale x) (fileBeingPrinted x)
    (fileToPrint x) (fileBeingWritten x) (doingCannedCycleFile x) (eofStringCounter x)
    (waitingForMoveToComplete x) (limitAxes x) (axisIsHomed x) (speedFactor x)
    (speedFactorChange x) (extrusionFactors x).
Definition set_fileStack (v : list FileData) (x : GCodes) : GCodes :=
  mkGCodes (active x) (webGCode x) (fileGCode x) (serialGCode x) (cannedCycleGCode x)
    (moveAvailable x) (moveBuffer x) (checkEndStops x) (drivesRelative x) (axesRelative x)
    (drivesRelativeStack x) (axesRelativeStack x) (feedrateStack x) v (stackPointer x)
    (lastPos x) (homeX x) (homeY x) (homeZ x) (distanceScale x) (fileBeingPrinted x)
    (fileToPrint x) (fileBeingWritten x) (doingCannedCycleFile x) (eofStringCounter x)
    (waitingForMoveToComplete x) (limitAxes x) (axisIsHomed x) (speedFactor x)
    (speedFactorChange x) (extrusionFactors x).
Definition set_stackPointer (v : nat) (x : GCodes) : GCodes :=
  mkGCodes (active x) (webGCode x) (fileGCode x) (serialGCode x) (cannedCycleGCode x)
    (moveAvailable x) (moveBuffer x) (checkEndStops x) (drivesRelative x) (axesRelative x)
    (drivesRelativeStack x) (axesRelativeStack x) (feedrateStack x) (fileStack x) v
    (lastPos x) (homeX x) (homeY x) (homeZ x) (distanceScale x) (fileBeingPrinted x)
    (fileToPrint x) (fileBeingWritten x) (doingCannedCycleFile x) (eofStringCounter x)
    (waitingForMoveToComplete x) (limitAxes x) (axisIsHomed x) (speedFactor x)
    (speedFactorChange x) (extrusionFactors x).
Definition set_lastPos (v : list float) (x : GCodes) : GCodes :=
  mkGCodes (active x) (webGCode x) (fileGCode x) (serialGCode x) (cannedCycleGCode x)
    (moveAvailable x) (moveBuffer x) (checkEndStops x) (drivesRelative x) (axesRelative x)
    (drivesRelativeStack x) (axesRelativeStack x) (feedrateStack x) (fileStack x)
    (stackPointer x) v (homeX x) (homeY x) (homeZ x) (distanceScale x)
    (fileBeingPrinted x) (fileToPrint x) (fileBeingWritten x) (doingCannedCycleFile x)
    (eofStringCounter x) (waitingForMoveToComplete x) (limitAxes x) (axisIsHomed x)
    (speedFactor x) (speedFactorChange x) (extrusionFactors x).
Definition set_homeX (v : bool) (x : GCodes) : GCodes :=
  mkGCodes (active x) (webGCode x) (fileGCode x) (serialGCode x) (cannedCycleGCode x)
    (moveAvailable x) (moveBuffer x) (checkEndStops x) (drivesRelative x) (axesRelative x)
    (drivesRelativeStack x) (axesRelativeStack x) (feedrateStack x) (fileStack x)
    (stackPointer x) (lastPos x) v (homeY x) (homeZ x) (distanceScale x)
    (fileBeingPrinted x) (fileToPrint x) (fileBeingWritten x) (doingCannedCycleFile x)
    (eofStringCounter x) (waitingForMoveToComplete x) (limitAxes x) (axisIsHomed x)
    (speedFactor x) (speedFactorChange x) (extrusionFactors x).
Definition set_homeY (v : bool) (x : GCodes) : GCodes :=
  mkGCodes (active x) (webGCode x) (fileGCode x) (serialGCode x) (cannedCycleGCode x)
    (moveAvailable x) (moveBuffer x) (checkEndStops x) (drivesRelative x) (axesRelative x)
    (drivesRelativeStack x) (axesRelativeStack x) (feedrateStack x) (fileStack x)
    (stackPointer x) (lastPos x) (homeX x) v (homeZ x) (distanceScale x)
    (fileBeingPrinted x) (fileToPrint x) (fileBeingWritten x) (doingCannedCycleFile x)
    (eofStringCounter x) (waitingForMoveToComplete x) (limitAxes x) (axisIsHomed x)
    (speedFactor x) (speedFactorChange x) (extrusionFactors x).
Definition set_homeZ (v : bool) (x : GCodes) : GCodes :=
  mkGCodes (active x) (webGCode x) (fileGCode x) (serialGCode x) (cannedCycleGCode x)
    (moveAvailable x) (moveBuffer x) (checkEndStops x) (drivesRelative x) (axesRelative x)
    (drivesRelativeStack x) (axesRelativeStack x) (feedrateStack x) (fileStack x)
    (stackPointer x) (lastPos x) (homeX x) (homeY x) v (distanceScale x)
    (fileBeingPrinted x) (fileToPrint x) (fileBeingWritten x) (doingCannedCycleFile x)
    (eofStringCounter x) (waitingForMoveToComplete x) (limitAxes x) (axisIsHomed x)
    (speedFactor x) (speedFactorChange x) (extrusionFactors x).
Definition set_distanceScale (v : float) (x : GCodes) : GCodes :=
  mkGCodes (active x) (webGCode x) (fileGCode x) (serialGCode x) (cannedCycleGCode x)
    (moveAvailable x) (moveBuffer x) (checkEndStops x) (drivesRelative x) (axesRelative x)
    (drivesRelativeStack x) (axesRelativeStack x) (feedrateStack x) (fileStack x)
    (stackPointer x) (lastPos x) (homeX x) (homeY x) (homeZ x) v (fileBeingPrinted x)
    (fileToPrint x) (fileBeingWritten x) (doingCannedCycleFile x) (eofStringCounter x)
    (waitingForMoveToComplete x) (limitAxes x) (axisIsHomed x) (speedFactor x)
    (speedFactorChange x) (extrusionFactors x).
Definition set_fileBeingPrinted (v : FileData) (x : GCodes) : GCodes :=
  mkGCodes (active x) (webGCode x) (fileGCode x) (serialGCode x) (cannedCycleGCode x)
    (moveAvailable x) (moveBuffer x) (checkEndStops x) (drivesRelative x) (axesRelative x)
    (drivesRelativeStack x) (axesRelativeStack x) (feedrateStack x) (fileStack x)
    (stackPointer x) (lastPos x) (homeX x) (homeY x) (homeZ x) (distanceScale x) v
    (fileToPrint x) (fileBeingWritten x) (doingCannedCycleFile x) (eofStringCounter x)
    (waitingForMoveToComplete x) (limitAxes x) (axisIsHomed x) (speedFactor x)
    (speedFactorChange x) (extrusionFactors x).
Definition set_fileToPrint (v : FileData) (x : GCodes) : GCodes :=
  mkGCodes (active x) (webGCode x) (fileGCode x) (serialGCode x) (cannedCycleGCode x)
    (moveAvailable x) (moveBuffer x) (checkEndStops x) (drivesRelative x) (axesRelative x)
    (drivesRelativeStack x) (axesRelativeStack x) (feedrateStack x) (fileStack x)
    (stackPointer x) (lastPos x) (homeX x) (homeY x) (homeZ x) (distanceScale x)
    (fileBeingPrinted x) v (fileBeingWritten x) (doingCannedCycleFile x)
    (eofStringCounter x) (waitingForMoveToComplete x) (limitAxes x) (axisIsHomed x)
    (speedFactor x) (speedFactorChange x) (extrusionFactors x).
Definition set_fileBeingWritten (v : FileData) (x : GCodes) : GCodes :=
  mkGCodes (active x) (webGCode x) (fileGCode x) (serialGCode x) (cannedCycleGCode x)
    (moveAvailable x) (moveBuffer x) (checkEndStops x) (drivesRelative x) (axesRelative x)
    (drivesRelativeStack x) (axesRelativeStack x) (feedrateStack x) (fileStack x)
    (stackPointer x) (lastPos x) (homeX x) (homeY x) (homeZ x) (distanceScale x)
    (fileBeingPrinted x) (fileToPrint x) v (doingCannedCycleFile x) (eofStringCounter x)
    (waitingForMoveToComplete x) (limitAxes x) (axisIsHomed x) (speedFactor x)
    (speedFactorChange x) (extrusionFactors x).
Definition set_doingCannedCycleFile (v : bool) (x : GCodes) : GCodes :=
  mkGCodes (active x) (webGCode x) (fileGCode x) (serialGCode x) (cannedCycleGCode x)
    (moveAvailable x) (moveBuffer x) (checkEndStops x) (drivesRelative x) (axesRelative x)
    (drivesRelativeStack x) (axesRelativeStack x) (feedrateStack x) (fileStack x)
    (stackPointer x) (lastPos x) (homeX x) (homeY x) (homeZ x) (distanceScale x)
    (fileBeingPrinted x) (fileToPrint x) (fileBeingWritten x) v (eofStringCounter x)
    (waitingForMoveToComplete x) (limitAxes x) (axisIsHomed x) (speedFactor x)
    (speedFactorChange x) (extrusionFactors x).
Definition set_eofStringCounter (v : nat) (x : GCodes) : GCodes :=
  mkGCodes (active x) (webGCode x) (fileGCode x) (serialGCode x) (cannedCycleGCode x)
    (moveAvailable x) (moveBuffer x) (checkEndStops x) (drivesRelative x) (axesRelative x)
    (drivesRelativeStack x) (axesRelativeStack x) (feedrateStack x) (fileStack x)
    (stackPointer x) (lastPos x) (homeX x) (homeY x) (homeZ x) (distanceScale x)
    (fileBeingPrinted x) (fileToPrint x) (fileBeingWritten x) (doingCannedCycleFile x) v
    (waitingForMoveToComplete x) (limitAxes x) (axisIsHomed x) (speedFactor x)
    (speedFactorChange x) (extrusionFactors x).
Definition set_waitingForMoveToComplete (v : bool) (x : GCodes) : GCodes :=
  mkGCodes (active x) (webGCode x) (fileGCode x) (serialGCode x) (cannedCycleGCode x)
    (moveAvailable x) (moveBuffer x) (checkEndStops x) (drivesRelative x) (axesRelative x)
    (drivesRelativeStack x) (axesRelativeStack x) (feedrateStack x) (fileStack x)
    (stackPointer x) (lastPos x) (homeX x) (homeY x) (homeZ x) (distanceScale x)
    (fileBeingPrinted x) (fileToPrint x) (fileBeingWritten x) (doingCannedCycleFile x)
    (eofStringCounter x) v (limitAxes x) (axisIsHomed x) (speedFactor x)
    (speedFactorChange x) (extrusionFactors x).
Definition set_limitAxes (v : bool) (x : GCodes) : GCodes :=
  mkGCodes (active x) (webGCode x) (fileGCode x) (serialGCode x) (cannedCycleGCode x)
    (moveAvailable x) (moveBuffer x) (checkEndStops x) (drivesRelative x) (axesRelative x)
    (drivesRelativeStack x) (axesRelativeStack x) (feedrateStack x) (fileStack x)
    (stackPointer x) (lastPos x) (homeX x) (homeY x) (homeZ x) (distanceScale x)
    (fileBeingPrinted x) (fileToPrint x) (fileBeingWritten x) (doingCannedCycleFile x)
    (eofStringCounter x) (waitingForMoveToComplete x) v (axisIsHomed x) (speedFactor x)
    (speedFactorChange x) (extrusionFactors x).
Definition set_axisIsHomed (v : list bool) (x : GCodes) : GCodes :=
  mkGCodes (active x) (webGCode x) (fileGCode x) (serialGCode x) (cannedCycleGCode x)
    (moveAvailable x) (moveBuffer x) (checkEndStops x) (drivesRelative x) (axesRelative x)
    (drivesRelativeStack x) (axesRelativeStack x) (feedrateStack x) (fileStack x)
    (stackPointer x) (lastPos x) (homeX x) (homeY x) (homeZ x) (distanceScale x)
    (fileBeingPrinted x) (fileToPrint x) (fileBeingWritten x) (doingCannedCycleFile x)
    (eofStringCounter x) (waitingForMoveToComplete x) (limitAxes x) v (speedFactor x)
    (speedFactorChange x) (extrusionFactors x).
Definition set_speedFactor (v : float) (x : GCodes) : GCodes :=
  mkGCodes (active x) (webGCode x) (fileGCode x) (serialGCode x) (cannedCycleGCode x)
    (moveAvailable x) (moveBuffer x) (checkEndStops x) (drivesRelative x) (axesRelative x)
    (drivesRelativeStack x) (axesRelativeStack x) (feedrateStack x) (fileStack x)
    (stackPointer x) (lastPos x) (homeX x) (homeY x) (homeZ x) (distanceScale x)
    (fileBeingPrinted x) (fileToPrint x) (fileBeingWritten x) (doingCannedCycleFile x)
    (eofStringCounter x) (waitingForMoveToComplete x) (limitAxes x) (axisIsHomed x) v
    (speedFactorChange x) (extrusionFactors x).
Definition set_speedFactorChange (v : float) (x : GCodes) : GCodes :=
  mkGCodes (active x) (webGCode x) (fileGCode x) (serialGCode x) (cannedCycleGCode x)
    (moveAvailable x) (moveBuffer x) (checkEndStops x) (drivesRelative x) (axesRelative x)
    (drivesRelativeStack x) (axesRelativeStack x) (feedrateStack x) (fileStack x)
    (stackPointer x) (lastPos x) (homeX x) (homeY x) (homeZ x) (distanceScale x)
    (fileBeingPrinted x) (fileToPrint x) (fileBeingWritten x) (doingCannedCycleFile x)
    (eofStringCounter x) (waitingForMoveToComplete x) (limitAxes x) (axisIsHomed x)
    (speedFactor x) v (extrusionFactors x).
Definition set_extrusionFactors (v : list float) (x : GCodes) : GCodes :=
  mkGCodes (active x) (webGCode x) (fileGCode x) (serialGCode x) (cannedCycleGCode x)
    (moveAvailable x) (moveBuffer x) (checkEndStops x) (drivesRelative x) (axesRelative x)
    (drivesRelativeStack x) (axesRelativeStack x) (feedrateStack x) (fileStack x)
    (stackPointer x) (lastPos x) (homeX x) (homeY x) (homeZ x) (distanceScale x)
    (fileBeingPrinted x) (fileToPrint x) (fileBeingWritten x) (doingCannedCycleFile x)
    (eofStringCounter x) (waitingForMoveToComplete x) (limitAxes x) (axisIsHomed x)
    (speedFactor x) (speedFactorChange x) v.
(** The global [reprap] object. *)
Record RepRap := mkRepRap {
  gCodes : GCodes;
  platform : Platform;
  move : Move;
  webserver : Webserver;
  currentTool : option Tool;   (* NULL when no tool is selected *)
  debug : bool;
}.

Definition set_gCodes (v : GCodes) (x : RepRap) : RepRap :=
  mkRepRap v (platform x) (move x) (webserver x) (currentTool x) (debug x).
Definition set_platform (v : Platform) (x : RepRap) : RepRap :=
  mkRepRap (gCodes x) v (move x) (webserver x) (currentTool x) (debug x).
Definition set_move (v : Move) (x : RepRap) : RepRap :=
  mkRepRap (gCodes x) (platform x) v (webserver x) (currentTool x) (debug x).
Definition set_webserver (v : Webserver) (x : RepRap) : RepRap :=
  mkRepRap (gCodes x) (platform x) (move x) v (currentTool x) (debug x).
Definition set_currentTool (v : option Tool) (x : RepRap) : RepRap :=
  mkRepRap (gCodes x) (platform x) (move x) (webserver x) v (debug x).
(** The four command buffers, named as the pointers of the source. *)
Inductive BufferId := WebGCode | SerialGCode | FileGCode | CannedCycleGCode.

Definition buffer (b : BufferId) (g : GCodes) : GCodeBuffer :=
  match b with
  | WebGCode => webGCode g
  | SerialGCode => serialGCode g
  | FileGCode => fileGCode g
  | CannedCycleGCode => cannedCycleGCode g
  end.

Definition set_buffer (b : BufferId) (gb : GCodeBuffer) (g : GCodes) : GCodes :=
  match b with
  | WebGCode => set_webGCode gb g
  | SerialGCode => set_serialGCode gb g
  | FileGCode => set_fileGCode gb g
  | CannedCycleGCode => set_cannedCycleGCode gb g
  end.

(** The machine with the buffer [b] replaced, or changed by [f]. *)
Definition with_buffer (b : BufferId) (gb : GCodeBuffer) (r : RepRap) : RepRap :=
  set_gCodes (set_buffer b gb (gCodes r)) r.
Definition with_buffer_of (b : BufferId) (f : GCodeBuffer -> GCodeBuffer) (r : RepRap)
  : RepRap :=
  with_buffer b (f (buffer b (gCodes r))) r.

(** The [FileData] members of GCodes. *)
Inductive FileVar := BeingPrinted | ToPrint | BeingWritten | Stacked (i : nat).

Definition file_var (v : FileVar) (g : GCodes) : FileData :=
  match v with
  | BeingPrinted => fileBeingPrinted g
  | ToPrint => fileToPrint g
  | BeingWritten => fileBeingWritten g
  | Stacked i => mjoin (fileStack g !! i)
  end.

Definition set_file_var (v : FileVar) (f : FileData) (g : GCodes) : GCodes :=
  match v with
  | BeingPrinted => set_fileBeingPrinted f g
  | ToPrint => set_fileToPrint f g
  | BeingWritten => set_fileBeingWritten f g
  | Stacked i => set_fileStack (<[i := f]> (fileStack g)) g
  end.

(** Reading a [float] or [bool] array element; the model reads 0.0 and
    [false] outside the array. *)
Definition fget (a : list float) (i : nat) : float := default Float.zero (a !! i).
Definition bget (a : list bool) (i : nat) : bool := default false (a !! i).

(** ** A state monad over the machine

    [None] stands for a run the model does not follow: a store outside an
    array, a command outside the modelled fragment, or recursion deeper than
    the fuel given to [ActOnCode]. *)
Definition M (A : Type) : Type := RepRap -> option (A * RepRap).

Definition ret {A} (a : A) : M A := fun r => Some (a, r).
Definition bind {A B} (m : M A) (k : A -> M B) : M B :=
  fun r => match m r with Some (a, r') => k a r' | None => None end.
Definition fail {A} : M A := fun _ => None.
Definition gets {A} (f : RepRap -> A) : M A := fun r => Some (f r, r).
Definition modify (f : RepRap -> RepRap) : M unit := fun r => Some (tt, f r).

Notation "'let*' x := m 'in' k" := (bind m (fun x => k))
  (at level 10, x name, m at level 100, k at level 200).
Notation "'let*' ' p := m 'in' k" := (bind m (fun p => k))
  (at level 10, p pattern, m at level 100, k at level 200).
Notation "m >> k" := (bind m (fun _ => k)) (at level 100, k at level 200, right associativity).

Definition when (b : bool) (m : M unit) : M unit := if b then m else ret tt.

Fixpoint for_each {A} (l : list A) (body : A -> M unit) : M unit :=
  match l with
  | [] => ret tt
  | x :: rest => body x >> for_each rest body
  end.

(** Reading and updating the interpreter's fields. *)
Definition gc {A} (f : GCodes -> A) : M A := gets (fun r => f (gCodes r)).
Definition update (f : GCodes -> GCodes) : M unit :=
  modify (fun r => set_gCodes (f (gCodes r)) r).
Definition plat {A} (f : Platform -> A) : M A := gets (fun r => f (platform r)).
Definition update_platform (f : Platform -> Platform) : M unit :=
  modify (fun r => set_platform (f (platform r)) r).

(** [snprintf(..., "%s", n)] with an [int] for [n]: the conversion takes
    its argument for a pointer to a string, which has no defined result. *)
Definition snprintf_s_of_int {A} (n : Z) : M A := fail.

Definition nl (s : string) : string := (s ++ String NEWLINE EmptyString)%string.

(** ** MassStorage::CombineName

    The name is built in [combinedName], a buffer whose [Length()] is its
    capacity (the type of the buffer, [StringRef], is not among the
    sources; the capacity is the length of the list). *)
Module MassStorage.

Definition overflow_message : string :=
("Error: CombineName() buffer overflow." ++ String NEWLINE EmptyString)%string.

(** One of the two copying loops: the buffer, [in], [out] and the messages
  when it ends on a NUL, a newline or the end of [src]. *)
Fixpoint copy_name (src combined : list ascii) (inp out : nat)
: option (list ascii * nat * nat * list string) :=
match src with
| [] => Some (combined, inp, out, [])
| c :: rest =>
    if (c =c NUL) || (c =c NEWLINE) then Some (combined, inp, out, [])
    else
      combined ← store out c combined;
      if decide (length combined <= S out)%nat then
        '(combined, inp, out, m) ← copy_name rest combined (S inp) 0;
        Some (combined, inp, out, overflow_message :: m)
      else copy_name rest combined (S inp) (S out)
end.

(** [MassStorage::CombineName]; [None] for [directory] is the null pointer.
  The result is the buffer, in which the name is the C string at the
  front, and the messages. *)
Definition CombineName (directory : option (list ascii)) (fileName combined : list ascii)
: option (list ascii * list string) :=
'(combined, inp, out, m1) ←
   match directory with
   | Some d => copy_name d combined 0 0
   | None => Some (combined, 0%nat, 0%nat, [])
   end;
'(combined, out) ←
   (if (0 <? inp)%nat
       && negb (char_at (default [] directory) (inp - 1) =c "/")
       && (out <? length combined - 1)%nat
    then combined ← store out "/"%char combined; Some (combined, S out)
    else Some (combined, out));
'(combined, _, out, m2) ← copy_name fileName combined 0 out;
combined ← store out NUL combined;
Some (combined, m1 ++ m2).

(** The separator [CombineName] inserts after a directory. *)
Definition separator (directory : list ascii) : list ascii :=
match last directory with
| Some c => if c =c "/" then [] else ["/"%char]
| None => []
end.

(** A byte of a name: neither NUL nor newline. *)
Definition name_byte (c : ascii) : Prop := c <> NUL /\ c <> NEWLINE.

End MassStorage.

Module Platform.

(** [Platform::Message] *)
Definition Message (t : MessageType) (s : string) : M unit :=
  update_platform (fun p => set_messages (messages p ++ [(t, s)]) p).

(** [platform->GetLine()->Write] *)
Definition LineWrite (s : string) : M unit :=
  update_platform (fun p => set_lineOut (lineOut p ++ [s]) p).

(** [platform->GetLine()->Status() & byteAvailable] *)
Definition LineAvailable : M bool :=
  plat (fun p => match lineIn p with [] => false | _ => true end).

(** [platform->GetLine()->Read(b)] *)
Definition LineRead : M ascii :=
  let* i := plat lineIn in
  match i with
  | [] => ret NUL
  | c :: rest => update_platform (set_lineIn rest) >> ret c
  end.

(** [Platform::MustHomeXYBeforeZ] *)
Definition MustHomeXYBeforeZ (p : Platform) : bool := negb (zProbeType p =? 0).

Definition AxisMinimum (p : Platform) (axis : nat) : float := fget (axisMinima p) axis.
Definition AxisMaximum (p : Platform) (axis : nat) : float := fget (axisMaxima p) axis.
Definition InstantDv (p : Platform) (drive : nat) : float := fget (instantDvs p) drive.

Definition PushMessageIndent : M unit :=
  update_platform (fun p => set_messageIndent (S (messageIndent p)) p).
Definition PopMessageIndent : M unit :=
  update_platform (fun p => set_messageIndent (pred (messageIndent p)) p).

Definition closed_store : FileStore := mkFileStore false 0 false [] 0.
Definition store_at (p : Platform) (i : nat) : FileStore := default closed_store (files p !! i).
Definition update_store (i : nat) (f : FileStore -> FileStore) : M unit :=
  update_platform (fun p => set_files (<[i := f (store_at p i)]> (files p)) p).

(** The name [CombineName] leaves in [combinedName] and the messages it
    sends.  The buffer itself is not kept, nothing else reads it; it has
    at least one byte, so that [None] is never the case. *)
Definition location (p : Platform) (directory fileName : string) : string * list string :=
  match MassStorage.CombineName (Some (list_ascii_of_string directory))
          (list_ascii_of_string fileName) (replicate (S (combinedNameUpb p)) NUL) with
  | Some (combined, msgs) => (string_of_list_ascii (cstring combined), msgs)
  | None => (EmptyString, [])
  end.

(** [FileStore::Open].  The card is [sdCard]: what [f_open] finds for
    reading at the combined name of a directory and a file name;
    [f_open_error] is the [FRESULT] when it finds nothing, and the
    [FRESULT] of an open for writing. *)
Definition Open (i : nat) (directory fileName : string) (write : bool) : M bool :=
  let* p := plat id in
  let '(name, msgs) := location p directory fileName in
  for_each msgs (Message GENERIC_MESSAGE) >>
  update_store i (fun f => set_bytesRead 0%nat (set_writing write f)) >>
  let openReturn := f_open_error p directory fileName write in
  let failed : M bool :=
    Message GENERIC_MESSAGE
      (nl ("Error: Can't open " ++ name ++ " to " ++ (if write then "write" else "read")
             ++ ", error code " ++ string_of_list_ascii (Libc.print_int openReturn)))%string >>
    ret false in
  let opened (bytes : list ascii) : M bool :=
    update_store i (fun f => set_openCount 1 (set_inUse true (set_data bytes f))) >>
    ret true in
  if write then (if openReturn =? 0 then opened [] else failed)
  else
    match sdCard p directory fileName with
    | Some bytes => opened bytes
    | None => failed
    end.

(** [FileStore::Duplicate] *)
Definition Duplicate (i : nat) : M unit :=
  let* f := plat (fun p => store_at p i) in
  if negb (inUse f)
  then Message GENERIC_MESSAGE (nl "Error: Attempt to dup a non-open file.")
  else update_store i (fun f => set_openCount (openCount f + 1) f).

(** [FileStore::Close] *)
Definition Close (i : nat) : M bool :=
  let* f := plat (fun p => store_at p i) in
  if negb (inUse f)
  then Message GENERIC_MESSAGE (nl "Error: Attempt to close a non-open file.") >> ret false
  else
    update_store i (fun f => set_openCount (openCount f - 1) f) >>
    if negb (openCount f - 1 =? 0) then ret true
    else update_store i (fun f => set_writing false (set_inUse false f)) >> ret true.

(** [FileStore::Read(char&)]: success and the byte read. *)
Definition Read (i : nat) : M (bool * ascii) :=
  let* f := plat (fun p => store_at p i) in
  if negb (inUse f)
  then Message GENERIC_MESSAGE (nl "Error: Attempt to read from a non-open file.") >>
       ret (false, NUL)
  else
    match data f !! bytesRead f with
    | None => ret (false, NUL)
    | Some c => update_store i (fun f => set_bytesRead (S (bytesRead f)) f) >> ret (true, c)
    end.

(** [FileStore::Write(const char* )] *)
Definition Write (i : nat) (text : list ascii) : M bool :=
  let* f := plat (fun p => store_at p i) in
  if negb (inUse f)
  then Message GENERIC_MESSAGE (nl "Error: Attempt to write string to a non-open file.") >>
       ret false
  else update_store i (fun f => set_data (data f ++ text) f) >> ret true.

(** Index of the first store that is not in use. *)
Fixpoint first_free (fs : list FileStore) (i : nat) : option nat :=
  match fs with
  | [] => None
  | f :: rest => if inUse f then first_free rest (S i) else Some i
  end.

(** [Platform::GetFileStore] *)
Definition GetFileStore (directory fileName : string) (write : bool) : M FileData :=
  let* p := plat id in
  if negb (fileStructureInitialised p) then ret None
  else
    match first_free (files p) 0 with
    | Some i =>
        update_store i (set_inUse true) >>
        let* ok := Open i directory fileName write in
        if ok then ret (Some i)
        else update_store i (set_inUse false) >> ret None
    | None =>
        Message HOST_MESSAGE (nl "Max open file count exceeded.") >> ret None
    end.

End Platform.

(** Modelled from the spec: the members of [FileData] are declared in
    Platform.h, which is not among the sources.  [Close] releases the store
    and nulls the handle, [CopyFrom] shares the other handle's store and
    read position, [MoveFrom] takes it over. *)
Module FileData.

Definition IsLive (v : FileVar) : M bool := gc (fun g => bool_decide (is_Some (file_var v g))).

Definition Close (v : FileVar) : M unit :=
  let* f := gc (file_var v) in
  match f with
  | Some i => Platform.Close i >> update (set_file_var v None)
  | None => ret tt
  end.

Definition Set_ (v : FileVar) (f : FileData) : M unit :=
  Close v >> update (set_file_var v f).

Definition CopyFrom (v other : FileVar) : M unit :=
  Close v >>
  let* f := gc (file_var other) in
  update (set_file_var v f) >>
  match f with Some i => Platform.Duplicate i | None => ret tt end.

Definition MoveFrom (v other : FileVar) : M unit :=
  Close v >>
  let* f := gc (file_var other) in
  update (set_file_var v f) >> update (set_file_var other None).

(** Only called on a live handle in the source. *)
Definition Read (v : FileVar) : M (bool * ascii) :=
  let* f := gc (file_var v) in
  match f with
  | Some i => Platform.Read i
  | None => fail
  end.

Definition Write (v : FileVar) (text : list ascii) : M bool :=
  let* f := gc (file_var v) in
  match f with
  | Some i => Platform.Write i text
  | None => fail
  end.

End FileData.

(** Modelled from the spec: Move.cpp is not among the sources.  The planner
    is what the interpreter sees of it: whether it has finished, the
    position it reports, and the calls it receives. *)
Module Move.

Definition call (c : MoveCall) : M unit :=
  modify (fun r => set_move (set_moveCalls (moveCalls (move r) ++ [c]) (move r)) r).

(** [Move::GetCurrentUserPosition(moveBuffer)] *)
Definition GetCurrentUserPosition : M bool :=
  let* p := gets (fun r => currentUserPosition (move r)) in
  match p with
  | Some m => update (set_moveBuffer m) >> ret true
  | None => ret false
  end.

(** [Move::Transform(moveBuffer)] *)
Definition Transform : M unit :=
  let* t := gets (fun r => transform (move r)) in
  let* m := gc moveBuffer in
  call (Transform m) >> update (set_moveBuffer (t m)).

End Move.

(** ** GCodes: the interpreter *)

(** Modelled from the spec: constants of headers that are not among the
    sources: 25.4 mm to the inch, the macro files of the homing commands and
    the marker that ends an upload. *)
Definition INCH_TO_MM : float := Float.of_double (Double.of_ratio false 254 10).
Definition HOME_X_G : string := "homex.g".
Definition HOME_Y_G : string := "homey.g".
Definition HOME_Z_G : string := "homez.g".
Definition HOME_ALL_G : string := "homeall.g".
Definition EOF_STRING : list ascii := list_ascii_of_string "<!-- **EoF** -->".

(** [a[i] = v] for [count] indices from [from]. *)
Definition array_fill {A} (from count : nat) (v : A) (a : list A) : list A :=
  foldl (fun a i => <[i := v]> a) a (seq from count).

Module GCodes.

(** *** The command buffers seen from the interpreter *)

Definition on_buffer {A} (b : BufferId)
    (f : GCodeBuffer -> A * GCodeBuffer * list string) : M A :=
  let* gb := gc (buffer b) in
  let '(a, gb', msgs) := f gb in
  update (set_buffer b gb') >>
  for_each msgs (Platform.Message HOST_MESSAGE) >>
  ret a.

Definition Seen (b : BufferId) (c : ascii) : M bool :=
  on_buffer b (fun gb => let '(r, gb') := GCodeBuffer.Seen c gb in (r, gb', [])).
Definition GetIValue (b : BufferId) : M Z := on_buffer b GCodeBuffer.GetIValue.
Definition GetFValue (b : BufferId) : M float := on_buffer b GCodeBuffer.GetFValue.
Definition GetString (b : BufferId) : M (list ascii) := on_buffer b GCodeBuffer.GetString.
Definition GetFloatArray (b : BufferId) (returnedLength : nat) : M (list float * nat) :=
  on_buffer b (fun gb =>
    let '(a, n, gb', msgs) := GCodeBuffer.GetFloatArray returnedLength gb in
    ((a, n), gb', msgs)).
Definition Buffer (b : BufferId) : M (list ascii) :=
  gc (fun g => GCodeBuffer.Buffer (buffer b g)).
Definition Active (b : BufferId) : M bool :=
  gc (fun g => GCodeBuffer.Active (buffer b g)).
Definition SetFinished (b : BufferId) (f : bool) : M unit :=
  update (fun g => set_buffer b (GCodeBuffer.SetFinished f (buffer b g)) g).
Definition InitBuffer (b : BufferId) : M unit :=
  update (fun g => set_buffer b (GCodeBuffer.Init (buffer b g)) g).
Definition WritingFileDirectory (b : BufferId) : M (option string) :=
  gc (fun g => writingFileDirectory (buffer b g)).
Definition SetWritingFileDirectory (b : BufferId) (d : option string) : M unit :=
  update (fun g => set_buffer b (set_writingFileDirectory d (buffer b g)) g).

Definition Put `{Config} (b : BufferId) (c : ascii) : M bool :=
  let* gb := gc (buffer b) in
  let* dbg := gets debug in
  match GCodeBuffer.Put dbg c gb with
  | None => fail
  | Some (r, gb', msgs) =>
      update (set_buffer b gb') >>
      for_each msgs (Platform.Message HOST_MESSAGE) >>
      ret r
  end.

Definition is_serial (b : BufferId) : bool :=
  match b with SerialGCode => true | _ => false end.

(** *** Start-up *)

(** [GCodes::Reset] *)
Definition Reset `{Config} : M unit :=
  InitBuffer WebGCode >> InitBuffer FileGCode >>
  InitBuffer SerialGCode >> InitBuffer CannedCycleGCode >>
  update (set_moveAvailable false) >>
  FileData.Close BeingPrinted >>
  FileData.Close ToPrint >>
  update (set_fileBeingWritten None) >>
  update (set_checkEndStops false) >>
  update (set_doingCannedCycleFile false) >>
  update (set_stackPointer 0%nat) >>
  update (set_waitingForMoveToComplete false) >>
  update (set_speedFactor
            (Float.of_double (Double.div (Double.of_ratio false 1 1)
                                         (Double.of_ratio false 60 1)))) >>
  update (set_speedFactorChange Float.one) >>
  update (fun g => set_extrusionFactors
                     (array_fill 0 (DRIVES - AXES) Float.one (extrusionFactors g)) g).

(** [GCodes::Init] *)
Definition Init `{Config} : M unit := Reset >>
  update (set_drivesRelative true) >>
  update (set_axesRelative false) >>
  update (set_distanceScale Float.one) >>
  update (fun g => set_lastPos (array_fill 0 (DRIVES - AXES) Float.zero (lastPos g)) g) >>
  update (set_eofStringCounter 0%nat) >>
  update (set_homeX false) >> update (set_homeY false) >> update (set_homeZ false) >>
  update (set_active true) >>
  update (set_limitAxes true) >>
  update (fun g => set_axisIsHomed
                     (<[X_AXIS := false]> (<[Y_AXIS := false]> (<[Z_AXIS := false]>
                        (axisIsHomed g)))) g).

(** *** Replies *)

(** [GCodes::HandleReply] *)
Definition HandleReply (error fromLine : bool) (reply : string) (gMOrT : ascii)
    (code : Z) (resend : bool) : M unit :=
  when (negb (gMOrT =c "M") || (negb (code =? 111) && negb (code =? 122)))
       (Platform.Message (if error then WEB_ERROR_MESSAGE else WEB_MESSAGE) reply) >>
  let* c := plat emulating in
  let c := if fromLine then c else me in
  let response := if resend then "rs "%string else "ok"%string in
  let unsupported s :=
    Platform.Message HOST_MESSAGE (nl ("Emulation of " ++ s ++ " is not yet supported."))%string in
  match c with
  | me | reprapFirmware =>
      if bool_decide (reply = EmptyString) then ret tt
      else
        when error (Platform.LineWrite "Error: ") >>
        Platform.LineWrite reply >>
        Platform.LineWrite (nl EmptyString)
  | marlin =>
      if (gMOrT =c "M") && (code =? 20) then
        Platform.LineWrite (nl "Begin file list") >>
        Platform.LineWrite reply >>
        Platform.LineWrite (String NEWLINE (nl "End file list")) >>
        Platform.LineWrite response >>
        Platform.LineWrite (nl EmptyString)
      else if (gMOrT =c "M") && (code =? 28) then
        Platform.LineWrite response >>
        Platform.LineWrite (nl EmptyString) >>
        Platform.LineWrite reply >>
        Platform.LineWrite (nl EmptyString)
      else if ((gMOrT =c "M") && (code =? 105)) || ((gMOrT =c "G") && (code =? 998)) then
        Platform.LineWrite response >>
        Platform.LineWrite " " >>
        Platform.LineWrite reply >>
        Platform.LineWrite (nl EmptyString)
      else
        when (negb (bool_decide (reply = EmptyString)))
             (Platform.LineWrite reply >> Platform.LineWrite (nl EmptyString)) >>
        Platform.LineWrite response >>
        Platform.LineWrite (nl EmptyString)
  | teacup => unsupported "teacup"%string
  | sprinter => unsupported "sprinter"%string
  | repetier => unsupported "repetier"%string
  end.

(** *** The move slot and the planner *)

(** [GCodes::AllMovesAreFinishedAndMoveBufferIsLoaded] *)
Definition AllMovesAreFinishedAndMoveBufferIsLoaded : M bool :=
  let* pending := gc moveAvailable in
  if pending then ret false
  else
    let* finished := gets (fun r => allMovesAreFinished (move r)) in
    if negb finished then ret false
    else
      Move.call ResumeMoving >>
      let* loaded := Move.GetCurrentUserPosition in
      if negb loaded then ret false else ret true.

(** [GCodes::ReadMove]: [m] and [ce] are the caller's array and flag; the
    result carries their values on return. *)
Definition ReadMove `{Config} (m : list float) (ce : bool) : M (bool * list float * bool) :=
  let* pending := gc moveAvailable in
  if negb pending then ret (false, m, ce)
  else
    let* mb := gc moveBuffer in
    let m := foldl (fun m i => <[i := fget mb i]> m) m (seq 0 (S DRIVES)) in
    let* ce := gc checkEndStops in
    update (set_moveAvailable false) >>
    update (set_checkEndStops false) >>
    ret (true, m, ce).

(** *** The state stack *)

(** [GCodes::Push] *)
Definition Push `{Config} : M bool :=
  let* sp := gc stackPointer in
  if decide (STACK <= sp)%nat then
    Platform.Message BOTH_ERROR_MESSAGE (nl "Push(): stack overflow!") >> ret true
  else
    let* idle := AllMovesAreFinishedAndMoveBufferIsLoaded in
    if negb idle then ret false
    else
      update (fun g => set_drivesRelativeStack
                         (<[sp := drivesRelative g]> (drivesRelativeStack g)) g) >>
      update (fun g => set_axesRelativeStack
                         (<[sp := axesRelative g]> (axesRelativeStack g)) g) >>
      update (fun g => set_feedrateStack
                         (<[sp := fget (moveBuffer g) DRIVES]> (feedrateStack g)) g) >>
      FileData.CopyFrom (Stacked sp) BeingPrinted >>
      update (set_stackPointer (S sp)) >>
      Platform.PushMessageIndent >>
      ret true.

(** [GCodes::Pop] *)
Definition Pop `{Config} : M bool :=
  let* sp := gc stackPointer in
  if decide (sp <= 0)%nat then
    Platform.Message BOTH_ERROR_MESSAGE (nl "Pop(): stack underflow!") >> ret true
  else
    let* idle := AllMovesAreFinishedAndMoveBufferIsLoaded in
    if negb idle then ret false
    else
      let sp := pred sp in
      update (set_stackPointer sp) >>
      update (fun g => set_drivesRelative (bget (drivesRelativeStack g) sp) g) >>
      update (fun g => set_axesRelative (bget (axesRelativeStack g) sp) g) >>
      FileData.MoveFrom BeingPrinted (Stacked sp) >>
      Platform.PopMessageIndent >>
      update (fun g => set_lastPos
                (foldl (fun a i => <[(i - AXES)%nat := fget (moveBuffer g) i]> a)
                       (lastPos g) (seq AXES (DRIVES - AXES))) g) >>
      update (fun g => set_moveBuffer
                (<[DRIVES := fget (feedrateStack g) sp]> (moveBuffer g)) g) >>
      update (set_checkEndStops false) >>
      update (set_moveAvailable true) >>
      ret true.

(** *** Loading a move from a command *)

(** Body of the loop over the tool's drives in [LoadMoveBufferFromGCode]. *)
Definition load_extruder (doingG92 : bool) (tool : Tool) (eMovement : list float)
    (g : GCodes) (eDrive : nat) : GCodes :=
  let drive := default 0%nat (drives tool !! eDrive) in
  let moveArg := Float.mul (fget eMovement eDrive) (distanceScale g) in
  if doingG92 then
    set_lastPos (<[drive := moveArg]> (lastPos g))
      (set_moveBuffer (<[(drive + AXES)%nat := Float.zero]> (moveBuffer g)) g)
  else if drivesRelative g then
    set_lastPos (<[drive := Float.add (fget (lastPos g) drive) moveArg]> (lastPos g))
      (set_moveBuffer
         (<[(drive + AXES)%nat := Float.mul moveArg (fget (extrusionFactors g) drive)]>
            (moveBuffer g)) g)
  else
    set_lastPos (<[drive := moveArg]> (lastPos g))
      (set_moveBuffer
         (<[(drive + AXES)%nat :=
              Float.mul (Float.sub moveArg (fget (lastPos g) drive))
                        (fget (extrusionFactors g) drive)]>
            (moveBuffer g)) g).

(** The extrusion part; [false] is the early [return false]. *)
Definition load_extrusion `{Config} (b : BufferId) (doingG92 : bool) : M bool :=
  let* tool := gets currentTool in
  let* seen := Seen b EXTRUDE_LETTER in
  if negb seen then ret true
  else
    match tool with
    | None =>
        Platform.Message BOTH_ERROR_MESSAGE
          (nl "Attempting to extrude with no tool selected.") >>
        ret false
    | Some tool =>
        let* '(eMovement, eMoveCount) := GetFloatArray b (length (drives tool)) in
        if negb (bool_decide (length (drives tool) = eMoveCount)) then
          let* text := Buffer b in
          Platform.Message HOST_MESSAGE
            (nl ("Wrong number of extruder drives for the selected tool: "
                   ++ string_of_list_ascii text))%string >>
          ret false
        else
          update (fun g => set_moveBuffer
                    (array_fill AXES (DRIVES - AXES) Float.zero (moveBuffer g)) g) >>
          update (fun g => foldl (load_extruder doingG92 tool eMovement) g
                                 (seq 0 eMoveCount)) >>
          ret true
    end.

(** Body of the loop over the axes. *)
Definition load_axis (b : BufferId) (doingG92 applyLimits : bool) (axis : nat) : M unit :=
  let* seen := Seen b (default NUL (gCodeLetters !! axis)) in
  when seen (
    let* v := GetFValue b in
    let* g := gc id in
    let* p := plat id in
    let moveArg := Float.mul v (distanceScale g) in
    let moveArg :=
      if axesRelative g && negb doingG92
      then Float.add moveArg (fget (moveBuffer g) axis) else moveArg in
    let moveArg :=
      if applyLimits && bool_decide (axis < 2)%nat && bget (axisIsHomed g) axis
         && negb doingG92
      then
        if Float.ltb moveArg (Platform.AxisMinimum p axis)
        then Platform.AxisMinimum p axis
        else if Float.ltb (Platform.AxisMaximum p axis) moveArg
             then Platform.AxisMaximum p axis
             else moveArg
      else moveArg in
    update (fun g => set_moveBuffer (<[axis := moveArg]> (moveBuffer g)) g) >>
    when doingG92 (update (fun g => set_axisIsHomed (<[axis := true]> (axisIsHomed g)) g))).

(** [GCodes::LoadMoveBufferFromGCode] *)
Definition LoadMoveBufferFromGCode `{Config} (b : BufferId) (doingG92 applyLimits : bool)
  : M bool :=
  let* ok := load_extrusion b doingG92 in
  if negb ok then ret false
  else
    for_each (seq 0 AXES) (load_axis b doingG92 applyLimits) >>
    let* seen := Seen b FEEDRATE_LETTER in
    when seen (
      let* v := GetFValue b in
      update (fun g => set_moveBuffer
                (<[DRIVES := Float.mul (Float.mul v (distanceScale g)) (speedFactor g)]>
                   (moveBuffer g)) g)) >>
    ret true.

(** [GCodes::SetUpMove] *)
Definition SetUpMove `{Config} (b : BufferId) : M Z :=
  let* pending := gc moveAvailable in
  if pending then ret 0
  else
    let* loaded := Move.GetCurrentUserPosition in
    if negb loaded then ret 0
    else
      update (fun g => set_moveBuffer
                (<[DRIVES := Float.mul (fget (moveBuffer g) DRIVES) (speedFactorChange g)]>
                   (moveBuffer g)) g) >>
      update (set_speedFactorChange Float.one) >>
      update (set_checkEndStops false) >>
      let* seen := Seen b "S" in
      when seen (
        let* v := GetIValue b in
        when (v =? 1) (update (set_checkEndStops true))) >>
      let* ce := gc checkEndStops in
      let* limit := gc limitAxes in
      let* loaded := LoadMoveBufferFromGCode b false (negb ce && limit) in
      update (set_moveAvailable loaded) >>
      let* ce := gc checkEndStops in
      ret (if ce then 2 else 1).

(** [GCodes::SetPositions] (G92) *)
Definition SetPositions `{Config} (b : BufferId) : M bool :=
  let* idle := AllMovesAreFinishedAndMoveBufferIsLoaded in
  if negb idle then ret false
  else
    let* loaded := LoadMoveBufferFromGCode b true false in
    when loaded (
      Move.Transform >>
      let* m := gc moveBuffer in
      Move.call (SetLiveCoordinates m) >>
      Move.call (SetPositions m) >>
      let* p := plat id in
      Move.call (SetFeedrate (Platform.InstantDv p (slowestDrive p)))) >>
    ret true.

(** Modelled from the spec: [NoHome] is an inline member declared in
    GCodes.h: no axis is waiting to be homed. *)
Definition NoHome (g : GCodes) : bool := negb (homeX g || homeY g || homeZ g).

(** *** File capture *)

(** [GCodes::WriteHTMLToFile] *)
Definition WriteHTMLToFile (c : ascii) (b : BufferId) : M unit :=
  let* f := gc fileBeingWritten in
  match f with
  | None => Platform.Message HOST_MESSAGE (nl "Attempt to write to a null file.")
  | Some i =>
      let* n := gc eofStringCounter in
      when (negb (n =? 0)%nat && negb (c =c char_at EOF_STRING n)) (
        Platform.Write i (take n EOF_STRING) >>
        update (set_eofStringCounter 0%nat)) >>
      let* n := gc eofStringCounter in
      if c =c char_at EOF_STRING n then
        update (set_eofStringCounter (S n)) >>
        when (bool_decide (length EOF_STRING <= S n)%nat) (
          Platform.Close i >>
          update (set_fileBeingWritten None) >>
          SetWritingFileDirectory b None >>
          let* e := plat emulating in
          let r := match e with marlin => "Done saving file."%string | _ => EmptyString end in
          HandleReply false (is_serial b) r "M" 560 false)
      else Platform.Write i [c] >> ret tt
  end.

(** [GCodes::WriteGCodeToFile] *)
Definition WriteGCodeToFile (b : BufferId) : M unit :=
  let* f := gc fileBeingWritten in
  match f with
  | None => Platform.Message HOST_MESSAGE (nl "Attempt to write to a null file.")
  | Some i =>
      let* m := Seen b "M" in
      let* code := (if m then GetIValue b else ret 0) in
      if m && (code =? 29) then
        Platform.Close i >>
        update (set_fileBeingWritten None) >>
        SetWritingFileDirectory b None >>
        let* e := plat emulating in
        let r := match e with marlin => "Done saving file."%string | _ => EmptyString end in
        HandleReply false (is_serial b) r "M" 29 false
      else
        let* g := Seen b "G" in
        let* code := (if g then GetIValue b else ret 0) in
        let* p := (if g && (code =? 998) then Seen b "P" else ret false) in
        if p then
          let* n := GetIValue b in
          let* text := snprintf_s_of_int n in
          HandleReply false (is_serial b) text "G" 998 true
        else
          let* text := Buffer b in
          Platform.Write i text >>
          Platform.Write i [NEWLINE] >>
          HandleReply false (is_serial b) EmptyString "G" 1 false
  end.

(** *** Entry points of the web interface *)

(** [GCodes::QueueFileToPrint] *)
Definition QueueFileToPrint (fileName : string) : M unit :=
  FileData.Close ToPrint >>
  modify (with_buffer_of FileGCode GCodeBuffer.CancelPause) >>
  let* dir := plat gcodeDir in
  let* f := Platform.GetFileStore dir fileName false in
  match f with
  | Some _ => FileData.Set_ ToPrint f
  | None => Platform.Message BOTH_ERROR_MESSAGE (nl "GCode file not found")
  end.

(** [GCodes::PauseSDPrint] *)
Definition PauseSDPrint : M unit :=
  let* live := FileData.IsLive BeingPrinted in
  when live (
    FileData.MoveFrom ToPrint BeingPrinted >>
    modify (with_buffer_of FileGCode GCodeBuffer.Pause)).

(** *** Functions that re-enter the dispatcher

    [ActOnCode] calls the handlers, and the macro engine under them calls
    [ActOnCode] again for the lines of the macro file. *)
Section Handlers.
Context `{Config}.
Variable ActOnCode : BufferId -> M bool.

(** [GCodes::DoFilePrint] *)
Definition DoFilePrint (b : BufferId) : M unit :=
  let* live := FileData.IsLive BeingPrinted in
  when live (
    let* '(ok, c) := FileData.Read BeingPrinted in
    if ok then
      let* complete := Put b c in
      when complete (let* r := ActOnCode b in SetFinished b r)
    else
      let* complete := Put b NEWLINE in
      when complete (let* r := ActOnCode b in SetFinished b r) >>
      FileData.Close BeingPrinted).

(** [GCodes::DoFileCannedCycles] *)
Definition DoFileCannedCycles (fileName : string) : M bool :=
  let* doing := gc doingCannedCycleFile in
  if negb doing then
    let* pushed := Push in
    if negb pushed then ret false
    else
      let* dir := plat sysDir in
      let* f := Platform.GetFileStore dir fileName false in
      match f with
      | None =>
          Platform.Message HOST_MESSAGE "Macro file " >>
          Platform.Message HOST_MESSAGE fileName >>
          Platform.Message HOST_MESSAGE (nl " not found.") >>
          let* popped := Pop in
          when (negb popped) (Platform.Message HOST_MESSAGE (nl "Cannot pop the stack.")) >>
          ret true
      | Some _ =>
          FileData.Set_ BeingPrinted f >>
          update (set_doingCannedCycleFile true) >>
          InitBuffer CannedCycleGCode >>
          ret false
      end
  else
    let* live := FileData.IsLive BeingPrinted in
    if negb live then
      let* popped := Pop in
      if negb popped then ret false
      else
        update (set_doingCannedCycleFile false) >>
        InitBuffer CannedCycleGCode >>
        ret true
    else
      let* busy := Active CannedCycleGCode in
      if busy then
        let* r := ActOnCode CannedCycleGCode in
        SetFinished CannedCycleGCode r >> ret false
      else DoFilePrint CannedCycleGCode >> ret false.

(** [GCodes::FileCannedCyclesReturn] *)
Definition FileCannedCyclesReturn : M bool :=
  let* doing := gc doingCannedCycleFile in
  if negb doing then ret true
  else
    let* idle := AllMovesAreFinishedAndMoveBufferIsLoaded in
    if negb idle then ret false
    else
      update (set_doingCannedCycleFile false) >>
      InitBuffer CannedCycleGCode >>
      FileData.Close BeingPrinted >>
      ret true.

(** [GCodes::DoHome]: the result, and [reply] and [error] on return. *)
Definition DoHome (reply : string) (error : bool) : M (bool * string * bool) :=
  let* g := gc id in
  if homeX g && homeY g && homeZ g then
    let* done := DoFileCannedCycles HOME_ALL_G in
    if done then
      update (set_homeX false) >> update (set_homeY false) >> update (set_homeZ false) >>
      ret (true, reply, error)
    else ret (false, reply, error)
  else if homeX g then
    let* done := DoFileCannedCycles HOME_X_G in
    if done then
      update (set_homeX false) >>
      let* r := gc NoHome in ret (r, reply, error)
    else ret (false, reply, error)
  else if homeY g then
    let* done := DoFileCannedCycles HOME_Y_G in
    if done then
      update (set_homeY false) >>
      let* r := gc NoHome in ret (r, reply, error)
    else ret (false, reply, error)
  else if homeZ g then
    let* p := plat id in
    if Platform.MustHomeXYBeforeZ p
       && (negb (bget (axisIsHomed g) X_AXIS) || negb (bget (axisIsHomed g) Y_AXIS))
    then
      update (set_homeZ false) >>
      ret (true, "Must home X and Y before homing Z"%string, true)
    else
      let* done := DoFileCannedCycles HOME_Z_G in
      if done then
        update (set_homeZ false) >>
        let* r := gc NoHome in ret (r, reply, error)
      else ret (false, reply, error)
  else
    update (set_checkEndStops false) >>
    update (set_moveAvailable false) >>
    ret (true, reply, error).

(** [GCodes::HandleGcode].  G4, G10, G30, G31 and G32 are outside the
    modelled fragment. *)
Definition HandleGcode (b : BufferId) : M bool :=
  let* code := GetIValue b in
  let* '(result, error, reply) :=
    if (code =? 0) || (code =? 1) then
      let* waiting := gc waitingForMoveToComplete in
      if waiting then
        let* result := AllMovesAreFinishedAndMoveBufferIsLoaded in
        when result (update (set_waitingForMoveToComplete false)) >>
        ret (result, false, EmptyString)
      else
        let* res := SetUpMove b in
        when (res =? 2) (update (set_waitingForMoveToComplete true)) >>
        ret (res =? 1, false, EmptyString)
    else if code =? 20 then
      update (set_distanceScale INCH_TO_MM) >> ret (true, false, EmptyString)
    else if code =? 21 then
      update (set_distanceScale Float.one) >> ret (true, false, EmptyString)
    else if code =? 28 then
      let* none := gc NoHome in
      when none (
        let* x := Seen b (default NUL (gCodeLetters !! X_AXIS)) in
        update (set_homeX x) >>
        let* y := Seen b (default NUL (gCodeLetters !! Y_AXIS)) in
        update (set_homeY y) >>
        let* z := Seen b (default NUL (gCodeLetters !! Z_AXIS)) in
        update (set_homeZ z) >>
        let* none := gc NoHome in
        when none (
          update (set_homeX true) >> update (set_homeY true) >> update (set_homeZ true))) >>
      let* '(result, reply, error) := DoHome EmptyString false in
      ret (result, error, reply)
    else if code =? 90 then
      update (set_drivesRelative false) >> update (set_axesRelative false) >>
      ret (true, false, EmptyString)
    else if code =? 91 then
      update (set_drivesRelative true) >> update (set_axesRelative true) >>
      ret (true, false, EmptyString)
    else if code =? 92 then
      let* result := SetPositions b in ret (result, false, EmptyString)
    else if bool_decide (code ∈ [4; 10; 30; 31; 32]) then fail
    else
      let* text := Buffer b in
      ret (true, true, ("invalid G Code: " ++ string_of_list_ascii text)%string) in
  when result (HandleReply error (is_serial b) reply "G" code false) >>
  ret result.

(** The M codes the source handles and the model does not follow. *)
Definition other_M_codes : list Z :=
  [0; 1; 18; 20; 23; 27; 28; 30; 80; 81; 84; 92; 104; 105; 106; 107; 109; 110; 111;
   112; 114; 115; 116; 119; 122; 126; 127; 135; 140; 141; 190; 201; 203; 205; 206; 208;
   210; 220; 221; 301; 302; 304; 305; 503; 540; 550; 551; 552; 553; 554; 555; 556; 557;
   558; 559; 560; 561; 562; 563; 566; 906; 999].

(** [GCodes::HandleMcode], for M21, M24, M25, M29, M82, M83, M85, M98, M99,
    M120, M121, M564, M998 and the codes the source rejects. *)
Definition HandleMcode (b : BufferId) : M bool :=
  let* code := GetIValue b in
  let* '(result, error, reply, resend) :=
    if code =? 21 then ret (true, false, EmptyString, false)
    else if code =? 24 then
      let* live := FileData.IsLive BeingPrinted in
      when (negb live) (FileData.MoveFrom BeingPrinted ToPrint) >>
      ret (true, false, EmptyString, false)
    else if code =? 25 then
      FileData.MoveFrom ToPrint BeingPrinted >> ret (true, false, EmptyString, false)
    else if code =? 29 then
      Platform.Message HOST_MESSAGE (nl "GCode end-of-file being interpreted.") >>
      ret (true, false, EmptyString, false)
    else if code =? 82 then
      update (fun g => set_lastPos
                (array_fill 0 (DRIVES - AXES) Float.zero (lastPos g)) g) >>
      update (set_drivesRelative false) >>
      ret (true, false, EmptyString, false)
    else if code =? 83 then
      update (fun g => set_lastPos
                (array_fill 0 (DRIVES - AXES) Float.zero (lastPos g)) g) >>
      update (set_drivesRelative true) >>
      ret (true, false, EmptyString, false)
    else if code =? 85 then ret (true, false, EmptyString, false)
    else if code =? 98 then
      let* p := Seen b "P" in
      if p then
        let* name := GetString b in
        let* result := DoFileCannedCycles (string_of_list_ascii name) in
        ret (result, false, EmptyString, false)
      else ret (true, false, EmptyString, false)
    else if code =? 99 then
      let* result := FileCannedCyclesReturn in ret (result, false, EmptyString, false)
    else if code =? 120 then
      let* result := Push in ret (result, false, EmptyString, false)
    else if code =? 121 then
      let* result := Pop in ret (result, false, EmptyString, false)
    else if code =? 564 then
      let* s := Seen b "S" in
      when s (let* v := GetIValue b in update (set_limitAxes (negb (v =? 0)))) >>
      ret (true, false, EmptyString, false)
    else if code =? 998 then
      let* p := Seen b "P" in
      if p then
        let* n := GetIValue b in
        let* text := snprintf_s_of_int n in
        ret (true, false, text, true)
      else ret (true, false, EmptyString, false)
    else if bool_decide (code ∈ other_M_codes) then fail
    else
      let* text := Buffer b in
      ret (true, true, ("invalid M Code: " ++ string_of_list_ascii text)%string, false) in
  when result (HandleReply error (is_serial b) reply "M" code resend) >>
  ret result.

(** [GCodes::ActOnCode]; tool changes ([HandleTcode]) are outside the
    modelled fragment. *)
Definition ActOnCode_body (b : BufferId) : M bool :=
  let* m := Seen b "M" in
  if m then HandleMcode b
  else
    let* g := Seen b "G" in
    if g then HandleGcode b
    else
      let* t := Seen b "T" in
      if t then fail
      else HandleReply false (is_serial b) EmptyString "X" 0 false >> ret true.

(** The web and serial loops of [Spin]: at most [n] more bytes. *)
Definition GCodeAvailable : M bool :=
  gets (fun r => match gcodeInput (webserver r) with [] => false | _ => true end).

Definition ReadGCode : M ascii :=
  let* i := gets (fun r => gcodeInput (webserver r)) in
  match i with
  | [] => ret NUL
  | c :: rest => modify (set_webserver (mkWebserver rest)) >> ret c
  end.

Definition complete_line (b : BufferId) : M unit :=
  let* d := WritingFileDirectory b in
  match d with
  | Some _ => WriteGCodeToFile b
  | None => let* r := ActOnCode b in SetFinished b r
  end.

Fixpoint web_loop (n : nat) : M unit :=
  match n with
  | O => ret tt
  | S n' =>
      let* c := ReadGCode in
      let* complete := Put WebGCode c in
      if complete then complete_line WebGCode
      else
        let* more := GCodeAvailable in
        if more then web_loop n' else ret tt
  end.

Fixpoint serial_loop (n : nat) : M unit :=
  match n with
  | O => ret tt
  | S n' =>
      let* c := Platform.LineRead in
      let* complete := Put SerialGCode c in
      if complete then complete_line SerialGCode
      else
        let* more := Platform.LineAvailable in
        if more then serial_loop n' else ret tt
  end.

(** [GCodes::Spin] *)
Definition Spin : M unit :=
  let* on := gc active in
  if negb on then ret tt
  else
    let* w := Active WebGCode in
    if w then let* r := ActOnCode WebGCode in SetFinished WebGCode r
    else
      let* s := Active SerialGCode in
      if s then let* r := ActOnCode SerialGCode in SetFinished SerialGCode r
      else
        let* f := Active FileGCode in
        if f then let* r := ActOnCode FileGCode in SetFinished FileGCode r
        else
          let* avail := GCodeAvailable in
          if avail then web_loop 16
          else
            let* d := WritingFileDirectory SerialGCode in
            let* webdir := plat webDir in
            let* avail := Platform.LineAvailable in
            if bool_decide (d = Some webdir) then
              when avail (
                let* c := Platform.LineRead in
                WriteHTMLToFile c SerialGCode) >>
              DoFilePrint FileGCode
            else if avail then serial_loop 16
            else DoFilePrint FileGCode.

End Handlers.

(** [ActOnCode] with the nesting of macro calls bounded by [fuel]. *)
Fixpoint ActOnCode `{Config} (fuel : nat) (b : BufferId) : M bool :=
  match fuel with
  | O => fail
  | S fuel' => ActOnCode_body (ActOnCode fuel') b
  end.

End GCodes.

(** ** A concrete machine

    Sizes of a Duet board, and the state right after [GCodes::Init] on a
    machine at rest at the origin with no tool selected. *)
#[export] Instance duet : Config := {| GCODE_LENGTH := 100; DRIVES := 8; STACK := 5 |}.

Definition blank `{Config} (idn : string) : GCodeBuffer :=
  mkGCodeBuffer (replicate GCODE_LENGTH NUL) 0 (-1) false idle idn None.

Definition line (s : string) : list ascii := list_ascii_of_string s ++ [NEWLINE].

Definition power_on `{Config} : RepRap :=
  {| gCodes :=
       {| active := false;
          webGCode := blank "web: "; fileGCode := blank "file: ";
          serialGCode := blank "serial: "; cannedCycleGCode := blank "macro: ";
          moveAvailable := false; moveBuffer := replicate (S DRIVES) Float.zero;
          checkEndStops := false; drivesRelative := false; axesRelative := false;
          drivesRelativeStack := replicate STACK false;
          axesRelativeStack := replicate STACK false;
          feedrateStack := replicate STACK Float.zero;
          fileStack := replicate STACK None;
          stackPointer := 0;
          lastPos := replicate (DRIVES - AXES) Float.zero;
          homeX := false; homeY := false; homeZ := false;
          distanceScale := Float.zero;
          fileBeingPrinted := None; fileToPrint := None; fileBeingWritten := None;
          doingCannedCycleFile := false; eofStringCounter := 0;
          waitingForMoveToComplete := false; limitAxes := false;
          axisIsHomed := replicate AXES false;
          speedFactor := Float.zero; speedFactorChange := Float.zero;
          extrusionFactors := replicate (DRIVES - AXES) Float.zero |};
     platform :=
       {| files := replicate 10 Platform.closed_store;
          fileStructureInitialised := true;
          sdCard := fun _ _ => None;
          sysDir := "0:/sys/"; webDir := "0:/www/"; gcodeDir := "0:/gcodes/";
          messages := []; lineOut := []; lineIn := []; messageIndent := 0;
          zProbeType := 1; emulating := me;
          axisMinima := replicate AXES Float.zero;
          axisMaxima := replicate AXES (Float.of_Z 200);
          instantDvs := replicate DRIVES (Float.of_Z 15);
          slowestDrive := 0;
          combinedNameUpb := 100;
          f_open_error := fun _ _ write => if write then 0 else 4 |};
     move :=
       {| allMovesAreFinished := true;
          currentUserPosition := Some (replicate (S DRIVES) Float.zero);
          transform := id;
          moveCalls := [] |};
     webserver := {| gcodeInput := [] |};
     currentTool := None;
     debug := false |}.

(** The machine after [Init], [None] never being the case. *)
Definition booted : RepRap :=
  match GCodes.Init power_on with Some (_, r) => r | None => power_on end.

Definition with_web_input (bytes : list ascii) (r : RepRap) : RepRap :=
  set_webserver {| gcodeInput := bytes |} r.

(** [n] calls of [Spin]. *)
Fixpoint spins `{Config} (fuel n : nat) : M unit :=
  match n with
  | O => ret tt
  | S n' => GCodes.Spin (GCodes.ActOnCode fuel) >> spins fuel n'
  end.

Definition state_after `{Config} (m : M unit) (r : RepRap) : option RepRap :=
  option_map snd (m r).

(** The planner collecting the pending move. *)
Definition planner_takes_move `{Config} : M unit :=
  let* _ := GCodes.ReadMove (replicate (S DRIVES) Float.zero) false in ret tt.

(** A machine with a one-drive tool selected that has extruded 5 mm and then
    been sent an end-stop move whose E field is rejected (two values for one
    drive): nothing is pending, the end-stop flag is still set. *)
Definition after_rejected_endstop_move : RepRap :=
  let start :=
    with_web_input (line "G1 E5" ++ line "G1 S1 E1:2")
      (set_currentTool (Some (mkTool [0%nat])) booted) in
  match (spins 1 1 >> planner_takes_move >> spins 1 2) start with
  | Some (_, r) => r
  | None => start
  end.

(** The machine with the line [text] in the web buffer. *)
Definition holding `{Config} (text : string) (r : RepRap) : RepRap :=
  with_buffer_of WebGCode
    (set_gcodeBuffer
       (list_ascii_of_string text
          ++ replicate (GCODE_LENGTH - String.length text) NUL)) r.

(** The machine after the two lines [G20] and [G1 X1 F60] have come in
    from the web, one call of [Spin] each. *)
Definition after_inch_move : option RepRap :=
  state_after (spins 1 2) (with_web_input (line "G20" ++ line "G1 X1 F60") booted).

(** An SD card with a print file that starts by homing X, and the macro
    that homes X. *)
Definition card (directory fileName : string) : option (list ascii) :=
  if (directory =? "0:/gcodes/")%string && (fileName =? "print.g")%string
  then Some (line "G28 X" ++ line "G1 Y1")
  else if (directory =? "0:/sys/")%string && (fileName =? "homex.g")%string
  then Some (line "G1 X1")
  else None.

(** The web interface hands over the bytes of a line. *)
Definition receive (text : string) : M unit := modify (with_web_input (line text)).

(** A print is queued and started from the web; six calls of [Spin] read
    its first line [G28 X], which starts the macro [homex.g]; the web
    interface pauses the print, restarts it with [M24], and sends [G28 X]. *)
Definition paused_in_macro : RepRap :=
  let start := set_platform (set_sdCard card (platform booted)) booted in
  match (GCodes.QueueFileToPrint "print.g" >> receive "M24" >> spins 2 1 >>
         spins 2 6 >>
         GCodes.PauseSDPrint >> receive "M24" >> spins 2 1 >>
         receive "G28 X") start with
  | Some (_, r) => r
  | None => start
  end.

(** The machine in the middle of a command of the web buffer: the tag [c]
    of the line [text] found, and then its number read. *)
Definition reading `{Config} (c : ascii) (text : string) (r : RepRap) : RepRap :=
  match GCodes.Seen WebGCode c (holding text r) with
  | Some (_, r') => r'
  | None => r
  end.

Definition number_read `{Config} (r : RepRap) : RepRap :=
  match GCodes.GetIValue WebGCode r with
  | Some (_, r') => r'
  | None => r
  end.

(** The machine with the move of [G1 X1 F60] pending. *)
Definition inch_move_pending : RepRap := default booted after_inch_move.

(** The machine one call of [Spin] after the end-stop move [G1 S1 X5] has
    come in, at the [G] of the command. *)
Definition at_endstop_move : RepRap :=
  match (spins 1 1 >>
         let* _ := GCodes.Seen WebGCode "M" in
         let* _ := GCodes.Seen WebGCode "G" in ret tt)
          (with_web_input (line "G1 S1 X5") booted) with
  | Some (_, r) => r
  | None => booted
  end.

(** The machine with the end-stop move [G1 S1 X5] complete in the web
    buffer, at the [G] of the command, no move having been set up. *)
Definition endstop_move_arrives : RepRap :=
  match (for_each (line "G1 S1 X5") (fun c => let* _ := GCodes.Put WebGCode c in ret tt) >>
         let* _ := GCodes.Seen WebGCode "M" in
         let* _ := GCodes.Seen WebGCode "G" in ret tt) booted with
  | Some (_, r) => r
  | None => booted
  end.

(** The machine asked to home Z alone, nothing being homed. *)
Definition asked_to_home_Z : RepRap := set_gCodes (set_homeZ true (gCodes booted)) booted.

(** A card that holds the macro [homez.g] only. *)
Definition homing_card (directory fileName : string) : option (list ascii) :=
  if (directory =? "0:/sys/")%string && (fileName =? "homez.g")%string
  then Some (line "G1 S1 Z-200")
  else None.

(** The machine asked to home Z alone, X and Y being homed and the macro
    [homez.g] being on the card. *)
Definition asked_to_home_Z_after_XY : RepRap :=
  let g := gCodes booted in
  set_platform (set_sdCard homing_card (platform booted))
    (set_gCodes
       (set_homeZ true
          (set_axisIsHomed (<[Y_AXIS := true]> (<[X_AXIS := true]> (axisIsHomed g))) g))
       booted).

(** [SetPositions] past its gate, the planner at rest at the origin, and
    past the extrusion part of the command. *)
Definition past_gate (r : RepRap) : RepRap :=
  set_gCodes (set_moveBuffer (replicate (S DRIVES) Float.zero) (gCodes r))
    (set_move (set_moveCalls (moveCalls (move r) ++ [ResumeMoving]) (move r)) r).

Definition past_extrusion (r : RepRap) : RepRap :=
  match GCodes.load_extrusion WebGCode true (past_gate r) with
  | Some (_, r') => r'
  | None => r
  end.

(** ** Vocabulary of the statements *)

(** [r'] differs from [r] at most in what the platform has printed. *)
Definition only_output (r r' : RepRap) : Prop :=
  gCodes r' = gCodes r /\ move r' = move r /\ webserver r' = webserver r
  /\ currentTool r' = currentTool r /\ debug r' = debug r
  /\ files (platform r') = files (platform r)
  /\ lineIn (platform r') = lineIn (platform r)
  /\ zProbeType (platform r') = zProbeType (platform r).

(** What [end_of_line] hands back: a complete line, the array at its size,
    the write index at the start. *)
Definition line_complete `{Config} (res : bool * GCodeBuffer * list string) : Prop :=
  res.1.1 = true
  /\ length (gcodeBuffer res.1.2) = GCODE_LENGTH
  /\ gcodePointer res.1.2 = 0%nat.

(** A buffer filled to the last free byte. *)
Definition nearly_full : GCodeBuffer :=
  set_gcodePointer 99%nat (blank "serial: ").

(** The web buffer holding [N10 G1 X1*99], before the end of the line. *)
Definition unterminated_N10 : GCodeBuffer :=
  match GCodeBuffer.feed false (list_ascii_of_string "N10 G1 X1*99") (blank "web: ") with
  | Some (_, gb, _) => gb
  | None => blank "web: "
  end.

(** The planner gate of [AllMovesAreFinishedAndMoveBufferIsLoaded]: nothing
    pending in the slot, the planner's queue drained, its position readable. *)
Definition gate_open (r : RepRap) : Prop :=
  moveAvailable (gCodes r) = false
  /\ allMovesAreFinished (move r) = true
  /\ is_Some (currentUserPosition (move r)).

(** The number supplied with the tag [c] on the line held by [gb], as
    [Seen] followed by [GetFValue] read it. *)
Definition field_value (c : ascii) (gb : GCodeBuffer) : option float :=
  match GCodeBuffer.Seen_loop c (gcodeBuffer gb) 0 with
  | Some i => Some (Float.of_double (Libc.strtod (drop (Z.to_nat (i + 1)) (gcodeBuffer gb))))
  | None => None
  end.

(** The tag letter of an axis. *)
Definition axis_letter (axis : nat) : ascii := default NUL (gCodeLetters !! axis).

(** The read position of the [i]th file store. *)
Definition read_position (r : RepRap) (i : nat) : nat :=
  bytesRead (Platform.store_at (platform r) i).

(** Between [r] and [r'] no web byte has been taken and no file store has
    been read further. *)
Definition still (r r' : RepRap) : Prop :=
  webserver r' = webserver r
  /\ forall i, (read_position r' i <= read_position r i)%nat.

(** The same, and the macro engine is in the state it was in. *)
Definition calm (r r' : RepRap) : Prop :=
  still r r'
  /\ doingCannedCycleFile (gCodes r') = doingCannedCycleFile (gCodes r).

(** Every run of [m] that returns is within [R]. *)
Definition Frame (R : RepRap -> RepRap -> Prop) {A} (m : M A) : Prop :=
  forall r a r', m r = Some (a, r') -> R r r'.

(** The same for the runs that start with no macro file being run. *)
Definition Quiet {A} (m : M A) : Prop :=
  forall r a r', doingCannedCycleFile (gCodes r) = false -> m r = Some (a, r') -> still r r'.

(** No command is under way in the web, serial or file buffer. *)
Definition no_buffer_active (r : RepRap) : Prop :=
  GCodeBuffer.Active (webGCode (gCodes r)) = false
  /\ GCodeBuffer.Active (serialGCode (gCodes r)) = false
  /\ GCodeBuffer.Active (fileGCode (gCodes r)) = false.

(** [m] has a result from every state; from every state in which no macro
    file is being run. *)
Definition Returns {A} (m : M A) : Prop := forall r, is_Some (m r).

Definition IdleReturns {A} (m : M A) : Prop :=
  forall r, doingCannedCycleFile (gCodes r) = false -> is_Some (m r).

(** ** Further vocabulary *)

(** A byte of a command proper: no terminator, no comment mark, no checksum
    mark. *)
Definition plain (c : ascii) : Prop :=
  c <> NUL /\ c <> NEWLINE /\ c <> ";"%char /\ c <> "*"%char.

(** Nothing, or a comment: a ';' and bytes up to the end of the line. *)
Definition comment_tail (tail : list ascii) : Prop :=
  match tail with
  | [] => True
  | c :: rest => c = ";"%char /\ Forall (fun c => c <> NEWLINE /\ c <> NUL) rest
  end.

(** The web buffer with the E of [G1 E1.5] located. *)
Definition tagged_E : GCodeBuffer := webGCode (gCodes (reading "E" "G1 E1.5" booted)).

(** The state stack full, and a move waiting in the slot. *)
Definition stack_full : RepRap := set_gCodes (set_stackPointer STACK (gCodes booted)) booted.

(** The web buffer holding a line with no G, M or T, and one with a G code
    the interpreter does not know. *)
Definition bare_line : RepRap := holding "X1 Y2" booted.
Definition unknown_G : RepRap := reading "G" "G5 X1" booted.

(** The move of [G1 X1 F60] still pending and [G1 X2] at its number. *)
Definition second_move : RepRap := reading "G" "G1 X2" inch_move_pending.

(** ** FileStore with its sector buffer

    [FileStore] of Platform.cpp as it is written, for one file of the card.
    Modelled from the spec: FatFs is not among the sources.  Its calls are
    taken as its manual gives them: [f_open] creates an empty file for
    writing and needs the file for reading, [f_read] and [f_write] move up
    to the requested number of bytes at the file pointer and advance it,
    [f_sync] and [f_close] succeed unless the card fails.  The timing kept
    in [longestWriteTime] is left out. *)
Module Sector.

Record Store := mkStore {
inUse : bool;
writing : bool;
buf : list ascii;   (* the sector buffer, FILE_BUFFER_LENGTH bytes *)
bufferPointer : nat;
lastBufferEntry : nat;
bytesRead : nat;
openCount : Z;
present : bool;   (* the file exists on the card *)
disk : list ascii;   (* its bytes *)
fptr : nat;   (* the read/write pointer of the FatFs file object *)
failing : bool;   (* the card answers every call with FR_DISK_ERR *)
}.

Definition set_inUse (v : bool) (x : Store) : Store :=
mkStore v (writing x) (buf x) (bufferPointer x) (lastBufferEntry x) (bytesRead x) (openCount x) (present x) (disk x) (fptr x) (failing x).
Definition set_writing (v : bool) (x : Store) : Store :=
mkStore (inUse x) v (buf x) (bufferPointer x) (lastBufferEntry x) (bytesRead x) (openCount x) (present x) (disk x) (fptr x) (failing x).
Definition set_buf (v : list ascii) (x : Store) : Store :=
mkStore (inUse x) (writing x) v (bufferPointer x) (lastBufferEntry x) (bytesRead x) (openCount x) (present x) (disk x) (fptr x) (failing x).
Definition set_bufferPointer (v : nat) (x : Store) : Store :=
mkStore (inUse x) (writing x) (buf x) v (lastBufferEntry x) (bytesRead x) (openCount x) (present x) (disk x) (fptr x) (failing x).
Definition set_lastBufferEntry (v : nat) (x : Store) : Store :=
mkStore (inUse x) (writing x) (buf x) (bufferPointer x) v (bytesRead x) (openCount x) (present x) (disk x) (fptr x) (failing x).
Definition set_bytesRead (v : nat) (x : Store) : Store :=
mkStore (inUse x) (writing x) (buf x) (bufferPointer x) (lastBufferEntry x) v (openCount x) (present x) (disk x) (fptr x) (failing x).
Definition set_openCount (v : Z) (x : Store) : Store :=
mkStore (inUse x) (writing x) (buf x) (bufferPointer x) (lastBufferEntry x) (bytesRead x) v (present x) (disk x) (fptr x) (failing x).
Definition set_present (v : bool) (x : Store) : Store :=
mkStore (inUse x) (writing x) (buf x) (bufferPointer x) (lastBufferEntry x) (bytesRead x) (openCount x) v (disk x) (fptr x) (failing x).
Definition set_disk (v : list ascii) (x : Store) : Store :=
mkStore (inUse x) (writing x) (buf x) (bufferPointer x) (lastBufferEntry x) (bytesRead x) (openCount x) (present x) v (fptr x) (failing x).
Definition set_fptr (v : nat) (x : Store) : Store :=
mkStore (inUse x) (writing x) (buf x) (bufferPointer x) (lastBufferEntry x) (bytesRead x) (openCount x) (present x) (disk x) v (failing x).
Definition set_failing (v : bool) (x : Store) : Store :=
mkStore (inUse x) (writing x) (buf x) (bufferPointer x) (lastBufferEntry x) (bytesRead x) (openCount x) (present x) (disk x) (fptr x) v.
(** [FILE_BUFFER_LENGTH] is a parameter. *)
Section Buffered.
Variable FILE_BUFFER_LENGTH : nat.

(** A run of a member: the result, the store afterwards and the messages
for the platform; [None] when a byte is stored outside the buffer. *)
Abbreviation Run A := (option (A * Store * list string)) (only parsing).

(** [FileStore::Init] *)
Definition Init (s : Store) : Store :=
set_openCount 0 (set_lastBufferEntry 0%nat (set_writing false (set_inUse false
(set_bufferPointer 0%nat s)))).

(** [FileStore::Open]; [location] is the combined name. *)
Definition Open (location : string) (write : bool) (s : Store) : Run bool :=
let s := set_bytesRead 0%nat
         (set_lastBufferEntry (FILE_BUFFER_LENGTH - 1)%nat (set_writing write s)) in
let code := if failing s then 1 else if negb write && negb (present s) then 4 else 0 in
if negb (code =? 0) then
Some (false, s,
      [("Error: Can't open " ++ location ++ " to "
          ++ (if write then "write" else "read") ++ ", error code "
          ++ string_of_list_ascii (Libc.print_int code)
          ++ String NEWLINE EmptyString)%string])
else
let s := if write then set_disk [] (set_present true s) else s in
let s := set_fptr 0%nat s in
Some (true,
      set_openCount 1 (set_inUse true
        (set_bufferPointer (if write then 0%nat else FILE_BUFFER_LENGTH) s)), []).

(** [FileStore::Duplicate] *)
Definition Duplicate (s : Store) : Run unit :=
if negb (inUse s) then
Some (tt, s, [("Error: Attempt to dup a non-open file." ++ String NEWLINE EmptyString)%string])
else Some (tt, set_openCount (openCount s + 1) s, []).

(** [FileStore::InternalWriteBlock], through [f_write]. *)
Definition InternalWriteBlock (bytes : list ascii) (s : Store) : Run bool :=
if failing s then
Some (false, s,
      [("Error: Cannot write to file. Disc may be full." ++ String NEWLINE EmptyString)%string])
else
Some (true,
      set_fptr (fptr s + length bytes)%nat
        (set_disk (take (fptr s) (disk s) ++ bytes
                     ++ drop (fptr s + length bytes) (disk s)) s), []).

(** [FileStore::WriteBuffer] *)
Definition WriteBuffer (s : Store) : Run bool :=
if negb (bufferPointer s =? 0)%nat then
'(ok, s, m) ← InternalWriteBlock (take (bufferPointer s) (buf s)) s;
if negb ok then
  Some (false, s,
        m ++ [("Error: Cannot write to file. Disc may be full."
                 ++ String NEWLINE EmptyString)%string])
else Some (true, set_bufferPointer 0%nat s, m)
else Some (true, s, []).

(** [FileStore::Flush], ending with [f_sync]. *)
Definition Flush (s : Store) : Run bool :=
if negb (inUse s) then
Some (false, s,
      [("Error: Attempt to flush a non-open file." ++ String NEWLINE EmptyString)%string])
else
'(ok, s, m) ← WriteBuffer s;
if negb ok then Some (false, s, m) else Some (negb (failing s), s, m).

(** [FileStore::Close], ending with [f_close]. *)
Definition Close (s : Store) : Run bool :=
if negb (inUse s) then
Some (false, s,
      [("Error: Attempt to close a non-open file." ++ String NEWLINE EmptyString)%string])
else
let s := set_openCount (openCount s - 1) s in
if negb (openCount s =? 0) then Some (true, s, [])
else
  '(ok, s, m) ← (if writing s then Flush s else Some (true, s, []));
  let fr_ok := negb (failing s) in
  Some (ok && fr_ok,
        set_lastBufferEntry 0%nat (set_writing false (set_inUse false s)), m).

(** [FileStore::ReadBuffer], through [f_read]. *)
Definition ReadBuffer (s : Store) : Run bool :=
if failing s then
Some (false, set_lastBufferEntry 0%nat s,
      [("Error: Cannot read file." ++ String NEWLINE EmptyString)%string])
else
let chunk := take FILE_BUFFER_LENGTH (drop (fptr s) (disk s)) in
Some (true,
      set_bufferPointer 0%nat
        (set_lastBufferEntry (length chunk)
           (set_fptr (fptr s + length chunk)%nat
              (set_buf (chunk ++ drop (length chunk) (buf s)) s))), []).

(** [FileStore::Read(char&)]: the result and the caller's [b] on return. *)
Definition Read (b : ascii) (s : Store) : Run (bool * ascii) :=
if negb (inUse s) then
Some ((false, b), s,
      [("Error: Attempt to read from a non-open file." ++ String NEWLINE EmptyString)%string])
else
'(ok, s, m) ← (if decide (FILE_BUFFER_LENGTH <= bufferPointer s)%nat
               then ReadBuffer s else Some (true, s, []));
if negb ok then Some ((false, b), s, m)
else if decide (lastBufferEntry s <= bufferPointer s)%nat then Some ((false, NUL), s, m)
else
  Some ((true, char_at (buf s) (bufferPointer s)),
        set_bytesRead (S (bytesRead s)) (set_bufferPointer (S (bufferPointer s)) s), m).

(** [FileStore::Write(char)] *)
Definition Write (b : ascii) (s : Store) : Run bool :=
if negb (inUse s) then
Some (false, s,
      [("Error: Attempt to write byte to a non-open file."
          ++ String NEWLINE EmptyString)%string])
else
buf' ← store (bufferPointer s) b (buf s);
let s := set_bufferPointer (S (bufferPointer s)) (set_buf buf' s) in
if decide (FILE_BUFFER_LENGTH <= bufferPointer s)%nat then WriteBuffer s
else Some (true, s, []).

(** [FileStore::Write(const char* )]: byte by byte up to the first failure. *)
Fixpoint WriteString (text : list ascii) (s : Store) : Run bool :=
match text with
| [] => Some (true, s, [])
| c :: rest =>
  if c =c NUL then Some (true, s, [])
  else
    '(ok, s, m) ← Write c s;
    if negb ok then Some (false, s, m)
    else '(ok, s, m') ← WriteString rest s; Some (ok, s, m ++ m')
end.

(** [FileStore::Position] and [FileStore::Length] *)
Definition Position (s : Store) : nat := bytesRead s.

(** [n] calls of [Read(char&)]: the bytes delivered, and whether the last
call still delivered one. *)
Fixpoint ReadMany (n : nat) (s : Store) : Run (list ascii) :=
match n with
| O => Some ([], s, [])
| S n' =>
  '(res, s, m) ← Read NUL s;
  if negb res.1 then Some ([], s, m)
  else '(rest, s, m') ← ReadMany n' s; Some (res.2 :: rest, s, m ++ m')
end.

(** The store while it is read: what is left in the buffer is what the
file holds from the read position on, and a short buffer means the end
of the file has been reached. *)
Definition reading (s : Store) : Prop :=
inUse s = true /\ failing s = false
/\ (fptr s <= length (disk s))%nat
/\ ((FILE_BUFFER_LENGTH <= bufferPointer s)%nat /\ fptr s = bytesRead s
  \/ (bufferPointer s <= lastBufferEntry s)%nat
     /\ (lastBufferEntry s <= FILE_BUFFER_LENGTH)%nat
     /\ fptr s = (bytesRead s + (lastBufferEntry s - bufferPointer s))%nat
     /\ (forall k, (bufferPointer s + k < lastBufferEntry s)%nat ->
           buf s !! (bufferPointer s + k)%nat = disk s !! (bytesRead s + k)%nat)
     /\ ((lastBufferEntry s < FILE_BUFFER_LENGTH)%nat -> fptr s = length (disk s))).

(** The store while [written] is being written to it: the file and the
filled part of the buffer make up what has been written. *)
Definition being_written (written : list ascii) (s : Store) : Prop :=
inUse s = true /\ writing s = true /\ failing s = false
/\ length (buf s) = FILE_BUFFER_LENGTH
/\ (bufferPointer s < FILE_BUFFER_LENGTH)%nat
/\ fptr s = length (disk s)
/\ disk s ++ take (bufferPointer s) (buf s) = written.

End Buffered.

(** A closed store over an empty card, with a buffer of 4 bytes. *)
Definition fresh : Store :=
mkStore false false (replicate 4 NUL) 0 0 0 0 false [] 0 false.

End Sector.

(** A file of the card that holds [G28 X], to be read through a buffer of
    4 bytes. *)
Definition on_card : Sector.Store :=
  Sector.mkStore false false (replicate 4 NUL) 0 0 0 0 true (list_ascii_of_string "G28 X") 0
    false.

(** The machine in absolute extrusion mode with 5 mm in the accumulator of
    its one extruder and [G1 E7] in the web buffer. *)
Definition absolute_E7 : RepRap :=
  holding "G1 E7"
    (set_gCodes (set_drivesRelative false (gCodes after_rejected_endstop_move))
       after_rejected_endstop_move).

(** Between [r] and [r'] the card, the directories and the planner's
    answers are the same, and messages have only been added. *)
Definition surroundings_kept (r r' : RepRap) : Prop :=
  sdCard (platform r') = sdCard (platform r)
  /\ sysDir (platform r') = sysDir (platform r)
  /\ gcodeDir (platform r') = gcodeDir (platform r)
  /\ fileStructureInitialised (platform r') = fileStructureInitialised (platform r)
  /\ allMovesAreFinished (move r') = allMovesAreFinished (move r)
  /\ currentUserPosition (move r') = currentUserPosition (move r)
  /\ exists more, messages (platform r') = messages (platform r) ++ more.

(** Between [r] and [r'] the end-stop flag of the move slot and the flag
    that makes G0/G1 wait are the same. *)
Definition endstop_flags_kept (r r' : RepRap) : Prop :=
  checkEndStops (gCodes r') = checkEndStops (gCodes r)
  /\ waitingForMoveToComplete (gCodes r') = waitingForMoveToComplete (gCodes r).

(** Between [r] and [r'] the interpreter and the planner are the same. *)
Definition interpreter_kept (r r' : RepRap) : Prop :=
  gCodes r' = gCodes r /\ move r' = move r.

(** The file [i] is being written and the bytes held back are a proper
    prefix of the end marker. *)
Definition capturing (i : nat) (r : RepRap) : Prop :=
  fileBeingWritten (gCodes r) = Some i
  /\ inUse (Platform.store_at (platform r) i) = true
  /\ (eofStringCounter (gCodes r) < length EOF_STRING)%nat.

(** The bytes of the file [i] followed by the bytes held back. *)
Definition captured (i : nat) (r : RepRap) : list ascii :=
  data (Platform.store_at (platform r) i)
  ++ take (eofStringCounter (gCodes r)) EOF_STRING.

(** The bytes [text] of an upload handed to [WriteHTMLToFile] one by one,
    as [Spin] does with the bytes of the line. *)
Definition upload `{Config} (b : BufferId) (text : list ascii) : M unit :=
  for_each text (fun c => GCodes.WriteHTMLToFile c b).

(** The machine with a file open for an upload, nothing written yet. *)
Definition saving : RepRap :=
  match Platform.GetFileStore "0:/www/" "index.html" true booted with
  | Some (Some i, r) =>
      set_gCodes (set_eofStringCounter 0%nat (set_fileBeingWritten (Some i) (gCodes r))) r
  | _ => booted
  end.

(** The same machine after the bytes of a short page. *)
Definition page : list ascii := list_ascii_of_string "<p>hi</p>".

Definition page_sent : RepRap :=
  match upload SerialGCode page saving with
  | Some (_, r) => r
  | None => saving
  end.

(** The number the interpreter reads after the first [c] of the line:
    [Seen] followed by [GetIValue]. *)
Definition code_after (c : ascii) (gb : GCodeBuffer) : option Z :=
  let '(found, gb') := GCodeBuffer.Seen c gb in
  if found then Some (GCodeBuffer.GetIValue gb').1.1 else None.

(** The lines whose handlers are followed here to their end: every M code
    but those of [other_M_codes] and M998, whose conversion has no defined
    result; every G code but 4, 10, 30, 31 and 32; a line without M, G or
    T.  A line that is being saved to a file is followed unless it is
    G998. *)
Definition modelled_command (gb : GCodeBuffer) : Prop :=
  match code_after "M" gb with
  | Some m => (m ∉ GCodes.other_M_codes) /\ m <> 998
  | None =>
      match code_after "G" gb with
      | Some g => g ∉ [4; 10; 30; 31; 32]
      | None => code_after "T" gb = None
      end
  end.

Definition modelled_line (gb : GCodeBuffer) : Prop :=
  match writingFileDirectory gb with
  | Some _ => code_after "G" gb <> Some 998
  | None => modelled_command gb
  end.

(** The machine with the upload file open and the line [M29] in the web
    buffer, and the same with a move in it. *)
Definition saving_M29 : RepRap := holding "M29" saving.
Definition saving_G1 : RepRap := holding "G1 X10" saving.

(** The macro [homex.g] of the card called from the booted machine: the
    state after the first call, which starts it, and the state after the
    eight calls that read it to its end, the planner having collected the
    move of its one line. *)
Definition call_homex : M unit :=
  let* _ := GCodes.DoFileCannedCycles (GCodes.ActOnCode 8) "homex.g" in ret tt.

Fixpoint repeated (n : nat) (m : M unit) : M unit :=
  match n with
  | O => ret tt
  | S k => m >> repeated k m
  end.

Definition with_card : RepRap := set_platform (set_sdCard card (platform booted)) booted.

Definition macro_started : RepRap :=
  match call_homex with_card with
  | Some (_, r) => r
  | None => with_card
  end.

Definition macro_read : RepRap :=
  match (repeated 8 call_homex >> planner_takes_move) with_card with
  | Some (_, r) => r
  | None => with_card
  end.

(** ** The settings kept in flash (Platform.cpp)

    Modelled from the spec: the struct [nvData] is declared in Platform.h,
    which is not among the sources; the record below has the members that
    the functions modelled here read or write.  The averaging filter of
    the Z probe is declared there too: its type and its [Init] are
    parameters.  [pinMode] and [digitalWrite] are recorded as calls.
    [FLASH_SAVE_ENABLED], [DEFAULT_Z_DIVE], [FlashData::magicValue] and the
    result of [ResetNvData], which assigns every member from constants of
    the configuration header, are parameters as well. *)
Module Nv.

Inductive Pin := Z_PROBE_MOD_PIN | Z_PROBE_MOD_PIN07.

(** [c == d] on the firmware enumeration. *)
Definition same_firmware (c d : Compatibility) : bool :=
match c, d with
| me, me | reprapFirmware, reprapFirmware | marlin, marlin
| teacup, teacup | sprinter, sprinter | repetier, repetier => true
| _, _ => false
end.
Inductive PinCall := pinMode_OUTPUT (p : Pin) | digitalWrite (p : Pin) (high : bool).

Record NvData := mkNvData {
compatibility : Compatibility;
ipAddress : list Z;   (* byte ipAddress[4] *)
netMask : list Z;
gateWay : list Z;
zProbeType : Z;
zProbeChannel : Z;
zProbeAxes : list bool;   (* bool zProbeAxes[AXES] *)
switchDiveHeight : float;   (* switchZProbeParameters.diveHeight *)
irDiveHeight : float;   (* irZProbeParameters.diveHeight *)
alternateDiveHeight : float;   (* alternateZProbeParameters.diveHeight *)
magic : Z;
}.

Definition set_compatibility (v : Compatibility) (x : NvData) : NvData :=
mkNvData v (ipAddress x) (netMask x) (gateWay x) (zProbeType x) (zProbeChannel x) (zProbeAxes x) (switchDiveHeight x) (irDiveHeight x) (alternateDiveHeight x) (magic x).
Definition set_ipAddress (v : list Z) (x : NvData) : NvData :=
mkNvData (compatibility x) v (netMask x) (gateWay x) (zProbeType x) (zProbeChannel x) (zProbeAxes x) (switchDiveHeight x) (irDiveHeight x) (alternateDiveHeight x) (magic x).
Definition set_netMask (v : list Z) (x : NvData) : NvData :=
mkNvData (compatibility x) (ipAddress x) v (gateWay x) (zProbeType x) (zProbeChannel x) (zProbeAxes x) (switchDiveHeight x) (irDiveHeight x) (alternateDiveHeight x) (magic x).
Definition set_gateWay (v : list Z) (x : NvData) : NvData :=
mkNvData (compatibility x) (ipAddress x) (netMask x) v (zProbeType x) (zProbeChannel x) (zProbeAxes x) (switchDiveHeight x) (irDiveHeight x) (alternateDiveHeight x) (magic x).
Definition set_zProbeType (v : Z) (x : NvData) : NvData :=
mkNvData (compatibility x) (ipAddress x) (netMask x) (gateWay x) v (zProbeChannel x) (zProbeAxes x) (switchDiveHeight x) (irDiveHeight x) (alternateDiveHeight x) (magic x).
Definition set_zProbeChannel (v : Z) (x : NvData) : NvData :=
mkNvData (compatibility x) (ipAddress x) (netMask x) (gateWay x) (zProbeType x) v (zProbeAxes x) (switchDiveHeight x) (irDiveHeight x) (alternateDiveHeight x) (magic x).
Definition set_zProbeAxes (v : list bool) (x : NvData) : NvData :=
mkNvData (compatibility x) (ipAddress x) (netMask x) (gateWay x) (zProbeType x) (zProbeChannel x) v (switchDiveHeight x) (irDiveHeight x) (alternateDiveHeight x) (magic x).
Definition set_switchDiveHeight (v : float) (x : NvData) : NvData :=
mkNvData (compatibility x) (ipAddress x) (netMask x) (gateWay x) (zProbeType x) (zProbeChannel x) (zProbeAxes x) v (irDiveHeight x) (alternateDiveHeight x) (magic x).
Definition set_irDiveHeight (v : float) (x : NvData) : NvData :=
mkNvData (compatibility x) (ipAddress x) (netMask x) (gateWay x) (zProbeType x) (zProbeChannel x) (zProbeAxes x) (switchDiveHeight x) v (alternateDiveHeight x) (magic x).
Definition set_alternateDiveHeight (v : float) (x : NvData) : NvData :=
mkNvData (compatibility x) (ipAddress x) (netMask x) (gateWay x) (zProbeType x) (zProbeChannel x) (zProbeAxes x) (switchDiveHeight x) (irDiveHeight x) v (magic x).
Definition set_magic (v : Z) (x : NvData) : NvData :=
mkNvData (compatibility x) (ipAddress x) (netMask x) (gateWay x) (zProbeType x) (zProbeChannel x) (zProbeAxes x) (switchDiveHeight x) (irDiveHeight x) (alternateDiveHeight x) v.

Section Flash.
Variable Filter : Type.
Variable Filter_Init : Z -> Filter.
Variable FLASH_SAVE_ENABLED : bool.
Variable DEFAULT_Z_DIVE : float.
Variable magicValue : Z.
Variable factory : NvData.

Record Board := mkBoard {
nvData : NvData;
flashImage : NvData;   (* what DueFlashStorage::read finds at nvAddress *)
flashWrites : nat;   (* calls of DueFlashStorage::write so far *)
autoSaveEnabled : bool;
zProbeModulationPin : Pin;
pinCalls : list PinCall;   (* oldest first *)
zProbeOnFilter : Filter;
zProbeOffFilter : Filter;
messages : list string;   (* Message(GENERIC_MESSAGE, text), oldest first *)
}.

Definition set_nvData (v : NvData) (x : Board) : Board :=
mkBoard v (flashImage x) (flashWrites x) (autoSaveEnabled x) (zProbeModulationPin x) (pinCalls x) (zProbeOnFilter x) (zProbeOffFilter x) (messages x).
Definition set_flashImage (v : NvData) (x : Board) : Board :=
mkBoard (nvData x) v (flashWrites x) (autoSaveEnabled x) (zProbeModulationPin x) (pinCalls x) (zProbeOnFilter x) (zProbeOffFilter x) (messages x).
Definition set_flashWrites (v : nat) (x : Board) : Board :=
mkBoard (nvData x) (flashImage x) v (autoSaveEnabled x) (zProbeModulationPin x) (pinCalls x) (zProbeOnFilter x) (zProbeOffFilter x) (messages x).
Definition set_autoSaveEnabled (v : bool) (x : Board) : Board :=
mkBoard (nvData x) (flashImage x) (flashWrites x) v (zProbeModulationPin x) (pinCalls x) (zProbeOnFilter x) (zProbeOffFilter x) (messages x).
Definition set_zProbeModulationPin (v : Pin) (x : Board) : Board :=
mkBoard (nvData x) (flashImage x) (flashWrites x) (autoSaveEnabled x) v (pinCalls x) (zProbeOnFilter x) (zProbeOffFilter x) (messages x).
Definition set_pinCalls (v : list PinCall) (x : Board) : Board :=
mkBoard (nvData x) (flashImage x) (flashWrites x) (autoSaveEnabled x) (zProbeModulationPin x) v (zProbeOnFilter x) (zProbeOffFilter x) (messages x).
Definition set_zProbeOnFilter (v : Filter) (x : Board) : Board :=
mkBoard (nvData x) (flashImage x) (flashWrites x) (autoSaveEnabled x) (zProbeModulationPin x) (pinCalls x) v (zProbeOffFilter x) (messages x).
Definition set_zProbeOffFilter (v : Filter) (x : Board) : Board :=
mkBoard (nvData x) (flashImage x) (flashWrites x) (autoSaveEnabled x) (zProbeModulationPin x) (pinCalls x) (zProbeOnFilter x) v (messages x).
Definition set_messages (v : list string) (x : Board) : Board :=
mkBoard (nvData x) (flashImage x) (flashWrites x) (autoSaveEnabled x) (zProbeModulationPin x) (pinCalls x) (zProbeOnFilter x) (zProbeOffFilter x) v.

Definition Message (text : string) (s : Board) : Board :=
set_messages (messages s ++ [text]) s.

(** [Platform::WriteNvData] *)
Definition WriteNvData (s : Board) : Board :=
if FLASH_SAVE_ENABLED then
set_flashWrites (S (flashWrites s)) (set_flashImage (nvData s) s)
else
Message (nl "Error: Cannot write non-volatile data, because Flash support has been disabled!") s.

(** [Platform::ResetNvData] *)
Definition ResetNvData (s : Board) : Board := set_nvData factory s.

(** [Platform::ReadNvData] *)
Definition ReadNvData (s : Board) : Board :=
if FLASH_SAVE_ENABLED then
let s := set_nvData (flashImage s) s in
if negb (magic (nvData s) =? magicValue) then ResetNvData s else s
else
Message (nl "Error: Cannot load non-volatile data, because Flash support has been disabled!") s.

(** [Platform::SetAutoSave] *)
Definition SetAutoSave (enabled : bool) (s : Board) : Board :=
if FLASH_SAVE_ENABLED then set_autoSaveEnabled enabled s
else
Message (nl "Error: Cannot enable auto-save, because Flash support has been disabled!") s.

Definition auto_save (s : Board) : Board :=
if autoSaveEnabled s then WriteNvData s else s.

Definition update_nv (f : NvData -> NvData) (s : Board) : Board :=
set_nvData (f (nvData s)) s.

(** [Platform::InitZProbe] *)
Definition InitZProbe (s : Board) : Board :=
let s := set_zProbeOnFilter (Filter_Init 0) s in
let s := set_zProbeOffFilter (Filter_Init 0) s in
if 1 <=? zProbeType (nvData s) then
let pin := if zProbeChannel (nvData s) =? 1 then Z_PROBE_MOD_PIN07 else Z_PROBE_MOD_PIN in
let s := set_zProbeModulationPin pin s in
set_pinCalls
  (pinCalls s ++ [pinMode_OUTPUT pin; digitalWrite pin (zProbeType (nvData s) <=? 2)]) s
else s.

(** [Platform::GetZProbeType], [Platform::GetZProbeChannel] *)
Definition GetZProbeType (s : Board) : Z := zProbeType (nvData s).
Definition GetZProbeChannel (s : Board) : Z := zProbeChannel (nvData s).

(** [Platform::SetZProbeType] *)
Definition SetZProbeType (pt : Z) (s : Board) : Board :=
let newZProbeType := if (0 <=? pt) && (pt <=? 3) then pt else 0 in
let s :=
if negb (newZProbeType =? zProbeType (nvData s)) then
  auto_save (update_nv (set_zProbeType newZProbeType) s)
else s in
InitZProbe s.

(** [Platform::SetZProbeChannel] *)
Definition SetZProbeChannel (channel : Z) (s : Board) : Board :=
let '(s, channel) :=
if channel =? 1 then (set_zProbeModulationPin Z_PROBE_MOD_PIN07 s, channel)
else (set_zProbeModulationPin Z_PROBE_MOD_PIN s, 0) in
if negb (channel =? zProbeChannel (nvData s)) then
auto_save (update_nv (set_zProbeChannel channel) s)
else s.

(** [Platform::SetZProbeAxes]: the first [AXES] entries are copied; [None]
when [axes] is shorter than that. *)
Definition SetZProbeAxes (axes : list bool) (s : Board) : option Board :=
if bool_decide (AXES <= length axes)%nat then
Some (auto_save
        (update_nv (fun n => set_zProbeAxes (take AXES axes ++ drop AXES (zProbeAxes n)) n)
           s))
else None.

(** [Platform::GetZProbeDiveHeight] *)
Definition GetZProbeDiveHeight (s : Board) : float :=
let t := zProbeType (nvData s) in
if t =? 0 then switchDiveHeight (nvData s)
else if (t =? 1) || (t =? 2) then irDiveHeight (nvData s)
else if t =? 3 then alternateDiveHeight (nvData s)
else DEFAULT_Z_DIVE.

(** [Platform::SetZProbeDiveHeight] *)
Definition SetZProbeDiveHeight (height : float) (s : Board) : Board :=
let t := zProbeType (nvData s) in
if t =? 0 then update_nv (set_switchDiveHeight height) s
else if (t =? 1) || (t =? 2) then update_nv (set_irDiveHeight height) s
else if t =? 3 then update_nv (set_alternateDiveHeight height) s
else s.

(** [Platform::Emulating] *)
Definition Emulating (s : Board) : Compatibility :=
match compatibility (nvData s) with
| reprapFirmware => me
| c => c
end.

(** [Platform::SetEmulating] *)
Definition SetEmulating (c : Compatibility) (s : Board) : Board :=
match c with
| me | reprapFirmware | marlin =>
  let c := match c with reprapFirmware => me | _ => c end in
  if negb (same_firmware c (compatibility (nvData s))) then
    auto_save (update_nv (set_compatibility c) s)
  else s
| _ => Message (nl "Error: Attempt to emulate unsupported firmware.") s
end.

(** The loop of [Platform::UpdateNetworkAddress] over [indices]:
the bytes of [dst] that differ are replaced, and [changed] tells if
one did.  [None] when an array is shorter than four bytes. *)
Fixpoint copy_changed (indices : list nat) (src dst : list Z) (changed : bool)
: option (list Z * bool) :=
match indices with
| [] => Some (dst, changed)
| i :: rest =>
  d ← dst !! i;
  b ← src !! i;
  if negb (d =? b) then copy_changed rest src (<[i := b]> dst) true
  else copy_changed rest src dst changed
end.

(** [Platform::UpdateNetworkAddress]; [dst] is a member of [nvData],
given by its projection and its update. *)
Definition UpdateNetworkAddress (dst : NvData -> list Z)
(set_dst : list Z -> NvData -> NvData) (src : list Z) (s : Board) : option Board :=
'(bytes, changed) ← copy_changed (seq 0 4) src (dst (nvData s)) false;
let s := update_nv (set_dst bytes) s in
Some (if changed && autoSaveEnabled s then WriteNvData s else s).

(** [Platform::SetIPAddress], [Platform::SetGateWay], [Platform::SetNetMask] *)
Definition SetIPAddress : list Z -> Board -> option Board :=
UpdateNetworkAddress ipAddress set_ipAddress.
Definition SetGateWay : list Z -> Board -> option Board :=
UpdateNetworkAddress gateWay set_gateWay.
Definition SetNetMask : list Z -> Board -> option Board :=
UpdateNetworkAddress netMask set_netMask.

(** A call of one of the setters that save by themselves. *)
Inductive Call :=
| CallSetZProbeType (pt : Z)
| CallSetZProbeChannel (channel : Z)
| CallSetZProbeAxes (axes : list bool)
| CallSetEmulating (c : Compatibility)
| CallSetIPAddress (ip : list Z)
| CallSetGateWay (gw : list Z)
| CallSetNetMask (nm : list Z).

Definition call (c : Call) (s : Board) : option Board :=
match c with
| CallSetZProbeType pt => Some (SetZProbeType pt s)
| CallSetZProbeChannel channel => Some (SetZProbeChannel channel s)
| CallSetZProbeAxes axes => SetZProbeAxes axes s
| CallSetEmulating c => Some (SetEmulating c s)
| CallSetIPAddress ip => SetIPAddress ip s
| CallSetGateWay gw => SetGateWay gw s
| CallSetNetMask nm => SetNetMask nm s
end.

Fixpoint calls (cs : list Call) (s : Board) : option Board :=
match cs with
| [] => Some s
| c :: rest => s' ← call c s; calls rest s'
end.

End Flash.

Arguments nvData {Filter}.
Arguments flashImage {Filter}.
Arguments flashWrites {Filter}.
Arguments autoSaveEnabled {Filter}.
Arguments zProbeModulationPin {Filter}.
Arguments pinCalls {Filter}.
Arguments zProbeOnFilter {Filter}.
Arguments zProbeOffFilter {Filter}.
Arguments messages {Filter}.
Arguments set_nvData {Filter}.
Arguments set_flashImage {Filter}.
Arguments set_flashWrites {Filter}.
Arguments set_autoSaveEnabled {Filter}.
Arguments set_zProbeModulationPin {Filter}.
Arguments set_pinCalls {Filter}.
Arguments set_zProbeOnFilter {Filter}.
Arguments set_zProbeOffFilter {Filter}.
Arguments set_messages {Filter}.
Arguments Message {Filter}.
Arguments WriteNvData {Filter}.
Arguments ResetNvData {Filter}.
Arguments ReadNvData {Filter}.
Arguments SetAutoSave {Filter}.
Arguments auto_save {Filter}.
Arguments update_nv {Filter}.
Arguments InitZProbe {Filter}.
Arguments GetZProbeType {Filter}.
Arguments GetZProbeChannel {Filter}.
Arguments SetZProbeType {Filter}.
Arguments SetZProbeChannel {Filter}.
Arguments SetZProbeAxes {Filter}.
Arguments GetZProbeDiveHeight {Filter}.
Arguments SetZProbeDiveHeight {Filter}.
Arguments Emulating {Filter}.
Arguments SetEmulating {Filter}.
Arguments UpdateNetworkAddress {Filter}.
Arguments SetIPAddress {Filter}.
Arguments SetGateWay {Filter}.
Arguments SetNetMask {Filter}.
Arguments call {Filter}.
Arguments calls {Filter}.

(** The settings are saved as they change and the flash holds them. *)
Definition in_step {Filter} (s : Board Filter) : Prop :=
autoSaveEnabled s = true /\ flashImage s = nvData s.

(** A board with the switch selected, auto-save on and the flash holding
  its settings. *)
Definition shipped : NvData :=
mkNvData me [192; 168; 1; 10] [255; 255; 255; 0] [192; 168; 1; 1] 0 0
  [true; false; true] Float.zero Float.zero Float.zero 7.

Definition started : Board Z :=
mkBoard Z shipped shipped 0 true Z_PROBE_MOD_PIN [] 0 0 [].

(** The same after the IR probe was selected and a dive height set. *)
Definition probing : Board Z :=
SetZProbeDiveHeight (Float.of_Z 3) (SetZProbeType (fun v => v) true 1 started).

(** Calls that change the probe type, an address and the emulation, and
  the board after them. *)
Definition some_calls : list Call :=
[CallSetZProbeType 7; CallSetIPAddress [10; 0; 0; 2]; CallSetEmulating marlin].

Definition reconfigured : Board Z :=
match calls (fun v => v) true some_calls started with
| Some s => s
| None => started
end.

Definition readdressed : Board Z :=
match call (fun v => v) true (CallSetIPAddress [10; 0; 0; 2]) started with
| Some s => s
| None => started
end.

(** The board after its settings were saved and the dive height changed
  in memory. *)
Definition saved_then_changed : Board Z :=
SetZProbeDiveHeight (Float.of_Z 3) (WriteNvData true started).

End Nv.

(** * Properties of the interpreter *)

(** * Properties *)

(** Unfolding the monad and reading fields of updated records. *)
Ltac fields :=
  cbn [inUse openCount writing data bytesRead set_inUse
       set_openCount set_writing set_data set_bytesRead files fileStructureInitialised
       sdCard sysDir webDir gcodeDir messages lineOut
       lineIn messageIndent zProbeType emulating axisMinima axisMaxima
       instantDvs slowestDrive combinedNameUpb f_open_error set_files set_messages set_lineOut
       set_lineIn set_messageIndent set_emulating allMovesAreFinished currentUserPosition transform
       moveCalls set_allMovesAreFinished set_currentUserPosition set_moveCalls active webGCode
       fileGCode serialGCode cannedCycleGCode moveAvailable moveBuffer checkEndStops
       drivesRelative axesRelative drivesRelativeStack axesRelativeStack feedrateStack fileStack
       stackPointer lastPos homeX homeY homeZ distanceScale
       fileBeingPrinted fileToPrint fileBeingWritten doingCannedCycleFile eofStringCounter waitingForMoveToComplete
       limitAxes axisIsHomed speedFactor speedFactorChange extrusionFactors set_active
       set_webGCode set_fileGCode set_serialGCode set_cannedCycleGCode set_moveAvailable set_moveBuffer
       set_checkEndStops set_drivesRelative set_axesRelative set_drivesRelativeStack set_axesRelativeStack set_feedrateStack
       set_fileStack set_stackPointer set_lastPos set_homeX set_homeY set_homeZ
       set_distanceScale set_fileBeingPrinted set_fileToPrint set_fileBeingWritten set_doingCannedCycleFile set_eofStringCounter
       set_waitingForMoveToComplete set_limitAxes set_axisIsHomed set_speedFactor set_speedFactorChange set_extrusionFactors
       gCodes platform move webserver currentTool debug
       set_gCodes set_platform set_move set_webserver set_currentTool gcodeBuffer
       gcodePointer readPointer inComment state identity writingFileDirectory
       set_gcodeBuffer set_gcodePointer set_readPointer set_inComment set_state set_writingFileDirectory
       gcodeInput drives buffer set_buffer file_var set_file_var
       fst snd negb andb orb].
Ltac run :=
  unfold when, gc, update, plat, update_platform;
  unfold bind, ret, gets, modify, fail;
  cbv beta iota; fields.

(** ** Arrays *)

Lemma copy_prefix (src dst : list float) (n : nat) :
  (n <= length src)%nat -> (n <= length dst)%nat ->
  foldl (fun m i => <[i := fget src i]> m) dst (seq 0 n) = take n src ++ drop n dst.
Proof.
  induction n as [|n IH]; intros Hs Hd.
  - by rewrite take_0, drop_0.
  - rewrite seq_S, foldl_app; simpl. rewrite IH by lia.
    destruct (lookup_lt_is_Some_2 src n) as [x Hx]; [lia|].
    unfold fget. rewrite Hx. simpl.
    rewrite (take_S_r _ _ _ Hx).
    rewrite insert_app_r_alt by (rewrite length_take; lia).
    rewrite length_take, Nat.min_l by lia. rewrite Nat.sub_diag.
    destruct (lookup_lt_is_Some_2 dst n) as [y Hy]; [lia|].
    rewrite (drop_S _ _ _ Hy). simpl. by rewrite <- app_assoc.
Qed.

Lemma array_fill_replicate {A} (v : A) (a : list A) (n : nat) :
  length a = n -> array_fill 0 n v a = replicate n v.
Proof.
  intros <-. unfold array_fill.
  assert (forall k, (k <= length a)%nat ->
            foldl (fun a i => <[i := v]> a) a (seq 0 k) = replicate k v ++ drop k a) as Hk.
  { induction k as [|k IH]; intros Hle.
    - by rewrite drop_0.
    - rewrite replicate_S_end, seq_S, foldl_app. cbn [foldl]. rewrite IH by lia.
      rewrite Nat.add_0_l.
      rewrite insert_app_r_alt by (rewrite length_replicate; lia).
      rewrite length_replicate, Nat.sub_diag.
      destruct (lookup_lt_is_Some_2 a k) as [y Hy]; [lia|].
      rewrite (drop_S _ _ _ Hy), <- app_assoc. reflexivity. }
  rewrite Hk by lia. rewrite drop_all. apply app_nil_r.
Qed.

Section MoveSlot.
Context `{Config}.

(** C10.  [ReadMove] takes the pending move out of the slot in one call:
    with nothing pending it returns [false] and hands back the caller's
    array and flag untouched; with a move pending it returns [true], the
    caller's array starts with the whole move record (every drive and the
    feedrate), the flag is the stored end-stop flag, and both
    [moveAvailable] and [checkEndStops] are cleared, so the next call
    finds nothing pending and no end-stop request left over. *)
Theorem ReadMove_consumes_the_slot (m : list float) (ce : bool) (r : RepRap) :
  length (moveBuffer (gCodes r)) = S DRIVES ->
  (S DRIVES <= length m)%nat ->
  exists r',
    GCodes.ReadMove m ce r =
      Some (if moveAvailable (gCodes r)
            then (true, moveBuffer (gCodes r) ++ drop (S DRIVES) m, checkEndStops (gCodes r))
            else (false, m, ce), r')
    /\ r' = (if moveAvailable (gCodes r)
             then set_gCodes (set_checkEndStops false (set_moveAvailable false (gCodes r))) r
             else r)
    /\ moveAvailable (gCodes r') = false
    /\ (moveAvailable (gCodes r) = true -> checkEndStops (gCodes r') = false)
    /\ forall m' ce', GCodes.ReadMove m' ce' r' = Some ((false, m', ce'), r').
Proof.
  intros Hmb Hm. unfold GCodes.ReadMove.
  destruct (moveAvailable (gCodes r)) eqn:Hpending.
  - eexists. split.
    + run. rewrite Hpending. run.
      rewrite copy_prefix by lia.
      rewrite <- Hmb, firstn_all. reflexivity.
    + split; [reflexivity|]. split; [reflexivity|]. split; [reflexivity|].
      intros m' ce'. reflexivity.
  - exists r. split.
    + run. by rewrite Hpending.
    + split; [reflexivity|]. split; [done|]. split; [congruence|].
      intros m' ce'. run. by rewrite Hpending.
Qed.
End MoveSlot.

(** ** Stores into a character array *)

Lemma store_Some (i : nat) (c : ascii) (buf : list ascii) :
  (i < length buf)%nat -> store i c buf = Some (<[i := c]> buf).
Proof. intros Hi. unfold store. by rewrite decide_True. Qed.

Lemma store_inv (i : nat) (c : ascii) (buf buf' : list ascii) :
  store i c buf = Some buf' -> (i < length buf)%nat /\ buf' = <[i := c]> buf.
Proof. unfold store. case_decide; naive_solver. Qed.

Lemma store_all_Some (text : list ascii) : forall (i : nat) (buf : list ascii),
  (i + length text <= length buf)%nat ->
  Libc.store_all i text buf = Some (take i buf ++ text ++ drop (i + length text) buf).
Proof.
  induction text as [|c text IH]; intros i buf Hlen; simpl in *.
  - by rewrite Nat.add_0_r, take_drop.
  - rewrite store_Some by lia. simpl.
    rewrite IH by (rewrite length_insert; lia). f_equal.
    rewrite drop_insert_lt by lia.
    rewrite (take_S_r _ _ c) by (apply list_lookup_insert_eq; lia).
    rewrite take_insert_ge by lia.
    rewrite <- app_assoc. simpl.
    by replace (i + S (length text))%nat with (S (i + length text)) by lia.
Qed.

Lemma snprintf_Some (buf : list ascii) (size : nat) (text : list ascii) :
  (0 < size <= length buf)%nat ->
  let out := take (size - 1) text ++ [NUL] in
  Libc.snprintf buf size text = Some (out ++ drop (length out) buf).
Proof.
  intros [Hpos Hle]. destruct size as [|n]; [lia|]. simpl.
  rewrite Nat.sub_0_r.
  rewrite store_all_Some by (rewrite length_app, length_take; simpl; lia).
  by rewrite take_0.
Qed.

(** ** C strings *)

Lemma cstring_app (text rest : list ascii) :
  Forall (fun c => c <> NUL) text -> cstring (text ++ NUL :: rest) = text.
Proof.
  induction 1 as [|c text Hc _ IH]; simpl.
  - reflexivity.
  - destruct (Ascii.eqb_spec c NUL); [done|]. by rewrite IH.
Qed.

Lemma uint_no_NUL (d : Decimal.uint) :
  Forall (fun c => c <> NUL) (list_ascii_of_string (NilEmpty.string_of_uint d)).
Proof. induction d; simpl; constructor; (done || by apply IHd). Qed.

Lemma print_int_no_NUL (n : Z) : Forall (fun c => c <> NUL) (Libc.print_int n).
Proof.
  unfold Libc.print_int, NilZero.string_of_int, NilZero.string_of_uint.
  destruct (Z.to_int n) as [d|d]; destruct d; simpl;
    repeat (constructor; [done|]); try apply uint_no_NUL; constructor.
Qed.

Lemma resend_text_no_NUL (n : Z) : Forall (fun c => c <> NUL) (GCodeBuffer.resend_text n).
Proof.
  unfold GCodeBuffer.resend_text. apply Forall_app. split.
  - simpl. repeat (constructor; [done|]). constructor.
  - apply print_int_no_NUL.
Qed.

(** ** The strip loops of [Put] stay inside the array *)

Lemma strip_copy_Some (fuel : nat) : forall (buf : list ascii) (gp gp2 : nat),
  (gp2 < gp)%nat -> (gp2 < length buf)%nat ->
  exists buf' gp' gp2',
    GCodeBuffer.strip_copy fuel buf gp gp2 = Some (buf', gp', gp2')
    /\ length buf' = length buf /\ (gp2' < length buf)%nat.
Proof.
  induction fuel as [|fuel IH]; intros buf gp gp2 Hlt Hin; simpl.
  - by eexists _, _, _.
  - destruct (_ || _) eqn:Hstop; [by eexists _, _, _|].
    assert (gp < length buf)%nat as Hgp.
    { destruct (decide (gp < length buf)%nat) as [|Hge]; [done|].
      unfold char_at in Hstop. rewrite lookup_ge_None_2 in Hstop by lia.
      simpl in Hstop. discriminate. }
    rewrite store_Some by done. simpl.
    destruct (IH (<[gp2 := char_at buf gp]> buf) (S gp) (S gp2)) as (b & g & g2 & -> & Hl & Hi);
      rewrite ?length_insert; [lia|lia|].
    rewrite length_insert in Hl, Hi. by eexists _, _, _.
Qed.

Ltac bfields :=
  cbn [gcodeBuffer gcodePointer readPointer inComment state identity writingFileDirectory
       set_gcodeBuffer set_gcodePointer set_readPointer set_inComment set_state
       set_writingFileDirectory GCodeBuffer.Init fst snd].

(** ** The accessors leave the line alone *)

Lemma Seen_line (c : ascii) (gb : GCodeBuffer) :
  gcodeBuffer (GCodeBuffer.Seen c gb).2 = gcodeBuffer gb
  /\ gcodePointer (GCodeBuffer.Seen c gb).2 = gcodePointer gb.
Proof. unfold GCodeBuffer.Seen. by destruct (GCodeBuffer.Seen_loop _ _ _). Qed.

Lemma GetIValue_line (gb : GCodeBuffer) :
  gcodeBuffer (GCodeBuffer.GetIValue gb).1.2 = gcodeBuffer gb
  /\ gcodePointer (GCodeBuffer.GetIValue gb).1.2 = gcodePointer gb.
Proof.
  unfold GCodeBuffer.GetIValue, GCodeBuffer.GetLValue. by destruct (_ <? _).
Qed.

Section Put.
Context `{Config}.

Lemma end_of_line_total (debug : bool) (gb : GCodeBuffer) :
  GCodeBuffer.wf gb ->
  exists res, GCodeBuffer.end_of_line debug gb = Some res
              /\ match res with inl x | inr x => line_complete x end.
Proof.
  intros [Hlen Hgp]. unfold GCodeBuffer.end_of_line.
  rewrite store_Some by lia. cbn [mbind option_bind].
  set (text := <[gcodePointer gb := NUL]> (gcodeBuffer gb)).
  assert (length text = GCODE_LENGTH) as Htext by (unfold text; by rewrite length_insert).
  set (gb0 := GCodeBuffer.Init (set_gcodeBuffer text gb)).
  generalize ((if debug && negb (char_at text 0 =c NUL)
                  && negb (bool_decide (is_Some (writingFileDirectory gb0)))
               then [identity gb0; string_of_list_ascii (cstring text);
                     String NEWLINE EmptyString]
               else []) : list string).
  intros dbg.
  destruct (GCodeBuffer.Seen "*" gb0) as [star gb1] eqn:Hstar.
  pose proof (Seen_line "*" gb0) as [Hb1 Hp1]. rewrite Hstar in Hb1, Hp1. simpl in Hb1, Hp1.
  destruct star; [|eexists; split; [reflexivity|]; unfold line_complete; simpl;
                    rewrite Hb1, Hp1; by unfold gb0].
  destruct (GCodeBuffer.GetIValue gb1) as [[csSent gb2] m1] eqn:Hcs.
  pose proof (GetIValue_line gb1) as [Hb2 Hp2]. rewrite Hcs in Hb2, Hp2. simpl in Hb2, Hp2.
  destruct (GCodeBuffer.Seen "N" gb2) as [seenN gb3] eqn:HN.
  pose proof (Seen_line "N" gb2) as [Hb3 Hp3]. rewrite HN in Hb3, Hp3. simpl in Hb3, Hp3.
  assert (gcodeBuffer gb3 = text) as Hb by (rewrite Hb3, Hb2, Hb1; by unfold gb0).
  assert (gcodePointer gb3 = 0%nat) as Hp by (rewrite Hp3, Hp2, Hp1; by unfold gb0).
  destruct (negb _).
  - destruct (GCodeBuffer.GetIValue gb3) as [[n gb4] m2] eqn:Hn.
    pose proof (GetIValue_line gb3) as [Hb4 Hp4]. rewrite Hn in Hb4, Hp4. simpl in Hb4, Hp4.
    rewrite snprintf_Some by (rewrite Hb4, Hb, Htext; lia).
    cbn [mbind option_bind]. eexists; split; [reflexivity|].
    unfold line_complete; bfields. split; [done|]. split; [|done].
    rewrite length_app, length_drop, Hb4, Hb, Htext.
    rewrite length_app, length_take. simpl. lia.
  - bfields. rewrite Hb, Hp.
    destruct (_ =c NUL).
    + rewrite store_Some by lia. cbn [mbind option_bind].
      eexists; split; [reflexivity|]. unfold line_complete; bfields.
      by rewrite length_insert.
    + destruct (strip_copy_Some (length text) text
                  (S (GCodeBuffer.skip_word (length text) text 0)) 0)
        as (b & g & g2 & -> & Hl & Hi); [lia|lia|].
      cbn [mbind option_bind]. rewrite store_Some by lia. cbn [mbind option_bind].
      eexists; split; [reflexivity|]. unfold line_complete; bfields.
      by rewrite length_insert, Hl.
Qed.

Lemma Put_total (debug : bool) (c : ascii) (gb : GCodeBuffer) :
  GCodeBuffer.wf gb ->
  exists r gb' msgs, GCodeBuffer.Put debug c gb = Some (r, gb', msgs) /\ GCodeBuffer.wf gb'.
Proof.
  intros [Hlen Hgp]. unfold GCodeBuffer.Put.
  rewrite store_Some by lia. cbn [mbind option_bind].
  set (gb1 := if c =c ";" then _ else _).
  assert (GCodeBuffer.wf gb1) as [Hlen1 Hgp1].
  { unfold gb1, GCodeBuffer.wf. destruct (c =c ";"); bfields; by rewrite length_insert. }
  destruct (_ || _).
  - destruct (end_of_line_total debug gb1) as (res & -> & Hres); [done|].
    cbn [mbind option_bind].
    destruct res as [[[r gb'] m]|[[r gb'] m]]; destruct Hres as (_ & Hl & Hp); simpl in Hl, Hp.
    + eexists _, _, _; split; [reflexivity|]. split; [done|lia].
    + rewrite decide_False by lia. eexists _, _, _; split; [reflexivity|]. split; [done|lia].
  - assert (forall gb2 : GCodeBuffer, length (gcodeBuffer gb2) = GCODE_LENGTH ->
              exists r gb' msgs,
                match (if decide (GCODE_LENGTH <= gcodePointer gb2)%nat
                       then buf ← store 0 NUL (gcodeBuffer gb2);
                            Some (false, set_gcodeBuffer buf (set_gcodePointer 0%nat gb2),
                                  [] ++ [GCodeBuffer.overflow_message])
                       else Some (false, gb2, [])) with
                | x => x = Some (r, gb', msgs) /\ GCodeBuffer.wf gb'
                end) as Hcheck.
    { intros gb2 Hl2. case_decide.
      - rewrite store_Some by lia. cbn [mbind option_bind].
        eexists _, _, _; split; [reflexivity|]. split; bfields; [by rewrite length_insert|lia].
      - eexists _, _, _; split; [reflexivity|]. split; [done|lia]. }
    destruct (_ || _); cbn [mbind option_bind]; apply Hcheck; by bfields.
Qed.
End Put.

Section PutClaims.
Context `{Config}.

Lemma feed_total (debug : bool) (cs : list ascii) : forall gb : GCodeBuffer,
  GCodeBuffer.wf gb ->
  exists rs gb' msgs, GCodeBuffer.feed debug cs gb = Some (rs, gb', msgs)
                      /\ GCodeBuffer.wf gb'.
Proof.
  induction cs as [|c cs IH]; intros gb Hwf; simpl.
  - by eexists _, _, _.
  - destruct (Put_total debug c gb Hwf) as (r & gb1 & m & -> & Hwf1).
    cbn [mbind option_bind].
    destruct (IH gb1 Hwf1) as (rs & gb' & ms & -> & Hwf').
    cbn [mbind option_bind]. by eexists _, _, _.
Qed.

(** The byte that moves the write index to the capacity. *)
Lemma Put_overflow (debug : bool) (c : ascii) (gb : GCodeBuffer) :
  GCodeBuffer.wf gb ->
  c <> NEWLINE -> c <> NUL ->
  (inComment gb = false /\ c <> ";"%char) \/ is_Some (writingFileDirectory gb) ->
  S (gcodePointer gb) = GCODE_LENGTH ->
  exists gb', GCodeBuffer.Put debug c gb = Some (false, gb', [GCodeBuffer.overflow_message])
              /\ gcodePointer gb' = 0%nat
              /\ gcodeBuffer gb' !! 0%nat = Some NUL
              /\ cstring (gcodeBuffer gb') = [].
Proof.
  intros [Hlen Hgp] Hnl Hnul Hstored Hfull. unfold GCodeBuffer.Put.
  rewrite store_Some by lia. cbn [mbind option_bind].
  destruct (Ascii.eqb_spec c NEWLINE) as [|_]; [done|].
  destruct (Ascii.eqb_spec c NUL) as [|_]; [done|].
  cbn [orb].
  set (gb1 := if c =c ";" then _ else _).
  assert (gcodeBuffer gb1 = <[gcodePointer gb := c]> (gcodeBuffer gb)
          /\ gcodePointer gb1 = gcodePointer gb
          /\ writingFileDirectory gb1 = writingFileDirectory gb
          /\ inComment gb1 = (if c =c ";" then true else inComment gb)) as (Hb & Hp & Hw & Hc).
  { unfold gb1. by destruct (c =c ";"). }
  assert (negb (inComment gb1) || bool_decide (is_Some (writingFileDirectory gb1)) = true)
    as ->.
  { rewrite Hc, Hw. destruct Hstored as [[-> Hsemi]|Hdir].
    - by destruct (Ascii.eqb_spec c ";").
    - rewrite (bool_decide_eq_true_2 _ Hdir). apply orb_true_r. }
  cbn [mbind option_bind]. bfields.
  rewrite decide_True by (rewrite Hp; lia).
  rewrite store_Some by (rewrite Hb, length_insert; lia).
  cbn [mbind option_bind]. eexists; split; [reflexivity|]. bfields.
  split; [done|].
  assert (exists rest, <[0%nat := NUL]> (gcodeBuffer gb1) = NUL :: rest) as [rest ->].
  { rewrite Hb. destruct (<[gcodePointer gb := c]> (gcodeBuffer gb)) eqn:E.
    - apply (f_equal length) in E. rewrite length_insert in E. simpl in E. lia.
    - by eexists. }
  done.
Qed.

(** C2.  Whatever bytes are fed to [Put], one at a time, every store it
    makes falls inside the array (the model refuses a store outside it,
    and no [Put] is refused), and the write index stays below
    [GCODE_LENGTH].  The byte that would move the index to [GCODE_LENGTH]
    makes [Put] report "G Code buffer length overflow.", empty the buffer
    (index 0, first byte NUL) and return [false]. *)
Theorem Put_never_writes_past_capacity (debug : bool) (cs : list ascii) (gb : GCodeBuffer) :
  GCodeBuffer.wf gb ->
  exists rs gb' msgs,
    GCodeBuffer.feed debug cs gb = Some (rs, gb', msgs)
    /\ length (gcodeBuffer gb') = GCODE_LENGTH
    /\ (gcodePointer gb' < GCODE_LENGTH)%nat
    /\ forall c : ascii,
         c <> NEWLINE -> c <> NUL ->
         (inComment gb' = false /\ c <> ";"%char) \/ is_Some (writingFileDirectory gb') ->
         S (gcodePointer gb') = GCODE_LENGTH ->
         exists gb'',
           GCodeBuffer.Put debug c gb' = Some (false, gb'', [GCodeBuffer.overflow_message])
           /\ gcodePointer gb'' = 0%nat
           /\ gcodeBuffer gb'' !! 0%nat = Some NUL.
Proof.
  intros Hwf.
  destruct (feed_total debug cs gb Hwf) as (rs & gb' & msgs & Hfeed & Hwf').
  exists rs, gb', msgs. split; [done|]. destruct Hwf' as [Hlen Hgp].
  split; [done|]. split; [done|].
  intros c Hnl Hnul Hstored Hfull.
  destruct (Put_overflow debug c gb') as (gb'' & HPut & Hp & Hb & _); try done.
  by exists gb''.
Qed.
End PutClaims.

Lemma Put_never_writes_past_capacity_witness :
  exists rs gb' msgs,
    GCodeBuffer.feed false (list_ascii_of_string "G1 X10") nearly_full = Some (rs, gb', msgs)
    /\ length (gcodeBuffer gb') = GCODE_LENGTH
    /\ (gcodePointer gb' < GCODE_LENGTH)%nat
    /\ forall c : ascii,
         c <> NEWLINE -> c <> NUL ->
         (inComment gb' = false /\ c <> ";"%char) \/ is_Some (writingFileDirectory gb') ->
         S (gcodePointer gb') = GCODE_LENGTH ->
         exists gb'',
           GCodeBuffer.Put false c gb' = Some (false, gb'', [GCodeBuffer.overflow_message])
           /\ gcodePointer gb'' = 0%nat
           /\ gcodeBuffer gb'' !! 0%nat = Some NUL.
Proof.
  apply Put_never_writes_past_capacity.
  split; [reflexivity | cbv; lia].
Defined.

(** A store at the capacity is refused: the model does tell a write past the
    end from one inside. *)
Example store_at_capacity_refused :
  GCodeBuffer.Put false "G" (set_gcodePointer 100%nat (blank "serial: ")) = None.
Proof. reflexivity. Qed.

Example overflow_resets :
  option_map (fun x => (x.1.1, gcodePointer x.1.2, x.2))
             (GCodeBuffer.Put false "G" nearly_full)
  = Some (false, 0%nat, [GCodeBuffer.overflow_message]).
Proof. reflexivity. Qed.

(** ** The machine: replies and buffer accessors *)

Lemma only_output_refl (r : RepRap) : only_output r r.
Proof. by repeat split. Qed.

Lemma only_output_trans (r1 r2 r3 : RepRap) :
  only_output r1 r2 -> only_output r2 r3 -> only_output r1 r3.
Proof. unfold only_output. intros; destruct_and!; repeat split; congruence. Qed.

Lemma Message_output (t : MessageType) (s : string) (r : RepRap) :
  exists r', Platform.Message t s r = Some (tt, r') /\ only_output r r'.
Proof. eexists; split; [reflexivity|]. by repeat split. Qed.

Lemma LineWrite_output (s : string) (r : RepRap) :
  exists r', Platform.LineWrite s r = Some (tt, r') /\ only_output r r'.
Proof. eexists; split; [reflexivity|]. by repeat split. Qed.

Lemma bind_output {A} (m : M unit) (k : M A) (a : A) (r : RepRap) :
  (forall r0, exists r1, m r0 = Some (tt, r1) /\ only_output r0 r1) ->
  (forall r0, exists r1, k r0 = Some (a, r1) /\ only_output r0 r1) ->
  exists r', (m >> k) r = Some (a, r') /\ only_output r r'.
Proof.
  intros Hm Hk. unfold bind.
  destruct (Hm r) as (r1 & -> & H1). destruct (Hk r1) as (r2 & -> & H2).
  eexists; split; [reflexivity|]. by eapply only_output_trans.
Qed.

Lemma ret_output {A} (a : A) (r : RepRap) :
  exists r', ret a r = Some (a, r') /\ only_output r r'.
Proof. eexists; split; [reflexivity|]. apply only_output_refl. Qed.

Lemma when_output (c : bool) (m : M unit) (r : RepRap) :
  (forall r0, exists r1, m r0 = Some (tt, r1) /\ only_output r0 r1) ->
  exists r', when c m r = Some (tt, r') /\ only_output r r'.
Proof. intros Hm. destruct c; simpl; [apply Hm|apply ret_output]. Qed.

Ltac output :=
  repeat first
    [ apply Message_output | apply LineWrite_output | apply ret_output
    | apply when_output; intros ? | apply bind_output; intros ? ].

Lemma HandleReply_output (error fromLine : bool) (reply : string) (gMOrT : ascii)
    (code : Z) (resend : bool) (r : RepRap) :
  exists r', GCodes.HandleReply error fromLine reply gMOrT code resend r = Some (tt, r')
             /\ only_output r r'.
Proof.
  unfold GCodes.HandleReply.
  apply bind_output; [intros r0; output|]. clear r. intros r.
  unfold bind at 1, plat, gets.
  destruct (if fromLine then emulating (platform r) else me); repeat case_match; output.
Qed.

Lemma buffer_with_buffer (b : BufferId) (gb : GCodeBuffer) (r : RepRap) :
  buffer b (gCodes (with_buffer b gb r)) = gb.
Proof. by destruct b. Qed.

Lemma Seen_loop_lower (c : ascii) (buf : list ascii) : forall i j : Z,
  GCodeBuffer.Seen_loop c buf i = Some j -> i <= j.
Proof.
  induction buf as [|b buf IH]; intros i j; simpl; [done|].
  destruct (_ || _); [done|]. destruct (b =c c); [intros [= <-]; lia|].
  intros Hj. apply IH in Hj. lia.
Qed.

(** [Seen] run on the machine. *)
Lemma Seen_run (b : BufferId) (c : ascii) (r : RepRap) :
  GCodes.Seen b c r =
    Some ((GCodeBuffer.Seen c (buffer b (gCodes r))).1,
          with_buffer b (GCodeBuffer.Seen c (buffer b (gCodes r))).2 r).
Proof.
  unfold GCodes.Seen, GCodes.on_buffer. run.
  by destruct (GCodeBuffer.Seen c (buffer b (gCodes r))).
Qed.

(** [GetIValue] run on the machine after a successful search. *)
Lemma GetIValue_run (b : BufferId) (r : RepRap) :
  0 <= readPointer (buffer b (gCodes r)) ->
  GCodes.GetIValue b r =
    Some (Libc.strtol (GCodeBuffer.field_text (buffer b (gCodes r))),
          with_buffer b (set_readPointer (-1) (buffer b (gCodes r))) r).
Proof.
  intros Hrp. unfold GCodes.GetIValue, GCodes.on_buffer. run.
  unfold GCodeBuffer.GetIValue, GCodeBuffer.GetLValue.
  destruct (Z.ltb_spec (readPointer (buffer b (gCodes r))) 0); [lia|]. reflexivity.
Qed.

Section Resend.
Context `{Config}.

Lemma CheckSum_loop_prefix (buf : list ascii) : forall (i j acc : Z),
  GCodeBuffer.Seen_loop "*" buf i = Some j ->
  GCodeBuffer.CheckSum_loop buf acc
  = foldl Z.lxor acc (Libc.code <$> take (Z.to_nat (j - i)) buf).
Proof.
  induction buf as [|b buf IH]; intros i j acc; simpl; [done|].
  destruct (Ascii.eqb_spec b NUL) as [->|Hnul]; [done|]. simpl.
  destruct (b =c ";"); [done|].
  destruct (Ascii.eqb_spec b "*") as [->|Hstar].
  - intros [= <-]. by rewrite Z.sub_diag.
  - intros Hj. pose proof (Seen_loop_lower _ _ _ _ Hj).
    rewrite (IH _ _ _ Hj).
    replace (Z.to_nat (j - i)) with (S (Z.to_nat (j - (i + 1)))) by lia.
    reflexivity.
Qed.
End Resend.

(** ** File handles *)

(** Closing a handle changes the interpreter only in that handle. *)
Lemma set_file_var_None_id (v : FileVar) (g : GCodes) :
  file_var v g = None -> set_file_var v None g = g.
Proof.
  destruct g, v as [| | |i]; simpl; intros Hv; subst; try reflexivity.
  unfold set_fileStack; simpl. f_equal.
  match goal with
  | |- <[i := None]> ?stack = _ => destruct (stack !! i) as [f|] eqn:Hi
  end; simpl in Hv.
  - subst. by apply list_insert_id.
  - apply list_insert_ge. by apply lookup_ge_None_1.
Qed.

Lemma Platform_Close_gCodes (i : nat) (r : RepRap) :
  exists ok r', Platform.Close i r = Some (ok, r')
                /\ gCodes r' = gCodes r /\ move r' = move r.
Proof.
  unfold Platform.Close, Platform.update_store, Platform.Message. run.
  repeat (case_match; run); by eexists _, _.
Qed.

Lemma Platform_Duplicate_gCodes (i : nat) (r : RepRap) :
  exists r', Platform.Duplicate i r = Some (tt, r')
             /\ gCodes r' = gCodes r /\ move r' = move r.
Proof.
  unfold Platform.Duplicate, Platform.update_store, Platform.Message. run.
  repeat (case_match; run); by eexists.
Qed.

Lemma FileData_Close_gCodes (v : FileVar) (r : RepRap) :
  exists r', FileData.Close v r = Some (tt, r')
             /\ gCodes r' = set_file_var v None (gCodes r) /\ move r' = move r.
Proof.
  unfold FileData.Close. unfold bind at 1, gc, gets. cbv beta iota.
  destruct (file_var v (gCodes r)) as [i|] eqn:Hv.
  - unfold bind. destruct (Platform_Close_gCodes i r) as (ok & r' & -> & Hg & Hm).
    unfold update, modify. eexists; split; [reflexivity|]. fields. by rewrite Hg.
  - eexists; split; [reflexivity|]. by rewrite set_file_var_None_id.
Qed.

Lemma FileData_CopyFrom_gCodes (v other : FileVar) (r : RepRap) :
  exists r', FileData.CopyFrom v other r = Some (tt, r')
             /\ gCodes r' = set_file_var v (file_var other (set_file_var v None (gCodes r)))
                              (set_file_var v None (gCodes r))
             /\ move r' = move r.
Proof.
  unfold FileData.CopyFrom. unfold bind at 1.
  destruct (FileData_Close_gCodes v r) as (r1 & -> & Hg1 & Hm1).
  run. rewrite Hg1.
  destruct (file_var other _) as [i|].
  - match goal with
    | |- context [Platform.Duplicate i ?r0] =>
        destruct (Platform_Duplicate_gCodes i r0) as (r' & -> & Hg & Hm)
    end.
    eexists; split; [reflexivity|]. rewrite Hg, Hm. by fields.
  - eexists; split; [reflexivity|]. by fields.
Qed.

Lemma FileData_MoveFrom_gCodes (v other : FileVar) (r : RepRap) :
  exists r', FileData.MoveFrom v other r = Some (tt, r')
             /\ gCodes r' = set_file_var other None
                              (set_file_var v (file_var other (set_file_var v None (gCodes r)))
                                 (set_file_var v None (gCodes r)))
             /\ move r' = move r.
Proof.
  unfold FileData.MoveFrom. unfold bind at 1.
  destruct (FileData_Close_gCodes v r) as (r1 & -> & Hg1 & Hm1).
  run. rewrite Hg1. eexists; split; [reflexivity|]. by fields.
Qed.

(** ** The planner gate and the state stack *)

Lemma copy_shifted (src dst : list float) (from n : nat) :
  (from + n <= length src)%nat -> (n <= length dst)%nat ->
  foldl (fun a i => <[(i - from)%nat := fget src i]> a) dst (seq from n)
  = take n (drop from src) ++ drop n dst.
Proof.
  revert dst. induction n as [|n IH]; intros dst Hs Hd.
  - by rewrite take_0, drop_0.
  - rewrite seq_S, foldl_app. cbn [foldl]. rewrite IH by lia.
    replace (from + n - from)%nat with n by lia.
    destruct (lookup_lt_is_Some_2 src (from + n)) as [x Hx]; [lia|].
    unfold fget. rewrite Hx. cbn [default].
    assert (drop from src !! n = Some x) as Hx' by (by rewrite lookup_drop).
    rewrite (take_S_r _ _ _ Hx').
    rewrite insert_app_r_alt by (rewrite length_take, length_drop; lia).
    rewrite length_take, length_drop, Nat.min_l by lia. rewrite Nat.sub_diag.
    destruct (lookup_lt_is_Some_2 dst n) as [y Hy]; [lia|].
    rewrite (drop_S _ _ _ Hy). by rewrite <- app_assoc.
Qed.

Section Stack.
Context `{Config}.

Lemma AllMoves_idle (r : RepRap) (p : list float) :
  moveAvailable (gCodes r) = false ->
  allMovesAreFinished (move r) = true ->
  currentUserPosition (move r) = Some p ->
  GCodes.AllMovesAreFinishedAndMoveBufferIsLoaded r =
    Some (true,
          set_gCodes (set_moveBuffer p (gCodes r))
            (set_move (set_moveCalls (moveCalls (move r) ++ [ResumeMoving]) (move r)) r)).
Proof.
  intros Hpending Hfin Hpos. unfold GCodes.AllMovesAreFinishedAndMoveBufferIsLoaded.
  unfold Move.call, Move.GetCurrentUserPosition.
  run. rewrite Hpending. run. rewrite Hfin. run. rewrite Hpos. run.
  reflexivity.
Qed.

(** [Push] with room on the stack and the planner idle at [p]. *)
Lemma Push_run (r : RepRap) (p : list float) :
  (stackPointer (gCodes r) < STACK)%nat ->
  moveAvailable (gCodes r) = false ->
  allMovesAreFinished (move r) = true ->
  currentUserPosition (move r) = Some p ->
  let g := gCodes r in
  let sp := stackPointer g in
  exists r1,
    GCodes.Push r = Some (true, r1)
    /\ gCodes r1 =
         set_stackPointer (S sp)
           (set_file_var (Stacked sp) (fileBeingPrinted g)
              (set_file_var (Stacked sp) None
                 (set_feedrateStack (<[sp := fget p DRIVES]> (feedrateStack g))
                    (set_axesRelativeStack (<[sp := axesRelative g]> (axesRelativeStack g))
                       (set_drivesRelativeStack
                          (<[sp := drivesRelative g]> (drivesRelativeStack g))
                          (set_moveBuffer p g))))))
    /\ allMovesAreFinished (move r1) = true
    /\ currentUserPosition (move r1) = Some p.
Proof.
  intros Hsp Hpending Hfin Hpos g sp. unfold GCodes.Push.
  unfold bind at 1. unfold gc at 1, gets at 1. cbv beta iota.
  rewrite decide_False by lia.
  unfold bind at 1. rewrite (AllMoves_idle r p) by done. cbn [negb].
  run.
  match goal with
  | |- context [FileData.CopyFrom ?v ?o ?r0] =>
      destruct (FileData_CopyFrom_gCodes v o r0) as (r1 & -> & Hg & Hm)
  end.
  unfold Platform.PushMessageIndent. run.
  eexists; split; [reflexivity|]. fields. rewrite Hg, Hm. fields.
  split; [reflexivity|]. by split.
Qed.

(** [Pop] with a frame on the stack and the planner idle at [p]. *)
Lemma Pop_run (r : RepRap) (p : list float) :
  (0 < stackPointer (gCodes r))%nat ->
  moveAvailable (gCodes r) = false ->
  allMovesAreFinished (move r) = true ->
  currentUserPosition (move r) = Some p ->
  let g := gCodes r in
  let sp := pred (stackPointer g) in
  exists r2,
    GCodes.Pop r = Some (true, r2)
    /\ gCodes r2 =
         set_moveAvailable true
           (set_checkEndStops false
              (set_moveBuffer (<[DRIVES := fget (feedrateStack g) sp]> p)
                 (set_lastPos
                    (foldl (fun a i => <[(i - AXES)%nat := fget p i]> a) (lastPos g)
                           (seq AXES (DRIVES - AXES)))
                    (set_file_var (Stacked sp) None
                       (set_file_var BeingPrinted (file_var (Stacked sp) g)
                          (set_file_var BeingPrinted None
                             (set_axesRelative (bget (axesRelativeStack g) sp)
                                (set_drivesRelative (bget (drivesRelativeStack g) sp)
                                   (set_stackPointer sp (set_moveBuffer p g))))))))))
    /\ allMovesAreFinished (move r2) = true
    /\ currentUserPosition (move r2) = Some p.
Proof.
  intros Hsp Hpending Hfin Hpos g sp. unfold GCodes.Pop.
  unfold bind at 1. unfold gc at 1, gets at 1. cbv beta iota.
  rewrite decide_False by lia.
  unfold bind at 1. rewrite (AllMoves_idle r p) by done. cbn [negb].
  run.
  match goal with
  | |- context [FileData.MoveFrom ?v ?o ?r0] =>
      destruct (FileData_MoveFrom_gCodes v o r0) as (r1 & -> & Hg & Hm)
  end.
  unfold Platform.PopMessageIndent. run.
  eexists; split; [reflexivity|]. fields. rewrite Hg, Hm. fields.
  split; [reflexivity|]. by split.
Qed.
End Stack.

Section PushPop.
Context `{Config}.

(** C3 (amended).  When [Push] completes with room on the stack and [Pop]
    follows at once, the planner reporting the same position [p] to both:
    [drivesRelative], [axesRelative], the stack pointer and the file
    handle are restored, [distanceScale], [axisIsHomed], [limitAxes], the
    speed and extrusion factors are untouched; the move record is the
    planner's position [p], whose feedrate slot is the feedrate saved by
    [Push]; [lastPos] is overwritten with the extruder entries of [p];
    [checkEndStops] is cleared and [moveAvailable] is set, the null move
    that re-applies the feedrate. *)
Theorem push_then_pop (r : RepRap) (p : list float) :
  let g := gCodes r in
  (stackPointer g < STACK)%nat ->
  length (drivesRelativeStack g) = STACK ->
  length (axesRelativeStack g) = STACK ->
  length (feedrateStack g) = STACK ->
  length (fileStack g) = STACK ->
  moveAvailable g = false ->
  allMovesAreFinished (move r) = true ->
  currentUserPosition (move r) = Some p ->
  length p = S DRIVES ->
  length (lastPos g) = (DRIVES - AXES)%nat ->
  (AXES <= DRIVES)%nat ->
  exists r1 r2,
    GCodes.Push r = Some (true, r1)
    /\ GCodes.Pop r1 = Some (true, r2)
    /\ drivesRelative (gCodes r2) = drivesRelative g
    /\ axesRelative (gCodes r2) = axesRelative g
    /\ stackPointer (gCodes r2) = stackPointer g
    /\ fileBeingPrinted (gCodes r2) = fileBeingPrinted g
    /\ distanceScale (gCodes r2) = distanceScale g
    /\ axisIsHomed (gCodes r2) = axisIsHomed g
    /\ limitAxes (gCodes r2) = limitAxes g
    /\ speedFactor (gCodes r2) = speedFactor g
    /\ speedFactorChange (gCodes r2) = speedFactorChange g
    /\ extrusionFactors (gCodes r2) = extrusionFactors g
    /\ moveBuffer (gCodes r2) = p
    /\ lastPos (gCodes r2) = take (DRIVES - AXES) (drop AXES p)
    /\ checkEndStops (gCodes r2) = false
    /\ moveAvailable (gCodes r2) = true.
Proof.
  intros g Hsp Hds Has Hfs Hfiles Hpending Hfin Hpos Hp Hlast Haxes.
  destruct (Push_run r p) as (r1 & HPush & Hg1 & Hfin1 & Hpos1); try done.
  fold g in Hg1.
  destruct (Pop_run r1 p) as (r2 & HPop & Hg2 & _); try done.
  { rewrite Hg1. fields. lia. }
  { rewrite Hg1. by fields. }
  exists r1, r2. split; [done|]. split; [done|].
  rewrite Hg2, Hg1. fields. cbn [Nat.pred].
  rewrite copy_shifted by lia.
  rewrite (drop_ge (lastPos g)) by lia. rewrite app_nil_r.
  unfold bget, fget.
  rewrite !list_lookup_insert_eq by (rewrite ?length_insert; lia). cbn [default mjoin].
  split; [done|]. split; [done|]. split; [done|].
  split; [done|].
  split; [done|]. split; [done|]. split; [done|]. split; [done|].
  split; [done|]. split; [done|].
  split.
  { apply list_insert_id.
    destruct (lookup_lt_is_Some_2 p DRIVES) as [x Hx]; [lia|]. by rewrite Hx. }
  done.
Qed.
End PushPop.

Lemma push_then_pop_witness :
  exists r1 r2,
    GCodes.Push booted = Some (true, r1)
    /\ GCodes.Pop r1 = Some (true, r2)
    /\ drivesRelative (gCodes r2) = drivesRelative (gCodes booted)
    /\ axesRelative (gCodes r2) = axesRelative (gCodes booted)
    /\ stackPointer (gCodes r2) = stackPointer (gCodes booted)
    /\ fileBeingPrinted (gCodes r2) = fileBeingPrinted (gCodes booted)
    /\ distanceScale (gCodes r2) = distanceScale (gCodes booted)
    /\ axisIsHomed (gCodes r2) = axisIsHomed (gCodes booted)
    /\ limitAxes (gCodes r2) = limitAxes (gCodes booted)
    /\ speedFactor (gCodes r2) = speedFactor (gCodes booted)
    /\ speedFactorChange (gCodes r2) = speedFactorChange (gCodes booted)
    /\ extrusionFactors (gCodes r2) = extrusionFactors (gCodes booted)
    /\ moveBuffer (gCodes r2) = replicate 9 Float.zero
    /\ lastPos (gCodes r2) = take (DRIVES - AXES) (drop AXES (replicate 9 Float.zero))
    /\ checkEndStops (gCodes r2) = false
    /\ moveAvailable (gCodes r2) = true.
Proof.
  apply (push_then_pop booted (replicate 9 Float.zero));
    try reflexivity; vm_compute; lia.
Defined.

(** C3 as stated fails: on a machine with nothing pending, a stale end-stop
    flag and 5 mm in the first accumulator, [Push] and [Pop] both complete,
    after which a move is pending, the end-stop flag is cleared and the
    accumulator holds the planner's value. *)
Lemma push_pop_changes_flags_and_accumulators :
  exists r1 r2,
    GCodes.Push after_rejected_endstop_move = Some (true, r1)
    /\ GCodes.Pop r1 = Some (true, r2)
    /\ moveAvailable (gCodes after_rejected_endstop_move) = false
    /\ moveAvailable (gCodes r2) = true
    /\ checkEndStops (gCodes after_rejected_endstop_move) = true
    /\ checkEndStops (gCodes r2) = false
    /\ fget (lastPos (gCodes after_rejected_endstop_move)) 0 = Float.of_Z 5
    /\ fget (lastPos (gCodes r2)) 0 = Float.zero.
Proof.
  vm_compute. eexists _, _. repeat split.
Qed.

(** ** Accessors run on the machine *)

Lemma messages_output (t : MessageType) (msgs : list string) : forall r : RepRap,
  exists r', for_each msgs (Platform.Message t) r = Some (tt, r') /\ only_output r r'.
Proof.
  induction msgs as [|m msgs IH]; intros r; simpl.
  - apply ret_output.
  - apply bind_output; [intros r0; apply Message_output | apply IH].
Qed.

Lemma on_buffer_run {A} (b : BufferId) (f : GCodeBuffer -> A * GCodeBuffer * list string)
    (r : RepRap) :
  exists r', GCodes.on_buffer b f r = Some ((f (buffer b (gCodes r))).1.1, r')
             /\ only_output (with_buffer b (f (buffer b (gCodes r))).1.2 r) r'.
Proof.
  unfold GCodes.on_buffer. run.
  destruct (f (buffer b (gCodes r))) as [[a gb'] msgs]. run.
  destruct (messages_output HOST_MESSAGE msgs (with_buffer b gb' r)) as (r' & Hr' & Hout).
  unfold with_buffer in Hr'. rewrite Hr'. by eexists.
Qed.

Lemma GetIValue_frame (b : BufferId) (r : RepRap) :
  exists code r', GCodes.GetIValue b r = Some (code, r')
    /\ exists gb', only_output (with_buffer b gb' r) r'
                   /\ gcodeBuffer gb' = gcodeBuffer (buffer b (gCodes r)).
Proof.
  destruct (on_buffer_run b GCodeBuffer.GetIValue r) as (r' & Hr' & Hout).
  eexists _, _; split; [exact Hr'|]. eexists; split; [exact Hout|].
  apply GetIValue_line.
Qed.

Section Gate.
Context `{Config}.

(** The gate answers [true] exactly when it is open; it never touches the
    pending flag nor the interpreter's waiting flag. *)
Lemma AllMoves_spec (r : RepRap) :
  exists res r',
    GCodes.AllMovesAreFinishedAndMoveBufferIsLoaded r = Some (res, r')
    /\ (res = true <-> gate_open r)
    /\ moveAvailable (gCodes r') = moveAvailable (gCodes r)
    /\ waitingForMoveToComplete (gCodes r') = waitingForMoveToComplete (gCodes r)
    /\ checkEndStops (gCodes r') = checkEndStops (gCodes r).
Proof.
  unfold GCodes.AllMovesAreFinishedAndMoveBufferIsLoaded, gate_open.
  unfold Move.call, Move.GetCurrentUserPosition. run.
  destruct (moveAvailable (gCodes r)) eqn:Hpending; run.
  { eexists _, _; split; [reflexivity|]. split; [|done]. split; [done|]. by intros []. }
  destruct (allMovesAreFinished (move r)) eqn:Hfin; run.
  2:{ eexists _, _; split; [reflexivity|]. split; [|done]. split; [done|].
      by intros (_ & ? & _). }
  destruct (currentUserPosition (move r)) as [p|] eqn:Hpos; run.
  - eexists _, _; split; [reflexivity|]. split; [|done]. split; [|done].
    intros _. by repeat split.
  - eexists _, _; split; [reflexivity|]. split; [|done]. split; [done|].
    intros (_ & _ & [? ?]). done.
Qed.
End Gate.

(** ** The resend request *)

Lemma uint_digits (d : Decimal.uint) :
  Forall (fun c => c <> ";"%char /\ c <> "G"%char)
         (list_ascii_of_string (NilEmpty.string_of_uint d)).
Proof. induction d; simpl; constructor; (done || by apply IHd). Qed.

Lemma print_int_digits (n : Z) :
  Forall (fun c => c <> ";"%char /\ c <> "G"%char) (Libc.print_int n).
Proof.
  unfold Libc.print_int, NilZero.string_of_int, NilZero.string_of_uint.
  destruct (Z.to_int n) as [d|d]; destruct d; simpl;
    repeat (constructor; [done|]); try apply uint_digits; constructor.
Qed.

(** A letter that the text before the NUL does not have is not found. *)
Lemma Seen_loop_absent (c : ascii) (text tail : list ascii) : forall i : Z,
  Forall (fun x => x <> c) text ->
  GCodeBuffer.Seen_loop c (text ++ NUL :: tail) i = None.
Proof.
  induction text as [|x text IH]; intros i Habsent; [done|].
  apply Forall_cons in Habsent as [Hx Hrest]. cbn [app GCodeBuffer.Seen_loop].
  destruct ((x =c NUL) || (x =c ";")); [done|].
  destruct (Ascii.eqb_spec x c) as [?|_]; [done|]. by apply IH.
Qed.

Lemma resend_text_has_no_G (n : Z) (tail : list ascii) :
  GCodeBuffer.Seen_loop "G" (GCodeBuffer.resend_text n ++ NUL :: tail) 0 = None.
Proof.
  apply Seen_loop_absent. unfold GCodeBuffer.resend_text. apply Forall_app. split.
  - simpl. repeat (constructor; [done|]). constructor.
  - eapply Forall_impl; [apply print_int_digits|]. by intros x [_ ?].
Qed.

Lemma resend_text_is_M998 (n : Z) (tail : list ascii) (gb : GCodeBuffer) :
  gcodeBuffer gb = GCodeBuffer.resend_text n ++ NUL :: tail ->
  code_after "M" gb = Some 998.
Proof.
  intros Hbuf. unfold code_after, GCodeBuffer.Seen. rewrite Hbuf.
  cbn [GCodeBuffer.resend_text app list_ascii_of_string GCodeBuffer.Seen_loop].
  cbn -[Libc.strtol Libc.print_int].
  unfold GCodeBuffer.GetIValue, GCodeBuffer.GetLValue, GCodeBuffer.field_text. bfields.
  rewrite Hbuf. reflexivity.
Qed.

Section Resend.
Context `{Config}.

(** Acting on the resend request reaches the M998 case with its P
    field, whose [snprintf] is given an [int] for a [%s]: the call has no
    defined result. *)
Remark resend_request_has_no_defined_answer (fuel : nat) (b : BufferId) (r : RepRap)
    (n : Z) (tail : list ascii) :
  gcodeBuffer (buffer b (gCodes r)) = GCodeBuffer.resend_text n ++ NUL :: tail ->
  GCodes.ActOnCode (S fuel) b r = None.
Proof.
  intros Hbuf. cbn [GCodes.ActOnCode]. unfold GCodes.ActOnCode_body.
  unfold bind at 1. rewrite Seen_run.
  assert (GCodeBuffer.Seen "M" (buffer b (gCodes r))
          = (true, set_readPointer 0 (buffer b (gCodes r)))) as ->.
  { unfold GCodeBuffer.Seen. by rewrite Hbuf. }
  cbn [fst snd]. unfold GCodes.HandleMcode.
  unfold bind at 1. rewrite GetIValue_run by (by rewrite buffer_with_buffer).
  rewrite buffer_with_buffer. unfold GCodeBuffer.field_text. bfields. rewrite Hbuf.
  assert (Libc.strtol (drop (Z.to_nat (0 + 1)) (GCodeBuffer.resend_text n ++ NUL :: tail))
          = 998) as -> by reflexivity.
  cbn [Z.eqb Pos.eqb]. unfold bind at 1. unfold bind at 1. rewrite Seen_run.
  rewrite buffer_with_buffer.
  assert (forall gb, gcodeBuffer gb = GCodeBuffer.resend_text n ++ NUL :: tail ->
            GCodeBuffer.Seen "P" gb = (true, set_readPointer 5 gb)) as HP.
  { intros gb Hgb. unfold GCodeBuffer.Seen. by rewrite Hgb. }
  rewrite HP by (by bfields). cbn [fst snd].
  unfold bind at 1. rewrite GetIValue_run by (by rewrite buffer_with_buffer).
  reflexivity.
Qed.

(** C1.  When a line ends ('\n' or NUL) and its buffer holds a '*' field,
    [Put] compares the integer after the '*' with the XOR (low 8 bits) of
    the bytes before the '*'.  If they differ, [Put] returns [true] with
    the buffer holding exactly [M998 P<n>], where [n] is the integer after
    the first 'N' of the line (0 when the line has no 'N'), and the buffer
    is reset to its start.  No move is queued for the line: what is left
    for the dispatcher is the M command 998 and no G command, and the call
    of [Put] on the machine changes the buffer and may send messages, while
    the move slot and the planner are as before. *)
Theorem checksum_mismatch_requests_resend (dbg : bool) (c : ascii)
    (gb : GCodeBuffer) (star : Z) :
  GCodeBuffer.wf gb ->
  c = NEWLINE \/ c = NUL ->
  let text := <[gcodePointer gb := NUL]> (gcodeBuffer gb) in
  GCodeBuffer.Seen_loop "*" text 0 = Some star ->
  let csSent := Libc.strtol (drop (Z.to_nat (star + 1)) text) in
  let csHere := Z.land (foldl Z.lxor 0 (Libc.code <$> take (Z.to_nat star) text)) 255 in
  let n := match GCodeBuffer.Seen_loop "N" text 0 with
           | Some i => Libc.strtol (drop (Z.to_nat (i + 1)) text)
           | None => 0
           end in
  csSent <> csHere ->
  (length (GCodeBuffer.resend_text n) < GCODE_LENGTH)%nat ->
  exists gb' msgs,
    GCodeBuffer.Put dbg c gb = Some (true, gb', msgs)
    /\ cstring (gcodeBuffer gb') = GCodeBuffer.resend_text n
    /\ gcodePointer gb' = 0%nat
    /\ state gb' = idle
    /\ code_after "M" gb' = Some 998
    /\ code_after "G" gb' = None
    /\ forall (b : BufferId) (r : RepRap),
         buffer b (gCodes r) = gb ->
         debug r = dbg ->
         exists r', GCodes.Put b c r = Some (true, r')
                    /\ buffer b (gCodes r') = gb'
                    /\ moveAvailable (gCodes r') = moveAvailable (gCodes r)
                    /\ moveBuffer (gCodes r') = moveBuffer (gCodes r)
                    /\ move r' = move r.
Proof.
  intros [Hlen Hgp] Hc text Hstar csSent csHere n Hbad Hfits.
  assert (length text = GCODE_LENGTH) as Htext by (unfold text; by rewrite length_insert).
  assert (exists gb' msgs tail,
            GCodeBuffer.Put dbg c gb = Some (true, gb', msgs)
            /\ gcodeBuffer gb' = GCodeBuffer.resend_text n ++ NUL :: tail
            /\ gcodePointer gb' = 0%nat /\ state gb' = idle)
    as (gb' & msgs & tail & HPut & Hbuf & Hptr & Hstate).
  { unfold GCodeBuffer.Put. rewrite store_Some by lia. cbn [mbind option_bind].
    assert ((c =c NEWLINE) || (c =c NUL) = true) as ->.
    { destruct Hc as [-> | ->]; reflexivity. }
    assert ((c =c ";") = false) as -> by (destruct Hc as [-> | ->]; reflexivity).
    unfold GCodeBuffer.end_of_line. bfields.
    rewrite store_Some by (rewrite length_insert; lia). cbn [mbind option_bind].
    rewrite list_insert_insert_eq. fold text.
    unfold GCodeBuffer.Seen at 1. bfields. rewrite Hstar.
    unfold GCodeBuffer.GetIValue at 1, GCodeBuffer.GetLValue. bfields.
    pose proof (Seen_loop_lower _ _ _ _ Hstar) as Hstar0.
    destruct (Z.ltb_spec star 0) as [|_]; [lia|].
    unfold GCodeBuffer.CheckSum, GCodeBuffer.field_text. bfields.
    rewrite (CheckSum_loop_prefix _ _ _ _ Hstar), Z.sub_0_r.
    fold csSent csHere.
    destruct (GCodeBuffer.Seen "N" _) as [sN gbN] eqn:HN.
    destruct (Z.eqb_spec csSent csHere) as [|_]; [done|]. cbn [negb].
    destruct (GCodeBuffer.GetIValue gbN) as [[n0 gb0] m0] eqn:Hn0.
    assert (n0 = n /\ gcodeBuffer gb0 = text /\ gcodePointer gb0 = 0%nat)
      as (-> & Hb0 & Hp0).
    { revert HN Hn0.
      unfold GCodeBuffer.Seen, GCodeBuffer.GetIValue, GCodeBuffer.GetLValue,
        GCodeBuffer.field_text, n.
      bfields.
      destruct (GCodeBuffer.Seen_loop "N" text 0) as [i|] eqn:E; intros [= <- <-]; bfields.
      - pose proof (Seen_loop_lower _ _ _ _ E).
        destruct (Z.ltb_spec i 0) as [|_]; [lia|]. by intros [= <- <- <-].
      - by intros [= <- <- <-]. }
    rewrite snprintf_Some by (rewrite Hb0, Htext; lia).
    cbn [mbind option_bind].
    replace (take (GCODE_LENGTH - 1) (GCodeBuffer.resend_text n))
      with (GCodeBuffer.resend_text n) by (rewrite take_ge; [done|lia]).
    eexists _, _, _; split; [reflexivity|]. bfields.
    rewrite <- app_assoc. cbn [app]. by repeat split. }
  exists gb', msgs. split; [done|].
  split; [rewrite Hbuf; apply cstring_app, resend_text_no_NUL|].
  split; [done|]. split; [done|].
  split; [by eapply resend_text_is_M998|].
  split.
  { unfold code_after, GCodeBuffer.Seen. by rewrite Hbuf, resend_text_has_no_G. }
  intros b r Hb Hdebug. unfold GCodes.Put. run. rewrite Hb, Hdebug, HPut. run.
  match goal with
  | |- context [for_each msgs ?f ?x] =>
      destruct (messages_output HOST_MESSAGE msgs x) as (r' & -> & Hg & Hm & _)
  end.
  exists r'. split; [done|]. rewrite Hg, Hm. fields.
  split; [by destruct b|]. by destruct b.
Qed.
End Resend.

Lemma checksum_mismatch_requests_resend_witness :
  exists gb' msgs,
    GCodeBuffer.Put false NEWLINE unterminated_N10 = Some (true, gb', msgs)
    /\ cstring (gcodeBuffer gb') = list_ascii_of_string "M998 P10"
    /\ gcodePointer gb' = 0%nat
    /\ state gb' = idle
    /\ code_after "M" gb' = Some 998
    /\ code_after "G" gb' = None
    /\ forall (b : BufferId) (r : RepRap),
         buffer b (gCodes r) = unterminated_N10 ->
         debug r = false ->
         exists r', GCodes.Put b NEWLINE r = Some (true, r')
                    /\ buffer b (gCodes r') = gb'
                    /\ moveAvailable (gCodes r') = moveAvailable (gCodes r)
                    /\ moveBuffer (gCodes r') = moveBuffer (gCodes r)
                    /\ move r' = move r.
Proof.
  apply (checksum_mismatch_requests_resend false NEWLINE unterminated_N10 9).
  - split; [reflexivity | vm_compute; lia].
  - left; reflexivity.
  - reflexivity.
  - vm_compute. discriminate.
  - vm_compute. lia.
Defined.

(** ** The extruder loop of [LoadMoveBufferFromGCode] *)

Lemma array_fill_length {A} (from count : nat) (v : A) (a : list A) :
  length (array_fill from count v a) = length a.
Proof.
  unfold array_fill. revert a. generalize (seq from count) as idx.
  induction idx as [|i idx IH]; intros a; simpl; [done|].
  by rewrite IH, length_insert.
Qed.

Lemma array_fill_lookup {A} (from count : nat) (v : A) (a : list A) (i : nat) :
  array_fill from count v a !! i
  = if decide (from <= i < from + count /\ i < length a)%nat then Some v else a !! i.
Proof.
  unfold array_fill. revert from a. induction count as [|n IH]; intros from a.
  - simpl. rewrite decide_False by lia. done.
  - rewrite seq_S, foldl_app. cbn [foldl].
    fold (array_fill from n v a).
    destruct (decide (i = from + n)%nat) as [->|Hne].
    + destruct (decide (from + n < length a)%nat).
      * rewrite list_lookup_insert_eq by (rewrite array_fill_length; lia).
        by rewrite decide_True by lia.
      * rewrite list_insert_ge by (rewrite array_fill_length; lia).
        unfold array_fill. rewrite IH. rewrite !decide_False by lia. done.
    + rewrite list_lookup_insert_ne by done. unfold array_fill. rewrite IH.
      destruct (decide (from <= i < from + n /\ i < length a)%nat).
      * by rewrite decide_True by lia.
      * by rewrite decide_False by lia.
Qed.

Section Extruders.
Variables (tool : Tool) (eMovement : list float).

(** In a G92 the loop writes only zeros into the move record, and the
    supplied values into the accumulators. *)
Lemma load_extruders_G92 (n : nat) (g : GCodes) :
  (n <= length (drives tool))%nat ->
  NoDup (drives tool) ->
  exists l m,
    foldl (GCodes.load_extruder true tool eMovement) g (seq 0 n)
    = set_lastPos l (set_moveBuffer m g)
    /\ length l = length (lastPos g)
    /\ length m = length (moveBuffer g)
    /\ (forall i, m !! i = moveBuffer g !! i \/ m !! i = Some Float.zero)
    /\ (forall i, (i < AXES)%nat -> m !! i = moveBuffer g !! i)
    /\ (forall e d, (e < n)%nat -> drives tool !! e = Some d ->
          (d < length (lastPos g))%nat ->
          l !! d = Some (Float.mul (fget eMovement e) (distanceScale g)))
    /\ (forall d, (forall e, (e < n)%nat -> drives tool !! e <> Some d) ->
          l !! d = lastPos g !! d).
Proof.
  intros Hn Hnodup. induction n as [|n IH].
  - exists (lastPos g), (moveBuffer g). split; [by destruct g|].
    repeat split; auto; intros; lia.
  - destruct IH as (l & m & Hfold & Hl & Hm & Hzero & Haxes & Hset & Hkeep); [lia|].
    rewrite seq_S, Nat.add_0_l, foldl_app, Hfold. cbn [foldl].
    destruct (lookup_lt_is_Some_2 (drives tool) n) as [d Hd]; [lia|].
    exists (<[d := Float.mul (fget eMovement n) (distanceScale g)]> l),
           (<[(d + AXES)%nat := Float.zero]> m).
    split; [unfold GCodes.load_extruder; rewrite Hd; reflexivity|].
    rewrite !length_insert. split; [done|]. split; [done|].
    split.
    { intros i. destruct (decide (i = d + AXES)%nat) as [->|Hne].
      - destruct (decide (d + AXES < length m)%nat).
        + right. by apply list_lookup_insert_eq.
        + rewrite list_insert_ge by lia. apply Hzero.
      - rewrite list_lookup_insert_ne by done. apply Hzero. }
    split.
    { intros i Hi. rewrite list_lookup_insert_ne by lia. by apply Haxes. }
    split.
    { intros e d' He Hd' Hlen.
      destruct (decide (e = n)) as [->|Hne].
      - rewrite Hd in Hd'. injection Hd' as <-.
        apply list_lookup_insert_eq. lia.
      - assert (d <> d') as Hdd.
        { intros <-. apply Hne. eapply NoDup_lookup; eauto. }
        rewrite list_lookup_insert_ne by done. apply Hset; [lia|done|done]. }
    { intros d' Hnone.
      assert (d <> d') as Hdd by (intros <-; by apply (Hnone n); [lia|]).
      rewrite list_lookup_insert_ne by done. apply Hkeep.
      intros e He. apply Hnone. lia. }
Qed.

(** With relative extrusion the loop puts into the move record the
    supplied values, scaled and multiplied by the extrusion factor; what it
    puts there does not depend on the accumulators. *)
Lemma load_extruders_relative (n : nat) (g : GCodes) :
  drivesRelative g = true ->
  (n <= length (drives tool))%nat ->
  NoDup (drives tool) ->
  exists l m,
    foldl (GCodes.load_extruder false tool eMovement) g (seq 0 n)
    = set_lastPos l (set_moveBuffer m g)
    /\ length m = length (moveBuffer g)
    /\ (forall e d, (e < n)%nat -> drives tool !! e = Some d ->
          (d + AXES < length (moveBuffer g))%nat ->
          m !! (d + AXES)%nat
          = Some (Float.mul (Float.mul (fget eMovement e) (distanceScale g))
                            (fget (extrusionFactors g) d)))
    /\ (forall i, (forall e d, (e < n)%nat -> drives tool !! e = Some d ->
                     i <> (d + AXES)%nat) ->
          m !! i = moveBuffer g !! i)
    /\ forall l0, exists l1,
         foldl (GCodes.load_extruder false tool eMovement) (set_lastPos l0 g) (seq 0 n)
         = set_lastPos l1 (set_moveBuffer m g).
Proof.
  intros Hrel Hn Hnodup. induction n as [|n IH].
  - exists (lastPos g), (moveBuffer g). split; [by destruct g|].
    split; [done|]. split; [intros; lia|]. split; [done|].
    intros l0. exists l0. by destruct g.
  - destruct IH as (l & m & Hfold & Hm & Hset & Hkeep & Hindep); [lia|].
    rewrite seq_S, Nat.add_0_l, foldl_app, Hfold. cbn [foldl].
    destruct (lookup_lt_is_Some_2 (drives tool) n) as [d Hd]; [lia|].
    set (v := Float.mul (Float.mul (fget eMovement n) (distanceScale g))
                        (fget (extrusionFactors g) d)).
    exists (<[d := Float.add (fget l d) (Float.mul (fget eMovement n) (distanceScale g))]> l),
           (<[(d + AXES)%nat := v]> m).
    split.
    { unfold GCodes.load_extruder. rewrite Hd. fields. rewrite Hrel. reflexivity. }
    rewrite length_insert. split; [done|].
    split.
    { intros e d' He Hd' Hlen.
      destruct (decide (e = n)) as [->|Hne].
      - rewrite Hd in Hd'. injection Hd' as <-.
        apply list_lookup_insert_eq. lia.
      - assert (d <> d') as Hdd.
        { intros <-. apply Hne. eapply NoDup_lookup; eauto. }
        rewrite list_lookup_insert_ne by lia. apply Hset; [lia|done|done]. }
    split.
    { intros i Hi. rewrite list_lookup_insert_ne.
      - apply Hkeep. intros e d' He. apply Hi. lia.
      - intros Heq. apply (Hi n d); [lia|done|by symmetry]. }
    intros l0. destruct (Hindep l0) as (l1 & Hl1).
    rewrite foldl_app, Hl1. cbn [foldl].
    eexists. unfold GCodes.load_extruder. rewrite Hd. fields. rewrite Hrel. reflexivity.
Qed.
End Extruders.

(** ** Loading the axes in a G92 *)

Lemma GetFValue_run (b : BufferId) (r : RepRap) :
  0 <= readPointer (buffer b (gCodes r)) ->
  GCodes.GetFValue b r =
    Some (Float.of_double (Libc.strtod (GCodeBuffer.field_text (buffer b (gCodes r)))),
          with_buffer b (set_readPointer (-1) (buffer b (gCodes r))) r).
Proof.
  intros Hrp. unfold GCodes.GetFValue, GCodes.on_buffer. run.
  unfold GCodeBuffer.GetFValue.
  destruct (Z.ltb_spec (readPointer (buffer b (gCodes r))) 0); [lia|]. reflexivity.
Qed.

(** [Seen] then [GetFValue]: the field's value, the line left as it was. *)
Lemma Seen_GetFValue (b : BufferId) (c : ascii) (r : RepRap) :
  let gb := buffer b (gCodes r) in
  (let* seen := GCodes.Seen b c in
   if seen then let* v := GCodes.GetFValue b in ret (Some v) else ret None) r
  = Some (field_value c gb, with_buffer b (set_readPointer (-1) gb) r).
Proof.
  intros gb. unfold bind at 1. rewrite Seen_run. fold gb.
  unfold GCodeBuffer.Seen, field_value.
  destruct (GCodeBuffer.Seen_loop c (gcodeBuffer gb) 0) as [i|] eqn:Hi; cbn [fst snd].
  - pose proof (Seen_loop_lower _ _ _ _ Hi).
    unfold bind. rewrite GetFValue_run by (rewrite buffer_with_buffer; by bfields).
    rewrite buffer_with_buffer. unfold GCodeBuffer.field_text. bfields.
    unfold ret. f_equal. f_equal. unfold with_buffer. by destruct b.
  - reflexivity.
Qed.

Section Axes.
Variable b : BufferId.
Variable applyLimits : bool.

Lemma load_axis_G92 (axis : nat) (r : RepRap) :
  let g := gCodes r in
  let gb := buffer b g in
  exists gb' m h,
    GCodes.load_axis b true applyLimits axis r
    = Some (tt, set_gCodes (set_axisIsHomed h (set_moveBuffer m (set_buffer b gb' g))) r)
    /\ gcodeBuffer gb' = gcodeBuffer gb
    /\ match field_value (axis_letter axis) gb with
       | Some v => m = <[axis := Float.mul v (distanceScale g)]> (moveBuffer g)
                   /\ h = <[axis := true]> (axisIsHomed g)
       | None => m = moveBuffer g /\ h = axisIsHomed g
       end.
Proof.
  intros g gb. unfold GCodes.load_axis. fold (axis_letter axis).
  unfold bind at 1. rewrite Seen_run. fold g gb.
  unfold GCodeBuffer.Seen, field_value.
  destruct (GCodeBuffer.Seen_loop (axis_letter axis) (gcodeBuffer gb) 0) as [i|] eqn:Hi;
    cbn [fst snd when].
  - pose proof (Seen_loop_lower _ _ _ _ Hi).
    unfold bind at 1. rewrite GetFValue_run by (rewrite buffer_with_buffer; by bfields).
    rewrite buffer_with_buffer. unfold GCodeBuffer.field_text. bfields.
    exists (set_readPointer (-1) gb),
      (<[axis := Float.mul (Float.of_double
                              (Libc.strtod (drop (Z.to_nat (i + 1)) (gcodeBuffer gb))))
                           (distanceScale g)]> (moveBuffer g)),
      (<[axis := true]> (axisIsHomed g)).
    split; [|done].
    run. unfold id. rewrite !andb_false_r.
    subst g gb. destruct b; reflexivity.
  - exists (set_readPointer (-1) gb), (moveBuffer g), (axisIsHomed g).
    split; [|done]. unfold ret. f_equal. f_equal. unfold with_buffer.
    subst g gb. destruct r as [[] ? ? ? ? ?], b; reflexivity.
Qed.

Lemma load_axes_G92 (axes : list nat) : forall r : RepRap,
  NoDup axes ->
  let g := gCodes r in
  let gb := buffer b g in
  exists gb' m h,
    for_each axes (GCodes.load_axis b true applyLimits) r
    = Some (tt, set_gCodes (set_axisIsHomed h (set_moveBuffer m (set_buffer b gb' g))) r)
    /\ gcodeBuffer gb' = gcodeBuffer gb
    /\ length m = length (moveBuffer g)
    /\ length h = length (axisIsHomed g)
    /\ (forall axis v, axis ∈ axes -> field_value (axis_letter axis) gb = Some v ->
          m !! axis = (<[axis := Float.mul v (distanceScale g)]> (moveBuffer g)) !! axis
          /\ h !! axis = (<[axis := true]> (axisIsHomed g)) !! axis)
    /\ (forall axis, axis ∉ axes \/ field_value (axis_letter axis) gb = None ->
          m !! axis = moveBuffer g !! axis /\ h !! axis = axisIsHomed g !! axis).
Proof.
  induction axes as [|a axes IH]; intros r Hnodup g gb.
  - exists gb, (moveBuffer g), (axisIsHomed g). split.
    + simpl. unfold ret. f_equal. f_equal. subst g gb.
      destruct r as [[] ? ? ? ? ?], b; reflexivity.
    + split; [done|]. split; [done|]. split; [done|].
      split; [|done]. intros axis v Hin. by apply elem_of_nil in Hin.
  - apply NoDup_cons in Hnodup as [Hnotin Hnodup].
    destruct (load_axis_G92 a r) as (gb1 & m1 & h1 & Hstep & Htext1 & Hfield).
    fold g gb in Hstep, Htext1, Hfield.
    cbn [for_each]. unfold bind. rewrite Hstep.
    set (r1 := set_gCodes _ r).
    destruct (IH r1 Hnodup) as (gb' & m & h & Hrest & Htext & Hm & Hh & Hset & Hkeep).
    assert (buffer b (gCodes r1) = gb1) as Hb1 by (unfold r1; by destruct b).
    assert (forall c, field_value c (buffer b (gCodes r1)) = field_value c gb) as Hfv.
    { intros c. unfold field_value. by rewrite Hb1, Htext1. }
    assert (length m1 = length (moveBuffer g) /\ length h1 = length (axisIsHomed g))
      as [Hm1 Hh1].
    { destruct (field_value (axis_letter a) gb); destruct Hfield as [-> ->];
        by rewrite ?length_insert. }
    assert (moveBuffer (gCodes r1) = m1 /\ axisIsHomed (gCodes r1) = h1
            /\ distanceScale (gCodes r1) = distanceScale g) as (Hmb1 & Hah1 & Hds1).
    { unfold r1. fields. by destruct b. }
    rewrite Hmb1, Hah1, Hds1 in *. rewrite Hb1 in Htext.
    exists gb', m, h. split.
    { rewrite Hrest. unfold r1. f_equal. f_equal. subst g. by destruct b. }
    split; [congruence|]. split; [congruence|]. split; [congruence|].
    split.
    + intros axis v Hin Hv. apply elem_of_cons in Hin as [->|Hin].
      * destruct (Hkeep a) as [-> ->]; [by left|].
        rewrite Hv in Hfield. by destruct Hfield as [-> ->].
      * destruct (Hset axis v Hin) as [Hma Hha]; [by rewrite Hfv|].
        rewrite Hma, Hha.
        assert (a <> axis) as Hne by (intros ->; done).
        assert (m1 !! axis = moveBuffer g !! axis /\ h1 !! axis = axisIsHomed g !! axis)
          as [Hm1a Hh1a].
        { destruct (field_value (axis_letter a) gb); destruct Hfield as [-> ->];
            by rewrite ?list_lookup_insert_ne by done. }
        rewrite !list_lookup_insert, Hm1, Hh1, Hm1a, Hh1a. done.
    + intros axis Hcase.
      destruct (Hkeep axis) as [-> ->].
      { destruct Hcase as [Hnin|Hnone]; [left|right].
        - intros Hin. apply Hnin. by right.
        - by rewrite Hfv. }
      destruct (decide (a = axis)) as [->|Hne].
      * destruct Hcase as [Hnin|Hnone]; [exfalso; apply Hnin; by left|].
        rewrite Hnone in Hfield. by destruct Hfield as [-> ->].
      * destruct (field_value (axis_letter a) gb); destruct Hfield as [-> ->];
          by rewrite ?list_lookup_insert_ne by done.
Qed.
End Axes.

(** ** The extrusion part and the feedrate of [LoadMoveBufferFromGCode] *)

Lemma load_extruders_frame (doingG92 : bool) (tool : Tool) (eMovement : list float)
    (n : nat) (g : GCodes) :
  exists l m,
    foldl (GCodes.load_extruder doingG92 tool eMovement) g (seq 0 n)
    = set_lastPos l (set_moveBuffer m g)
    /\ length l = length (lastPos g)
    /\ length m = length (moveBuffer g)
    /\ forall i, (i < AXES)%nat -> m !! i = moveBuffer g !! i.
Proof.
  induction n as [|n IH].
  - exists (lastPos g), (moveBuffer g). split; [by destruct g|]. done.
  - destruct IH as (l & m & Hfold & Hl & Hm & Haxes).
    rewrite seq_S, Nat.add_0_l, foldl_app, Hfold. cbn [foldl].
    set (d := default 0%nat (drives tool !! n)).
    set (moveArg := Float.mul (fget eMovement n) (distanceScale g)).
    assert (forall l' v, length (<[d := v]> l) = length (lastPos g)
              /\ length (<[(d + AXES)%nat := l']> m) = length (moveBuffer g)
              /\ forall i, (i < AXES)%nat ->
                   <[(d + AXES)%nat := l']> m !! i = moveBuffer g !! i) as Hframe.
    { intros l' v. rewrite !length_insert. split; [done|]. split; [done|].
      intros i Hi. rewrite list_lookup_insert_ne by lia. by apply Haxes. }
    unfold GCodes.load_extruder. fold d. fields. fold moveArg.
    destruct doingG92; [|destruct (drivesRelative g)].
    + exists (<[d := moveArg]> l), (<[(d + AXES)%nat := Float.zero]> m).
      split; [reflexivity|]. apply Hframe.
    + exists (<[d := Float.add (fget l d) moveArg]> l),
             (<[(d + AXES)%nat := Float.mul moveArg (fget (extrusionFactors g) d)]> m).
      split; [reflexivity|]. apply Hframe.
    + exists (<[d := moveArg]> l),
             (<[(d + AXES)%nat := Float.mul (Float.sub moveArg (fget l d))
                                            (fget (extrusionFactors g) d)]> m).
      split; [reflexivity|]. apply Hframe.
Qed.

Section Load.
Context `{Config}.
Variable b : BufferId.

(** The extrusion part of [LoadMoveBufferFromGCode]: it always returns; it
    is accepted ([true]) when the line has no E field, or a tool is
    selected and takes the values given. *)
Lemma load_extrusion_run (doingG92 : bool) (r : RepRap) :
  let g := gCodes r in
  let gb := buffer b g in
  exists ok r1 gb',
    GCodes.load_extrusion b doingG92 r = Some (ok, r1)
    /\ move r1 = move r
    /\ gcodeBuffer gb' = gcodeBuffer gb
    /\ match GCodeBuffer.Seen_loop EXTRUDE_LETTER (gcodeBuffer gb) 0, currentTool r with
       | None, _ => ok = true /\ gCodes r1 = set_buffer b gb' g
       | Some i, None => ok = false /\ gCodes r1 = set_buffer b gb' g
       | Some i, Some tool =>
           let res := GCodeBuffer.GetFloatArray (length (drives tool)) (set_readPointer i gb) in
           if decide (length (drives tool) = res.1.1.2)
           then ok = true
                /\ gCodes r1
                   = foldl (GCodes.load_extruder doingG92 tool res.1.1.1)
                       (set_moveBuffer
                          (array_fill AXES (DRIVES - AXES) Float.zero (moveBuffer g))
                          (set_buffer b gb' g))
                       (seq 0 res.1.1.2)
           else ok = false /\ gCodes r1 = set_buffer b gb' g
       end.
Proof.
  intros g gb. unfold GCodes.load_extrusion.
  unfold bind at 1. unfold gets at 1. cbv beta iota.
  unfold bind at 1. rewrite Seen_run. fold g gb.
  unfold GCodeBuffer.Seen.
  destruct (GCodeBuffer.Seen_loop EXTRUDE_LETTER (gcodeBuffer gb) 0) as [i|] eqn:Hi;
    cbn [fst snd negb].
  2:{ exists true, (with_buffer b (set_readPointer (-1) gb) r), (set_readPointer (-1) gb).
      split; [reflexivity|]. split; [reflexivity|]. split; [reflexivity|].
      split; [reflexivity|]. unfold with_buffer. by fields. }
  destruct (currentTool r) as [tool|] eqn:Htool.
  2:{ match goal with
      | |- context [(Platform.Message ?t ?s >> ?k) ?r0] =>
          destruct (bind_output (Platform.Message t s) k false r0) as (r1 & Hr1 & Hout);
            [intros; apply Message_output | intros; apply ret_output|]
      end.
      rewrite Hr1. exists false, r1, (set_readPointer i gb).
      destruct Hout as (Hg & Hm & _).
      split; [reflexivity|]. split; [by rewrite Hm|]. split; [reflexivity|].
      split; [reflexivity|]. rewrite Hg. unfold with_buffer. by fields. }
  unfold bind at 1. unfold GCodes.GetFloatArray.
  match goal with
  | |- context [GCodes.on_buffer b ?f ?r0] =>
      destruct (on_buffer_run b f r0) as (r1 & Hr1 & Hout1)
  end.
  rewrite Hr1. clear Hr1. rewrite buffer_with_buffer in *.
  destruct (GCodeBuffer.GetFloatArray (length (drives tool)) (set_readPointer i gb))
    as [[[eM n] gb2] msgs] eqn:Hvals.
  cbn [fst snd] in *.
  assert (gcodeBuffer gb2 = gcodeBuffer gb) as Htext2.
  { revert Hvals. unfold GCodeBuffer.GetFloatArray. bfields.
    repeat case_match; by intros [= <- <- <- <-]. }
  destruct Hout1 as (Hg1 & Hm1 & _).
  assert (gCodes r1 = set_buffer b gb2 g) as Hg1'.
  { rewrite Hg1. unfold with_buffer. fields. subst g. by destruct b. }
  destruct (decide (length (drives tool) = n)) as [Hn|Hn].
  - rewrite bool_decide_eq_true_2 by done. cbn [negb]. run.
    exists true. eexists. exists gb2. split; [reflexivity|]. fields.
    split; [by rewrite Hm1|]. split; [done|]. split; [done|].
    rewrite Hg1'. fields. by destruct b.
  - rewrite bool_decide_eq_false_2 by done. cbn [negb].
    unfold bind at 1. unfold GCodes.Buffer, gc, gets. cbv beta iota.
    match goal with
    | |- context [(Platform.Message ?t ?s >> ?k) ?r0] =>
        destruct (bind_output (Platform.Message t s) k false r0) as (r2 & Hr2 & Hout2);
          [intros; apply Message_output | intros; apply ret_output|]
    end.
    rewrite Hr2. exists false, r2, gb2.
    destruct Hout2 as (Hg2 & Hm2 & _).
    split; [reflexivity|]. split; [by rewrite Hm2, Hm1|]. split; [done|].
    split; [done|]. by rewrite Hg2.
Qed.

(** Whatever the extrusion part does, it leaves the axis entries of the
    move record, the line and everything but [lastPos] and [moveBuffer]. *)
Lemma load_extrusion_frame (doingG92 ok : bool) (r r1 : RepRap) :
  GCodes.load_extrusion b doingG92 r = Some (ok, r1) ->
  exists gb' l m,
    gCodes r1 = set_lastPos l (set_moveBuffer m (set_buffer b gb' (gCodes r)))
    /\ gcodeBuffer gb' = gcodeBuffer (buffer b (gCodes r))
    /\ move r1 = move r
    /\ length l = length (lastPos (gCodes r))
    /\ length m = length (moveBuffer (gCodes r))
    /\ forall i, (i < AXES)%nat -> m !! i = moveBuffer (gCodes r) !! i.
Proof.
  intros Hrun.
  destruct (load_extrusion_run doingG92 r) as (ok' & r1' & gb' & Hrun' & Hm & Htext & Hcase).
  rewrite Hrun in Hrun'. injection Hrun' as <- <-.
  exists gb'.
  assert (exists l m, set_buffer b gb' (gCodes r)
                      = set_lastPos l (set_moveBuffer m (set_buffer b gb' (gCodes r)))
                      /\ length l = length (lastPos (gCodes r))
                      /\ length m = length (moveBuffer (gCodes r))
                      /\ forall i, (i < AXES)%nat -> m !! i = moveBuffer (gCodes r) !! i)
    as Hsame.
  { exists (lastPos (gCodes r)), (moveBuffer (gCodes r)).
    split; [|done]. destruct (gCodes r), b; reflexivity. }
  destruct (GCodeBuffer.Seen_loop _ _ _) as [i|]; [destruct (currentTool r) as [tool|]|].
  - cbv zeta in Hcase. case_decide.
    + destruct Hcase as [_ Hg].
      match type of Hg with
      | _ = foldl (GCodes.load_extruder ?d ?t ?e) ?g0 (seq 0 ?n) =>
          destruct (load_extruders_frame d t e n g0) as (l & m & Hfold & Hl & Hlen & Hax)
      end.
      exists l, m. rewrite Hg, Hfold. revert Hl Hlen Hax. fields.
      intros Hl Hlen Hax. rewrite array_fill_length in Hlen.
      split; [by destruct b|]. split; [done|]. split; [done|].
      split; [rewrite Hl; by destruct b|]. split; [rewrite Hlen; by destruct b|].
      intros j Hj. rewrite Hax by done. rewrite array_fill_lookup.
      rewrite decide_False by (unfold AXES in *; lia). by destruct b.
    + destruct Hcase as [_ ->]. destruct Hsame as (l & m & ? & ? & ? & ?).
      by exists l, m.
  - destruct Hcase as [_ ->]. destruct Hsame as (l & m & ? & ? & ? & ?). by exists l, m.
  - destruct Hcase as [_ ->]. destruct Hsame as (l & m & ? & ? & ? & ?). by exists l, m.
Qed.

(** The feedrate part, followed by [k]. *)
Lemma load_feedrate {A} (k : M A) (r : RepRap) :
  let g := gCodes r in
  let gb := buffer b g in
  exists gb' m,
    (let* seen := GCodes.Seen b FEEDRATE_LETTER in
     when seen (
       let* v := GCodes.GetFValue b in
       update (fun g => set_moveBuffer
                 (<[DRIVES := Float.mul (Float.mul v (distanceScale g)) (speedFactor g)]>
                    (moveBuffer g)) g)) >>
     k) r
    = k (set_gCodes (set_moveBuffer m (set_buffer b gb' g)) r)
    /\ gcodeBuffer gb' = gcodeBuffer gb
    /\ m = match field_value FEEDRATE_LETTER gb with
           | Some v => <[DRIVES := Float.mul (Float.mul v (distanceScale g)) (speedFactor g)]>
                         (moveBuffer g)
           | None => moveBuffer g
           end.
Proof.
  intros g gb. unfold bind at 1. rewrite Seen_run. fold g gb.
  unfold GCodeBuffer.Seen, field_value.
  destruct (GCodeBuffer.Seen_loop FEEDRATE_LETTER (gcodeBuffer gb) 0) as [i|] eqn:Hi;
    cbn [fst snd when].
  - pose proof (Seen_loop_lower _ _ _ _ Hi).
    unfold bind at 1. unfold bind at 1.
    rewrite GetFValue_run by (rewrite buffer_with_buffer; by bfields).
    rewrite buffer_with_buffer. unfold GCodeBuffer.field_text. bfields.
    eexists (set_readPointer (-1) gb), _. split; [|done].
    run. f_equal. subst g gb. destruct b; reflexivity.
  - exists (set_readPointer (-1) gb), (moveBuffer g). split; [|done].
    unfold bind, ret. f_equal. unfold with_buffer.
    subst g gb. destruct r as [[] ? ? ? ? ?], b; reflexivity.
Qed.
End Load.

Section SetPositions.
Context `{Config}.
Variable b : BufferId.

(** [LoadMoveBufferFromGCode] for a G92 whose extrusion part is accepted. *)
Lemma LoadMoveBuffer_G92 (applyLimits : bool) (r r1 : RepRap) :
  GCodes.load_extrusion b true r = Some (true, r1) ->
  (AXES <= DRIVES)%nat ->
  let g := gCodes r in
  let gb := buffer b g in
  exists gb' l m h,
    GCodes.LoadMoveBufferFromGCode b true applyLimits r
    = Some (true,
            set_gCodes (set_axisIsHomed h (set_lastPos l (set_moveBuffer m
                          (set_buffer b gb' g)))) r1)
    /\ move r1 = move r
    /\ l = lastPos (gCodes r1)
    /\ length m = length (moveBuffer g)
    /\ length h = length (axisIsHomed g)
    /\ (forall axis v, (axis < AXES)%nat -> field_value (axis_letter axis) gb = Some v ->
          m !! axis = (<[axis := Float.mul v (distanceScale g)]> (moveBuffer g)) !! axis
          /\ h !! axis = (<[axis := true]> (axisIsHomed g)) !! axis)
    /\ (forall axis, (axis < AXES)%nat -> field_value (axis_letter axis) gb = None ->
          m !! axis = moveBuffer g !! axis /\ h !! axis = axisIsHomed g !! axis)
    /\ (forall i, (AXES <= i < DRIVES)%nat -> m !! i = moveBuffer (gCodes r1) !! i).
Proof.
  intros Hext HAD g gb.
  destruct (load_extrusion_frame b true true r r1 Hext)
    as (gb1 & l1 & m1 & Hg1 & Htext1 & Hmove1 & Hl1 & Hm1 & Hax1).
  fold g gb in Hg1, Htext1, Hl1, Hm1, Hax1.
  unfold GCodes.LoadMoveBufferFromGCode. unfold bind at 1. rewrite Hext. cbn [negb].
  unfold bind at 1.
  destruct (load_axes_G92 b applyLimits (seq 0 AXES) r1 (NoDup_seq 0 AXES))
    as (gb2 & m2 & h2 & -> & Htext2 & Hm2 & Hh2 & Hset & Hkeep).
  set (r2 := set_gCodes _ r1).
  cbv beta iota.
  destruct (load_feedrate b (ret true) r2) as (gb3 & m3 & -> & Htext3 & Hm3).
  unfold ret.
  assert (buffer b (gCodes r1) = gb1) as Hb1 by (rewrite Hg1; fields; by destruct b).
  assert (moveBuffer (gCodes r1) = m1 /\ axisIsHomed (gCodes r1) = axisIsHomed g
          /\ distanceScale (gCodes r1) = distanceScale g /\ lastPos (gCodes r1) = l1)
    as (Hmb1 & Hah1 & Hds1 & Hlp1).
  { rewrite Hg1. fields. by destruct b. }
  rewrite Hb1, Hmb1, Hah1, Hds1 in *.
  assert (forall c, field_value c gb1 = field_value c gb) as Hfv.
  { intros c. unfold field_value. by rewrite Htext1. }
  assert (moveBuffer (gCodes r2) = m2) as Hmb2 by (unfold r2; fields; by destruct b).
  rewrite Hmb2 in Hm3.
  exists gb3, l1, m3, h2. split.
  { f_equal. f_equal. unfold r2. rewrite Hg1. destruct r1 as [[] ? ? ? ? ?], b; reflexivity. }
  split; [done|]. split; [done|].
  assert (length m3 = length m2 /\ forall i, (i < DRIVES)%nat -> m3 !! i = m2 !! i)
    as [Hlen3 Hlow3].
  { rewrite Hm3. destruct (field_value FEEDRATE_LETTER _).
    - rewrite length_insert. split; [done|]. intros i Hi.
      by rewrite list_lookup_insert_ne by lia.
    - done. }
  split; [congruence|]. split; [congruence|].
  assert (AXES = 3%nat) as HAXES by reflexivity.
  split; [|split].
  - intros axis v Haxis Hv.
    destruct (Hset axis v) as [Hma Hha].
    { apply elem_of_seq. lia. }
    { by rewrite Hfv. }
    rewrite Hha. split; [|done].
    rewrite Hlow3, Hma by lia.
    rewrite !list_lookup_insert, Hm1, Hax1 by done. done.
  - intros axis Haxis Hnone.
    destruct (Hkeep axis) as [Hma Hha]; [right; by rewrite Hfv|].
    rewrite Hha. split; [|done]. rewrite Hlow3, Hma by lia. by apply Hax1.
  - intros i Hi. rewrite Hlow3 by lia.
    destruct (Hkeep i) as [Hmi _]; [|done].
    left. intros Hin. apply elem_of_seq in Hin. lia.
Qed.
End SetPositions.

Section G92.
Context `{Config}.
Variable b : BufferId.

(** C6 (amended).  A G92 that finds the planner idle at [p] and whose E
    field, if any, is accepted ([load_extrusion] returns [true]: no E, or a
    tool is selected and takes the values) completes and queues no move.
    The record [mb] it hands to the planner's [Transform],
    [SetLiveCoordinates] and [SetPositions] holds, for each axis letter
    present, the supplied value times [distanceScale], unclamped, and
    [axisIsHomed] becomes [true] for that axis; an axis not named keeps the
    planner's position and its homed flag.  When a tool takes the E
    values, [lastPos] of each of its drives is the value supplied for it
    times [distanceScale], and every extruder slot of [mb] is 0.0. *)
Theorem G92_sets_positions (r r1 : RepRap) (p : list float) :
  let g := gCodes r in
  let gb := buffer b g in
  let r0 := set_gCodes (set_moveBuffer p g)
              (set_move (set_moveCalls (moveCalls (move r) ++ [ResumeMoving]) (move r)) r) in
  moveAvailable g = false ->
  allMovesAreFinished (move r) = true ->
  currentUserPosition (move r) = Some p ->
  length p = S DRIVES ->
  length (axisIsHomed g) = AXES ->
  (AXES <= DRIVES)%nat ->
  GCodes.load_extrusion b true r0 = Some (true, r1) ->
  exists r' mb,
    GCodes.SetPositions b r = Some (true, r')
    /\ moveBuffer (gCodes r') = transform (move r) mb
    /\ moveAvailable (gCodes r') = false
    /\ (exists f, moveCalls (move r')
                  = moveCalls (move r)
                    ++ [ResumeMoving; Transform mb;
                        SetLiveCoordinates (transform (move r) mb);
                        SetPositions (transform (move r) mb); SetFeedrate f])
    /\ (forall axis v, (axis < AXES)%nat -> field_value (axis_letter axis) gb = Some v ->
          mb !! axis = Some (Float.mul v (distanceScale g))
          /\ axisIsHomed (gCodes r') !! axis = Some true)
    /\ (forall axis, (axis < AXES)%nat -> field_value (axis_letter axis) gb = None ->
          mb !! axis = p !! axis
          /\ axisIsHomed (gCodes r') !! axis = axisIsHomed g !! axis)
    /\ forall tool i,
         currentTool r = Some tool ->
         GCodeBuffer.Seen_loop EXTRUDE_LETTER (gcodeBuffer gb) 0 = Some i ->
         NoDup (drives tool) ->
         (forall d, d ∈ drives tool -> (d < DRIVES - AXES)%nat) ->
         length (lastPos g) = (DRIVES - AXES)%nat ->
         let eMovement :=
           (GCodeBuffer.GetFloatArray (length (drives tool)) (set_readPointer i gb)).1.1.1 in
         (forall e d, drives tool !! e = Some d ->
            lastPos (gCodes r') !! d
            = Some (Float.mul (fget eMovement e) (distanceScale g)))
         /\ (forall j, (AXES <= j < DRIVES)%nat -> mb !! j = Some Float.zero).
Proof.
  intros g gb r0 Hpending Hfin Hpos Hp Hhomed HAD Hext.
  destruct (LoadMoveBuffer_G92 b false r0 r1 Hext HAD)
    as (gb' & l & m & h & Hload & Hmove1 & Hl & Hm & Hh & Hset & Hkeep & Hext_slots).
  assert (gCodes r0 = set_moveBuffer p g) as Hg0 by reflexivity.
  assert (buffer b (gCodes r0) = gb) as Hb0 by (unfold r0; fields; by destruct b).
  rewrite Hb0 in *. rewrite Hg0 in Hm, Hh, Hset, Hkeep. revert Hm Hh Hset Hkeep. fields.
  intros Hm Hh Hset Hkeep.
  assert (moveCalls (move r1) = moveCalls (move r) ++ [ResumeMoving]
          /\ transform (move r1) = transform (move r)) as [Hcalls1 Htrans1].
  { rewrite Hmove1. by unfold r0. }
  eexists _, m. split.
  { unfold GCodes.SetPositions. unfold bind at 1.
    rewrite (AllMoves_idle r p) by done. cbv beta iota. fold g. fold r0. cbn [negb].
    unfold bind at 1. rewrite Hload. cbv beta iota. cbn [when].
    unfold Move.Transform, Move.call. run. reflexivity. }
  fields. rewrite Htrans1.
  split; [by destruct b|].
  split; [rewrite Hg0; destruct b; by fields|].
  split.
  { eexists. rewrite Hcalls1. rewrite <- !app_assoc. reflexivity. }
  split.
  { intros axis v Haxis Hv. destruct (Hset axis v Haxis Hv) as [-> ->].
    rewrite !list_lookup_insert_eq by lia. by destruct b. }
  split.
  { intros axis Haxis Hnone. destruct (Hkeep axis Haxis Hnone) as [-> ->]. done. }
  intros tool i Htool Hi Hnodup Hrange Hlast.
  set (eMovement :=
         (GCodeBuffer.GetFloatArray (length (drives tool)) (set_readPointer i gb)).1.1.1).
  destruct (load_extrusion_run b true r0) as (ok & r1' & gb1 & Hrun & _ & _ & Hcase).
  rewrite Hext in Hrun. injection Hrun as <- <-.
  rewrite Hb0 in Hcase. change (currentTool r0) with (currentTool r) in Hcase.
  rewrite Hi, Htool in Hcase. cbv zeta in Hcase. fold eMovement in Hcase.
  case_decide as Hn; [|by destruct Hcase].
  destruct Hcase as [_ Hg1]. rewrite <- Hn in Hg1.
  match type of Hg1 with
  | _ = foldl _ ?g0 _ =>
      destruct (load_extruders_G92 tool eMovement (length (drives tool)) g0)
        as (l' & m' & Hfold & Hl' & Hm' & Hzero & _ & Hvals & _); [lia|done|]
  end.
  rewrite Hfold in Hg1. revert Hl' Hm' Hzero Hvals. fields. rewrite Hg0. fields.
  rewrite array_fill_length, Hp.
  intros Hl' Hm' Hzero Hvals.
  assert (lastPos (gCodes r1) = l' /\ moveBuffer (gCodes r1) = m') as [Hlp Hmb].
  { rewrite Hg1. by fields. }
  split.
  - intros e d Hd. rewrite Hl, Hlp.
    assert (e < length (drives tool))%nat by (by eapply lookup_lt_Some).
    assert (d < DRIVES - AXES)%nat by (apply Hrange; by eapply list_elem_of_lookup_2).
    rewrite (Hvals e d) by (destruct b; fields; (done || lia)).
    by destruct b.
  - intros j Hj. rewrite Hext_slots, Hmb by done.
    destruct (Hzero j) as [Hsame|Hz]; [|done].
    rewrite Hsame. destruct b; fields; rewrite array_fill_lookup;
      rewrite decide_True by lia; done.
Qed.
End G92.

(** ** Loading the axes of a move *)

Section AxesOfAMove.
Variable b : BufferId.
Variables doingG92 applyLimits : bool.

(** An axis step changes at most its own entry of the move record. *)
Lemma load_axis_frame (axis : nat) (r : RepRap) :
  let g := gCodes r in
  exists gb' m h,
    GCodes.load_axis b doingG92 applyLimits axis r
    = Some (tt, set_gCodes (set_axisIsHomed h (set_moveBuffer m (set_buffer b gb' g))) r)
    /\ gcodeBuffer gb' = gcodeBuffer (buffer b g)
    /\ length m = length (moveBuffer g)
    /\ forall i, i <> axis -> m !! i = moveBuffer g !! i.
Proof.
  intros g. unfold GCodes.load_axis.
  unfold bind at 1. rewrite Seen_run. fold g.
  unfold GCodeBuffer.Seen.
  destruct (GCodeBuffer.Seen_loop _ (gcodeBuffer (buffer b g)) 0) as [i|] eqn:Hi;
    cbn [fst snd when].
  - pose proof (Seen_loop_lower _ _ _ _ Hi).
    unfold bind at 1. rewrite GetFValue_run by (rewrite buffer_with_buffer; by bfields).
    rewrite buffer_with_buffer. unfold GCodeBuffer.field_text. bfields.
    run. unfold id.
    match goal with
    | |- context [set_moveBuffer (<[axis := ?v]> ?mb)] =>
        exists (set_readPointer (-1) (buffer b g)), (<[axis := v]> (moveBuffer g)),
          (if doingG92 then <[axis := true]> (axisIsHomed g) else axisIsHomed g)
    end.
    split.
    { subst g. destruct doingG92, b, r as [[] ? ? ? ? ?]; reflexivity. }
    split; [done|]. rewrite length_insert. split; [done|].
    intros j Hj. by rewrite list_lookup_insert_ne.
  - exists (set_readPointer (-1) (buffer b g)), (moveBuffer g), (axisIsHomed g).
    split; [|done]. unfold ret. f_equal. f_equal. unfold with_buffer.
    subst g. destruct r as [[] ? ? ? ? ?], b; reflexivity.
Qed.

Lemma load_axes_frame (axes : list nat) : forall r : RepRap,
  let g := gCodes r in
  exists gb' m h,
    for_each axes (GCodes.load_axis b doingG92 applyLimits) r
    = Some (tt, set_gCodes (set_axisIsHomed h (set_moveBuffer m (set_buffer b gb' g))) r)
    /\ gcodeBuffer gb' = gcodeBuffer (buffer b g)
    /\ length m = length (moveBuffer g)
    /\ forall i, i ∉ axes -> m !! i = moveBuffer g !! i.
Proof.
  induction axes as [|a axes IH]; intros r g.
  - exists (buffer b g), (moveBuffer g), (axisIsHomed g). split; [|done].
    simpl. unfold ret. f_equal. f_equal. subst g.
    destruct r as [[] ? ? ? ? ?], b; reflexivity.
  - destruct (load_axis_frame a r) as (gb1 & m1 & h1 & Hstep & Htext1 & Hm1 & Hother1).
    fold g in Hstep, Htext1, Hm1, Hother1.
    cbn [for_each]. unfold bind. rewrite Hstep.
    set (r1 := set_gCodes _ r).
    destruct (IH r1) as (gb' & m & h & Hrest & Htext & Hm & Hother).
    assert (buffer b (gCodes r1) = gb1 /\ moveBuffer (gCodes r1) = m1) as [Hb1 Hmb1].
    { unfold r1. fields. by destruct b. }
    rewrite Hb1, Hmb1 in *.
    exists gb', m, h. split.
    { rewrite Hrest. unfold r1. f_equal. f_equal. subst g. by destruct b. }
    split; [congruence|]. split; [congruence|].
    intros i Hi. apply not_elem_of_cons in Hi as [Hia Hi].
    rewrite Hother by done. by apply Hother1.
Qed.
End AxesOfAMove.

Section RelativeExtrusion.
Context `{Config}.
Variable b : BufferId.

(** [LoadMoveBufferFromGCode] after an accepted extrusion part: the axes
    and the feedrate leave the extruder slots alone. *)
Lemma LoadMoveBuffer_extruder_slots (doingG92 applyLimits : bool) (r r1 : RepRap) :
  GCodes.load_extrusion b doingG92 r = Some (true, r1) ->
  exists r2,
    GCodes.LoadMoveBufferFromGCode b doingG92 applyLimits r = Some (true, r2)
    /\ length (moveBuffer (gCodes r2)) = length (moveBuffer (gCodes r1))
    /\ forall i, (AXES <= i < DRIVES)%nat ->
         moveBuffer (gCodes r2) !! i = moveBuffer (gCodes r1) !! i.
Proof.
  intros Hext.
  unfold GCodes.LoadMoveBufferFromGCode. unfold bind at 1. rewrite Hext. cbn [negb].
  unfold bind at 1.
  destruct (load_axes_frame b doingG92 applyLimits (seq 0 AXES) r1)
    as (gb2 & m2 & h2 & -> & Htext2 & Hm2 & Hother2).
  set (r2 := set_gCodes _ r1). cbv beta iota.
  destruct (load_feedrate b (ret true) r2) as (gb3 & m3 & -> & Htext3 & Hm3).
  unfold ret. eexists; split; [reflexivity|].
  assert (moveBuffer (gCodes r2) = m2) as Hmb2 by (unfold r2; fields; by destruct b).
  rewrite Hmb2 in Hm3. fields.
  assert (length m3 = length m2 /\ forall i, (i < DRIVES)%nat -> m3 !! i = m2 !! i)
    as [Hlen3 Hlow3].
  { rewrite Hm3. destruct (field_value FEEDRATE_LETTER _).
    - rewrite length_insert. split; [done|]. intros i Hi.
      by rewrite list_lookup_insert_ne by lia.
    - done. }
  split; [congruence|].
  intros i Hi. rewrite Hlow3 by lia. apply Hother2.
  intros Hin. apply elem_of_seq in Hin. lia.
Qed.
End RelativeExtrusion.

(** ** M82 and M83 *)

Section ExtrusionModes.
Context `{Config}.
Variable ActOnCode : BufferId -> M bool.
Variable b : BufferId.

(** Both mode switches zero the accumulators and set the mode flag. *)
Lemma extrusion_mode_switch (relative : bool) (r r0 : RepRap) :
  GCodes.GetIValue b r = Some (if relative then 83 else 82, r0) ->
  exists r',
    GCodes.HandleMcode ActOnCode b r = Some (true, r')
    /\ drivesRelative (gCodes r') = relative
    /\ lastPos (gCodes r')
       = array_fill 0 (DRIVES - AXES) Float.zero (lastPos (gCodes r)).
Proof.
  intros HGet.
  destruct (GetIValue_frame b r) as (code' & r0' & HGet' & gb' & Hout & _).
  rewrite HGet in HGet'. injection HGet' as <- <-.
  destruct Hout as (Hg0 & _).
  assert (lastPos (gCodes r0) = lastPos (gCodes r)) as Hl0 by (rewrite Hg0; by destruct b).
  unfold GCodes.HandleMcode. unfold bind at 1. rewrite HGet.
  destruct relative; cbn [Z.eqb Pos.eqb]; run;
    match goal with
    | |- context [GCodes.HandleReply ?e ?f ?t ?g ?c ?rs ?x] =>
        destruct (HandleReply_output e f t g c rs x) as (r' & -> & Hg' & _)
    end;
    (eexists; split; [reflexivity|]); rewrite Hg'; fields; by rewrite Hl0.
Qed.

(** C9.  M83 completes, switches the extruders to relative mode and
    zeroes every extruder accumulator [lastPos]; M82 run on the same
    accumulators leaves exactly the same ones.  In the mode M83 leaves, a
    move whose E field is accepted puts in the slot of every drive of the
    tool the E argument, converted by [distanceScale], times the drive's
    extrusion factor, whatever the accumulators held. *)
Theorem M83_zeroes_accumulators_like_M82 (r r0 : RepRap) :
  GCodes.GetIValue b r = Some (83, r0) ->
  exists r',
    GCodes.HandleMcode ActOnCode b r = Some (true, r')
    /\ drivesRelative (gCodes r') = true
    /\ (forall d, (d < DRIVES - AXES)%nat -> (d < length (lastPos (gCodes r)))%nat ->
          lastPos (gCodes r') !! d = Some Float.zero)
    /\ length (lastPos (gCodes r')) = length (lastPos (gCodes r))
    /\ (forall q q0, GCodes.GetIValue b q = Some (82, q0) ->
          lastPos (gCodes q) = lastPos (gCodes r) ->
          exists q', GCodes.HandleMcode ActOnCode b q = Some (true, q')
                     /\ drivesRelative (gCodes q') = false
                     /\ lastPos (gCodes q') = lastPos (gCodes r'))
    /\ (forall (q : RepRap) (applyLimits : bool) (tool : Tool) (i : Z),
          drivesRelative (gCodes q) = drivesRelative (gCodes r') ->
          currentTool q = Some tool ->
          GCodeBuffer.Seen_loop EXTRUDE_LETTER (gcodeBuffer (buffer b (gCodes q))) 0
          = Some i ->
          let res := GCodeBuffer.GetFloatArray (length (drives tool))
                       (set_readPointer i (buffer b (gCodes q))) in
          length (drives tool) = res.1.1.2 ->
          NoDup (drives tool) ->
          length (moveBuffer (gCodes q)) = S DRIVES ->
          exists q',
            GCodes.LoadMoveBufferFromGCode b false applyLimits q = Some (true, q')
            /\ forall e d, drives tool !! e = Some d -> (d < DRIVES - AXES)%nat ->
                 moveBuffer (gCodes q') !! (d + AXES)%nat
                 = Some (Float.mul (Float.mul (fget res.1.1.1 e) (distanceScale (gCodes q)))
                                   (fget (extrusionFactors (gCodes q)) d))).
Proof.
  intros HGet.
  destruct (extrusion_mode_switch true r r0 HGet) as (r' & Hrun & Hrel & Hlast).
  exists r'. split; [done|]. split; [done|].
  split.
  { intros d Hd Hlen. rewrite Hlast, array_fill_lookup.
    by rewrite decide_True by lia. }
  split; [by rewrite Hlast, array_fill_length|].
  split.
  { intros q q0 HGetq Hsame.
    destruct (extrusion_mode_switch false q q0 HGetq) as (q' & Hrunq & Hrelq & Hlastq).
    exists q'. split; [done|]. split; [done|]. by rewrite Hlastq, Hlast, Hsame. }
  intros q applyLimits tool i Hmode Htool Hi res Hcount Hnodup Hlen.
  rewrite Hrel in Hmode.
  destruct (load_extrusion_run b false q) as (ok & q1 & gb' & Hext & _ & _ & Hcase).
  rewrite Hi, Htool in Hcase. cbv zeta in Hcase. fold res in Hcase.
  rewrite decide_True in Hcase by done. destruct Hcase as [-> Hq1].
  destruct (LoadMoveBuffer_extruder_slots b false applyLimits q q1 Hext)
    as (q' & Hload & Hlen' & Hslots).
  exists q'. split; [done|].
  intros e d He Hd.
  match type of Hq1 with
  | _ = foldl _ ?g0 _ =>
      destruct (load_extruders_relative tool res.1.1.1 res.1.1.2 g0)
        as (l & m & Hfold & Hm & Hval & _)
  end.
  { fields. by destruct b. }
  { lia. }
  { done. }
  rewrite Hfold in Hq1.
  assert (moveBuffer (gCodes q1) = m) as Hmb by (by rewrite Hq1).
  rewrite Hslots by (unfold AXES in *; lia). rewrite Hmb.
  revert Hval Hm. fields. rewrite array_fill_length. intros Hval Hm.
  assert (e < res.1.1.2)%nat as Hlt.
  { rewrite <- Hcount. by eapply lookup_lt_Some. }
  rewrite (Hval e d Hlt He) by (rewrite Hlen; unfold AXES in *; lia).
  by destruct b.
Qed.
End ExtrusionModes.

(** ** The inch scenario *)

(** C8, as the code has it.  After [G20] and [G1 X1 F60] on the machine as
    [Init] leaves it, a move is pending whose X entry is [INCH_TO_MM] (25.4
    in single precision) and whose feedrate entry is
    [(60 * INCH_TO_MM) * speedFactor], the default [speedFactor] being one
    sixtieth: 25.4 mm/s up to rounding (13316916 / 2^19), not 25.4/60. *)
Theorem inch_move_reaches_the_slot :
  exists r,
    after_inch_move = Some r
    /\ moveAvailable (gCodes r) = true
    /\ moveBuffer (gCodes r) !! X_AXIS = Some INCH_TO_MM
    /\ moveBuffer (gCodes r) !! DRIVES
       = Some (Float.mul (Float.mul (Float.of_Z 60) INCH_TO_MM) (speedFactor (gCodes booted)))
    /\ Float.mul (Float.mul (Float.of_Z 60) INCH_TO_MM) (speedFactor (gCodes booted))
       = S754_finite false 13316916 (-19)
    /\ INCH_TO_MM = S754_finite false 13316915 (-19).
Proof.
  eexists. split; [vm_compute; reflexivity|].
  repeat split; vm_compute; reflexivity.
Qed.

(** The feedrate entry of that move is above 25 mm/s, while 25.4/60 is
    below 1. *)
Lemma inch_move_feedrate_is_not_divided_by_60 :
  exists r f,
    after_inch_move = Some r
    /\ moveBuffer (gCodes r) !! X_AXIS = Some INCH_TO_MM
    /\ moveBuffer (gCodes r) !! DRIVES = Some f
    /\ f <> Float.div INCH_TO_MM (Float.of_Z 60)
    /\ Float.ltb (Float.of_Z 25) f = true
    /\ Float.ltb (Float.div INCH_TO_MM (Float.of_Z 60)) Float.one = true.
Proof.
  eexists _, _. split; [vm_compute; reflexivity|].
  split; [vm_compute; reflexivity|].
  split; [vm_compute; reflexivity|].
  split; [vm_compute; discriminate|].
  split; vm_compute; reflexivity.
Qed.

(** ** Frames of the monadic code *)

#[export] Instance still_preorder : PreOrder still.
Proof.
  split.
  - by intros r.
  - intros r1 r2 r3 [Hw1 Hp1] [Hw2 Hp2]. split; [congruence|].
    intros i. specialize (Hp1 i). specialize (Hp2 i). lia.
Qed.

#[export] Instance calm_preorder : PreOrder calm.
Proof.
  split.
  - by intros r.
  - intros r1 r2 r3 [Hs1 Hd1] [Hs2 Hd2]. split; [by etrans|congruence].
Qed.

Lemma only_output_calm (r r' : RepRap) : only_output r r' -> calm r r'.
Proof.
  intros (Hg & _ & Hw & _ & _ & Hf & _). split; [split|]; [done| |by rewrite Hg].
  intros i. unfold read_position, Platform.store_at. by rewrite Hf.
Qed.

Section FrameRules.
Context (R : RepRap -> RepRap -> Prop) `{!PreOrder R}.

Lemma Frame_ret {A} (a : A) : Frame R (ret a).
Proof. by intros r a' r' [= _ <-]. Qed.

Lemma Frame_fail {A} : Frame R (@fail A).
Proof. by intros r a' r'. Qed.

Lemma Frame_gets {A} (f : RepRap -> A) : Frame R (gets f).
Proof. by intros r a' r' [= _ <-]. Qed.

Lemma Frame_gc {A} (f : GCodes -> A) : Frame R (gc f).
Proof. apply Frame_gets. Qed.

Lemma Frame_plat {A} (f : Platform -> A) : Frame R (plat f).
Proof. apply Frame_gets. Qed.

Lemma Frame_bind {A B} (m : M A) (k : A -> M B) :
  Frame R m -> (forall a, Frame R (k a)) -> Frame R (bind m k).
Proof.
  intros Hm Hk r b r'. unfold bind.
  destruct (m r) as [[a r1]|] eqn:Hrun; [|done].
  intros Hrest. etrans; [by eapply Hm|by eapply Hk].
Qed.

Lemma Frame_when (c : bool) (m : M unit) : Frame R m -> Frame R (when c m).
Proof. intros Hm. destruct c; [done|apply Frame_ret]. Qed.

Lemma Frame_for_each {A} (l : list A) (body : A -> M unit) :
  (forall x, Frame R (body x)) -> Frame R (for_each l body).
Proof.
  intros Hbody. induction l as [|x l IH]; simpl.
  - apply Frame_ret.
  - by apply Frame_bind.
Qed.

Lemma Frame_modify (f : RepRap -> RepRap) :
  (forall r, R r (f r)) -> Frame R (modify f).
Proof. intros Hf r a r' Hrun. injection Hrun as _ <-. apply Hf. Qed.
End FrameRules.

Lemma Frame_weaken (R S : RepRap -> RepRap -> Prop) {A} (m : M A) :
  (forall r r', R r r' -> S r r') -> Frame R m -> Frame S m.
Proof. intros HRS Hm r a r' Hrun. by eapply HRS, Hm. Qed.

Lemma calm_still {A} (m : M A) : Frame calm m -> Frame still m.
Proof. apply Frame_weaken. by intros r r' []. Qed.

Lemma still_Quiet {A} (m : M A) : Frame still m -> Quiet m.
Proof. intros Hm r a r' _. apply Hm. Qed.

(** A prefix that keeps the macro engine as it is, then a quiet rest. *)
Lemma Quiet_bind {A B} (m : M A) (k : A -> M B) :
  Frame calm m -> (forall a, Quiet (k a)) -> Quiet (bind m k).
Proof.
  intros Hm Hk r b r' Hidle. unfold bind.
  destruct (m r) as [[a r1]|] eqn:Hrun; [|done].
  destruct (Hm _ _ _ Hrun) as [Hs Hd]. intros Hrest.
  etrans; [done|]. eapply Hk; [|done]. congruence.
Qed.

(** A quiet start, then a rest that reads nothing in any state. *)
Lemma Quiet_then {A B} (m : M A) (k : A -> M B) :
  Quiet m -> (forall a, Frame still (k a)) -> Quiet (bind m k).
Proof.
  intros Hm Hk r b r' Hidle. unfold bind.
  destruct (m r) as [[a r1]|] eqn:Hrun; [|done].
  intros Hrest. etrans; [by eapply Hm|by eapply Hk].
Qed.

Lemma Quiet_gc {A B} (f : GCodes -> A) (k : A -> M B) :
  (forall g, doingCannedCycleFile g = false -> Quiet (k (f g))) ->
  Quiet (bind (gc f) k).
Proof. intros Hk r b r' Hidle. unfold bind, gc, gets. by apply Hk. Qed.

(** *** Basic steps *)

Lemma calm_update (f : GCodes -> GCodes) :
  (forall g, doingCannedCycleFile (f g) = doingCannedCycleFile g) ->
  Frame calm (update f).
Proof.
  intros Hf. apply Frame_modify. intros r.
  split; [split; [reflexivity|intros i; reflexivity]|apply Hf].
Qed.

Lemma still_update (f : GCodes -> GCodes) : Frame still (update f).
Proof.
  apply Frame_modify. intros r. split; [reflexivity|intros i; reflexivity].
Qed.

Lemma calm_update_platform (f : Platform -> Platform) :
  (forall p i, (bytesRead (Platform.store_at (f p) i) <= bytesRead (Platform.store_at p i))%nat) ->
  Frame calm (update_platform f).
Proof.
  intros Hf. apply Frame_modify. intros r.
  split; [split; [reflexivity|intros i; apply Hf]|reflexivity].
Qed.

Lemma calm_update_store (i : nat) (f : FileStore -> FileStore) :
  (forall s, (bytesRead (f s) <= bytesRead s)%nat) ->
  Frame calm (Platform.update_store i f).
Proof.
  intros Hf. apply calm_update_platform. intros p j.
  unfold Platform.store_at. fields.
  destruct (decide (i = j)) as [->|Hne].
  - destruct (files p !! j) as [s|] eqn:Hs.
    + rewrite list_lookup_insert_eq by (by eapply lookup_lt_Some). apply Hf.
    + rewrite list_insert_ge by (by apply lookup_ge_None). by rewrite Hs.
  - by rewrite list_lookup_insert_ne.
Qed.

Lemma calm_Message (t : MessageType) (s : string) : Frame calm (Platform.Message t s).
Proof.
  intros r a r' Hrun. destruct (Message_output t s r) as (r1 & Hr1 & Hout).
  rewrite Hr1 in Hrun. injection Hrun as _ <-. by apply only_output_calm.
Qed.

Lemma calm_LineWrite (s : string) : Frame calm (Platform.LineWrite s).
Proof.
  intros r a r' Hrun. destruct (LineWrite_output s r) as (r1 & Hr1 & Hout).
  rewrite Hr1 in Hrun. injection Hrun as _ <-. by apply only_output_calm.
Qed.

Lemma calm_HandleReply (error fromLine : bool) (reply : string) (gMOrT : ascii)
    (code : Z) (resend : bool) :
  Frame calm (GCodes.HandleReply error fromLine reply gMOrT code resend).
Proof.
  intros r a r' Hrun.
  destruct (HandleReply_output error fromLine reply gMOrT code resend r) as (r1 & Hr1 & Hout).
  rewrite Hr1 in Hrun. injection Hrun as _ <-. by apply only_output_calm.
Qed.

Lemma calm_Move_call (c : MoveCall) : Frame calm (Move.call c).
Proof.
  apply Frame_modify. intros r.
  split; [split; [reflexivity|intros i; reflexivity]|reflexivity].
Qed.

Lemma set_buffer_doing (b : BufferId) (gb : GCodeBuffer) (g : GCodes) :
  doingCannedCycleFile (set_buffer b gb g) = doingCannedCycleFile g.
Proof. by destruct b. Qed.

Lemma set_file_var_doing (v : FileVar) (f : FileData) (g : GCodes) :
  doingCannedCycleFile (set_file_var v f g) = doingCannedCycleFile g.
Proof. by destruct v. Qed.

(** One step of a frame proof, by the shape of the code. *)
Ltac frame_step :=
  match goal with
  | |- Frame _ (ret _) => apply Frame_ret; apply _
  | |- Frame _ fail => apply Frame_fail
  | |- Frame _ (snprintf_s_of_int _) => apply Frame_fail
  | |- Frame _ (gets _) => apply Frame_gets; apply _
  | |- Frame _ (gc _) => apply Frame_gc; apply _
  | |- Frame _ (plat _) => apply Frame_plat; apply _
  | |- Frame _ (when _ _) => apply Frame_when; [apply _|]
  | |- Frame _ (for_each _ _) => apply Frame_for_each; [apply _|intros ?]
  | |- Frame _ (bind _ _) => apply Frame_bind; [apply _| |intros ?]
  | |- Frame _ (Platform.Message _ _) => first [apply calm_Message | apply calm_still, calm_Message]
  | |- Frame _ (Platform.LineWrite _) => first [apply calm_LineWrite | apply calm_still, calm_LineWrite]
  | |- Frame _ (GCodes.HandleReply _ _ _ _ _ _) =>
      first [apply calm_HandleReply | apply calm_still, calm_HandleReply]
  | |- Frame _ (Move.call _) => first [apply calm_Move_call | apply calm_still, calm_Move_call]
  | |- Frame still (update _) => apply still_update
  | |- Frame calm (update _) =>
      apply calm_update; intros ?;
      first [reflexivity | apply set_buffer_doing | apply set_file_var_doing]
  | |- Frame _ (if ?c then _ else _) => destruct c
  | |- Frame _ (match ?x with _ => _ end) => destruct x
  end.

Ltac frame := repeat first [assumption | frame_step].

(** ** What the handlers leave alone *)

Create HintDb frames.

Ltac frames :=
  repeat first
    [ assumption
    | solve [auto 2 with frames]
    | apply calm_still; solve [auto 2 with frames]
    | frame_step
    | progress cbv zeta ].

Lemma calm_on_buffer {A} (b : BufferId) (f : GCodeBuffer -> A * GCodeBuffer * list string) :
  Frame calm (GCodes.on_buffer b f).
Proof. unfold GCodes.on_buffer. frames. Qed.

Lemma calm_Seen (b : BufferId) (c : ascii) : Frame calm (GCodes.Seen b c).
Proof. apply calm_on_buffer. Qed.
Lemma calm_GetIValue (b : BufferId) : Frame calm (GCodes.GetIValue b).
Proof. apply calm_on_buffer. Qed.
Lemma calm_GetFValue (b : BufferId) : Frame calm (GCodes.GetFValue b).
Proof. apply calm_on_buffer. Qed.
Lemma calm_GetString (b : BufferId) : Frame calm (GCodes.GetString b).
Proof. apply calm_on_buffer. Qed.
Lemma calm_GetFloatArray (b : BufferId) (n : nat) : Frame calm (GCodes.GetFloatArray b n).
Proof. apply calm_on_buffer. Qed.
Lemma calm_Buffer (b : BufferId) : Frame calm (GCodes.Buffer b).
Proof. unfold GCodes.Buffer. frames. Qed.
Lemma calm_Active (b : BufferId) : Frame calm (GCodes.Active b).
Proof. unfold GCodes.Active. frames. Qed.
Lemma calm_SetFinished (b : BufferId) (f : bool) : Frame calm (GCodes.SetFinished b f).
Proof. unfold GCodes.SetFinished. frames. Qed.
Lemma calm_InitBuffer (b : BufferId) : Frame calm (GCodes.InitBuffer b).
Proof. unfold GCodes.InitBuffer. frames. Qed.
Lemma calm_WritingFileDirectory (b : BufferId) : Frame calm (GCodes.WritingFileDirectory b).
Proof. unfold GCodes.WritingFileDirectory. frames. Qed.
Lemma calm_SetWritingFileDirectory (b : BufferId) (d : option string) :
  Frame calm (GCodes.SetWritingFileDirectory b d).
Proof. unfold GCodes.SetWritingFileDirectory. frames. Qed.

#[export] Hint Resolve calm_Seen calm_GetIValue calm_GetFValue calm_GetString
  calm_GetFloatArray calm_Buffer calm_Active calm_SetFinished calm_InitBuffer
  calm_WritingFileDirectory calm_SetWritingFileDirectory : frames.

Lemma calm_Put `{Config} (b : BufferId) (c : ascii) : Frame calm (GCodes.Put b c).
Proof. unfold GCodes.Put. frames. Qed.

(** *** The file stores: everything but [Read] *)

Lemma calm_Open (i : nat) (directory fileName : string) (write : bool) :
  Frame calm (Platform.Open i directory fileName write).
Proof.
  unfold Platform.Open. frames; apply calm_update_store; intros ?; simpl; lia.
Qed.

Lemma calm_Duplicate (i : nat) : Frame calm (Platform.Duplicate i).
Proof. unfold Platform.Duplicate. frames; apply calm_update_store; intros s; simpl; lia. Qed.

Lemma calm_Close (i : nat) : Frame calm (Platform.Close i).
Proof. unfold Platform.Close. frames; apply calm_update_store; intros s; simpl; lia. Qed.

Lemma calm_Write (i : nat) (text : list ascii) : Frame calm (Platform.Write i text).
Proof. unfold Platform.Write. frames; apply calm_update_store; intros s; simpl; lia. Qed.

#[export] Hint Resolve calm_Open calm_Duplicate calm_Close calm_Write : frames.

Lemma calm_GetFileStore (directory fileName : string) (write : bool) :
  Frame calm (Platform.GetFileStore directory fileName write).
Proof.
  unfold Platform.GetFileStore. frames; apply calm_update_store; intros s; simpl; lia.
Qed.

Lemma calm_PushMessageIndent : Frame calm Platform.PushMessageIndent.
Proof. apply calm_update_platform. intros p i. reflexivity. Qed.

Lemma calm_PopMessageIndent : Frame calm Platform.PopMessageIndent.
Proof. apply calm_update_platform. intros p i. reflexivity. Qed.

Lemma calm_IsLive (v : FileVar) : Frame calm (FileData.IsLive v).
Proof. unfold FileData.IsLive. frames. Qed.

Lemma calm_FileData_Close (v : FileVar) : Frame calm (FileData.Close v).
Proof. unfold FileData.Close. frames. Qed.

#[export] Hint Resolve calm_GetFileStore calm_PushMessageIndent calm_PopMessageIndent
  calm_IsLive calm_FileData_Close : frames.

Lemma calm_Set (v : FileVar) (f : FileData) : Frame calm (FileData.Set_ v f).
Proof. unfold FileData.Set_. frames. Qed.

Lemma calm_CopyFrom (v other : FileVar) : Frame calm (FileData.CopyFrom v other).
Proof. unfold FileData.CopyFrom. frames. Qed.

Lemma calm_MoveFrom (v other : FileVar) : Frame calm (FileData.MoveFrom v other).
Proof. unfold FileData.MoveFrom. frames. Qed.

Lemma calm_GetCurrentUserPosition : Frame calm Move.GetCurrentUserPosition.
Proof. unfold Move.GetCurrentUserPosition. frames. Qed.

Lemma calm_Transform : Frame calm Move.Transform.
Proof. unfold Move.Transform. frames. Qed.

#[export] Hint Resolve calm_Set calm_CopyFrom calm_MoveFrom calm_GetCurrentUserPosition
  calm_Transform : frames.

(** *** Moves, positions and the stack *)

Section HandlerFrames.
Context `{Config}.

Lemma calm_AllMoves : Frame calm GCodes.AllMovesAreFinishedAndMoveBufferIsLoaded.
Proof. unfold GCodes.AllMovesAreFinishedAndMoveBufferIsLoaded. frames. Qed.
Hint Resolve calm_AllMoves : frames.

Lemma calm_Push : Frame calm GCodes.Push.
Proof. unfold GCodes.Push. frames. Qed.

Lemma calm_Pop : Frame calm GCodes.Pop.
Proof. unfold GCodes.Pop. frames. Qed.

Lemma calm_load_extrusion (b : BufferId) (doingG92 : bool) :
  Frame calm (GCodes.load_extrusion b doingG92).
Proof.
  unfold GCodes.load_extrusion. frames.
  apply calm_update. intros g.
  match goal with
  | |- context [foldl (GCodes.load_extruder ?d ?t ?e) g (seq 0 ?n)] =>
      destruct (load_extruders_frame d t e n g) as (? & ? & -> & _)
  end.
  reflexivity.
Qed.

Lemma calm_load_axis (b : BufferId) (doingG92 applyLimits : bool) (axis : nat) :
  Frame calm (GCodes.load_axis b doingG92 applyLimits axis).
Proof. unfold GCodes.load_axis. frames. Qed.
Hint Resolve calm_load_extrusion calm_load_axis : frames.

Lemma calm_LoadMoveBuffer (b : BufferId) (doingG92 applyLimits : bool) :
  Frame calm (GCodes.LoadMoveBufferFromGCode b doingG92 applyLimits).
Proof. unfold GCodes.LoadMoveBufferFromGCode. frames. Qed.
Hint Resolve calm_LoadMoveBuffer : frames.

Lemma calm_SetUpMove (b : BufferId) : Frame calm (GCodes.SetUpMove b).
Proof. unfold GCodes.SetUpMove. frames. Qed.

Lemma calm_SetPositions (b : BufferId) : Frame calm (GCodes.SetPositions b).
Proof. unfold GCodes.SetPositions. frames. Qed.

Lemma calm_WriteGCodeToFile (b : BufferId) : Frame calm (GCodes.WriteGCodeToFile b).
Proof. unfold GCodes.WriteGCodeToFile. frames. Qed.

Lemma still_FileCannedCyclesReturn : Frame still GCodes.FileCannedCyclesReturn.
Proof. unfold GCodes.FileCannedCyclesReturn. frames. Qed.
End HandlerFrames.

#[export] Hint Resolve calm_AllMoves calm_Push calm_Pop calm_load_extrusion calm_load_axis
  calm_LoadMoveBuffer calm_SetUpMove calm_SetPositions calm_WriteGCodeToFile : frames.

(** *** The dispatcher while no macro file is being run *)

Create HintDb quiets.

Ltac quiet_step :=
  first
    [ solve [apply still_Quiet; frames]
    | solve [auto 2 with quiets]
    | match goal with
      | |- Quiet (bind ?m _) =>
          first [ apply Quiet_bind; [solve [frames] | intros ?]
                | apply Quiet_then; [ | intros ?; solve [frames]] ]
      | |- Quiet (if ?c then _ else _) => destruct c
      | |- Quiet (match ?x with _ => _ end) => destruct x
      end ].

Ltac quiet := repeat quiet_step.

Section Dispatch.
Context `{Config}.
Variable ActOnCode : BufferId -> M bool.

(** Started with no macro file being run, [DoFileCannedCycles] pushes the
    state and opens the file; it reads nothing. *)
Lemma Quiet_DoFileCannedCycles (fileName : string) :
  Quiet (GCodes.DoFileCannedCycles ActOnCode fileName).
Proof.
  unfold GCodes.DoFileCannedCycles. apply Quiet_gc. intros g ->. cbn [negb].
  apply still_Quiet. frames.
Qed.
Hint Resolve Quiet_DoFileCannedCycles : quiets.
Hint Resolve still_FileCannedCyclesReturn : frames.

Lemma Quiet_DoHome (reply : string) (error : bool) :
  Quiet (GCodes.DoHome ActOnCode reply error).
Proof.
  unfold GCodes.DoHome. apply Quiet_gc. intros g _. unfold id. quiet.
Qed.
Hint Resolve Quiet_DoHome : quiets.

Lemma Quiet_HandleGcode (b : BufferId) : Quiet (GCodes.HandleGcode ActOnCode b).
Proof. unfold GCodes.HandleGcode. quiet. Qed.

Lemma Quiet_HandleMcode (b : BufferId) : Quiet (GCodes.HandleMcode ActOnCode b).
Proof. unfold GCodes.HandleMcode. quiet. Qed.
Hint Resolve Quiet_HandleGcode Quiet_HandleMcode : quiets.

Lemma Quiet_ActOnCode_body (b : BufferId) : Quiet (GCodes.ActOnCode_body ActOnCode b).
Proof. unfold GCodes.ActOnCode_body. quiet. Qed.
End Dispatch.

Lemma Quiet_ActOnCode `{Config} (fuel : nat) (b : BufferId) :
  Quiet (GCodes.ActOnCode fuel b).
Proof.
  destruct fuel as [|fuel]; simpl.
  - apply still_Quiet, Frame_fail.
  - apply Quiet_ActOnCode_body.
Qed.

Lemma Quiet_complete_line `{Config} (fuel : nat) (b : BufferId) :
  Quiet (GCodes.complete_line (GCodes.ActOnCode fuel) b).
Proof.
  unfold GCodes.complete_line.
  apply Quiet_bind; [frames|]. intros [d|].
  - apply still_Quiet. frames.
  - apply Quiet_then; [apply Quiet_ActOnCode|]. intros res. frames.
Qed.

(** ** Calls that always return *)

Lemma Returns_ret {A} (a : A) : Returns (ret a).
Proof. by intros r; eexists. Qed.

Lemma Returns_gets {A} (f : RepRap -> A) : Returns (gets f).
Proof. by intros r; eexists. Qed.

Lemma Returns_gc {A} (f : GCodes -> A) : Returns (gc f).
Proof. by intros r; eexists. Qed.

Lemma Returns_plat {A} (f : Platform -> A) : Returns (plat f).
Proof. by intros r; eexists. Qed.

Lemma Returns_modify (f : RepRap -> RepRap) : Returns (modify f).
Proof. by intros r; eexists. Qed.

Lemma Returns_update (f : GCodes -> GCodes) : Returns (update f).
Proof. by intros r; eexists. Qed.

Lemma Returns_update_platform (f : Platform -> Platform) : Returns (update_platform f).
Proof. by intros r; eexists. Qed.

Lemma Returns_bind {A B} (m : M A) (k : A -> M B) :
  Returns m -> (forall a, Returns (k a)) -> Returns (bind m k).
Proof.
  intros Hm Hk r. unfold bind. destruct (Hm r) as [[a r1] ->]. apply Hk.
Qed.

Lemma Returns_when (c : bool) (m : M unit) : Returns m -> Returns (when c m).
Proof. intros Hm. destruct c; [done|apply Returns_ret]. Qed.

Lemma Returns_for_each {A} (l : list A) (body : A -> M unit) :
  (forall x, Returns (body x)) -> Returns (for_each l body).
Proof.
  intros Hbody. induction l as [|x l IH]; [apply Returns_ret|].
  cbn [for_each]. apply Returns_bind; [apply Hbody|by intros _].
Qed.

Lemma Returns_idle {A} (m : M A) : Returns m -> IdleReturns m.
Proof. intros Hm r _. apply Hm. Qed.

(** A start that returns and keeps the macro flag, then a rest that
    returns when no macro is run. *)
Lemma IdleReturns_bind {A B} (m : M A) (k : A -> M B) :
  Returns m -> Frame calm m -> (forall a, IdleReturns (k a)) -> IdleReturns (bind m k).
Proof.
  intros Hm Hcalm Hk r Hidle. unfold bind.
  destruct (Hm r) as [[a r1] Hrun]. rewrite Hrun.
  apply Hk. destruct (Hcalm _ _ _ Hrun) as [_ Hd]. congruence.
Qed.

Lemma IdleReturns_then {A B} (m : M A) (k : A -> M B) :
  IdleReturns m -> (forall a, Returns (k a)) -> IdleReturns (bind m k).
Proof.
  intros Hm Hk r Hidle. unfold bind.
  destruct (Hm r Hidle) as [[a r1] ->]. apply Hk.
Qed.

Lemma IdleReturns_gc {A B} (f : GCodes -> A) (k : A -> M B) :
  (forall g, doingCannedCycleFile g = false -> IdleReturns (k (f g))) ->
  IdleReturns (bind (gc f) k).
Proof. intros Hk r Hidle. unfold bind, gc, gets. by apply Hk. Qed.

Create HintDb returns.

Ltac returns_step :=
  match goal with
  | |- Returns (ret _) => apply Returns_ret
  | |- Returns (gets _) => apply Returns_gets
  | |- Returns (gc _) => apply Returns_gc
  | |- Returns (plat _) => apply Returns_plat
  | |- Returns (modify _) => apply Returns_modify
  | |- Returns (update _) => apply Returns_update
  | |- Returns (update_platform _) => apply Returns_update_platform
  | |- Returns (when _ _) => apply Returns_when
  | |- Returns (for_each _ _) => apply Returns_for_each; intros ?
  | |- Returns (bind _ _) => apply Returns_bind; [|intros ?]
  | |- Returns (if ?c then _ else _) => destruct c
  | |- Returns (match ?x with _ => _ end) => destruct x
  end.

Ltac returning :=
  repeat first
    [ assumption
    | solve [auto 2 with returns]
    | returns_step
    | progress cbv zeta ].

(** *** The platform, the files and the planner *)

Lemma Returns_Message (t : MessageType) (s : string) : Returns (Platform.Message t s).
Proof. unfold Platform.Message. returning. Qed.
Lemma Returns_LineWrite (s : string) : Returns (Platform.LineWrite s).
Proof. unfold Platform.LineWrite. returning. Qed.
Lemma Returns_PushMessageIndent : Returns Platform.PushMessageIndent.
Proof. unfold Platform.PushMessageIndent. returning. Qed.
Lemma Returns_PopMessageIndent : Returns Platform.PopMessageIndent.
Proof. unfold Platform.PopMessageIndent. returning. Qed.
Lemma Returns_update_store (i : nat) (f : FileStore -> FileStore) :
  Returns (Platform.update_store i f).
Proof. unfold Platform.update_store. returning. Qed.

#[export] Hint Resolve Returns_Message Returns_LineWrite Returns_PushMessageIndent
  Returns_PopMessageIndent Returns_update_store : returns.

Lemma Returns_Open (i : nat) (directory fileName : string) (write : bool) :
  Returns (Platform.Open i directory fileName write).
Proof. unfold Platform.Open. returning. Qed.
Lemma Returns_Duplicate (i : nat) : Returns (Platform.Duplicate i).
Proof. unfold Platform.Duplicate. returning. Qed.
Lemma Returns_Close (i : nat) : Returns (Platform.Close i).
Proof. unfold Platform.Close. returning. Qed.
Lemma Returns_Write (i : nat) (text : list ascii) : Returns (Platform.Write i text).
Proof. unfold Platform.Write. returning. Qed.

#[export] Hint Resolve Returns_Open Returns_Duplicate Returns_Close Returns_Write : returns.

Lemma Returns_GetFileStore (directory fileName : string) (write : bool) :
  Returns (Platform.GetFileStore directory fileName write).
Proof. unfold Platform.GetFileStore. returning. Qed.

Lemma Returns_IsLive (v : FileVar) : Returns (FileData.IsLive v).
Proof. unfold FileData.IsLive. returning. Qed.
Lemma Returns_FileData_Close (v : FileVar) : Returns (FileData.Close v).
Proof. unfold FileData.Close. returning. Qed.

#[export] Hint Resolve Returns_GetFileStore Returns_IsLive Returns_FileData_Close : returns.

Lemma Returns_Set (v : FileVar) (f : FileData) : Returns (FileData.Set_ v f).
Proof. unfold FileData.Set_. returning. Qed.
Lemma Returns_CopyFrom (v other : FileVar) : Returns (FileData.CopyFrom v other).
Proof. unfold FileData.CopyFrom. returning. Qed.
Lemma Returns_MoveFrom (v other : FileVar) : Returns (FileData.MoveFrom v other).
Proof. unfold FileData.MoveFrom. returning. Qed.
Lemma Returns_Move_call (c : MoveCall) : Returns (Move.call c).
Proof. unfold Move.call. returning. Qed.
Lemma Returns_GetCurrentUserPosition : Returns Move.GetCurrentUserPosition.
Proof. unfold Move.GetCurrentUserPosition. returning. Qed.
Lemma Returns_Transform : Returns Move.Transform.
Proof. pose proof Returns_Move_call. unfold Move.Transform. returning. Qed.

#[export] Hint Resolve Returns_Set Returns_CopyFrom Returns_MoveFrom Returns_Move_call
  Returns_GetCurrentUserPosition Returns_Transform : returns.

(** *** The buffers *)

Lemma Returns_on_buffer {A} (b : BufferId) (f : GCodeBuffer -> A * GCodeBuffer * list string) :
  Returns (GCodes.on_buffer b f).
Proof.
  unfold GCodes.on_buffer. apply Returns_bind; [returning|]. intros gb.
  destruct (f gb) as [[a gb'] msgs]. returning.
Qed.

Lemma Returns_Seen (b : BufferId) (c : ascii) : Returns (GCodes.Seen b c).
Proof. apply Returns_on_buffer. Qed.
Lemma Returns_GetIValue (b : BufferId) : Returns (GCodes.GetIValue b).
Proof. apply Returns_on_buffer. Qed.
Lemma Returns_GetFValue (b : BufferId) : Returns (GCodes.GetFValue b).
Proof. apply Returns_on_buffer. Qed.
Lemma Returns_GetString (b : BufferId) : Returns (GCodes.GetString b).
Proof. apply Returns_on_buffer. Qed.
Lemma Returns_GetFloatArray (b : BufferId) (n : nat) : Returns (GCodes.GetFloatArray b n).
Proof. apply Returns_on_buffer. Qed.
Lemma Returns_Buffer (b : BufferId) : Returns (GCodes.Buffer b).
Proof. unfold GCodes.Buffer. returning. Qed.
Lemma Returns_Active (b : BufferId) : Returns (GCodes.Active b).
Proof. unfold GCodes.Active. returning. Qed.
Lemma Returns_SetFinished (b : BufferId) (f : bool) : Returns (GCodes.SetFinished b f).
Proof. unfold GCodes.SetFinished. returning. Qed.
Lemma Returns_InitBuffer (b : BufferId) : Returns (GCodes.InitBuffer b).
Proof. unfold GCodes.InitBuffer. returning. Qed.
Lemma Returns_WritingFileDirectory (b : BufferId) : Returns (GCodes.WritingFileDirectory b).
Proof. unfold GCodes.WritingFileDirectory. returning. Qed.
Lemma Returns_SetWritingFileDirectory (b : BufferId) (d : option string) :
  Returns (GCodes.SetWritingFileDirectory b d).
Proof. unfold GCodes.SetWritingFileDirectory. returning. Qed.

#[export] Hint Resolve Returns_Seen Returns_GetIValue Returns_GetFValue Returns_GetString
  Returns_GetFloatArray Returns_Buffer Returns_Active Returns_SetFinished Returns_InitBuffer
  Returns_WritingFileDirectory Returns_SetWritingFileDirectory : returns.

Lemma Returns_HandleReply (error fromLine : bool) (reply : string) (gMOrT : ascii)
    (code : Z) (resend : bool) :
  Returns (GCodes.HandleReply error fromLine reply gMOrT code resend).
Proof.
  intros r. destruct (HandleReply_output error fromLine reply gMOrT code resend r)
    as (r' & -> & _). by eexists.
Qed.

#[export] Hint Resolve Returns_HandleReply : returns.

(** *** Moves and the stack *)

Section Moves.
Context `{Config}.

Lemma Returns_AllMoves : Returns GCodes.AllMovesAreFinishedAndMoveBufferIsLoaded.
Proof. unfold GCodes.AllMovesAreFinishedAndMoveBufferIsLoaded. returning. Qed.

Lemma Returns_Push : Returns GCodes.Push.
Proof. pose proof Returns_AllMoves. unfold GCodes.Push. returning. Qed.

Lemma Returns_Pop : Returns GCodes.Pop.
Proof. pose proof Returns_AllMoves. unfold GCodes.Pop. returning. Qed.

Lemma Returns_load_extrusion (b : BufferId) (doingG92 : bool) :
  Returns (GCodes.load_extrusion b doingG92).
Proof. unfold GCodes.load_extrusion. returning. Qed.

Lemma Returns_load_axis (b : BufferId) (doingG92 applyLimits : bool) (axis : nat) :
  Returns (GCodes.load_axis b doingG92 applyLimits axis).
Proof. unfold GCodes.load_axis. returning. Qed.

Lemma Returns_LoadMoveBuffer (b : BufferId) (doingG92 applyLimits : bool) :
  Returns (GCodes.LoadMoveBufferFromGCode b doingG92 applyLimits).
Proof.
  pose proof Returns_load_extrusion. pose proof Returns_load_axis.
  unfold GCodes.LoadMoveBufferFromGCode. returning.
Qed.

Lemma Returns_SetUpMove (b : BufferId) : Returns (GCodes.SetUpMove b).
Proof. pose proof Returns_LoadMoveBuffer. unfold GCodes.SetUpMove. returning. Qed.

Lemma Returns_SetPositions (b : BufferId) : Returns (GCodes.SetPositions b).
Proof.
  pose proof Returns_LoadMoveBuffer. pose proof Returns_AllMoves.
  unfold GCodes.SetPositions. returning.
Qed.

Lemma Returns_FileCannedCyclesReturn : Returns GCodes.FileCannedCyclesReturn.
Proof. pose proof Returns_AllMoves. unfold GCodes.FileCannedCyclesReturn. returning. Qed.
End Moves.

#[export] Hint Resolve Returns_AllMoves Returns_Push Returns_Pop Returns_LoadMoveBuffer
  Returns_SetUpMove Returns_SetPositions Returns_FileCannedCyclesReturn : returns.

(** ** Commands that are followed to their end *)

Create HintDb idles.

Ltac idle_step :=
  first
    [ solve [apply Returns_idle; returning]
    | solve [auto 2 with idles]
    | match goal with
      | |- IdleReturns (bind ?m _) =>
          first [ apply IdleReturns_bind; [solve [returning] | solve [frames] | intros ?]
                | apply IdleReturns_then; [ | intros ?; solve [returning]] ]
      | |- IdleReturns (if ?c then _ else _) => destruct c
      | |- IdleReturns (match ?x with _ => _ end) => destruct x
      end ].

Ltac idle := repeat idle_step.

Section Dispatch.
Context `{Config}.
Variable ActOnCode : BufferId -> M bool.

(** Started with no macro file being run, [DoFileCannedCycles] returns:
    it pushes, looks for the file and either starts the macro or pops. *)
Lemma IdleReturns_DoFileCannedCycles (fileName : string) :
  IdleReturns (GCodes.DoFileCannedCycles ActOnCode fileName).
Proof.
  unfold GCodes.DoFileCannedCycles. apply IdleReturns_gc. intros g ->. cbn [negb].
  apply Returns_idle. returning.
Qed.
Hint Resolve IdleReturns_DoFileCannedCycles : idles.

Lemma IdleReturns_DoHome (reply : string) (error : bool) :
  IdleReturns (GCodes.DoHome ActOnCode reply error).
Proof.
  unfold GCodes.DoHome. apply IdleReturns_gc. intros g _. unfold id. idle.
Qed.
Hint Resolve IdleReturns_DoHome : idles.

(** What reading the number of a command leaves for its handler. *)
Lemma GetIValue_for_handler (b : BufferId) (r : RepRap) :
  exists r0,
    GCodes.GetIValue b r
    = Some ((GCodeBuffer.GetIValue (buffer b (gCodes r))).1.1, r0)
    /\ doingCannedCycleFile (gCodes r0) = doingCannedCycleFile (gCodes r).
Proof.
  destruct (on_buffer_run b GCodeBuffer.GetIValue r) as (r0 & Hrun & Hg & _).
  exists r0. split; [exact Hrun|]. rewrite Hg. by destruct b.
Qed.

Lemma HandleGcode_returns (b : BufferId) (r : RepRap) :
  doingCannedCycleFile (gCodes r) = false ->
  (GCodeBuffer.GetIValue (buffer b (gCodes r))).1.1 ∉ [4; 10; 30; 31; 32] ->
  is_Some (GCodes.HandleGcode ActOnCode b r).
Proof.
  intros Hidle Hcode. unfold GCodes.HandleGcode. unfold bind at 1.
  destruct (GetIValue_for_handler b r) as (r0 & -> & Hidle0).
  set (code := (GCodeBuffer.GetIValue (buffer b (gCodes r))).1.1) in *.
  rewrite (bool_decide_eq_false_2 _ Hcode).
  match goal with
  | |- is_Some (?m r0) => assert (IdleReturns m) as Hm; [|apply Hm; congruence]
  end.
  apply IdleReturns_then; [|intros [[? ?] ?]; returning].
  idle.
Qed.

Lemma HandleMcode_returns (b : BufferId) (r : RepRap) :
  doingCannedCycleFile (gCodes r) = false ->
  (GCodeBuffer.GetIValue (buffer b (gCodes r))).1.1 ∉ GCodes.other_M_codes ->
  (GCodeBuffer.GetIValue (buffer b (gCodes r))).1.1 <> 998 ->
  is_Some (GCodes.HandleMcode ActOnCode b r).
Proof.
  intros Hidle Hcode Hresend. unfold GCodes.HandleMcode. unfold bind at 1.
  destruct (GetIValue_for_handler b r) as (r0 & -> & Hidle0).
  set (code := (GCodeBuffer.GetIValue (buffer b (gCodes r))).1.1) in *.
  rewrite (bool_decide_eq_false_2 _ Hcode).
  apply Z.eqb_neq in Hresend. rewrite Hresend.
  match goal with
  | |- is_Some (?m r0) => assert (IdleReturns m) as Hm; [|apply Hm; congruence]
  end.
  apply IdleReturns_then; [|intros [[[? ?] ?] ?]; returning].
  idle.
Qed.

Lemma Seen_moves_the_pointer (c : ascii) (gb : GCodeBuffer) :
  exists k, (GCodeBuffer.Seen c gb).2 = set_readPointer k gb.
Proof.
  unfold GCodeBuffer.Seen.
  destruct (GCodeBuffer.Seen_loop c (gcodeBuffer gb) 0); by eexists.
Qed.

Lemma Seen_after_pointer (c : ascii) (k : Z) (gb : GCodeBuffer) :
  GCodeBuffer.Seen c (set_readPointer k gb) = GCodeBuffer.Seen c gb.
Proof.
  unfold GCodeBuffer.Seen. bfields.
  by destruct (GCodeBuffer.Seen_loop c (gcodeBuffer gb) 0); destruct gb.
Qed.

(** A command the model follows has a result when no macro is being run. *)
Lemma ActOnCode_body_returns (b : BufferId) (r : RepRap) :
  doingCannedCycleFile (gCodes r) = false ->
  modelled_command (buffer b (gCodes r)) ->
  is_Some (GCodes.ActOnCode_body ActOnCode b r).
Proof.
  intros Hidle Hline. unfold modelled_command, code_after in Hline.
  set (gb := buffer b (gCodes r)) in *.
  assert (forall gb', doingCannedCycleFile (gCodes (with_buffer b gb' r)) = false)
    as Hidle'.
  { intros gb'. unfold with_buffer. fields. by destruct b. }
  unfold GCodes.ActOnCode_body.
  unfold bind at 1. rewrite Seen_run. fold gb.
  destruct (Seen_moves_the_pointer "M" gb) as [kM HkM].
  destruct (GCodeBuffer.Seen "M" gb) as [[] gbM]; cbn [fst snd] in *.
  { destruct Hline as [Hcode Hresend].
    apply HandleMcode_returns; rewrite ?buffer_with_buffer; done. }
  unfold bind at 1. rewrite Seen_run. rewrite buffer_with_buffer.
  subst gbM. rewrite Seen_after_pointer.
  destruct (Seen_moves_the_pointer "G" gb) as [kG HkG].
  destruct (GCodeBuffer.Seen "G" gb) as [[] gbG]; cbn [fst snd] in *.
  { apply HandleGcode_returns; rewrite ?buffer_with_buffer; [|done].
    unfold with_buffer. fields. by destruct b. }
  unfold bind at 1. rewrite Seen_run.
  unfold with_buffer at 1 2. fields.
  replace (buffer b (set_buffer b gbG (set_buffer b (set_readPointer kM gb) (gCodes r))))
    with gbG by (by destruct b).
  subst gbG. rewrite Seen_after_pointer.
  destruct (GCodeBuffer.Seen "T" gb) as [[] gbT]; cbn [fst snd] in *; [done|].
  apply Returns_bind; [returning|intros _; returning].
Qed.

(** A line being saved has a result unless it is G998. *)
Lemma WriteGCodeToFile_returns (b : BufferId) (r : RepRap) :
  code_after "G" (buffer b (gCodes r)) <> Some 998 ->
  is_Some (GCodes.WriteGCodeToFile b r).
Proof.
  intros Hline. unfold code_after in Hline.
  set (gb := buffer b (gCodes r)) in *.
  unfold GCodes.WriteGCodeToFile. unfold bind at 1. unfold gc, gets.
  destruct (fileBeingWritten (gCodes r)) as [i|]; [|apply Returns_Message].
  unfold bind at 1. rewrite Seen_run. fold gb.
  destruct (Seen_moves_the_pointer "M" gb) as [kM HkM].
  destruct (GCodeBuffer.Seen "M" gb) as [foundM gbM]; cbn [fst snd] in *. subst gbM.
  set (r1 := with_buffer b (set_readPointer kM gb) r).
  unfold bind at 1.
  assert (exists code r2,
            (if foundM then GCodes.GetIValue b else ret 0) r1 = Some (code, r2)
            /\ exists k, buffer b (gCodes r2) = set_readPointer k gb)
    as (code & r2 & -> & k2 & Hb2).
  { destruct foundM.
    - unfold GCodes.GetIValue.
      destruct (on_buffer_run b GCodeBuffer.GetIValue r1) as (r2 & -> & Hg & _).
      eexists _, r2. split; [done|]. rewrite Hg. subst r1.
      rewrite !buffer_with_buffer.
      unfold GCodeBuffer.GetIValue, GCodeBuffer.GetLValue. bfields.
      destruct (kM <? 0); cbn [fst snd]; by eexists.
    - eexists _, r1. split; [done|]. subst r1. rewrite buffer_with_buffer. by eexists. }
  destruct (foundM && (code =? 29)).
  { match goal with
    | |- is_Some (?m r2) => assert (Returns m) as Hm; [returning|apply Hm]
    end. }
  unfold bind at 1. rewrite Seen_run. rewrite Hb2, Seen_after_pointer.
  destruct (Seen_moves_the_pointer "G" gb) as [kG HkG].
  destruct (GCodeBuffer.Seen "G" gb) as [foundG gbG] eqn:HG; cbn [fst snd] in *.
  subst gbG. set (r3 := with_buffer b (set_readPointer kG gb) r2).
  unfold bind at 1.
  destruct foundG.
  - unfold GCodes.GetIValue at 1.
    destruct (on_buffer_run b GCodeBuffer.GetIValue r3) as (r4 & -> & Hg4 & _).
    subst r3. rewrite !buffer_with_buffer in *.
    destruct (Z.eqb_spec (GCodeBuffer.GetIValue (set_readPointer kG gb)).1.1 998)
      as [Heq|_]; [by rewrite Heq in Hline|].
    cbn [andb]. unfold bind at 1. unfold ret at 1.
    match goal with
    | |- is_Some (?m r4) => assert (Returns m) as Hm; [returning|apply Hm]
    end.
  - cbn [andb]. unfold ret at 1. unfold bind at 1. unfold ret at 1.
    match goal with
    | |- is_Some (?m r3) => assert (Returns m) as Hm; [returning|apply Hm]
    end.
Qed.
End Dispatch.

(** A completed line that the model follows is dispatched to its end when
    no macro is being run. *)
Lemma complete_line_returns `{Config} (fuel : nat) (b : BufferId) (r : RepRap) :
  doingCannedCycleFile (gCodes r) = false ->
  modelled_line (buffer b (gCodes r)) ->
  is_Some (GCodes.complete_line (GCodes.ActOnCode (S fuel)) b r).
Proof.
  intros Hidle Hline. unfold modelled_line in Hline.
  unfold GCodes.complete_line, GCodes.WritingFileDirectory. run.
  destruct (writingFileDirectory (buffer b (gCodes r))).
  - by apply WriteGCodeToFile_returns.
  - cbn [GCodes.ActOnCode].
    destruct (ActOnCode_body_returns (GCodes.ActOnCode fuel) b r Hidle Hline)
      as [[res r1] ->].
    apply Returns_SetFinished.
Qed.

(** ** One call of [Spin] with bytes waiting on the web *)

Section WebFirst.
Context `{Config}.

(** A byte put in the web buffer: the buffer and the messages change,
    nothing else. *)
Lemma Put_web_run (c : ascii) (r : RepRap) :
  GCodeBuffer.wf (webGCode (gCodes r)) ->
  exists complete r1 msgs,
    GCodes.Put WebGCode c r = Some (complete, r1)
    /\ GCodeBuffer.Put (debug r) c (webGCode (gCodes r))
       = Some (complete, webGCode (gCodes r1), msgs)
    /\ GCodeBuffer.wf (webGCode (gCodes r1))
    /\ webserver r1 = webserver r
    /\ debug r1 = debug r
    /\ files (platform r1) = files (platform r)
    /\ doingCannedCycleFile (gCodes r1) = doingCannedCycleFile (gCodes r).
Proof.
  intros Hwf. unfold GCodes.Put. run.
  destruct (Put_total (debug r) c (webGCode (gCodes r)) Hwf)
    as (complete & gb' & msgs & HPut & Hwf').
  rewrite HPut. run.
  match goal with
  | |- context [for_each msgs ?f ?x] =>
      destruct (messages_output HOST_MESSAGE msgs x)
        as (r1 & -> & Hg & _ & Hw & _ & Hd & Hf & _)
  end.
  exists complete, r1, msgs. split; [done|]. rewrite Hg, Hw, Hd, Hf. by fields.
Qed.

Variable ActOnCode : BufferId -> M bool.

(** The loop over the bytes of the web: it takes at most [n] of them, and
    ends either with the bytes buffered or with the line they complete
    handed over; the buffer is then what [Put] makes of these bytes. *)
Lemma web_loop_run (n : nat) : forall r : RepRap,
  GCodeBuffer.wf (webGCode (gCodes r)) ->
  gcodeInput (webserver r) <> [] ->
  exists taken r1 (complete : bool) answers msgs,
    gcodeInput (webserver r) = taken ++ gcodeInput (webserver r1)
    /\ (length taken <= n)%nat /\ ((0 < n)%nat -> (0 < length taken)%nat)
    /\ files (platform r1) = files (platform r)
    /\ doingCannedCycleFile (gCodes r1) = doingCannedCycleFile (gCodes r)
    /\ GCodeBuffer.feed (debug r) taken (webGCode (gCodes r))
       = Some (answers, webGCode (gCodes r1), msgs)
    /\ (complete = true -> last answers = Some true)
    /\ GCodes.web_loop ActOnCode n r
       = (if complete then GCodes.complete_line ActOnCode WebGCode r1 else Some (tt, r1)).
Proof.
  induction n as [|n IH]; intros r Hwf Hin.
  - exists [], r, false, [], []. repeat split; simpl; (lia || done).
  - destruct (gcodeInput (webserver r)) as [|c rest] eqn:Hbytes; [done|].
    cbn [GCodes.web_loop]. unfold bind at 1, GCodes.ReadGCode at 1.
    unfold bind at 1, gets at 1. rewrite Hbytes. unfold bind at 1, modify at 1, ret at 1.
    set (r0 := set_webserver _ r).
    destruct (Put_web_run c r0)
      as (complete & r1 & m1 & HPut & HPut' & Hwf1 & Hw1 & Hdb1 & Hf1 & Hd1); [done|].
    unfold bind at 1. rewrite HPut.
    assert (gcodeInput (webserver r1) = rest) as Hrest by (by rewrite Hw1).
    assert (files (platform r1) = files (platform r)) as Hf1' by (by rewrite Hf1).
    assert (doingCannedCycleFile (gCodes r1) = doingCannedCycleFile (gCodes r)) as Hd1'
      by (by rewrite Hd1).
    assert (GCodeBuffer.feed (debug r) [c] (webGCode (gCodes r))
            = Some ([complete], webGCode (gCodes r1), m1 ++ [])) as Hone.
    { cbn [GCodeBuffer.feed]. change (debug r0) with (debug r) in HPut'.
      change (webGCode (gCodes r0)) with (webGCode (gCodes r)) in HPut'.
      by rewrite HPut'. }
    destruct complete.
    + exists [c], r1, true, [true], (m1 ++ []). rewrite Hrest.
      repeat split; simpl; try lia; done.
    + unfold bind at 1, GCodes.GCodeAvailable at 1, gets at 1. rewrite Hrest.
      destruct rest as [|c' rest'].
      * exists [c], r1, false, [false], (m1 ++ []). rewrite Hrest.
        repeat split; simpl; try lia; done.
      * destruct (IH r1)
          as (taken & r2 & complete & answers & m2 & Htaken & Hlen & _ & Hf2 & Hd2
              & Hfeed & Hlast & Hrun); [done|by rewrite Hrest|].
        exists (c :: taken), r2, complete, (false :: answers), (m1 ++ m2).
        rewrite Hrest in Htaken. rewrite <- app_comm_cons, <- Htaken.
        split; [done|]. split; [simpl; lia|]. split; [simpl; lia|].
        split; [congruence|]. split; [congruence|].
        split.
        { cbn [GCodeBuffer.feed]. change (debug r0) with (debug r) in HPut'.
          change (webGCode (gCodes r0)) with (webGCode (gCodes r)) in HPut'.
          rewrite HPut'. cbn [mbind option_bind].
          rewrite Hdb1 in Hfeed. change (debug r0) with (debug r) in Hfeed.
          by rewrite Hfeed. }
        split; [|done].
        intros Hc. specialize (Hlast Hc). destruct answers; [done|exact Hlast].
Qed.
End WebFirst.



(** ** The statements on the concrete machine *)

Lemma ReadMove_consumes_the_slot_witness :
  exists r',
    GCodes.ReadMove (replicate 9 Float.zero) false inch_move_pending
    = Some ((true, moveBuffer (gCodes inch_move_pending) ++ [], false), r')
    /\ moveAvailable (gCodes r') = false
    /\ checkEndStops (gCodes r') = false.
Proof.
  destruct (ReadMove_consumes_the_slot (replicate 9 Float.zero) false inch_move_pending)
    as (r' & Hrun & _ & Hpending & Hstops & _).
  - reflexivity.
  - vm_compute. lia.
  - exists r'. split; [exact Hrun|]. split; [exact Hpending|].
    apply Hstops. reflexivity.
Defined.


Lemma G92_sets_positions_witness :
  exists (r' : RepRap) (mb : list float),
    GCodes.SetPositions WebGCode (holding "G92 X5 Y3" booted) = Some (true, r')
    /\ mb !! X_AXIS
       = Some (Float.mul (Float.of_Z 5)
                 (distanceScale (gCodes (holding "G92 X5 Y3" booted))))
    /\ axisIsHomed (gCodes r') !! X_AXIS = Some true.
Proof.
  destruct (G92_sets_positions WebGCode (holding "G92 X5 Y3" booted)
              (past_extrusion (holding "G92 X5 Y3" booted))
              (replicate 9 Float.zero))
    as (r' & mb & Hrun & _ & _ & _ & Hset & _).
  - reflexivity.
  - reflexivity.
  - reflexivity.
  - reflexivity.
  - reflexivity.
  - vm_compute. lia.
  - vm_compute. reflexivity.
  - exists r', mb. split; [exact Hrun|].
    apply (Hset X_AXIS (Float.of_Z 5)); [vm_compute; lia|vm_compute; reflexivity].
Defined.

(** A G92 whose E field is refused (no tool is selected) completes all the
    same: the reply goes out and the buffer is idle again, but the X value
    it carries is not recorded, X is not flagged as homed and the planner
    is not given the position. *)
Lemma G92_with_refused_E_records_nothing :
  field_value (axis_letter X_AXIS) (webGCode (gCodes (holding "G92 X5 E1" booted)))
  = Some (Float.of_Z 5)
  /\ (exists r',
        GCodes.SetPositions WebGCode (holding "G92 X5 E1" booted) = Some (true, r')
        /\ axisIsHomed (gCodes r') !! X_AXIS = Some false
        /\ moveBuffer (gCodes r') !! X_AXIS = Some Float.zero
        /\ moveCalls (move r') = [ResumeMoving])
  /\ exists r',
       state_after (spins 1 1) (with_web_input (line "G92 X5 E1") booted) = Some r'
       /\ state (webGCode (gCodes r')) = idle
       /\ axisIsHomed (gCodes r') !! X_AXIS = Some false
       /\ moveBuffer (gCodes r') !! X_AXIS = Some Float.zero.
Proof.
  split; [vm_compute; reflexivity|]. split.
  - eexists. split; [vm_compute; reflexivity|]. repeat split; vm_compute; reflexivity.
  - eexists. split; [vm_compute; reflexivity|]. repeat split; vm_compute; reflexivity.
Qed.

Lemma M83_zeroes_accumulators_like_M82_witness :
  fget (lastPos (gCodes after_rejected_endstop_move)) 0 = Float.of_Z 5
  /\ exists r',
       GCodes.HandleMcode (GCodes.ActOnCode 1) WebGCode
         (reading "M" "M83" after_rejected_endstop_move) = Some (true, r')
       /\ drivesRelative (gCodes r') = true
       /\ lastPos (gCodes r') !! 0%nat = Some Float.zero.
Proof.
  split; [vm_compute; reflexivity|].
  destruct (M83_zeroes_accumulators_like_M82 (GCodes.ActOnCode 1) WebGCode
              (reading "M" "M83" after_rejected_endstop_move)
              (number_read (reading "M" "M83" after_rejected_endstop_move)))
    as (r' & Hrun & Hrel & Hzero & _).
  - vm_compute. reflexivity.
  - exists r'. split; [exact Hrun|]. split; [exact Hrel|].
    apply Hzero; vm_compute; lia.
Defined.

(** ** The field accessors of a command buffer *)

Lemma Seen_loop_first (c : ascii) (buf : list ascii) : forall (k : Z),
  match GCodeBuffer.Seen_loop c buf k with
  | Some r =>
      exists i : nat,
        r = k + Z.of_nat i /\ buf !! i = Some c
        /\ forall j b, (j < i)%nat -> buf !! j = Some b ->
             b <> c /\ b <> NUL /\ b <> ";"%char
  | None =>
      forall i, buf !! i = Some c ->
        exists j b, (j <= i)%nat /\ buf !! j = Some b /\ (b = NUL \/ b = ";"%char)
  end.
Proof.
  induction buf as [|b buf IH]; intros k; simpl.
  - by intros i.
  - destruct (Ascii.eqb_spec b NUL) as [->|HN]; simpl.
    { intros i _. exists 0%nat, NUL. split; [lia|]. split; [done|by left]. }
    destruct (Ascii.eqb_spec b ";") as [->|HS]; simpl.
    { intros i _. exists 0%nat, ";"%char. split; [lia|]. split; [done|by right]. }
    destruct (Ascii.eqb_spec b c) as [->|Hc].
    + exists 0%nat. split; [lia|]. split; [done|]. intros j b' Hj. lia.
    + specialize (IH (k + 1)). destruct (GCodeBuffer.Seen_loop c buf (k + 1)) as [r|].
      * destruct IH as (i & -> & Hi & Hbefore). exists (S i). split; [lia|]. split; [done|].
        intros [|j] b' Hj; simpl.
        -- by intros [= <-].
        -- apply Hbefore. lia.
      * intros [|i]; simpl.
        -- by intros [= ->].
        -- intros Hi. destruct (IH i Hi) as (j & b' & Hj & Hb' & Hterm).
           exists (S j), b'. split; [lia|]. done.
Qed.

(** X1.  [Seen] leaves the text alone and stops on the first occurrence of
    the tag that precedes every NUL and every ';': it answers [true] with
    the read pointer on that occurrence, or [false] with the read pointer at
    -1 when each occurrence of the tag comes after a NUL or a ';' (or is
    one). *)
Theorem Seen_finds_the_first_tag (c : ascii) (gb : GCodeBuffer) :
  gcodeBuffer (GCodeBuffer.Seen c gb).2 = gcodeBuffer gb
  /\ if (GCodeBuffer.Seen c gb).1
     then exists i : nat,
            readPointer (GCodeBuffer.Seen c gb).2 = Z.of_nat i
            /\ gcodeBuffer gb !! i = Some c
            /\ forall j b, (j < i)%nat -> gcodeBuffer gb !! j = Some b ->
                 b <> c /\ b <> NUL /\ b <> ";"%char
     else readPointer (GCodeBuffer.Seen c gb).2 = -1
          /\ forall i, gcodeBuffer gb !! i = Some c ->
               exists j b, (j <= i)%nat /\ gcodeBuffer gb !! j = Some b
                           /\ (b = NUL \/ b = ";"%char).
Proof.
  pose proof (Seen_loop_first c (gcodeBuffer gb) 0) as Hloop.
  unfold GCodeBuffer.Seen.
  destruct (GCodeBuffer.Seen_loop c (gcodeBuffer gb) 0) as [r|]; simpl.
  - split; [done|]. destruct Hloop as (i & -> & Hi & Hbefore). exists i.
    split; [lia|done].
  - done.
Qed.

Lemma GetFloatArray_loop_length (requested : nat) (buf : list ascii) :
  forall (fuel : nat) (rp : Z) (a a' : list float),
    GCodeBuffer.GetFloatArray_loop fuel buf rp a requested = Some a' ->
    (length a <= requested)%nat ->
    (length a' <= requested)%nat /\ (length a <= length a')%nat
    /\ ((0 < fuel)%nat -> (0 < length a')%nat).
Proof.
  induction fuel as [|fuel IH]; intros rp a a'; simpl.
  - intros [= <-] Ha. split; [done|]. split; [done|lia].
  - case_decide as Hfull; [done|].
    set (a1 := a ++ _). set (rp1 := GCodeBuffer.skip_item _ _).
    assert (length a1 = S (length a)) as Ha1.
    { unfold a1. rewrite length_app. simpl. lia. }
    destruct (char_at buf (Z.to_nat rp1) =c LIST_SEPARATOR).
    + intros Hrest Ha. destruct (IH rp1 a1 a' Hrest) as (Hle & Hge & _); [lia|].
      split; [done|]. split; lia.
    + intros [= <-] Ha. split; [lia|]. split; lia.
Qed.




(** ** Lines assembled byte by byte *)

Section Assembly.
Context `{Config}.

(** A byte that ends no line, outside a comment: stored, index advanced. *)
Lemma Put_plain_byte (debug : bool) (c : ascii) (gb : GCodeBuffer) :
  GCodeBuffer.wf gb ->
  inComment gb = false ->
  c <> NUL -> c <> NEWLINE -> c <> ";"%char ->
  (S (gcodePointer gb) < GCODE_LENGTH)%nat ->
  GCodeBuffer.Put debug c gb
  = Some (false,
          set_gcodePointer (S (gcodePointer gb))
            (set_gcodeBuffer (<[gcodePointer gb := c]> (gcodeBuffer gb)) gb), []).
Proof.
  intros [Hlen Hgp] Hcomment HN HL HS Hroom. unfold GCodeBuffer.Put.
  rewrite store_Some by lia. cbn [mbind option_bind].
  destruct (Ascii.eqb_spec c ";") as [?|_]; [done|].
  destruct (Ascii.eqb_spec c NEWLINE) as [?|_]; [done|].
  destruct (Ascii.eqb_spec c NUL) as [?|_]; [done|].
  cbn [orb]. bfields. rewrite Hcomment. cbn [negb orb mbind option_bind].
  bfields. by rewrite decide_False by lia.
Qed.

(** A byte of a comment: stored over the comment mark, index unmoved. *)
Lemma Put_comment_byte (debug : bool) (c : ascii) (gb : GCodeBuffer) :
  GCodeBuffer.wf gb ->
  inComment gb = true \/ c = ";"%char ->
  writingFileDirectory gb = None ->
  c <> NUL -> c <> NEWLINE ->
  GCodeBuffer.Put debug c gb
  = Some (false,
          set_inComment true
            (set_gcodeBuffer (<[gcodePointer gb := c]> (gcodeBuffer gb)) gb), []).
Proof.
  intros [Hlen Hgp] Hcomment Hdir HN HL. unfold GCodeBuffer.Put.
  rewrite store_Some by lia. cbn [mbind option_bind].
  destruct (Ascii.eqb_spec c NEWLINE) as [?|_]; [done|].
  destruct (Ascii.eqb_spec c NUL) as [?|_]; [done|].
  cbn [orb].
  assert ((if c =c ";" then
             set_inComment true (set_gcodeBuffer (<[gcodePointer gb := c]> (gcodeBuffer gb)) gb)
           else set_gcodeBuffer (<[gcodePointer gb := c]> (gcodeBuffer gb)) gb)
          = set_inComment true
              (set_gcodeBuffer (<[gcodePointer gb := c]> (gcodeBuffer gb)) gb)) as ->.
  { destruct (Ascii.eqb_spec c ";") as [_|Hne]; [done|].
    destruct Hcomment as [Hin|?]; [|done]. destruct gb; simpl in *. by subst. }
  bfields. rewrite Hdir. cbn [negb orb bool_decide]. 
  rewrite bool_decide_eq_false_2 by (by intros [? ?]).
  cbn [mbind option_bind]. bfields. by rewrite decide_False by lia.
Qed.

Lemma feed_plain (debug : bool) (text : list ascii) : forall gb : GCodeBuffer,
  GCodeBuffer.wf gb ->
  inComment gb = false ->
  Forall plain text ->
  (gcodePointer gb + length text < GCODE_LENGTH)%nat ->
  GCodeBuffer.feed debug text gb
  = Some (replicate (length text) false,
          set_gcodePointer (gcodePointer gb + length text)
            (set_gcodeBuffer
               (take (gcodePointer gb) (gcodeBuffer gb) ++ text
                  ++ drop (gcodePointer gb + length text) (gcodeBuffer gb)) gb), []).
Proof.
  induction text as [|c text IH]; intros gb Hwf Hcomment Hplain Hroom.
  - simpl. rewrite Nat.add_0_r, take_drop. by destruct gb.
  - apply Forall_cons in Hplain as [(HN & HL & HS & _) Hplain]. simpl in Hroom.
    cbn [GCodeBuffer.feed].
    rewrite Put_plain_byte by (done || lia). cbn [mbind option_bind].
    destruct Hwf as [Hlen Hgp].
    set (gb1 := set_gcodePointer (S (gcodePointer gb))
                  (set_gcodeBuffer (<[gcodePointer gb := c]> (gcodeBuffer gb)) gb)).
    assert (GCodeBuffer.wf gb1) as Hwf1.
    { split; unfold gb1; bfields; [by rewrite length_insert|lia]. }
    rewrite (IH gb1 Hwf1) by (unfold gb1; bfields; (done || lia)).
    cbn [mbind option_bind app replicate length]. do 3 f_equal.
    unfold gb1. destruct gb as [buf p ? ? ? ? ?]; simpl in *.
    rewrite (take_S_r _ p c) by (apply list_lookup_insert_eq; lia).
    rewrite take_insert_ge by lia.
    rewrite drop_insert_lt by lia.
    rewrite <- app_assoc. simpl. rewrite Nat.add_succ_r. reflexivity.
Qed.

Lemma feed_comment (debug : bool) (rest : list ascii) : forall gb : GCodeBuffer,
  GCodeBuffer.wf gb ->
  inComment gb = true ->
  writingFileDirectory gb = None ->
  Forall (fun c => c <> NEWLINE /\ c <> NUL) rest ->
  exists buf',
    GCodeBuffer.feed debug rest gb
    = Some (replicate (length rest) false, set_gcodeBuffer buf' gb, [])
    /\ length buf' = length (gcodeBuffer gb)
    /\ take (gcodePointer gb) buf' = take (gcodePointer gb) (gcodeBuffer gb).
Proof.
  induction rest as [|c rest IH]; intros gb Hwf Hcomment Hdir Hrest.
  - exists (gcodeBuffer gb). split; [|done]. simpl. by destruct gb.
  - apply Forall_cons in Hrest as [[HL HN] Hrest]. cbn [GCodeBuffer.feed].
    rewrite Put_comment_byte by (done || by left). cbn [mbind option_bind].
    set (gb1 := set_inComment true _).
    assert (gb1 = set_gcodeBuffer (<[gcodePointer gb := c]> (gcodeBuffer gb)) gb) as Hgb1.
    { unfold gb1. destruct gb; simpl in *. by subst. }
    destruct Hwf as [Hlen Hgp].
    destruct (IH gb1) as (buf' & -> & Hlen' & Htake).
    + rewrite Hgb1. split; bfields; [by rewrite length_insert|done].
    + by rewrite Hgb1.
    + by rewrite Hgb1.
    + done.
    + cbn [mbind option_bind app replicate length].
      exists buf'. rewrite Hgb1 in *. revert Hlen' Htake. bfields. intros Hlen' Htake.
      split; [by destruct gb|]. rewrite length_insert in Hlen'. split; [done|].
      rewrite Htake. by rewrite take_insert_ge by lia.
Qed.

Lemma feed_app (debug : bool) (first : list ascii) : forall (second : list ascii)
    (gb : GCodeBuffer),
  GCodeBuffer.feed debug (first ++ second) gb
  = '(r1, gb1, m1) ← GCodeBuffer.feed debug first gb;
    '(r2, gb2, m2) ← GCodeBuffer.feed debug second gb1;
    Some (r1 ++ r2, gb2, m1 ++ m2).
Proof.
  induction first as [|c first IH]; intros second gb.
  - simpl. by destruct (GCodeBuffer.feed debug second gb) as [[[? ?] ?]|].
  - cbn [app GCodeBuffer.feed].
    destruct (GCodeBuffer.Put debug c gb) as [[[r gb1] m]|]; [|done].
    cbn [mbind option_bind]. rewrite IH.
    destruct (GCodeBuffer.feed debug first gb1) as [[[r1 gb2] m1]|]; [|done].
    cbn [mbind option_bind].
    destruct (GCodeBuffer.feed debug second gb2) as [[[r2 gb3] m2]|]; [|done].
    cbn [mbind option_bind]. by rewrite app_assoc.
Qed.

Lemma Seen_loop_plain (text rest : list ascii) : forall k : Z,
  Forall plain text ->
  GCodeBuffer.Seen_loop "*" (text ++ NUL :: rest) k = None.
Proof.
  induction text as [|c text IH]; intros k Hplain; simpl.
  - reflexivity.
  - apply Forall_cons in Hplain as [(HN & _ & HS & Hstar) Hplain].
    destruct (Ascii.eqb_spec c NUL) as [?|_]; [done|].
    destruct (Ascii.eqb_spec c ";") as [?|_]; [done|].
    destruct (Ascii.eqb_spec c "*") as [?|_]; [done|].
    by apply IH.
Qed.

(** The end of a line that carries no checksum. *)
Lemma Put_end_of_plain_line (debug : bool) (gb : GCodeBuffer) :
  GCodeBuffer.wf gb ->
  Forall plain (take (gcodePointer gb) (gcodeBuffer gb)) ->
  exists gb' msgs,
    GCodeBuffer.Put debug NEWLINE gb = Some (true, gb', msgs)
    /\ GCodeBuffer.Buffer gb' = take (gcodePointer gb) (gcodeBuffer gb)
    /\ gcodePointer gb' = 0%nat /\ inComment gb' = false /\ readPointer gb' = -1
    /\ GCodeBuffer.wf gb'.
Proof.
  intros [Hlen Hgp] Hplain. unfold GCodeBuffer.Put.
  rewrite store_Some by lia. cbn [mbind option_bind].
  change (NEWLINE =c ";") with false. change (NEWLINE =c NEWLINE) with true.
  cbv beta iota. cbn [orb]. unfold GCodeBuffer.end_of_line. bfields.
  rewrite store_Some by (rewrite length_insert; lia). cbn [mbind option_bind].
  rewrite list_insert_insert_eq.
  set (buf := <[gcodePointer gb := NUL]> (gcodeBuffer gb)).
  assert (buf = take (gcodePointer gb) (gcodeBuffer gb) ++ NUL
                  :: drop (S (gcodePointer gb)) (gcodeBuffer gb)) as Hbuf.
  { unfold buf. rewrite <- (take_drop (gcodePointer gb) (gcodeBuffer gb)) at 1.
    rewrite insert_app_r_alt by (rewrite length_take; lia).
    rewrite length_take, Nat.min_l, Nat.sub_diag by lia.
    destruct (drop (gcodePointer gb) (gcodeBuffer gb)) as [|x rest] eqn:Hdrop.
    { apply (f_equal length) in Hdrop. rewrite length_drop in Hdrop. simpl in Hdrop. lia. }
    simpl. do 2 f_equal.
    rewrite <- (Nat.add_1_r (gcodePointer gb)), <- drop_drop, Hdrop. reflexivity. }
  unfold GCodeBuffer.Seen at 1. bfields.
  assert (GCodeBuffer.Seen_loop "*" buf 0 = None) as ->
    by (rewrite Hbuf; by apply Seen_loop_plain).
  cbv beta iota. cbn [mbind option_bind]. bfields.
  rewrite decide_False by lia.
  eexists _, _. split; [reflexivity|]. unfold GCodeBuffer.Buffer. bfields.
  split; [rewrite Hbuf; apply cstring_app; eapply Forall_impl; [done|by intros c []]|].
  split; [done|]. split; [done|]. split; [done|].
  split; bfields; [unfold buf; by rewrite length_insert|lia].
Qed.

(** X4.  A command fed byte by byte comes out as it went in: for a text
    without NUL, newline, ';' or '*' that fits, optionally followed by a
    comment, every byte but the last is answered [false], the newline is
    answered [true], and the buffer then holds the text, the comment
    dropped, with the write index back at 0. *)
Theorem line_is_assembled (debug : bool) (text tail : list ascii) (gb : GCodeBuffer) :
  GCodeBuffer.wf gb ->
  gcodePointer gb = 0%nat ->
  inComment gb = false ->
  writingFileDirectory gb = None ->
  Forall plain text ->
  comment_tail tail ->
  (length text < GCODE_LENGTH)%nat ->
  exists gb' msgs,
    GCodeBuffer.feed debug (text ++ tail ++ [NEWLINE]) gb
    = Some (replicate (length text + length tail) false ++ [true], gb', msgs)
    /\ GCodeBuffer.Buffer gb' = text
    /\ gcodePointer gb' = 0%nat
    /\ inComment gb' = false
    /\ readPointer gb' = -1
    /\ GCodeBuffer.wf gb'.
Proof.
  intros Hwf Hstart Hcomment Hdir Hplain Htail Hfits.
  pose proof Hwf as [Hlen Hgp].
  rewrite feed_app, feed_plain by (done || lia). cbn [mbind option_bind].
  rewrite Hstart, take_0. cbn [Nat.add app].
  set (gb1 := set_gcodePointer _ _).
  assert (GCodeBuffer.wf gb1 /\ gcodePointer gb1 = length text
          /\ take (length text) (gcodeBuffer gb1) = text
          /\ inComment gb1 = false /\ writingFileDirectory gb1 = None)
    as (Hwf1 & Hp1 & Htext1 & Hc1 & Hd1).
  { unfold gb1. bfields. split; [split; bfields|].
    - rewrite length_app, length_drop. lia.
    - lia.
    - split; [done|]. split; [by rewrite take_app_length|]. done. }
  rewrite feed_app.
  assert (exists gb2,
            GCodeBuffer.feed debug tail gb1 = Some (replicate (length tail) false, gb2, [])
            /\ GCodeBuffer.wf gb2 /\ gcodePointer gb2 = length text
            /\ take (length text) (gcodeBuffer gb2) = text) as (gb2 & -> & Hwf2 & Hp2 & Htext2).
  { destruct tail as [|c rest].
    - exists gb1. split; [reflexivity|]. split; [exact Hwf1|]. split; [exact Hp1|exact Htext1].
    - destruct Htail as [-> Hrest]. cbn [GCodeBuffer.feed].
      rewrite Put_comment_byte by (done || by right). cbn [mbind option_bind].
      set (gb1' := set_inComment true _).
      destruct Hwf1 as [Hlen1 Hgp1].
      destruct (feed_comment debug rest gb1') as (buf' & -> & Hlen' & Htake).
      + unfold gb1'. split; bfields; [by rewrite length_insert|done].
      + done.
      + unfold gb1'. by bfields.
      + done.
      + cbn [mbind option_bind app replicate length].
        eexists. split; [reflexivity|]. revert Hlen' Htake. unfold gb1'. bfields.
        rewrite length_insert. intros Hlen' Htake.
        split; [split; bfields; [congruence|done]|]. split; [done|].
        rewrite Hp1 in Htake. rewrite Htake. by rewrite take_insert_ge by lia. }
  cbn [mbind option_bind GCodeBuffer.feed].
  destruct (Put_end_of_plain_line debug gb2 Hwf2) as (gb' & msgs & -> & Hbuf & Hrest).
  { by rewrite Hp2, Htext2. }
  cbn [mbind option_bind]. exists gb', ([] ++ [] ++ msgs ++ []).
  split; [by rewrite replicate_add, <- !app_assoc|].
  split; [by rewrite Hbuf, Hp2, Htext2|]. done.
Qed.
End Assembly.

Lemma line_is_assembled_witness :
  exists gb' msgs,
    GCodeBuffer.feed false
      (list_ascii_of_string "G1 X1" ++ list_ascii_of_string "; go" ++ [NEWLINE])
      (blank "web: ")
    = Some (replicate (5 + 4) false ++ [true], gb', msgs)
    /\ GCodeBuffer.Buffer gb' = list_ascii_of_string "G1 X1"
    /\ gcodePointer gb' = 0%nat
    /\ inComment gb' = false
    /\ readPointer gb' = -1
    /\ GCodeBuffer.wf gb'.
Proof.
  apply (line_is_assembled false (list_ascii_of_string "G1 X1")
           (list_ascii_of_string "; go") (blank "web: ")).
  - split; [reflexivity|vm_compute; lia].
  - reflexivity.
  - reflexivity.
  - reflexivity.
  - repeat (constructor; [repeat split; discriminate|]). constructor.
  - split; [reflexivity|]. repeat (constructor; [split; discriminate|]). constructor.
  - vm_compute. lia.
Defined.

(** ** The planner gate, the stack bounds and the dispatcher's edges *)

Section Edges.
Context `{Config}.

(** X5.  [AllMovesAreFinishedAndMoveBufferIsLoaded] always answers; the
    answer is [true] exactly when nothing is pending in the slot, the
    planner has finished and its position can be read, and then the move
    record holds that position.  With a move pending it answers [false]
    and changes nothing; it never touches the pending flag. *)
Theorem gate_answers_when_planner_is_idle (r : RepRap) :
  exists res r',
    GCodes.AllMovesAreFinishedAndMoveBufferIsLoaded r = Some (res, r')
    /\ (res = true <-> gate_open r)
    /\ (res = true -> currentUserPosition (move r) = Some (moveBuffer (gCodes r')))
    /\ (moveAvailable (gCodes r) = true -> r' = r)
    /\ moveAvailable (gCodes r') = moveAvailable (gCodes r).
Proof.
  unfold GCodes.AllMovesAreFinishedAndMoveBufferIsLoaded, gate_open.
  unfold Move.call, Move.GetCurrentUserPosition. run.
  destruct (moveAvailable (gCodes r)) eqn:Hpending; run.
  { eexists _, _; split; [reflexivity|]. split; [split; [done|by intros []]|]. done. }
  destruct (allMovesAreFinished (move r)) eqn:Hfin; run.
  2:{ eexists _, _; split; [reflexivity|].
      split; [split; [done|by intros (_ & ? & _)]|]. done. }
  destruct (currentUserPosition (move r)) as [p|] eqn:Hpos; run.
  - eexists _, _; split; [reflexivity|]. split; [|done]. split; [|done].
    intros _. by repeat split.
  - eexists _, _; split; [reflexivity|]. split; [|done]. split; [done|].
    intros (_ & _ & [? ?]). done.
Qed.

(** X6.  [Push] on a full stack saves nothing: it reports the overflow to
    the host and the web and still answers [true]; interpreter and
    planner are as they were. *)
Theorem Push_on_a_full_stack (r : RepRap) :
  (STACK <= stackPointer (gCodes r))%nat ->
  exists r',
    GCodes.Push r = Some (true, r')
    /\ gCodes r' = gCodes r /\ move r' = move r
    /\ files (platform r') = files (platform r)
    /\ messages (platform r')
       = messages (platform r) ++ [(BOTH_ERROR_MESSAGE, nl "Push(): stack overflow!")].
Proof.
  intros Hfull. unfold GCodes.Push. run. rewrite decide_True by done.
  unfold Platform.Message. run. by eexists.
Qed.

(** X7.  [Pop] on an empty stack restores nothing: it reports the
    underflow and answers [true]; no null move is queued. *)
Theorem Pop_on_an_empty_stack (r : RepRap) :
  stackPointer (gCodes r) = 0%nat ->
  exists r',
    GCodes.Pop r = Some (true, r')
    /\ gCodes r' = gCodes r /\ move r' = move r
    /\ files (platform r') = files (platform r)
    /\ messages (platform r')
       = messages (platform r) ++ [(BOTH_ERROR_MESSAGE, nl "Pop(): stack underflow!")].
Proof.
  intros Hempty. unfold GCodes.Pop. run. rewrite Hempty. rewrite decide_True by done.
  unfold Platform.Message. run. by eexists.
Qed.

Variable ActOnCode : BufferId -> M bool.

(** X8.  A pending move is never overwritten: a G0/G1 that arrives while
    the slot is occupied (and no end-stop move is being waited for) sets
    nothing up, sends no reply and answers [false], to be called again;
    only the read pointer of its buffer has moved. *)
Theorem pending_move_is_not_overwritten (b : BufferId) (r r0 : RepRap) (code : Z) :
  GCodes.GetIValue b r = Some (code, r0) ->
  code = 0 \/ code = 1 ->
  waitingForMoveToComplete (gCodes r) = false ->
  moveAvailable (gCodes r) = true ->
  GCodes.HandleGcode ActOnCode b r = Some (false, r0)
  /\ moveBuffer (gCodes r0) = moveBuffer (gCodes r)
  /\ moveAvailable (gCodes r0) = true
  /\ checkEndStops (gCodes r0) = checkEndStops (gCodes r).
Proof.
  intros HGet Hcode Hwait Hpending.
  destruct (GetIValue_frame b r) as (code' & r0' & HGet' & gb' & Hout & _).
  rewrite HGet in HGet'. injection HGet' as <- <-.
  destruct Hout as (Hg0 & _).
  assert (waitingForMoveToComplete (gCodes r0) = false
          /\ moveAvailable (gCodes r0) = true
          /\ moveBuffer (gCodes r0) = moveBuffer (gCodes r)
          /\ checkEndStops (gCodes r0) = checkEndStops (gCodes r))
    as (Hw0 & Hp0 & Hm0 & Hc0).
  { rewrite Hg0. by destruct b. }
  split; [|done].
  assert ((code =? 0) || (code =? 1) = true) as Hcase by (destruct Hcode; by subst).
  unfold GCodes.HandleGcode. unfold bind at 1. rewrite HGet, Hcase.
  unfold GCodes.SetUpMove. run. rewrite Hw0. run. rewrite Hp0. run. reflexivity.
Qed.
End Edges.

(** ** Replies *)

(** The reply of a G or T command reaches the web first; whatever follows
    is output too. *)
Lemma HandleReply_web_first (error fromLine : bool) (reply : string) (gMOrT : ascii)
    (code : Z) (resend : bool) (r : RepRap) :
  gMOrT <> "M"%char ->
  exists r' more,
    GCodes.HandleReply error fromLine reply gMOrT code resend r = Some (tt, r')
    /\ only_output r r'
    /\ messages (platform r')
       = messages (platform r)
         ++ (if error then WEB_ERROR_MESSAGE else WEB_MESSAGE, reply) :: more.
Proof.
  intros HM. unfold GCodes.HandleReply.
  destruct (Ascii.eqb_spec gMOrT "M") as [?|_]; [done|]. cbn [negb orb when].
  unfold Platform.Message, Platform.LineWrite. run.
  destruct (if fromLine then emulating (platform r) else me); run;
    repeat (match goal with
            | |- context [if ?c then _ else _] => destruct c
            end; run);
    eexists _, _; (split; [reflexivity|]); (split; [by repeat split|]);
    fields; rewrite <- ?app_assoc; reflexivity.
Qed.

Lemma Seen_miss (c : ascii) (gb : GCodeBuffer) :
  GCodeBuffer.Seen_loop c (gcodeBuffer gb) 0 = None ->
  GCodeBuffer.Seen c gb = (false, set_readPointer (-1) gb).
Proof. intros Hmiss. unfold GCodeBuffer.Seen. by rewrite Hmiss. Qed.

Section Dispatcher.
Context `{Config}.

(** X9.  A line that carries no M, G or T is retired at once: the
    dispatcher answers [true], sends the empty reply to the web, and
    leaves interpreter and planner alone but for the read pointer of the
    buffer. *)
Theorem line_without_a_command_is_retired (fuel : nat) (b : BufferId) (r : RepRap) :
  let gb := buffer b (gCodes r) in
  GCodeBuffer.Seen_loop "M" (gcodeBuffer gb) 0 = None ->
  GCodeBuffer.Seen_loop "G" (gcodeBuffer gb) 0 = None ->
  GCodeBuffer.Seen_loop "T" (gcodeBuffer gb) 0 = None ->
  exists r' more,
    GCodes.ActOnCode (S fuel) b r = Some (true, r')
    /\ only_output (with_buffer b (set_readPointer (-1) gb) r) r'
    /\ messages (platform r') = messages (platform r) ++ (WEB_MESSAGE, EmptyString) :: more.
Proof.
  intros gb HM HG HT. unfold gb in *. clear gb.
  cbn [GCodes.ActOnCode]. unfold GCodes.ActOnCode_body.
  unfold bind at 1. rewrite Seen_run, Seen_miss by done.
  cbn [fst snd]. cbv beta iota.
  unfold bind at 1. rewrite Seen_run, buffer_with_buffer, Seen_miss by (by bfields).
  cbn [fst snd]. cbv beta iota.
  unfold bind at 1. rewrite Seen_run, buffer_with_buffer, Seen_miss by (by bfields).
  cbn [fst snd]. cbv beta iota.
  unfold bind at 1.
  match goal with
  | |- context [GCodes.HandleReply ?e ?f ?t ?g ?c ?rs ?x] =>
      destruct (HandleReply_web_first e f t g c rs x) as (r' & more & -> & Hout & Hmsgs);
        [done|]
  end.
  exists r', more. split; [reflexivity|].
  split.
  - destruct Hout as (Hg & Hrest). split; [|exact Hrest].
    rewrite Hg. unfold with_buffer. destruct r as [[] ? ? ? ? ?], b; reflexivity.
  - rewrite Hmsgs. by destruct b.
Qed.

Variable ActOnCode : BufferId -> M bool.

(** X10.  A G code the interpreter does not know is an error, not a
    command: the handler answers [true] (the line is retired), the web
    gets the error reply "invalid G Code: " followed by the line, and
    interpreter and planner are as the number's reading left them. *)
Theorem unknown_G_code_is_refused (b : BufferId) (r r0 : RepRap) (code : Z) :
  GCodes.GetIValue b r = Some (code, r0) ->
  code ∉ [0; 1; 4; 10; 20; 21; 28; 30; 31; 32; 90; 91; 92] ->
  exists r' more,
    GCodes.HandleGcode ActOnCode b r = Some (true, r')
    /\ only_output r0 r'
    /\ messages (platform r')
       = messages (platform r0)
         ++ (WEB_ERROR_MESSAGE,
             ("invalid G Code: "
                ++ string_of_list_ascii (GCodeBuffer.Buffer (buffer b (gCodes r0))))%string)
            :: more.
Proof.
  intros HGet Hcode.
  assert (forall n, n ∈ [0; 1; 4; 10; 20; 21; 28; 30; 31; 32; 90; 91; 92] -> (code =? n) = false)
    as Hne.
  { intros n Hn. apply Z.eqb_neq. intros ->. done. }
  unfold GCodes.HandleGcode. unfold bind at 1. rewrite HGet.
  rewrite !Hne by (repeat constructor). cbn [orb].
  rewrite bool_decide_eq_false_2
    by (intros Hin; apply Hcode; repeat (apply elem_of_cons in Hin as [->|Hin]);
        [repeat constructor..|by apply elem_of_nil in Hin]).
  unfold GCodes.Buffer. run.
  match goal with
  | |- context [GCodes.HandleReply ?e ?f ?t ?g ?c ?rs ?x] =>
      destruct (HandleReply_web_first e f t g c rs x) as (r' & more & -> & Hout & Hmsgs);
        [done|]
  end.
  by exists r', more.
Qed.
End Dispatcher.

Lemma Push_on_a_full_stack_witness :
  exists r',
    GCodes.Push stack_full = Some (true, r')
    /\ gCodes r' = gCodes stack_full /\ move r' = move stack_full
    /\ files (platform r') = files (platform stack_full)
    /\ messages (platform r')
       = messages (platform stack_full)
         ++ [(BOTH_ERROR_MESSAGE, nl "Push(): stack overflow!")].
Proof. apply (Push_on_a_full_stack stack_full). vm_compute. lia. Defined.

Lemma Pop_on_an_empty_stack_witness :
  exists r',
    GCodes.Pop booted = Some (true, r')
    /\ gCodes r' = gCodes booted /\ move r' = move booted
    /\ files (platform r') = files (platform booted)
    /\ messages (platform r')
       = messages (platform booted)
         ++ [(BOTH_ERROR_MESSAGE, nl "Pop(): stack underflow!")].
Proof. apply (Pop_on_an_empty_stack booted). reflexivity. Defined.

Lemma pending_move_is_not_overwritten_witness :
  GCodes.HandleGcode (GCodes.ActOnCode 1) WebGCode second_move
  = Some (false, number_read second_move)
  /\ moveBuffer (gCodes (number_read second_move)) = moveBuffer (gCodes second_move)
  /\ moveAvailable (gCodes (number_read second_move)) = true
  /\ checkEndStops (gCodes (number_read second_move)) = checkEndStops (gCodes second_move).
Proof.
  apply (pending_move_is_not_overwritten (GCodes.ActOnCode 1) WebGCode second_move
           (number_read second_move) 1).
  - vm_compute. reflexivity.
  - right. reflexivity.
  - vm_compute. reflexivity.
  - vm_compute. reflexivity.
Defined.

Lemma line_without_a_command_is_retired_witness :
  exists r' more,
    GCodes.ActOnCode 1 WebGCode bare_line = Some (true, r')
    /\ only_output
         (with_buffer WebGCode (set_readPointer (-1) (buffer WebGCode (gCodes bare_line)))
            bare_line) r'
    /\ messages (platform r')
       = messages (platform bare_line) ++ (WEB_MESSAGE, EmptyString) :: more.
Proof.
  apply (line_without_a_command_is_retired 0 WebGCode bare_line);
    vm_compute; reflexivity.
Defined.

Lemma unknown_G_code_is_refused_witness :
  exists r' more,
    GCodes.HandleGcode (GCodes.ActOnCode 1) WebGCode unknown_G = Some (true, r')
    /\ only_output (number_read unknown_G) r'
    /\ messages (platform r')
       = messages (platform (number_read unknown_G))
         ++ (WEB_ERROR_MESSAGE,
             ("invalid G Code: "
                ++ string_of_list_ascii
                     (GCodeBuffer.Buffer (buffer WebGCode (gCodes (number_read unknown_G)))))%string)
            :: more.
Proof.
  apply (unknown_G_code_is_refused (GCodes.ActOnCode 1) WebGCode unknown_G
           (number_read unknown_G) 5).
  - vm_compute. reflexivity.
  - vm_compute. intros Hin.
    repeat (apply elem_of_cons in Hin as [Hin|Hin]; [discriminate|]).
    by apply elem_of_nil in Hin.
Defined.

(** ** The sector buffer of a file store *)

Ltac sfields :=
  cbn [Sector.inUse Sector.writing Sector.buf Sector.bufferPointer Sector.lastBufferEntry
       Sector.bytesRead Sector.openCount Sector.present Sector.disk Sector.fptr
       Sector.failing
       Sector.set_inUse Sector.set_writing Sector.set_buf Sector.set_bufferPointer
       Sector.set_lastBufferEntry Sector.set_bytesRead Sector.set_openCount
       Sector.set_present Sector.set_disk Sector.set_fptr Sector.set_failing
       fst snd negb andb orb] in *.

Section Buffered.
Variable L : nat.
Hypothesis L_positive : (0 < L)%nat.

(** A store just opened for reading is in the reading state. *)
Lemma Open_for_reading (location : string) (s : Sector.Store) :
  Sector.failing s = false ->
  Sector.present s = true ->
  exists s',
    Sector.Open L location false s = Some (true, s', [])
    /\ Sector.reading L s'
    /\ Sector.bytesRead s' = 0%nat /\ Sector.disk s' = Sector.disk s.
Proof.
  intros Hok Hpresent. unfold Sector.Open. sfields. rewrite Hok, Hpresent. simpl.
  eexists. split; [reflexivity|]. split; [|done].
  unfold Sector.reading. sfields.
  split; [done|]. split; [done|]. split; [lia|]. left. split; [lia|done].
Qed.

(** Refilling the buffer keeps the reading state. *)
Lemma ReadBuffer_reading (s : Sector.Store) :
  Sector.reading L s ->
  (L <= Sector.bufferPointer s)%nat ->
  exists s',
    Sector.ReadBuffer L s = Some (true, s', [])
    /\ Sector.reading L s'
    /\ (Sector.bufferPointer s' < L)%nat
    /\ Sector.bytesRead s' = Sector.bytesRead s
    /\ Sector.disk s' = Sector.disk s
    /\ Sector.inUse s' = true.
Proof.
  intros (Huse & Hok & Hfptr & Hstate) Hused.
  assert (Sector.fptr s = Sector.bytesRead s) as Hpos.
  { destruct Hstate as [[_ ?]|(? & ? & ? & _)]; [done|lia]. }
  unfold Sector.ReadBuffer. rewrite Hok.
  set (chunk := take L (drop (Sector.fptr s) (Sector.disk s))).
  assert (length chunk = Nat.min L (length (Sector.disk s) - Sector.fptr s)) as Hchunk.
  { unfold chunk. by rewrite length_take, length_drop. }
  eexists. split; [reflexivity|]. sfields.
  split; [|repeat split; (done || lia)].
  unfold Sector.reading. sfields.
  split; [done|]. split; [done|]. split; [lia|]. right.
  split; [lia|]. split; [lia|]. split; [lia|]. split.
  - intros k Hk. simpl in Hk. rewrite lookup_app_l by lia. simpl.
    unfold chunk. rewrite lookup_take_lt by lia. rewrite lookup_drop. by rewrite Hpos.
  - lia.
Qed.

(** A read served from the buffer. *)
Lemma Read_from_the_buffer (b : ascii) (s : Sector.Store) :
  Sector.reading L s ->
  (Sector.bufferPointer s < L)%nat ->
  exists res s',
    (if decide (Sector.lastBufferEntry s <= Sector.bufferPointer s)%nat
     then Some ((false, NUL), s, [])
     else Some ((true, char_at (Sector.buf s) (Sector.bufferPointer s)),
                Sector.set_bytesRead (S (Sector.bytesRead s))
                  (Sector.set_bufferPointer (S (Sector.bufferPointer s)) s), []))
    = Some (res, s', @nil string)
    /\ Sector.reading L s'
    /\ Sector.disk s' = Sector.disk s
    /\ match Sector.disk s !! Sector.bytesRead s with
       | Some c => res = (true, c) /\ Sector.bytesRead s' = S (Sector.bytesRead s)
       | None => res = (false, NUL) /\ Sector.bytesRead s' = Sector.bytesRead s
       end.
Proof.
  intros (Huse & Hok & Hfptr & Hstate) Hbp.
  destruct Hstate as [[? _]|(Hle & Hlast & Hpos & Hsame & Hend)]; [lia|].
  case_decide as Hempty.
  - eexists _, _. split; [reflexivity|].
    split; [split; [done|]; split; [done|]; split; [done|]; right; done|].
    split; [done|].
    assert (Sector.disk s !! Sector.bytesRead s = None) as ->; [|done].
    apply lookup_ge_None. specialize (Hend ltac:(lia)). lia.
  - eexists _, _. split; [reflexivity|]. sfields.
    pose proof (Hsame 0%nat ltac:(lia)) as Hbyte. rewrite !Nat.add_0_r in Hbyte.
    destruct (Sector.disk s !! Sector.bytesRead s) as [c|] eqn:Hc.
    2:{ apply lookup_ge_None in Hc. lia. }
    split; [|split; [done|]; split; [|done]; unfold char_at; by rewrite Hbyte].
    unfold Sector.reading. sfields.
    split; [done|]. split; [done|]. split; [done|]. right.
    split; [lia|]. split; [lia|]. split; [lia|]. split; [|done].
    intros k Hk. specialize (Hsame (S k) ltac:(lia)).
    by rewrite !Nat.add_succ_r in Hsame.
Qed.

(** In the reading state [Read] hands out the byte of the file at the
    read position and advances the position by one, or, at the end of the
    file, answers [false] and leaves the position; either way the store
    stays in the reading state and the file is untouched. *)
Lemma Read_follows_the_file (b : ascii) (s : Sector.Store) :
  Sector.reading L s ->
  exists res s',
    Sector.Read L b s = Some (res, s', [])
    /\ Sector.reading L s'
    /\ Sector.disk s' = Sector.disk s
    /\ match Sector.disk s !! Sector.bytesRead s with
       | Some c => res = (true, c) /\ Sector.bytesRead s' = S (Sector.bytesRead s)
       | None => res = (false, NUL) /\ Sector.bytesRead s' = Sector.bytesRead s
       end.
Proof.
  intros Hreading. pose proof Hreading as (Huse & _).
  unfold Sector.Read. rewrite Huse. cbn [negb].
  case_decide as Hused.
  - destruct (ReadBuffer_reading s Hreading Hused)
      as (s1 & -> & Hreading1 & Hbp1 & Hread1 & Hdisk1 & Huse1).
    cbn [mbind option_bind negb].
    destruct (Read_from_the_buffer b s1 Hreading1 Hbp1) as (res & s' & -> & Hr & Hd & Hres).
    exists res, s'. split; [reflexivity|]. split; [done|]. split; [congruence|].
    by rewrite <- Hdisk1, <- Hread1.
  - cbn [mbind option_bind negb].
    destruct (Read_from_the_buffer b s Hreading ltac:(lia)) as (res & s' & -> & Hr & Hd & Hres).
    by exists res, s'.
Qed.

Lemma ReadMany_reading (n : nat) : forall s : Sector.Store,
  Sector.reading L s ->
  exists s',
    Sector.ReadMany L n s
    = Some (take n (drop (Sector.bytesRead s) (Sector.disk s)), s', [])
    /\ Sector.reading L s'
    /\ Sector.disk s' = Sector.disk s
    /\ Sector.bytesRead s'
       = (Sector.bytesRead s
          + length (take n (drop (Sector.bytesRead s) (Sector.disk s))))%nat.
Proof.
  induction n as [|n IH]; intros s Hreading.
  - exists s. simpl. rewrite take_0. simpl. by rewrite Nat.add_0_r.
  - cbn [Sector.ReadMany].
    destruct (Read_follows_the_file NUL s Hreading) as (res & s1 & -> & Hr1 & Hd1 & Hres).
    cbn [mbind option_bind].
    destruct (Sector.disk s !! Sector.bytesRead s) as [c|] eqn:Hc.
    + destruct Hres as [-> Hpos1]. cbn [fst snd negb].
      destruct (IH s1 Hr1) as (s' & -> & Hr' & Hd' & Hpos').
      cbn [mbind option_bind app]. exists s'.
      rewrite Hd1, Hpos1 in *.
      rewrite (drop_S _ c (Sector.bytesRead s)) by done. cbn [take length].
      split; [done|]. split; [done|]. split; [congruence|]. lia.
    + destruct Hres as [-> Hpos1]. cbn [fst snd negb]. exists s1.
      rewrite drop_ge by (by apply lookup_ge_None). rewrite take_nil. simpl.
      split; [done|]. split; [done|]. split; [done|]. lia.
Qed.

Lemma read_after_open (location : string) (n : nat) (s : Sector.Store) :
  Sector.failing s = false ->
  Sector.present s = true ->
  exists s1 s',
    Sector.Open L location false s = Some (true, s1, [])
    /\ Sector.ReadMany L n s1 = Some (take n (Sector.disk s), s', [])
    /\ Sector.Position s' = Nat.min n (length (Sector.disk s))
    /\ Sector.disk s' = Sector.disk s.
Proof.
  intros Hok Hpresent.
  destruct (Open_for_reading location s Hok Hpresent) as (s1 & HOpen & Hr1 & Hpos1 & Hd1).
  destruct (ReadMany_reading n s1 Hr1) as (s' & HRead & _ & Hd' & Hpos').
  rewrite Hpos1, Hd1 in *. rewrite drop_0 in *.
  exists s1, s'. split; [done|]. split; [done|]. split; [|done].
  unfold Sector.Position. rewrite Hpos', length_take. lia.
Qed.

(** X11.  A file opened for reading is read in order through the sector
    buffer: [n] calls of [Read] deliver the first [n] bytes of the file,
    or all of them when it is shorter, the read position counts the bytes
    delivered, and the file is untouched. *)
Theorem file_is_read_in_order (location : string) (n : nat) (s : Sector.Store) :
  Sector.failing s = false ->
  Sector.present s = true ->
  exists s1 s',
    Sector.Open L location false s = Some (true, s1, [])
    /\ Sector.ReadMany L n s1 = Some (take n (Sector.disk s), s', [])
    /\ Sector.Position s' = Nat.min n (length (Sector.disk s))
    /\ Sector.disk s' = Sector.disk s.
Proof. intros Hok Hpresent. by apply read_after_open. Qed.

(** *** Writing *)

Lemma Write_being_written (c : ascii) (written : list ascii) (s : Sector.Store) :
  Sector.being_written L written s ->
  exists s',
    Sector.Write L c s = Some (true, s', [])
    /\ Sector.being_written L (written ++ [c]) s'
    /\ Sector.openCount s' = Sector.openCount s
    /\ Sector.present s' = Sector.present s.
Proof.
  intros (Huse & Hw & Hok & Hbuf & Hbp & Hfptr & Hwritten).
  unfold Sector.Write. rewrite Huse. cbn [negb].
  rewrite store_Some by lia. cbn [mbind option_bind]. sfields.
  assert (take (S (Sector.bufferPointer s))
            (<[Sector.bufferPointer s := c]> (Sector.buf s))
          = take (Sector.bufferPointer s) (Sector.buf s) ++ [c]) as Htake.
  { rewrite (take_S_r _ _ c) by (apply list_lookup_insert_eq; lia).
    by rewrite take_insert_ge by lia. }
  case_decide as Hfull.
  - unfold Sector.WriteBuffer, Sector.InternalWriteBlock. sfields.
    rewrite Hok. simpl. eexists. split; [reflexivity|]. split; [|done].
    unfold Sector.being_written. sfields.
    rewrite Htake, Hfptr.
    rewrite (take_ge (Sector.disk s)), (drop_ge (Sector.disk s)), app_nil_r by lia.
    split; [done|]. split; [done|]. split; [done|].
    split; [by rewrite length_insert|]. split; [lia|].
    split; [by rewrite !length_app|].
    by rewrite take_0, app_nil_r, app_assoc, Hwritten.
  - eexists. split; [reflexivity|]. split; [|done].
    unfold Sector.being_written. sfields.
    split; [done|]. split; [done|]. split; [done|].
    split; [by rewrite length_insert|]. split; [lia|]. split; [done|].
    by rewrite Htake, app_assoc, Hwritten.
Qed.

Lemma WriteString_being_written (text : list ascii) :
  forall (written : list ascii) (s : Sector.Store),
    Sector.being_written L written s ->
    Forall (fun c => c <> NUL) text ->
    exists s',
      Sector.WriteString L text s = Some (true, s', [])
      /\ Sector.being_written L (written ++ text) s'
      /\ Sector.openCount s' = Sector.openCount s
      /\ Sector.present s' = Sector.present s.
Proof.
  induction text as [|c text IH]; intros written s Hs Htext.
  - exists s. by rewrite app_nil_r.
  - apply Forall_cons in Htext as [Hc Htext]. cbn [Sector.WriteString].
    destruct (Ascii.eqb_spec c NUL) as [?|_]; [done|].
    destruct (Write_being_written c written s Hs) as (s1 & -> & Hs1 & Hcount1 & Hp1).
    cbn [mbind option_bind negb].
    destruct (IH (written ++ [c]) s1 Hs1 Htext) as (s' & -> & Hs' & Hcount' & Hp').
    cbn [mbind option_bind app]. exists s'.
    split; [done|]. split; [by rewrite <- app_assoc in Hs'|]. split; congruence.
Qed.

Lemma Close_being_written (written : list ascii) (s : Sector.Store) :
  Sector.being_written L written s ->
  Sector.openCount s = 1 ->
  exists s',
    Sector.Close s = Some (true, s', [])
    /\ Sector.disk s' = written /\ Sector.inUse s' = false
    /\ Sector.failing s' = false /\ Sector.present s' = Sector.present s.
Proof.
  intros (Huse & Hw & Hok & Hbuf & Hbp & Hfptr & Hwritten) Hcount.
  unfold Sector.Close. rewrite Huse. cbn [negb]. sfields. rewrite Hcount. simpl.
  rewrite Hw. unfold Sector.Flush. sfields. rewrite Huse. cbn [negb].
  unfold Sector.WriteBuffer, Sector.InternalWriteBlock. sfields.
  destruct (Nat.eqb_spec (Sector.bufferPointer s) 0) as [Hzero|Hsome]; cbn [negb].
  - cbn [mbind option_bind negb]. sfields. rewrite Hok. simpl.
    eexists. split; [reflexivity|]. sfields.
    rewrite Hzero, take_0, app_nil_r in Hwritten. done.
  - rewrite Hok. cbn [mbind option_bind negb]. sfields. rewrite Hok. simpl.
    eexists. split; [reflexivity|]. sfields.
    rewrite Hfptr.
    rewrite (take_ge (Sector.disk s)), (drop_ge (Sector.disk s)), app_nil_r by lia. done.
Qed.

(** X12.  What is written byte by byte and closed is what is read back:
    on a card that does not fail, a text without NUL written to a file
    opened for writing is, after [Close], the whole content of the file,
    whatever the text's length against the sector buffer, and opening
    the file again and reading as many bytes returns the text. *)
Theorem written_file_reads_back (location : string) (text : list ascii)
    (s : Sector.Store) :
  Sector.failing s = false ->
  length (Sector.buf s) = L ->
  Forall (fun c => c <> NUL) text ->
  exists s1 s2 s3 s4 s5,
    Sector.Open L location true s = Some (true, s1, [])
    /\ Sector.WriteString L text s1 = Some (true, s2, [])
    /\ Sector.Close s2 = Some (true, s3, [])
    /\ Sector.disk s3 = text
    /\ Sector.inUse s3 = false
    /\ Sector.Open L location false s3 = Some (true, s4, [])
    /\ Sector.ReadMany L (length text) s4 = Some (text, s5, []).
Proof.
  intros Hok Hbuf Htext.
  assert (exists s1, Sector.Open L location true s = Some (true, s1, [])
                     /\ Sector.being_written L [] s1 /\ Sector.openCount s1 = 1
                     /\ Sector.present s1 = true)
    as (s1 & HOpen & Hs1 & Hcount1 & Hp1).
  { unfold Sector.Open. sfields. rewrite Hok. simpl. eexists. split; [reflexivity|].
    split; [|done]. unfold Sector.being_written. sfields. by repeat split. }
  destruct (WriteString_being_written text [] s1 Hs1 Htext)
    as (s2 & HWrite & Hs2 & Hcount2 & Hp2).
  destruct (Close_being_written _ s2 Hs2 ltac:(congruence))
    as (s3 & HClose & Hdisk3 & Huse3 & Hok3 & Hpresent3).
  assert (Sector.present s3 = true) as Hp3 by congruence.
  destruct (read_after_open location (length text) s3 Hok3 Hp3)
    as (s4 & s5 & HOpen4 & HRead & _).
  rewrite Hdisk3, firstn_all in HRead.
  by exists s1, s2, s3, s4, s5.
Qed.

End Buffered.

(** X13.  A store shared by duplication stays open until its last owner
    closes it: [Duplicate] followed by [Close] gives back the very store,
    still in use, and neither sends a message. *)
Theorem Duplicate_then_Close (s : Sector.Store) :
  Sector.inUse s = true ->
  Sector.openCount s <> 0 ->
  exists s1,
    Sector.Duplicate s = Some (tt, s1, [])
    /\ Sector.Close s1 = Some (true, s, []).
Proof.
  intros Huse Hcount. unfold Sector.Duplicate. rewrite Huse. cbn [negb].
  eexists. split; [reflexivity|]. unfold Sector.Close. sfields. rewrite Huse. cbn [negb].
  replace (Sector.openCount s + 1 - 1) with (Sector.openCount s) by lia.
  destruct (Z.eqb_spec (Sector.openCount s) 0) as [?|_]; [done|]. cbn [negb].
  by destruct s.
Qed.

Lemma file_is_read_in_order_witness :
  exists s1 s',
    Sector.Open 4 "0:/sys/homex.g" false on_card = Some (true, s1, [])
    /\ Sector.ReadMany 4 5 s1 = Some (take 5 (Sector.disk on_card), s', [])
    /\ Sector.Position s' = Nat.min 5 (length (Sector.disk on_card))
    /\ Sector.disk s' = Sector.disk on_card.
Proof.
  apply (file_is_read_in_order 4 ltac:(lia) "0:/sys/homex.g" 5 on_card); reflexivity.
Defined.

Lemma written_file_reads_back_witness :
  exists s1 s2 s3 s4 s5,
    Sector.Open 4 "0:/gcodes/a.g" true Sector.fresh = Some (true, s1, [])
    /\ Sector.WriteString 4 (list_ascii_of_string "G1 X10") s1 = Some (true, s2, [])
    /\ Sector.Close s2 = Some (true, s3, [])
    /\ Sector.disk s3 = list_ascii_of_string "G1 X10"
    /\ Sector.inUse s3 = false
    /\ Sector.Open 4 "0:/gcodes/a.g" false s3 = Some (true, s4, [])
    /\ Sector.ReadMany 4 (length (list_ascii_of_string "G1 X10")) s4
       = Some (list_ascii_of_string "G1 X10", s5, []).
Proof.
  apply (written_file_reads_back 4 ltac:(lia) "0:/gcodes/a.g"
           (list_ascii_of_string "G1 X10") Sector.fresh).
  - reflexivity.
  - reflexivity.
  - repeat (constructor; [discriminate|]). constructor.
Defined.

Lemma Duplicate_then_Close_witness :
  exists s1,
    Sector.Duplicate (Sector.set_openCount 1 (Sector.set_inUse true on_card))
    = Some (tt, s1, [])
    /\ Sector.Close s1
       = Some (true, Sector.set_openCount 1 (Sector.set_inUse true on_card), []).
Proof.
  apply (Duplicate_then_Close (Sector.set_openCount 1 (Sector.set_inUse true on_card))).
  - reflexivity.
  - discriminate.
Defined.

(** ** Combined file names *)

Lemma copy_name_fits (src : list ascii) : forall (combined : list ascii) (inp out : nat),
  Forall MassStorage.name_byte src ->
  (out + length src < length combined)%nat ->
  MassStorage.copy_name src combined inp out
  = Some (take out combined ++ src ++ drop (out + length src) combined,
          (inp + length src)%nat, (out + length src)%nat, []).
Proof.
  induction src as [|c src IH]; intros combined inp out Hsrc Hfits; simpl in *.
  - by rewrite !Nat.add_0_r, take_drop.
  - apply Forall_cons in Hsrc as [[HN HL] Hsrc].
    destruct (Ascii.eqb_spec c NUL) as [?|_]; [done|].
    destruct (Ascii.eqb_spec c NEWLINE) as [?|_]; [done|]. cbn [orb].
    rewrite store_Some by lia. cbn [mbind option_bind].
    rewrite decide_False by (rewrite length_insert; lia).
    rewrite IH by (done || rewrite length_insert; lia).
    rewrite (take_S_r _ out c) by (apply list_lookup_insert_eq; lia).
    rewrite take_insert_ge by lia. rewrite drop_insert_lt by lia.
    rewrite <- app_assoc. simpl. rewrite !Nat.add_succ_r. reflexivity.
Qed.

(** The loop never stores outside the buffer, whatever the names. *)
Lemma copy_name_in_bounds (src : list ascii) : forall (combined : list ascii) (inp out : nat),
  (out < length combined)%nat ->
  exists combined' inp' out' msgs,
    MassStorage.copy_name src combined inp out = Some (combined', inp', out', msgs)
    /\ length combined' = length combined
    /\ (out' < length combined)%nat.
Proof.
  induction src as [|c src IH]; intros combined inp out Hout; simpl.
  - by eexists _, _, _, _.
  - destruct (_ || _); [by eexists _, _, _, _|].
    rewrite store_Some by lia. cbn [mbind option_bind]. rewrite length_insert.
    case_decide as Hfull.
    + destruct (IH (<[out := c]> combined) (S inp) 0%nat)
        as (combined' & inp' & out' & msgs & -> & Hlen & Hout');
        [rewrite length_insert; lia|].
      cbn [mbind option_bind]. rewrite length_insert in *. by eexists _, _, _, _.
    + destruct (IH (<[out := c]> combined) (S inp) (S out))
        as (combined' & inp' & out' & msgs & -> & Hlen & Hout');
        [rewrite length_insert; lia|].
      rewrite length_insert in *. by eexists _, _, _, _.
Qed.

(** X14.  [CombineName] never stores outside [combinedName]: for any
    directory and file name, however long, and any buffer of at least one
    byte, it returns; the buffer keeps its size and holds a NUL, so what it
    returns is a C string inside the buffer. *)
Theorem CombineName_stays_in_its_buffer (directory : option (list ascii))
    (fileName combined : list ascii) :
  (0 < length combined)%nat ->
  exists combined' msgs,
    MassStorage.CombineName directory fileName combined = Some (combined', msgs)
    /\ length combined' = length combined
    /\ (length (cstring combined') < length combined)%nat.
Proof.
  intros Hroom. unfold MassStorage.CombineName.
  assert (exists c1 inp out m1,
            match directory with
            | Some d => MassStorage.copy_name d combined 0 0
            | None => Some (combined, 0%nat, 0%nat, [])
            end = Some (c1, inp, out, m1)
            /\ length c1 = length combined /\ (out < length combined)%nat)
    as (c1 & inp & out & m1 & -> & Hlen1 & Hout1).
  { destruct directory as [d|]; [|by eexists _, _, _, _].
    by apply copy_name_in_bounds. }
  cbn [mbind option_bind].
  assert (exists c2 out2,
            (if (0 <? inp)%nat
                && negb (char_at (default [] directory) (inp - 1) =c "/")
                && (out <? length c1 - 1)%nat
             then c ← store out "/"%char c1; Some (c, S out)
             else Some (c1, out)) = Some (c2, out2)
            /\ length c2 = length combined /\ (out2 < length combined)%nat)
    as (c2 & out2 & -> & Hlen2 & Hout2).
  { destruct (_ && _) eqn:Hslash.
    - apply andb_prop in Hslash as [_ Hlt]. apply Nat.ltb_lt in Hlt.
      rewrite store_Some by lia. cbn [mbind option_bind].
      eexists _, _. split; [reflexivity|]. rewrite length_insert. lia.
    - by eexists _, _. }
  cbn [mbind option_bind].
  destruct (copy_name_in_bounds fileName c2 0%nat out2)
    as (c3 & inp3 & out3 & m2 & -> & Hlen3 & Hout3); [lia|].
  cbn [mbind option_bind]. rewrite store_Some by lia. cbn [mbind option_bind].
  eexists _, _. split; [reflexivity|]. rewrite length_insert.
  split; [lia|].
  assert (forall (l : list ascii) i, (i < length l)%nat ->
            (length (cstring (<[i := NUL]> l)) <= i)%nat) as Hcut.
  { clear. induction l as [|x l IH]; intros i Hi; simpl in *; [lia|].
    destruct i as [|i]; simpl; [lia|].
    destruct (x =c NUL); simpl; [lia|]. specialize (IH i ltac:(lia)). lia. }
  specialize (Hcut c3 out3 ltac:(lia)). lia.
Qed.

(** X15.  When the names fit, [CombineName] joins them with exactly one
    '/': the text it returns is the directory, a '/' unless the directory
    is empty or ends in one, and the file name, and no message is sent. *)
Theorem CombineName_joins_the_names (directory fileName combined : list ascii) :
  Forall MassStorage.name_byte directory ->
  Forall MassStorage.name_byte fileName ->
  (length directory + 1 + length fileName < length combined)%nat ->
  exists combined',
    MassStorage.CombineName (Some directory) fileName combined = Some (combined', [])
    /\ cstring combined' = directory ++ MassStorage.separator directory ++ fileName.
Proof.
  intros Hdir Hfile Hfits. unfold MassStorage.CombineName.
  rewrite copy_name_fits by (done || lia). cbn [mbind option_bind Nat.add default].
  rewrite take_0. cbn [app]. unfold id.
  set (c1 := directory ++ drop (length directory) combined).
  assert (length c1 = length combined) as Hlen1.
  { unfold c1. rewrite length_app, length_drop. lia. }
  assert (exists c2,
            (if (0 <? length directory)%nat
                && negb (char_at directory (length directory - 1) =c "/")
                && (length directory <? length c1 - 1)%nat
             then c ← store (length directory) "/"%char c1; Some (c, S (length directory))
             else Some (c1, length directory))
            = Some (c2, (length directory + length (MassStorage.separator directory))%nat)
            /\ length c2 = length combined
            /\ take (length directory + length (MassStorage.separator directory)) c2
               = directory ++ MassStorage.separator directory)
    as (c2 & -> & Hlen2 & Htake2).
  { unfold MassStorage.separator.
    destruct (decide (directory = [])) as [->|Hne].
    - simpl. exists c1. split; [done|]. split; [done|]. by rewrite take_0.
    - assert (0 < length directory)%nat as Hpos by (destruct directory; simpl; [done|lia]).
      destruct (Nat.ltb_spec 0 (length directory)) as [_|?]; [|lia].
      assert (last directory = directory !! (length directory - 1)%nat) as Hlast.
      { rewrite last_lookup. f_equal. lia. }
      rewrite Hlast. unfold char_at.
      destruct (directory !! (length directory - 1)%nat) as [c|] eqn:Hc.
      2:{ apply lookup_ge_None in Hc. lia. }
      simpl. destruct (c =c "/"); simpl.
      + exists c1. rewrite Nat.add_0_r, app_nil_r. split; [done|]. split; [done|].
        unfold c1. by rewrite take_app_length.
      + destruct (Nat.ltb_spec (length directory) (length c1 - 1)) as [_|?]; [|lia].
        rewrite store_Some by lia. cbn [mbind option_bind].
        eexists. split; [by rewrite Nat.add_1_r|]. rewrite length_insert. split; [done|].
        rewrite Nat.add_1_r.
        rewrite (take_S_r _ _ "/"%char) by (apply list_lookup_insert_eq; lia).
        rewrite take_insert_ge by lia. unfold c1. by rewrite take_app_length. }
  cbn [mbind option_bind].
  set (n := (length directory + length (MassStorage.separator directory))%nat) in *.
  assert (length (MassStorage.separator directory) <= 1)%nat as Hsep.
  { unfold MassStorage.separator. destruct (last directory) as [c|]; [|simpl; lia].
    destruct (c =c "/"); simpl; lia. }
  rewrite copy_name_fits by (done || lia). cbn [mbind option_bind].
  rewrite store_Some by (rewrite !length_app, length_take, length_drop; lia).
  cbn [mbind option_bind]. eexists. split; [reflexivity|].
  rewrite Htake2.
  assert (forall a b : list ascii, <[length a := NUL]> (a ++ b) = a ++ <[0%nat := NUL]> b)
    as Hins.
  { intros a b. rewrite insert_app_r_alt by lia. by rewrite Nat.sub_diag. }
  replace (n + length fileName)%nat
    with (length ((directory ++ MassStorage.separator directory) ++ fileName))
    by (rewrite !length_app; lia).
  rewrite (app_assoc _ fileName), Hins.
  destruct (drop _ c2) as [|x rest] eqn:Hdrop.
  { apply (f_equal length) in Hdrop. rewrite length_drop, !length_app in Hdrop.
    simpl in Hdrop. lia. }
  change (<[0%nat := NUL]> (x :: rest)) with (NUL :: rest).
  rewrite cstring_app; [by rewrite <- app_assoc|].
  apply Forall_app. split; [apply Forall_app; split|].
  - eapply Forall_impl; [exact Hdir|]. by intros c [].
  - unfold MassStorage.separator. destruct (last directory) as [c|]; [|done].
    destruct (c =c "/"); [done|]. by repeat constructor.
  - eapply Forall_impl; [exact Hfile|]. by intros c [].
Qed.

Lemma CombineName_stays_in_its_buffer_witness :
  exists combined' msgs,
    MassStorage.CombineName (Some (list_ascii_of_string "0:/sys"))
      (list_ascii_of_string "homex.g") (replicate 8 NUL) = Some (combined', msgs)
    /\ length combined' = length (replicate 8 NUL)
    /\ (length (cstring combined') < length (replicate 8 NUL))%nat.
Proof.
  apply (CombineName_stays_in_its_buffer (Some (list_ascii_of_string "0:/sys"))
           (list_ascii_of_string "homex.g") (replicate 8 NUL)).
  vm_compute. lia.
Defined.

Lemma CombineName_joins_the_names_witness :
  exists combined',
    MassStorage.CombineName (Some (list_ascii_of_string "0:/sys"))
      (list_ascii_of_string "homex.g") (replicate 20 NUL) = Some (combined', [])
    /\ cstring combined'
       = list_ascii_of_string "0:/sys"
         ++ MassStorage.separator (list_ascii_of_string "0:/sys")
         ++ list_ascii_of_string "homex.g".
Proof.
  apply (CombineName_joins_the_names (list_ascii_of_string "0:/sys")
           (list_ascii_of_string "homex.g") (replicate 20 NUL)).
  - repeat (constructor; [split; discriminate|]). constructor.
  - repeat (constructor; [split; discriminate|]). constructor.
  - vm_compute. lia.
Defined.

(** ** Absolute extrusion *)

Section AbsoluteExtruders.
Variables (tool : Tool) (eMovement : list float).

(** With absolute extrusion the loop puts into the move record the
    distance from the accumulator to the supplied value, times the
    extrusion factor, and the supplied value into the accumulator. *)
Lemma load_extruders_absolute (n : nat) (g : GCodes) :
  drivesRelative g = false ->
  (n <= length (drives tool))%nat ->
  NoDup (drives tool) ->
  exists l m,
    foldl (GCodes.load_extruder false tool eMovement) g (seq 0 n)
    = set_lastPos l (set_moveBuffer m g)
    /\ length l = length (lastPos g)
    /\ length m = length (moveBuffer g)
    /\ (forall e d, (e < n)%nat -> drives tool !! e = Some d ->
          (d + AXES < length (moveBuffer g))%nat ->
          m !! (d + AXES)%nat
          = Some (Float.mul
                    (Float.sub (Float.mul (fget eMovement e) (distanceScale g))
                               (fget (lastPos g) d))
                    (fget (extrusionFactors g) d)))
    /\ (forall e d, (e < n)%nat -> drives tool !! e = Some d ->
          (d < length (lastPos g))%nat ->
          l !! d = Some (Float.mul (fget eMovement e) (distanceScale g)))
    /\ (forall d, (forall e, (e < n)%nat -> drives tool !! e <> Some d) ->
          l !! d = lastPos g !! d).
Proof.
  intros Habs Hn Hnodup. induction n as [|n IH].
  - exists (lastPos g), (moveBuffer g). split; [by destruct g|].
    repeat split; auto; intros; lia.
  - destruct IH as (l & m & Hfold & Hl & Hm & Hslot & Hset & Hkeep); [lia|].
    rewrite seq_S, Nat.add_0_l, foldl_app, Hfold. cbn [foldl].
    destruct (lookup_lt_is_Some_2 (drives tool) n) as [d Hd]; [lia|].
    assert (fget l d = fget (lastPos g) d) as Hold.
    { unfold fget. rewrite Hkeep; [done|].
      intros e He Hed. assert (e = n) by (eapply NoDup_lookup; eauto). lia. }
    set (moveArg := Float.mul (fget eMovement n) (distanceScale g)).
    exists (<[d := moveArg]> l),
           (<[(d + AXES)%nat :=
                Float.mul (Float.sub moveArg (fget (lastPos g) d))
                          (fget (extrusionFactors g) d)]> m).
    split.
    { unfold GCodes.load_extruder. rewrite Hd. fields. cbn [default from_option id].
      rewrite Habs. unfold id. rewrite Hold. reflexivity. }
    rewrite !length_insert. split; [done|]. split; [done|].
    split.
    { intros e d' He Hd' Hlen.
      destruct (decide (e = n)) as [->|Hne].
      - rewrite Hd in Hd'. injection Hd' as <-.
        apply list_lookup_insert_eq. lia.
      - assert (d <> d') as Hdd.
        { intros <-. apply Hne. eapply NoDup_lookup; eauto. }
        rewrite list_lookup_insert_ne by lia. apply Hslot; [lia|done|done]. }
    split.
    { intros e d' He Hd' Hlen.
      destruct (decide (e = n)) as [->|Hne].
      - rewrite Hd in Hd'. injection Hd' as <-.
        apply list_lookup_insert_eq. lia.
      - assert (d <> d') as Hdd.
        { intros <-. apply Hne. eapply NoDup_lookup; eauto. }
        rewrite list_lookup_insert_ne by done. apply Hset; [lia|done|done]. }
    { intros d' Hnone.
      assert (d <> d') as Hdd by (intros <-; by apply (Hnone n); [lia|]).
      rewrite list_lookup_insert_ne by done. apply Hkeep.
      intros e He. apply Hnone. lia. }
Qed.
End AbsoluteExtruders.

Section AbsoluteExtrusion.
Context `{Config}.
Variable b : BufferId.

(** After an accepted extrusion part the axes and the feedrate leave the
    extruder slots and the accumulators alone. *)
Lemma LoadMoveBuffer_extruders_kept (doingG92 applyLimits : bool) (r r1 : RepRap) :
  GCodes.load_extrusion b doingG92 r = Some (true, r1) ->
  exists r2,
    GCodes.LoadMoveBufferFromGCode b doingG92 applyLimits r = Some (true, r2)
    /\ lastPos (gCodes r2) = lastPos (gCodes r1)
    /\ forall i, (AXES <= i < DRIVES)%nat ->
         moveBuffer (gCodes r2) !! i = moveBuffer (gCodes r1) !! i.
Proof.
  intros Hext.
  unfold GCodes.LoadMoveBufferFromGCode. unfold bind at 1. rewrite Hext. cbn [negb].
  unfold bind at 1.
  destruct (load_axes_frame b doingG92 applyLimits (seq 0 AXES) r1)
    as (gb2 & m2 & h2 & -> & Htext2 & Hm2 & Hother2).
  set (r2 := set_gCodes _ r1). cbv beta iota.
  destruct (load_feedrate b (ret true) r2) as (gb3 & m3 & -> & Htext3 & Hm3).
  unfold ret. eexists; split; [reflexivity|].
  assert (moveBuffer (gCodes r2) = m2) as Hmb2 by (unfold r2; fields; by destruct b).
  rewrite Hmb2 in Hm3. fields.
  split; [unfold r2; fields; by destruct b|].
  intros i Hi.
  assert (m3 !! i = m2 !! i) as ->.
  { rewrite Hm3. destruct (field_value FEEDRATE_LETTER _); [|done].
    by rewrite list_lookup_insert_ne by lia. }
  apply Hother2. intros Hin. apply elem_of_seq in Hin. lia.
Qed.

(** X16.  In absolute extrusion mode an accepted E field is taken from
    the accumulator: the slot of each drive of the tool receives the
    supplied value (converted by [distanceScale]) minus the accumulator of
    that drive, times its extrusion factor, and the accumulator becomes
    the supplied value, so that repeating the same E extrudes the
    difference, not the value again. *)
Theorem absolute_extrusion_is_taken_from_the_accumulator (q : RepRap)
    (applyLimits : bool) (tool : Tool) (i : Z) :
  let g := gCodes q in
  let res := GCodeBuffer.GetFloatArray (length (drives tool))
               (set_readPointer i (buffer b g)) in
  drivesRelative g = false ->
  currentTool q = Some tool ->
  GCodeBuffer.Seen_loop EXTRUDE_LETTER (gcodeBuffer (buffer b g)) 0 = Some i ->
  length (drives tool) = res.1.1.2 ->
  NoDup (drives tool) ->
  length (moveBuffer g) = S DRIVES ->
  length (lastPos g) = (DRIVES - AXES)%nat ->
  exists q',
    GCodes.LoadMoveBufferFromGCode b false applyLimits q = Some (true, q')
    /\ forall e d, drives tool !! e = Some d -> (d < DRIVES - AXES)%nat ->
         moveBuffer (gCodes q') !! (d + AXES)%nat
         = Some (Float.mul
                   (Float.sub (Float.mul (fget res.1.1.1 e) (distanceScale g))
                              (fget (lastPos g) d))
                   (fget (extrusionFactors g) d))
         /\ lastPos (gCodes q') !! d
            = Some (Float.mul (fget res.1.1.1 e) (distanceScale g)).
Proof.
  intros g res Habs Htool Hi Hcount Hnodup Hlen Hlast.
  destruct (load_extrusion_run b false q) as (ok & q1 & gb' & Hext & _ & _ & Hcase).
  fold g in Hcase. rewrite Hi, Htool in Hcase. cbv zeta in Hcase. fold res in Hcase.
  rewrite decide_True in Hcase by done. destruct Hcase as [-> Hq1].
  destruct (LoadMoveBuffer_extruders_kept false applyLimits q q1 Hext)
    as (q' & Hload & Hlast' & Hslots).
  exists q'. split; [done|].
  intros e d He Hd.
  match type of Hq1 with
  | _ = foldl _ ?g0 _ =>
      destruct (load_extruders_absolute tool res.1.1.1 res.1.1.2 g0)
        as (l & m & Hfold & Hl & Hm & Hval & Hacc & _)
  end.
  { fields. by destruct b. }
  { lia. }
  { done. }
  rewrite Hfold in Hq1.
  assert (moveBuffer (gCodes q1) = m /\ lastPos (gCodes q1) = l) as [Hmb Hlp]
    by (by rewrite Hq1).
  rewrite Hslots by (unfold AXES in *; lia). rewrite Hmb, Hlast', Hlp.
  revert Hval Hacc Hm Hl. fields. rewrite array_fill_length. intros Hval Hacc Hm Hl.
  assert (e < res.1.1.2)%nat as Hlt.
  { rewrite <- Hcount. by eapply lookup_lt_Some. }
  assert (lastPos (set_buffer b gb' g) = lastPos g
          /\ distanceScale (set_buffer b gb' g) = distanceScale g
          /\ extrusionFactors (set_buffer b gb' g) = extrusionFactors g
          /\ moveBuffer (set_buffer b gb' g) = moveBuffer g) as (Ha & Hb & Hc & Hd').
  { by destruct b. }
  rewrite Ha, Hb, Hc in Hval. rewrite Ha, Hb in Hacc.
  split.
  - apply (Hval e d Hlt He). rewrite Hlen. unfold AXES in *. lia.
  - apply (Hacc e d Hlt He). lia.
Qed.
End AbsoluteExtrusion.

Lemma absolute_extrusion_is_taken_from_the_accumulator_witness :
  exists q',
    GCodes.LoadMoveBufferFromGCode WebGCode false true absolute_E7 = Some (true, q')
    /\ moveBuffer (gCodes q') !! (0 + AXES)%nat
       = Some (Float.mul
                 (Float.sub (Float.mul (Float.of_Z 7) (distanceScale (gCodes absolute_E7)))
                            (fget (lastPos (gCodes absolute_E7)) 0))
                 (fget (extrusionFactors (gCodes absolute_E7)) 0))
    /\ lastPos (gCodes q') !! 0%nat
       = Some (Float.mul (Float.of_Z 7) (distanceScale (gCodes absolute_E7))).
Proof.
  destruct (absolute_extrusion_is_taken_from_the_accumulator WebGCode absolute_E7 true
              (mkTool [0%nat]) 3) as (q' & Hrun & Hslots).
  - reflexivity.
  - reflexivity.
  - vm_compute. reflexivity.
  - vm_compute. reflexivity.
  - constructor; [by intros ?%elem_of_nil|constructor].
  - reflexivity.
  - reflexivity.
  - exists q'. split; [exact Hrun|].
    apply (Hslots 0%nat 0%nat); [reflexivity|vm_compute; lia].
Defined.

(** ** What the stack and the file table leave alone *)

#[export] Instance surroundings_kept_preorder : PreOrder surroundings_kept.
Proof.
  split.
  - intros r. repeat split. exists []. by rewrite app_nil_r.
  - intros r1 r2 r3 (H1 & H2 & H3 & H4 & H5 & H6 & m1 & H7) (K1 & K2 & K3 & K4 & K5 & K6 & m2 & K7).
    repeat split; try congruence. exists (m1 ++ m2). by rewrite K7, H7, app_assoc.
Qed.

#[export] Instance interpreter_kept_preorder : PreOrder interpreter_kept.
Proof.
  split.
  - by intros r.
  - intros r1 r2 r3 [H1 H2] [K1 K2]. split; congruence.
Qed.

Lemma kept_update (f : GCodes -> GCodes) : Frame surroundings_kept (update f).
Proof. apply Frame_modify. intros r. repeat split. exists []. by rewrite app_nil_r. Qed.

Lemma kept_Message (t : MessageType) (s : string) :
  Frame surroundings_kept (Platform.Message t s).
Proof. apply Frame_modify. intros r. repeat split. by eexists. Qed.

Lemma kept_update_store (i : nat) (f : FileStore -> FileStore) :
  Frame surroundings_kept (Platform.update_store i f).
Proof. apply Frame_modify. intros r. repeat split. exists []. by rewrite app_nil_r. Qed.

Lemma kept_indent (f : Platform -> Platform) :
  (forall p, sdCard (f p) = sdCard p /\ sysDir (f p) = sysDir p /\ gcodeDir (f p) = gcodeDir p
             /\ fileStructureInitialised (f p) = fileStructureInitialised p
             /\ messages (f p) = messages p) ->
  Frame surroundings_kept (update_platform f).
Proof.
  intros Hf. apply Frame_modify. intros r.
  destruct (Hf (platform r)) as (H1 & H2 & H3 & H4 & H5).
  repeat split; try done. exists []. by rewrite app_nil_r.
Qed.

Lemma kept_Move_call (c : MoveCall) : Frame surroundings_kept (Move.call c).
Proof. apply Frame_modify. intros r. repeat split. exists []. by rewrite app_nil_r. Qed.

Ltac kept_step :=
  match goal with
  | |- Frame _ (ret _) => apply Frame_ret; apply _
  | |- Frame _ fail => apply Frame_fail
  | |- Frame _ (gets _) => apply Frame_gets; apply _
  | |- Frame _ (gc _) => apply Frame_gc; apply _
  | |- Frame _ (plat _) => apply Frame_plat; apply _
  | |- Frame _ (when _ _) => apply Frame_when; [apply _|]
  | |- Frame _ (for_each _ _) => apply Frame_for_each; [apply _|intros ?]
  | |- Frame _ (bind _ _) => apply Frame_bind; [apply _| |intros ?]
  | |- Frame surroundings_kept (update _) => apply kept_update
  | |- Frame surroundings_kept (Platform.Message _ _) => apply kept_Message
  | |- Frame surroundings_kept (Platform.update_store _ _) => apply kept_update_store
  | |- Frame surroundings_kept (Move.call _) => apply kept_Move_call
  | |- Frame surroundings_kept (update_platform _) => apply kept_indent; intros ?; by repeat split
  | |- Frame _ (if ?c then _ else _) => destruct c
  | |- Frame _ (match ?x with _ => _ end) => destruct x
  end.

Ltac kept := repeat first [assumption | kept_step | progress cbv zeta].

Section Kept.
Context `{Config}.

Lemma kept_Push : Frame surroundings_kept GCodes.Push.
Proof.
  unfold GCodes.Push, GCodes.AllMovesAreFinishedAndMoveBufferIsLoaded,
    Move.GetCurrentUserPosition, FileData.CopyFrom, FileData.Close, Platform.Close,
    Platform.Duplicate, Platform.PushMessageIndent. kept.
Qed.

Lemma kept_Pop : Frame surroundings_kept GCodes.Pop.
Proof.
  unfold GCodes.Pop, GCodes.AllMovesAreFinishedAndMoveBufferIsLoaded,
    Move.GetCurrentUserPosition, FileData.MoveFrom, FileData.Close, Platform.Close,
    Platform.PopMessageIndent. kept.
Qed.
End Kept.

Lemma kept_GetFileStore (directory fileName : string) (write : bool) :
  Frame surroundings_kept (Platform.GetFileStore directory fileName write).
Proof. unfold Platform.GetFileStore, Platform.Open. kept. Qed.

(** The file table is the platform's: the interpreter and the planner are
    not touched by it. *)
Lemma GetFileStore_interpreter (directory fileName : string) (write : bool) :
  Frame interpreter_kept (Platform.GetFileStore directory fileName write).
Proof.
  assert (forall f, Frame interpreter_kept (update_platform f)) as Hplat.
  { intros f. apply Frame_modify. by intros r. }
  unfold Platform.GetFileStore, Platform.Open, Platform.update_store, Platform.Message.
  repeat first
    [ apply Hplat
    | apply Frame_ret; apply _ | apply Frame_plat; apply _
    | apply Frame_for_each; [apply _|intros ?]
    | progress cbv zeta
    | apply Frame_bind; [apply _| |intros ?]
    | match goal with
      | |- Frame _ (if ?c then _ else _) => destruct c
      | |- Frame _ (match ?x with _ => _ end) => destruct x
      end ].
Qed.

(** What the messages of [CombineName] leave alone. *)
Lemma Open_messages (msgs : list string) : forall r : RepRap,
  exists r',
    for_each msgs (Platform.Message GENERIC_MESSAGE) r = Some (tt, r')
    /\ gCodes r' = gCodes r /\ move r' = move r
    /\ files (platform r') = files (platform r)
    /\ sdCard (platform r') = sdCard (platform r)
    /\ f_open_error (platform r') = f_open_error (platform r).
Proof.
  induction msgs as [|m msgs IH]; intros r; [by eexists|].
  cbn [for_each]. unfold bind, Platform.Message at 1. run.
  match goal with
  | |- context [for_each msgs _ ?x] => destruct (IH x) as (r' & -> & H1 & H2 & H3 & H4 & H5)
  end.
  exists r'. by rewrite H1, H2, H3, H4, H5.
Qed.

Lemma Open_missing (i : nat) (directory fileName : string) (r : RepRap) :
  sdCard (platform r) directory fileName = None ->
  exists r', Platform.Open i directory fileName false r = Some (false, r').
Proof.
  intros Hmissing. unfold Platform.Open. run. unfold id.
  destruct (Platform.location (platform r) directory fileName) as [name msgs].
  destruct (Open_messages msgs r) as (r1 & -> & _).
  unfold Platform.update_store, Platform.Message. run. rewrite Hmissing. run.
  by eexists.
Qed.

(** A file that is not on the card is not opened. *)
Lemma GetFileStore_missing (directory fileName : string) (r : RepRap) :
  sdCard (platform r) directory fileName = None ->
  exists r', Platform.GetFileStore directory fileName false r = Some (None, r').
Proof.
  intros Hmissing. unfold Platform.GetFileStore. run. unfold id.
  destruct (fileStructureInitialised (platform r)); run; [|by eexists].
  destruct (Platform.first_free (files (platform r)) 0) as [i|]; run;
    [|unfold Platform.Message; run; by eexists].
  unfold Platform.update_store at 1. run.
  match goal with
  | |- context [Platform.Open _ directory fileName false ?x] =>
      destruct (Open_missing i directory fileName x) as (r1 & ->); [done|]
  end.
  unfold Platform.update_store. run. by eexists.
Qed.

Section Macros.
Context `{Config}.
Variable ActOnCode : BufferId -> M bool.

(** X17. Asking for a macro file that is not in the system directory
    reports it to the host, takes back the frame it pushed and answers
    "done": the stack pointer, the file being printed and the two
    relative flags are as before, no macro is running, and the position
    read back from the planner is left queued as a move. *)
Theorem missing_macro_file_is_reported (name : string) (r : RepRap) (p : list float) :
  let g := gCodes r in
  doingCannedCycleFile g = false ->
  (stackPointer g < STACK)%nat ->
  length (drivesRelativeStack g) = STACK ->
  length (axesRelativeStack g) = STACK ->
  length (fileStack g) = STACK ->
  moveAvailable g = false ->
  allMovesAreFinished (move r) = true ->
  currentUserPosition (move r) = Some p ->
  sdCard (platform r) (sysDir (platform r)) name = None ->
  exists r' before after,
    GCodes.DoFileCannedCycles ActOnCode name r = Some (true, r')
    /\ messages (platform r')
       = messages (platform r) ++ before
         ++ [(HOST_MESSAGE, "Macro file "%string); (HOST_MESSAGE, name);
             (HOST_MESSAGE, nl " not found.")] ++ after
    /\ doingCannedCycleFile (gCodes r') = false
    /\ stackPointer (gCodes r') = stackPointer g
    /\ fileBeingPrinted (gCodes r') = fileBeingPrinted g
    /\ drivesRelative (gCodes r') = drivesRelative g
    /\ axesRelative (gCodes r') = axesRelative g
    /\ moveAvailable (gCodes r') = true.
Proof.
  intros g Hidle Hsp Hds Has Hfiles Hpending Hfin Hpos Hmissing.
  destruct (Push_run r p) as (r1 & HPush & Hg1 & Hfin1 & Hpos1); try done.
  fold g in Hg1.
  destruct (kept_Push _ _ _ HPush) as (K1 & K2 & K3 & K4 & _ & _ & m1 & K7).
  destruct (GetFileStore_missing (sysDir (platform r1)) name r1) as (r2 & HOpen).
  { by rewrite K1, K2. }
  destruct (kept_GetFileStore _ _ _ _ _ _ HOpen) as (_ & _ & _ & _ & L5 & L6 & m2 & L7).
  destruct (GetFileStore_interpreter _ _ _ _ _ _ HOpen) as [Hg2 _].
  set (told := [(HOST_MESSAGE, "Macro file "%string); (HOST_MESSAGE, name);
                (HOST_MESSAGE, nl " not found.")]).
  set (r3 := set_platform
               (set_messages (messages (platform r2) ++ told) (platform r2)) r2).
  destruct (Pop_run r3 p) as (r4 & HPop & Hg4 & _).
  { subst r3. cbn. rewrite Hg2, Hg1. fields. lia. }
  { subst r3. cbn. rewrite Hg2, Hg1. by fields. }
  { subst r3. cbn. congruence. }
  { subst r3. cbn. congruence. }
  destruct (kept_Pop _ _ _ HPop) as (_ & _ & _ & _ & _ & _ & m3 & P7).
  exists r4, (m1 ++ m2), m3. split.
  - unfold GCodes.DoFileCannedCycles. run. unfold id. fold g. rewrite Hidle. run.
    rewrite HPush. run. unfold id. rewrite HOpen. run.
    unfold Platform.Message. run.
    match goal with
    | |- context [GCodes.Pop ?s] => replace s with r3
    end.
    + rewrite HPop. by run.
    + subst r3 told. destruct r2 as [p2 ? ? ?], p2. cbn.
      by rewrite <- !app_assoc.
  - split.
    { rewrite P7. subst r3. cbn. rewrite L7, K7. by rewrite <- !app_assoc. }
    rewrite Hg4. subst r3. cbn. rewrite Hg2, Hg1. fields. cbn [Nat.pred].
    unfold bget.
    rewrite !list_lookup_insert_eq by (rewrite ?length_insert; lia). cbn [default mjoin].
    by repeat split.
Qed.
End Macros.

Lemma missing_macro_file_is_reported_witness :
  exists r' before after,
    GCodes.DoFileCannedCycles (GCodes.ActOnCode 0) "homez.g" booted = Some (true, r')
    /\ messages (platform r')
       = messages (platform booted) ++ before
         ++ [(HOST_MESSAGE, "Macro file "%string); (HOST_MESSAGE, "homez.g"%string);
             (HOST_MESSAGE, nl " not found.")] ++ after
    /\ doingCannedCycleFile (gCodes r') = false
    /\ stackPointer (gCodes r') = stackPointer (gCodes booted)
    /\ fileBeingPrinted (gCodes r') = fileBeingPrinted (gCodes booted)
    /\ drivesRelative (gCodes r') = drivesRelative (gCodes booted)
    /\ axesRelative (gCodes r') = axesRelative (gCodes booted)
    /\ moveAvailable (gCodes r') = true.
Proof.
  apply (missing_macro_file_is_reported (GCodes.ActOnCode 0) "homez.g" booted
           (replicate 9 Float.zero)).
  - reflexivity.
  - vm_compute. lia.
  - reflexivity.
  - reflexivity.
  - reflexivity.
  - reflexivity.
  - reflexivity.
  - reflexivity.
  - reflexivity.
Defined.

(** ** Capturing an upload *)

Lemma store_at_in_use (p : Platform) (i : nat) :
  inUse (Platform.store_at p i) = true -> (i < length (files p))%nat.
Proof.
  unfold Platform.store_at. intros Huse.
  destruct (files p !! i) as [f|] eqn:Hf; [by eapply lookup_lt_Some|done].
Qed.

Lemma store_at_insert (p : Platform) (i : nat) (f : FileStore) :
  (i < length (files p))%nat ->
  Platform.store_at (set_files (<[i := f]> (files p)) p) i = f.
Proof.
  intros Hi. unfold Platform.store_at. fields. by rewrite list_lookup_insert_eq.
Qed.

Lemma for_each_app {A} (l1 l2 : list A) (body : A -> M unit) (r : RepRap) :
  for_each (l1 ++ l2) body r
  = match for_each l1 body r with
    | Some (_, r1) => for_each l2 body r1
    | None => None
    end.
Proof.
  revert r. induction l1 as [|x l1 IH]; intros r; [done|].
  cbn [app for_each]. unfold bind. destruct (body x r) as [[[] r0]|]; [apply IH|done].
Qed.

Section Capture.
Context `{Config}.
Variable b : BufferId.
Variable i : nat.

Lemma Write_appends (text : list ascii) (r : RepRap) :
  inUse (Platform.store_at (platform r) i) = true ->
  exists r',
    Platform.Write i text r = Some (true, r')
    /\ gCodes r' = gCodes r
    /\ inUse (Platform.store_at (platform r') i) = true
    /\ data (Platform.store_at (platform r') i)
       = data (Platform.store_at (platform r) i) ++ text.
Proof.
  intros Huse. pose proof (store_at_in_use _ _ Huse) as Hi.
  unfold Platform.Write, Platform.update_store. run. rewrite Huse. run.
  eexists. split; [reflexivity|]. fields.
  rewrite store_at_insert by done. by fields.
Qed.

Lemma closed_stays_closed (text : list ascii) : forall r : RepRap,
  fileBeingWritten (gCodes r) = None ->
  exists r',
    upload b text r = Some (tt, r')
    /\ fileBeingWritten (gCodes r') = None.
Proof.
  induction text as [|c text IH]; intros r Hclosed; [by eexists|].
  unfold upload. cbn [for_each]. unfold bind, GCodes.WriteHTMLToFile at 1. run. rewrite Hclosed.
  unfold Platform.Message. run. apply IH. by fields.
Qed.

(** The end of a capture: the handle is released and the buffer stops
    writing; the bytes of the file are those written so far. *)
Lemma capture_closes (code : Z) (r : RepRap) :
  inUse (Platform.store_at (platform r) i) = true ->
  exists r',
    (Platform.Close i >>
     update (set_fileBeingWritten None) >>
     GCodes.SetWritingFileDirectory b None >>
     let* e := plat emulating in
     let reply := match e with marlin => "Done saving file."%string | _ => EmptyString end in
     GCodes.HandleReply false (GCodes.is_serial b) reply "M" code false) r = Some (tt, r')
    /\ fileBeingWritten (gCodes r') = None
    /\ writingFileDirectory (buffer b (gCodes r')) = None
    /\ data (Platform.store_at (platform r') i) = data (Platform.store_at (platform r) i)
    /\ moveAvailable (gCodes r') = moveAvailable (gCodes r)
    /\ move r' = move r.
Proof.
  intros Huse. pose proof (store_at_in_use _ _ Huse) as Hi.
  unfold Platform.Close, Platform.update_store, GCodes.SetWritingFileDirectory.
  run. rewrite Huse. run.
  assert (forall r0 : RepRap,
    fileBeingWritten (gCodes r0) = None ->
    writingFileDirectory (buffer b (gCodes r0)) = None ->
    data (Platform.store_at (platform r0) i) = data (Platform.store_at (platform r) i) ->
    moveAvailable (gCodes r0) = moveAvailable (gCodes r) ->
    move r0 = move r ->
    forall reply,
    exists r',
      GCodes.HandleReply false (GCodes.is_serial b) reply "M" code false r0 = Some (tt, r')
      /\ fileBeingWritten (gCodes r') = None
      /\ writingFileDirectory (buffer b (gCodes r')) = None
      /\ data (Platform.store_at (platform r') i) = data (Platform.store_at (platform r) i)
      /\ moveAvailable (gCodes r') = moveAvailable (gCodes r)
      /\ move r' = move r)
    as Hreply.
  { intros r0 H1 H2 H3 H4 H5 reply.
    destruct (HandleReply_output false (GCodes.is_serial b) reply "M" code false r0)
      as (r' & -> & Hg & Hm & _ & _ & _ & Hfiles & _).
    exists r'. split; [done|]. rewrite Hg, Hm.
    assert (Platform.store_at (platform r') i = Platform.store_at (platform r0) i) as ->
      by (unfold Platform.store_at; by rewrite Hfiles).
    by repeat split. }
  destruct (negb (openCount (Platform.store_at (platform r) i) - 1 =? 0)); run;
    apply Hreply; fields; try (by destruct b);
    unfold Platform.store_at; fields;
    rewrite ?list_lookup_insert_eq by (rewrite ?length_insert; done); by fields.
Qed.

(** One byte of an upload: nothing is lost while the file stays open. *)
Lemma WriteHTMLToFile_step (c : ascii) (r : RepRap) :
  capturing i r ->
  exists r',
    GCodes.WriteHTMLToFile c b r = Some (tt, r')
    /\ (capturing i r' /\ captured i r' = captured i r ++ [c]
        \/ fileBeingWritten (gCodes r') = None
           /\ writingFileDirectory (buffer b (gCodes r')) = None
           /\ data (Platform.store_at (platform r') i) ++ EOF_STRING = captured i r ++ [c]).
Proof.
  intros (Hopen & Huse & Hn).
  set (n := eofStringCounter (gCodes r)) in *.
  unfold GCodes.WriteHTMLToFile. run. rewrite Hopen. run. fold n.
  destruct (negb (n =? 0)%nat && negb (c =c char_at EOF_STRING n)) eqn:Hflush.
  - (* the bytes held back are released *)
    apply andb_true_iff in Hflush as [Hpos Hdiff].
    cbn [when]. 
    destruct (Write_appends (take n EOF_STRING) r Huse) as (r1 & HW & Hg1 & Huse1 & Hdata1).
    rewrite HW. cbv beta iota. fields.
    set (r2 := set_gCodes (set_eofStringCounter 0%nat (gCodes r1)) r1).
    assert (inUse (Platform.store_at (platform r2) i) = true) as Huse2 by done.
    destruct (c =c char_at EOF_STRING 0) eqn:Hfirst; cbv beta.
    + destruct (bool_decide (length EOF_STRING <= 1)%nat) eqn:Hlen.
      { apply bool_decide_eq_true in Hlen. apply negb_true_iff, Nat.eqb_neq in Hpos. lia. }
      eexists. split; [reflexivity|]. left.
      apply bool_decide_eq_false in Hlen.
      unfold capturing, captured. subst r2. fields. rewrite Hg1, Hopen, Huse1, Hdata1.
      split; [repeat split; lia|]. fold n.
      f_equal.
      destruct EOF_STRING as [|e rest] eqn:HE; [simpl in Hlen; lia|].
      apply Ascii.eqb_eq in Hfirst. by subst c.
    + destruct (Write_appends [c] r2 Huse2) as (r3 & HW3 & Hg3 & Huse3 & Hdata3).
      rewrite HW3. eexists. split; [reflexivity|]. left.
      unfold capturing, captured. rewrite Hg3, Huse3, Hdata3. subst r2. fields.
      rewrite Hg1, Hopen, Hdata1, take_0, app_nil_r. fold n.
      split; [repeat split; lia|]. done.
  - (* nothing is released *)
    cbn [when]. run. fold n.
    destruct (c =c char_at EOF_STRING n) eqn:Hmatch.
    + run. apply Ascii.eqb_eq in Hmatch.
      destruct (lookup_lt_is_Some_2 EOF_STRING n Hn) as [e He].
      assert (e = c) as -> by (unfold char_at in Hmatch; by rewrite He in Hmatch).
      case_bool_decide as Hlen; cbn [when].
      * destruct (capture_closes 560 (set_gCodes (set_eofStringCounter (S n) (gCodes r)) r))
          as (r' & Hrun & Hnone & Hdir & Hdata & _); [by fields|].
        unfold bind in Hrun |- *. unfold update, modify, plat, gets in Hrun |- *.
        cbv beta iota in Hrun |- *.
        exists r'. split; [exact Hrun|]. right.
        split; [done|]. split; [done|]. rewrite Hdata. fields. unfold captured. fold n.
        rewrite <- app_assoc. f_equal. rewrite <- (take_S_r _ _ _ He).
        by rewrite take_ge by lia.
      * eexists. split; [reflexivity|]. left.
        unfold capturing, captured. fields. rewrite Hopen, Huse.
        split; [repeat split; lia|]. fold n.
        by rewrite (take_S_r _ _ _ He), app_assoc.
    + apply andb_false_iff in Hflush as [Hzero|Hsame];
        [|rewrite ?Hmatch in Hsame; simpl in Hsame; congruence].
      apply negb_false_iff, Nat.eqb_eq in Hzero.
      destruct (Write_appends [c] r Huse) as (r1 & HW & Hg1 & Huse1 & Hdata1).
      rewrite HW. eexists. split; [reflexivity|]. left.
      unfold capturing, captured. rewrite Hg1, Huse1, Hdata1, Hopen. fold n.
      rewrite Hzero, take_0, !app_nil_r. split; [repeat split; lia|done].
Qed.

Lemma upload_run (text : list ascii) : forall r : RepRap,
  capturing i r ->
  exists r',
    upload b text r = Some (tt, r')
    /\ (fileBeingWritten (gCodes r') = None
        \/ capturing i r' /\ captured i r' = captured i r ++ text).
Proof.
  induction text as [|c text IH]; intros r Hr.
  - exists r. split; [done|]. right. by rewrite app_nil_r.
  - destruct (WriteHTMLToFile_step c r Hr) as (r1 & Hstep & [[Hr1 Hc1]|[Hclosed _]]).
    + destruct (IH r1 Hr1) as (r' & Hrun & Hend).
      exists r'. split.
      * unfold upload in *. cbn [for_each]. unfold bind. by rewrite Hstep.
      * destruct Hend as [?|[? Hc]]; [by left|right].
        split; [done|]. by rewrite Hc, Hc1, <- app_assoc.
    + destruct (closed_stays_closed text r1 Hclosed) as (r' & Hrun & Hnone).
      exists r'. split; [|by left].
      unfold upload in *. cbn [for_each]. unfold bind. by rewrite Hstep.
Qed.

(** A byte that continues the end marker is held back. *)
Lemma marker_byte_is_held_back (c : ascii) (r : RepRap) :
  capturing i r ->
  EOF_STRING !! eofStringCounter (gCodes r) = Some c ->
  (S (eofStringCounter (gCodes r)) < length EOF_STRING)%nat ->
  GCodes.WriteHTMLToFile c b r
  = Some (tt, set_gCodes
                (set_eofStringCounter (S (eofStringCounter (gCodes r))) (gCodes r)) r).
Proof.
  intros (Hopen & Huse & Hn) Hc Hmore.
  unfold GCodes.WriteHTMLToFile. run. rewrite Hopen. run.
  unfold char_at. rewrite Hc. cbn [default from_option id].
  rewrite Ascii.eqb_refl, andb_false_r. cbn [when negb]. run.
  rewrite Hc. cbn [default from_option id]. rewrite Ascii.eqb_refl. run.
  by rewrite bool_decide_eq_false_2 by lia.
Qed.

(** The last byte of the end marker closes the file. *)
Lemma marker_is_completed (c : ascii) (r : RepRap) :
  capturing i r ->
  EOF_STRING !! eofStringCounter (gCodes r) = Some c ->
  S (eofStringCounter (gCodes r)) = length EOF_STRING ->
  exists r',
    GCodes.WriteHTMLToFile c b r = Some (tt, r')
    /\ fileBeingWritten (gCodes r') = None
    /\ writingFileDirectory (buffer b (gCodes r')) = None
    /\ data (Platform.store_at (platform r') i) = data (Platform.store_at (platform r) i).
Proof.
  intros (Hopen & Huse & Hn) Hc Hlast.
  unfold GCodes.WriteHTMLToFile. run. rewrite Hopen. run.
  unfold char_at. rewrite Hc. cbn [default from_option id].
  rewrite Ascii.eqb_refl, andb_false_r. cbn [when negb]. run.
  rewrite Hc. cbn [default from_option id]. rewrite Ascii.eqb_refl. run.
  rewrite bool_decide_eq_true_2 by lia.
  destruct (capture_closes 560
              (set_gCodes
                 (set_eofStringCounter (S (eofStringCounter (gCodes r))) (gCodes r)) r))
    as (r' & Hrun & Hnone & Hdir & Hdata & _); [by fields|].
  unfold bind in Hrun. unfold update, modify, plat, gets in Hrun. cbv beta iota in Hrun.
  exists r'. split; [exact Hrun|]. by repeat split.
Qed.

(** The rest of the end marker, the file being open with its first [n]
    bytes held back. *)
Lemma marker_tail (k : nat) : forall r : RepRap,
  capturing i r ->
  (eofStringCounter (gCodes r) + k = length EOF_STRING)%nat ->
  exists r',
    upload b (drop (eofStringCounter (gCodes r)) EOF_STRING) r = Some (tt, r')
    /\ fileBeingWritten (gCodes r') = None
    /\ writingFileDirectory (buffer b (gCodes r')) = None
    /\ data (Platform.store_at (platform r') i) = data (Platform.store_at (platform r) i).
Proof.
  induction k as [|k IH]; intros r Hr Hk.
  { destruct Hr as (_ & _ & Hn). lia. }
  set (n := eofStringCounter (gCodes r)) in *.
  destruct (lookup_lt_is_Some_2 EOF_STRING n) as [c Hc]; [lia|].
  rewrite (drop_S _ _ _ Hc). unfold upload. cbn [for_each]. unfold bind.
  destruct k as [|k].
  - destruct (marker_is_completed c r Hr Hc) as (r' & -> & Hclosed); [fold n; lia|].
    rewrite drop_ge by lia. cbn [for_each]. by exists r'.
  - rewrite (marker_byte_is_held_back c r Hr Hc) by (fold n; lia). fold n.
    set (r1 := set_gCodes (set_eofStringCounter (S n) (gCodes r)) r).
    destruct (IH r1) as (r' & Hrun & Hclosed).
    { destruct Hr as (Hopen & Huse & _). subst r1. unfold capturing. fields.
      repeat split; try done. lia. }
    { subst r1. fields. lia. }
    exists r'. split; [exact Hrun|]. exact Hclosed.
Qed.

(** The end marker arriving while some of its bytes are held back: the
    bytes held back are released first. *)
Lemma marker_restarts (c : ascii) (r : RepRap) :
  capturing i r ->
  eofStringCounter (gCodes r) <> 0%nat ->
  EOF_STRING !! 0%nat = Some c ->
  char_at EOF_STRING (eofStringCounter (gCodes r)) <> c ->
  (1 < length EOF_STRING)%nat ->
  exists r',
    GCodes.WriteHTMLToFile c b r = Some (tt, r')
    /\ capturing i r'
    /\ eofStringCounter (gCodes r') = 1%nat
    /\ data (Platform.store_at (platform r') i) = captured i r.
Proof.
  intros (Hopen & Huse & Hn) Hpos Hc Hdiff Hlen.
  unfold GCodes.WriteHTMLToFile. run. rewrite Hopen. run.
  destruct (Nat.eqb_spec (eofStringCounter (gCodes r)) 0%nat) as [?|_]; [done|].
  destruct (Ascii.eqb_spec c (char_at EOF_STRING (eofStringCounter (gCodes r))))
    as [?|_]; [done|].
  cbn [negb andb when].
  destruct (Write_appends (take (eofStringCounter (gCodes r)) EOF_STRING) r Huse)
    as (r1 & HW & Hg1 & Huse1 & Hdata1).
  rewrite HW. cbv beta iota. fields.
  unfold char_at. rewrite Hc. cbn [default from_option id]. rewrite Ascii.eqb_refl.
  rewrite bool_decide_eq_false_2 by lia.
  eexists. split; [reflexivity|]. unfold capturing. fields. rewrite Hg1.
  repeat split; try done.
Qed.

Lemma marker_run (r : RepRap) :
  capturing i r ->
  exists r',
    upload b EOF_STRING r = Some (tt, r')
    /\ fileBeingWritten (gCodes r') = None
    /\ writingFileDirectory (buffer b (gCodes r')) = None
    /\ data (Platform.store_at (platform r') i) = captured i r.
Proof.
  intros Hr.
  destruct (Nat.eq_dec (eofStringCounter (gCodes r)) 0%nat) as [Hzero|Hpos].
  - destruct (marker_tail (length EOF_STRING) r Hr) as (r' & Hrun & H1 & H2 & H3); [lia|].
    rewrite Hzero, drop_0 in Hrun. exists r'. repeat split; try done.
    unfold captured. by rewrite H3, Hzero, take_0, app_nil_r.
  - destruct (marker_restarts "<" r Hr Hpos) as (r1 & Hstep & Hr1 & Hn1 & Hdata1).
    { reflexivity. }
    { destruct Hr as (_ & _ & Hn). revert Hpos Hn.
      generalize (eofStringCounter (gCodes r)). intros n Hpos Hn.
      do 16 (destruct n as [|n]; [done|]). vm_compute in Hn. lia. }
    { vm_compute. lia. }
    destruct (marker_tail (length EOF_STRING - 1) r1 Hr1) as (r' & Hrun & H1 & H2 & H3).
    { rewrite Hn1. vm_compute. lia. }
    rewrite Hn1 in Hrun. exists r'. split.
    + unfold upload in *. change EOF_STRING with ("<"%char :: drop 1 EOF_STRING) at 1.
      cbn [for_each]. unfold bind. by rewrite Hstep.
    + by rewrite H3.
Qed.

(** X18. While an upload is being captured no byte is lost or reordered:
    as long as the file is still open, its bytes followed by the bytes held
    back as a possible end marker are what they were before, followed by
    the bytes received. *)
Theorem upload_loses_no_byte (text : list ascii) (r : RepRap) :
  fileBeingWritten (gCodes r) = Some i ->
  inUse (Platform.store_at (platform r) i) = true ->
  (eofStringCounter (gCodes r) < length EOF_STRING)%nat ->
  exists r',
    upload b text r = Some (tt, r')
    /\ (fileBeingWritten (gCodes r') = Some i ->
        data (Platform.store_at (platform r') i)
        ++ take (eofStringCounter (gCodes r')) EOF_STRING
        = data (Platform.store_at (platform r) i)
          ++ take (eofStringCounter (gCodes r)) EOF_STRING ++ text).
Proof.
  intros Hopen Huse Hn.
  destruct (upload_run text r) as (r' & Hrun & Hend); [done|].
  exists r'. split; [done|]. intros Hstill.
  destruct Hend as [Hclosed|[_ Hc]]; [congruence|].
  unfold captured in Hc. by rewrite Hc, <- app_assoc.
Qed.

(** X19. An upload is stored exactly: when the bytes [text] leave the
    file open, [text] followed by the end marker closes it with [text]
    appended to it and nothing of the marker, and the buffer no longer
    writes to a file. *)
Theorem upload_ends_at_the_marker (text : list ascii) (r r1 : RepRap) :
  fileBeingWritten (gCodes r) = Some i ->
  inUse (Platform.store_at (platform r) i) = true ->
  eofStringCounter (gCodes r) = 0%nat ->
  upload b text r = Some (tt, r1) ->
  fileBeingWritten (gCodes r1) = Some i ->
  exists r',
    upload b (text ++ EOF_STRING) r = Some (tt, r')
    /\ fileBeingWritten (gCodes r') = None
    /\ writingFileDirectory (buffer b (gCodes r')) = None
    /\ data (Platform.store_at (platform r') i)
       = data (Platform.store_at (platform r) i) ++ text.
Proof.
  intros Hopen Huse Hzero Htext Hstill.
  destruct (upload_run text r) as (r1' & Hrun & Hend).
  { repeat split; try done. rewrite Hzero. vm_compute. lia. }
  rewrite Htext in Hrun. injection Hrun as <-.
  destruct Hend as [Hclosed|[Hr1 Hc]]; [congruence|].
  destruct (marker_run r1 Hr1) as (r' & Hmarker & H1 & H2 & H3).
  exists r'. split.
  - unfold upload in *. by rewrite for_each_app, Htext.
  - rewrite H3, Hc. unfold captured. by rewrite Hzero, take_0, app_nil_r.
Qed.
End Capture.

Lemma upload_loses_no_byte_witness :
  exists r',
    upload SerialGCode page saving = Some (tt, r')
    /\ (fileBeingWritten (gCodes r') = Some 0%nat ->
        data (Platform.store_at (platform r') 0)
        ++ take (eofStringCounter (gCodes r')) EOF_STRING
        = data (Platform.store_at (platform saving) 0)
          ++ take (eofStringCounter (gCodes saving)) EOF_STRING ++ page).
Proof.
  apply (upload_loses_no_byte SerialGCode 0%nat page saving).
  - reflexivity.
  - reflexivity.
  - vm_compute. lia.
Defined.

Lemma upload_ends_at_the_marker_witness :
  exists r',
    upload SerialGCode (page ++ EOF_STRING) saving = Some (tt, r')
    /\ fileBeingWritten (gCodes r') = None
    /\ writingFileDirectory (buffer SerialGCode (gCodes r')) = None
    /\ data (Platform.store_at (platform r') 0)
       = data (Platform.store_at (platform saving) 0) ++ page.
Proof.
  apply (upload_ends_at_the_marker SerialGCode 0%nat page saving page_sent).
  - reflexivity.
  - reflexivity.
  - reflexivity.
  - vm_compute. reflexivity.
  - vm_compute. reflexivity.
Defined.

(** ** Capturing G-code lines *)

Section Saving.
Context `{Config}.
Variable b : BufferId.
Variable i : nat.

Lemma buffer_set_buffer (gb : GCodeBuffer) (g : GCodes) : buffer b (set_buffer b gb g) = gb.
Proof. by destruct b. Qed.

Lemma set_buffer_twice (gb gb' : GCodeBuffer) (g : GCodes) :
  set_buffer b gb' (set_buffer b gb g) = set_buffer b gb' g.
Proof. by destruct b. Qed.

Lemma fileBeingWritten_set_buffer (gb : GCodeBuffer) (g : GCodes) :
  fileBeingWritten (set_buffer b gb g) = fileBeingWritten g.
Proof. by destruct b. Qed.

Lemma Seen_on_buffer (c : ascii) (r : RepRap) :
  let gb := buffer b (gCodes r) in
  GCodes.Seen b c r
  = Some (fst (GCodeBuffer.Seen c gb),
          set_gCodes (set_buffer b (snd (GCodeBuffer.Seen c gb)) (gCodes r)) r).
Proof.
  intros gb. unfold GCodes.Seen, GCodes.on_buffer. run. fold gb.
  by destruct (GCodeBuffer.Seen c gb).
Qed.

(** Reading the number after a tag that was found. *)
Lemma GetIValue_after_Seen (r : RepRap) :
  let gb := buffer b (gCodes r) in
  0 <= readPointer gb ->
  GCodes.GetIValue b r
  = Some (Libc.strtol (GCodeBuffer.field_text gb),
          set_gCodes (set_buffer b (set_readPointer (-1) gb) (gCodes r)) r).
Proof.
  intros gb Hfound. unfold GCodes.GetIValue, GCodes.on_buffer. run. fold gb.
  unfold GCodeBuffer.GetIValue, GCodeBuffer.GetLValue.
  destruct (Z.ltb_spec (readPointer gb) 0) as [?|_]; [lia|]. by run.
Qed.

Lemma Seen_loop_bounds (c : ascii) (buf : list ascii) : forall (k j : Z),
  GCodeBuffer.Seen_loop c buf k = Some j -> k <= j.
Proof.
  induction buf as [|x buf IH]; intros k j; cbn [GCodeBuffer.Seen_loop]; [done|].
  destruct ((x =c NUL) || (x =c ";")); [done|].
  destruct (x =c c); [intros [= ->]; lia|].
  intros Hj%IH. lia.
Qed.

Lemma Seen_found (c : ascii) (gb gb' : GCodeBuffer) :
  GCodeBuffer.Seen c gb = (true, gb') ->
  0 <= readPointer gb' /\ gcodeBuffer gb' = gcodeBuffer gb
  /\ set_readPointer (-1) gb' = set_readPointer (-1) gb.
Proof.
  unfold GCodeBuffer.Seen.
  destruct (GCodeBuffer.Seen_loop c (gcodeBuffer gb) 0) as [j|] eqn:Hj; [|done].
  intros [= <-]. apply Seen_loop_bounds in Hj. by destruct gb.
Qed.

Lemma Seen_not_found (c : ascii) (gb gb' : GCodeBuffer) :
  GCodeBuffer.Seen c gb = (false, gb') -> gb' = set_readPointer (-1) gb.
Proof.
  unfold GCodeBuffer.Seen.
  by destruct (GCodeBuffer.Seen_loop c (gcodeBuffer gb) 0); intros [= <-].
Qed.

(** [Seen] and, when the tag is there, [GetIValue]: the number read and
    the buffer with its read pointer reset. *)
Lemma tag_and_number (c : ascii) (r : RepRap) :
  let gb := buffer b (gCodes r) in
  (let* found := GCodes.Seen b c in
   let* code := (if found then GCodes.GetIValue b else ret 0) in
   ret (found, code)) r
  = Some ((bool_decide (is_Some (code_after c gb)), default 0 (code_after c gb)),
          with_buffer b (set_readPointer (-1) gb) r).
Proof.
  intros gb. unfold bind at 1. rewrite Seen_on_buffer. fold gb. unfold code_after.
  destruct (GCodeBuffer.Seen c gb) as [[] gb'] eqn:HSeen; cbn [fst snd].
  - apply Seen_found in HSeen as (Hptr & Hbuf & Hreset).
    unfold bind. rewrite GetIValue_after_Seen by (fields; by rewrite buffer_set_buffer).
    fields. rewrite buffer_set_buffer, set_buffer_twice, Hreset.
    unfold GCodeBuffer.GetIValue, GCodeBuffer.GetLValue.
    destruct (Z.ltb_spec (readPointer gb') 0) as [?|_]; [lia|]. done.
  - apply Seen_not_found in HSeen as ->. unfold bind, ret. fields.
    by destruct r.
Qed.

Lemma Write_run (text : list ascii) (r : RepRap) :
  inUse (Platform.store_at (platform r) i) = true ->
  exists r',
    Platform.Write i text r = Some (true, r')
    /\ gCodes r' = gCodes r /\ move r' = move r
    /\ inUse (Platform.store_at (platform r') i) = true
    /\ data (Platform.store_at (platform r') i)
       = data (Platform.store_at (platform r) i) ++ text.
Proof.
  intros Huse. pose proof (store_at_in_use _ _ Huse) as Hi.
  unfold Platform.Write, Platform.update_store. run. rewrite Huse. run.
  eexists. split; [reflexivity|]. fields.
  rewrite store_at_insert by done. by fields.
Qed.

Lemma tag_then {A} (c : ascii) (k : bool -> Z -> M A) (r : RepRap) :
  let gb := buffer b (gCodes r) in
  (let* found := GCodes.Seen b c in
   let* code := (if found then GCodes.GetIValue b else ret 0) in
   k found code) r
  = k (bool_decide (is_Some (code_after c gb))) (default 0 (code_after c gb))
      (with_buffer b (set_readPointer (-1) gb) r).
Proof.
  intros gb. pose proof (tag_and_number c r) as Hrun. fold gb in Hrun.
  unfold bind, ret in Hrun |- *.
  destruct (GCodes.Seen b c r) as [[found r1]|]; [|done].
  destruct ((if found then GCodes.GetIValue b else fun r => Some (0, r)) r1)
    as [[code r2]|]; [|done].
  by injection Hrun as -> -> ->.
Qed.

Lemma code_after_reset (c : ascii) (k : Z) (gb : GCodeBuffer) :
  code_after c (set_readPointer k gb) = code_after c gb.
Proof.
  unfold code_after, GCodeBuffer.Seen. fields.
  by destruct (GCodeBuffer.Seen_loop c (gcodeBuffer gb) 0); destruct gb.
Qed.

(** X20. While G-code is being saved, a line that is neither M29 nor
    G998 is not acted on: the line and a newline are appended to the file,
    the empty reply goes out, and interpreter and planner are untouched
    but for the read pointer of the buffer. *)
Theorem saved_line_is_appended (r : RepRap) :
  let gb := buffer b (gCodes r) in
  fileBeingWritten (gCodes r) = Some i ->
  inUse (Platform.store_at (platform r) i) = true ->
  code_after "M" gb <> Some 29 ->
  code_after "G" gb <> Some 998 ->
  exists r',
    GCodes.WriteGCodeToFile b r = Some (tt, r')
    /\ data (Platform.store_at (platform r') i)
       = data (Platform.store_at (platform r) i) ++ GCodeBuffer.Buffer gb ++ [NEWLINE]
    /\ gCodes r' = set_buffer b (set_readPointer (-1) gb) (gCodes r)
    /\ move r' = move r.
Proof.
  intros gb Hopen Huse HM HG.
  unfold GCodes.WriteGCodeToFile. unfold bind at 1. unfold gc, gets. rewrite Hopen.
  rewrite tag_then. fold gb.
  assert (bool_decide (is_Some (code_after "M" gb)) && (default 0 (code_after "M" gb) =? 29)
          = false) as ->.
  { destruct (code_after "M" gb) as [m|]; [|done]. cbn.
    by destruct (Z.eqb_spec m 29) as [->|?]. }
  rewrite tag_then. unfold with_buffer. fields.
  rewrite !buffer_set_buffer, ?set_buffer_twice, !code_after_reset.
  change (set_readPointer (-1) (set_readPointer (-1) gb)) with (set_readPointer (-1) gb).
  assert (bool_decide (is_Some (code_after "G" gb)) && (default 0 (code_after "G" gb) =? 998)
          = false) as ->.
  { destruct (code_after "G" gb) as [g|]; [|done]. cbn.
    by destruct (Z.eqb_spec g 998) as [->|?]. }
  run. unfold GCodes.Buffer. run. rewrite buffer_set_buffer.
  change (GCodeBuffer.Buffer (set_readPointer (-1) gb)) with (GCodeBuffer.Buffer gb).
  match goal with
  | |- context [Platform.Write i (GCodeBuffer.Buffer gb) ?s] =>
      destruct (Write_run (GCodeBuffer.Buffer gb) s) as (r1 & -> & Hg1 & Hm1 & Huse1 & Hdata1);
        [by fields|]
  end.
  destruct (Write_run [NEWLINE] r1 Huse1) as (r2 & -> & Hg2 & Hm2 & Huse2 & Hdata2).
  destruct (HandleReply_output false (GCodes.is_serial b) EmptyString "G" 1 false r2)
    as (r' & -> & Hg & Hm & _ & _ & _ & Hfiles & _).
  exists r'. split; [done|].
  assert (Platform.store_at (platform r') i = Platform.store_at (platform r2) i) as ->
    by (unfold Platform.store_at; by rewrite Hfiles).
  rewrite Hdata2, Hdata1, Hg, Hg2, Hg1, Hm, Hm2, Hm1. fields.
  by rewrite <- app_assoc.
Qed.

(** X21. While G-code is being saved, the line M29 ends it: the file
    is closed with the bytes it has, the handle is dropped, the buffer
    stops writing to a file, and the planner is untouched. *)
Theorem M29_ends_the_saving (r : RepRap) :
  let gb := buffer b (gCodes r) in
  fileBeingWritten (gCodes r) = Some i ->
  inUse (Platform.store_at (platform r) i) = true ->
  code_after "M" gb = Some 29 ->
  exists r',
    GCodes.WriteGCodeToFile b r = Some (tt, r')
    /\ fileBeingWritten (gCodes r') = None
    /\ writingFileDirectory (buffer b (gCodes r')) = None
    /\ data (Platform.store_at (platform r') i) = data (Platform.store_at (platform r) i)
    /\ moveAvailable (gCodes r') = moveAvailable (gCodes r).
Proof.
  intros gb Hopen Huse HM.
  unfold GCodes.WriteGCodeToFile. unfold bind at 1. unfold gc, gets. rewrite Hopen.
  rewrite tag_then. fold gb. rewrite HM. cbn [default from_option id].
  rewrite bool_decide_eq_true_2 by by eexists. cbn [andb Z.eqb Pos.eqb].
  set (r0 := with_buffer b (set_readPointer (-1) gb) r).
  destruct (capture_closes b i 29 r0) as (r' & Hrun & Hnone & Hdir & Hdata & Hmove & _);
    [done|].
  exists r'. split; [exact Hrun|]. repeat split; try done.
  rewrite Hmove. subst r0. unfold with_buffer. fields. by destruct b.
Qed.
End Saving.

Lemma saved_line_is_appended_witness :
  exists r',
    GCodes.WriteGCodeToFile WebGCode saving_G1 = Some (tt, r')
    /\ data (Platform.store_at (platform r') 0)
       = data (Platform.store_at (platform saving_G1) 0)
         ++ GCodeBuffer.Buffer (buffer WebGCode (gCodes saving_G1)) ++ [NEWLINE]
    /\ gCodes r'
       = set_buffer WebGCode (set_readPointer (-1) (buffer WebGCode (gCodes saving_G1)))
           (gCodes saving_G1)
    /\ move r' = move saving_G1.
Proof.
  apply (saved_line_is_appended WebGCode 0%nat saving_G1).
  - reflexivity.
  - reflexivity.
  - vm_compute. discriminate.
  - vm_compute. discriminate.
Defined.

Lemma M29_ends_the_saving_witness :
  exists r',
    GCodes.WriteGCodeToFile WebGCode saving_M29 = Some (tt, r')
    /\ fileBeingWritten (gCodes r') = None
    /\ writingFileDirectory (buffer WebGCode (gCodes r')) = None
    /\ data (Platform.store_at (platform r') 0)
       = data (Platform.store_at (platform saving_M29) 0)
    /\ moveAvailable (gCodes r') = moveAvailable (gCodes saving_M29).
Proof.
  apply (M29_ends_the_saving WebGCode 0%nat saving_M29).
  - reflexivity.
  - reflexivity.
  - vm_compute. reflexivity.
Defined.

(** ** The settings kept in flash *)

Ltac nvfields :=
  cbn [Nv.compatibility Nv.ipAddress Nv.netMask Nv.gateWay Nv.zProbeType Nv.zProbeChannel
       Nv.zProbeAxes Nv.switchDiveHeight Nv.irDiveHeight Nv.alternateDiveHeight Nv.magic
       Nv.set_compatibility Nv.set_ipAddress Nv.set_netMask Nv.set_gateWay Nv.set_zProbeType
       Nv.set_zProbeChannel Nv.set_zProbeAxes Nv.set_switchDiveHeight Nv.set_irDiveHeight
       Nv.set_alternateDiveHeight Nv.set_magic
       Nv.nvData Nv.flashImage Nv.flashWrites Nv.autoSaveEnabled Nv.zProbeModulationPin
       Nv.pinCalls Nv.zProbeOnFilter Nv.zProbeOffFilter Nv.messages
       Nv.set_nvData Nv.set_flashImage Nv.set_flashWrites Nv.set_autoSaveEnabled
       Nv.set_zProbeModulationPin Nv.set_pinCalls Nv.set_zProbeOnFilter
       Nv.set_zProbeOffFilter Nv.set_messages Nv.update_nv Nv.Message] in *.

Section Flash.
Variable Filter : Type.
Variable Filter_Init : Z -> Filter.
Implicit Types s : Nv.Board Filter.

(** What [InitZProbe] leaves alone. *)
Lemma InitZProbe_settings s :
  Nv.nvData (Nv.InitZProbe Filter_Init s) = Nv.nvData s
  /\ Nv.flashImage (Nv.InitZProbe Filter_Init s) = Nv.flashImage s
  /\ Nv.flashWrites (Nv.InitZProbe Filter_Init s) = Nv.flashWrites s
  /\ Nv.autoSaveEnabled (Nv.InitZProbe Filter_Init s) = Nv.autoSaveEnabled s.
Proof.
  unfold Nv.InitZProbe. cbv zeta. nvfields.
  by destruct (1 <=? Nv.zProbeType (Nv.nvData s)).
Qed.

Lemma auto_save_in_step (f : Nv.NvData -> Nv.NvData) s :
  Nv.autoSaveEnabled s = true -> Nv.in_step (Nv.auto_save true (Nv.update_nv f s)).
Proof.
  intros Hauto. unfold Nv.auto_save, Nv.WriteNvData, Nv.in_step. nvfields.
  by rewrite Hauto.
Qed.

Lemma copy_changed_in_step (indices : list nat) (src : list Z) :
  forall (dst : list Z) (changed : bool) (bytes : list Z) (changed' : bool),
  Nv.copy_changed indices src dst changed = Some (bytes, changed') ->
  (changed' = false -> bytes = dst /\ changed = false)
  /\ length bytes = length dst
  /\ (forall i, i ∈ indices -> bytes !! i = src !! i)
  /\ (forall i, dst !! i = src !! i -> bytes !! i = src !! i).
Proof.
  induction indices as [|i rest IH]; intros dst changed bytes changed' Hrun.
  - injection Hrun as <- <-. repeat split; try done. by intros i ?%elem_of_nil.
  - cbn [Nv.copy_changed] in Hrun.
    destruct (dst !! i) as [d|] eqn:Hd; [|done].
    destruct (src !! i) as [v|] eqn:Hv; [|done]. cbn in Hrun.
    destruct (Z.eqb_spec d v) as [->|Hne]; cbn [negb] in Hrun.
    + destruct (IH _ _ _ _ Hrun) as (H1 & H2 & H3 & H4).
      split; [done|]. split; [done|]. split; [|done].
      intros j [->|Hj]%elem_of_cons; [|by apply H3].
      apply H4. congruence.
    + destruct (IH _ _ _ _ Hrun) as (H1 & H2 & H3 & H4).
      split; [intros Hfalse; by destruct (H1 Hfalse)|].
      split; [by rewrite H2, length_insert|].
      split.
      * intros j [->|Hj]%elem_of_cons; [|by apply H3].
        apply H4. rewrite list_lookup_insert_eq by (by eapply lookup_lt_Some). done.
      * intros j Hj. apply H4.
        destruct (decide (i = j)) as [->|Hij].
        -- rewrite list_lookup_insert_eq by (by eapply lookup_lt_Some). done.
        -- by rewrite list_lookup_insert_ne.
Qed.

Lemma UpdateNetworkAddress_in_step (dst : Nv.NvData -> list Z)
    (set_dst : list Z -> Nv.NvData -> Nv.NvData) (src : list Z) s s' :
  (forall n, set_dst (dst n) n = n) ->
  Nv.in_step s ->
  Nv.UpdateNetworkAddress true dst set_dst src s = Some s' ->
  Nv.in_step s'.
Proof.
  intros Hid [Hauto Hflash]. unfold Nv.UpdateNetworkAddress.
  destruct (Nv.copy_changed (seq 0 4) src (dst (Nv.nvData s)) false)
    as [[bytes changed]|] eqn:Hcopy; [|done].
  cbn. intros [= <-]. rewrite Hauto, andb_true_r.
  destruct changed.
  - unfold Nv.WriteNvData, Nv.in_step. by nvfields.
  - destruct (copy_changed_in_step _ _ _ _ _ _ Hcopy) as [Hsame _].
    destruct (Hsame eq_refl) as [-> _].
    unfold Nv.in_step. nvfields. by rewrite Hid.
Qed.

Lemma call_in_step (c : Nv.Call) s s' :
  Nv.in_step s -> Nv.call Filter_Init true c s = Some s' -> Nv.in_step s'.
Proof.
  intros Hs. pose proof Hs as [Hauto Hflash]. destruct c as [pt|ch|axes|c|ip|gw|nm];
    cbn [Nv.call].
  - intros [= <-]. unfold Nv.SetZProbeType. cbv zeta.
    set (t := if (0 <=? pt) && (pt <=? 3) then pt else 0).
    destruct (InitZProbe_settings
                (if negb (t =? Nv.zProbeType (Nv.nvData s))
                 then Nv.auto_save true (Nv.update_nv (Nv.set_zProbeType t) s) else s))
      as (H1 & H2 & _ & H4).
    unfold Nv.in_step. rewrite H1, H2, H4.
    destruct (negb (t =? Nv.zProbeType (Nv.nvData s))); [|done].
    by apply auto_save_in_step.
  - intros [= <-]. unfold Nv.SetZProbeChannel.
    destruct (ch =? 1); cbv beta iota; nvfields;
      match goal with
      | |- context [if ?c then _ else _] => destruct c
      end;
      solve [ by apply (auto_save_in_step _ (Nv.set_zProbeModulationPin _ s))
            | by split ].
  - unfold Nv.SetZProbeAxes. case_bool_decide; [|done]. intros [= <-].
    by apply auto_save_in_step.
  - intros [= <-]. unfold Nv.SetEmulating.
    destruct c; try (by split);
      match goal with
      | |- context [if ?c then _ else _] => destruct c
      end; solve [by apply auto_save_in_step|done].
  - apply UpdateNetworkAddress_in_step; [by intros []|done].
  - apply UpdateNetworkAddress_in_step; [by intros []|done].
  - apply UpdateNetworkAddress_in_step; [by intros []|done].
Qed.

(** X22. With auto-save on, the flash follows the settings: whatever
    calls of the setters of the probe type, the probe channel, the probe
    axes, the emulation and the network addresses are made, the image in
    flash is the settings in memory afterwards. *)
Theorem flash_follows_the_settings (cs : list Nv.Call) : forall s s',
  Nv.autoSaveEnabled s = true ->
  Nv.flashImage s = Nv.nvData s ->
  Nv.calls Filter_Init true cs s = Some s' ->
  Nv.flashImage s' = Nv.nvData s' /\ Nv.autoSaveEnabled s' = true.
Proof.
  induction cs as [|c cs IH]; intros s s' Hauto Hflash Hrun.
  - by injection Hrun as <-.
  - cbn [Nv.calls] in Hrun.
    destruct (Nv.call Filter_Init true c s) as [s1|] eqn:Hcall; [|done].
    destruct (call_in_step c s s1) as [Hauto1 Hflash1]; [by split|done|].
    by apply (IH s1).
Qed.
End Flash.

Section Settings.
Variable Filter : Type.
Variable Filter_Init : Z -> Filter.
Variable FLASH_SAVE_ENABLED : bool.
Implicit Types s : Nv.Board Filter.

Lemma same_firmware_refl (c : Compatibility) : Nv.same_firmware c c = true.
Proof. by destruct c. Qed.

Lemma auto_save_settings s :
  Nv.nvData (Nv.auto_save FLASH_SAVE_ENABLED s) = Nv.nvData s.
Proof.
  unfold Nv.auto_save, Nv.WriteNvData.
  by destruct (Nv.autoSaveEnabled s), FLASH_SAVE_ENABLED.
Qed.

Lemma SetZProbeType_type (pt : Z) s :
  Nv.zProbeType (Nv.nvData (Nv.SetZProbeType Filter_Init FLASH_SAVE_ENABLED pt s))
  = (if (0 <=? pt) && (pt <=? 3) then pt else 0).
Proof.
  unfold Nv.SetZProbeType. cbv zeta.
  set (t := if (0 <=? pt) && (pt <=? 3) then pt else 0).
  match goal with
  | |- context [Nv.InitZProbe _ ?x] =>
      destruct (InitZProbe_settings Filter Filter_Init x) as (-> & _)
  end.
  destruct (Z.eqb_spec t (Nv.zProbeType (Nv.nvData s))) as [->|?]; cbn [negb]; [done|].
  by rewrite auto_save_settings.
Qed.

Lemma SetZProbeChannel_channel (channel : Z) s :
  Nv.zProbeChannel (Nv.nvData (Nv.SetZProbeChannel FLASH_SAVE_ENABLED channel s))
  = (if channel =? 1 then channel else 0).
Proof.
  unfold Nv.SetZProbeChannel.
  destruct (channel =? 1); cbv beta iota; nvfields;
    match goal with
    | |- context [negb (?a =? ?b)] => destruct (Z.eqb_spec a b) as [->|?]
    end; cbn [negb]; nvfields; try done; by rewrite auto_save_settings.
Qed.

(** A second pass of the loop of [UpdateNetworkAddress] finds nothing to
    change. *)
Lemma copy_changed_again (src : list Z) (indices all : list nat) :
  forall (dst : list Z) (changed : bool),
  (forall i, i ∈ indices -> i ∈ all) ->
  (forall i, i ∈ all -> is_Some (dst !! i) /\ dst !! i = src !! i) ->
  Nv.copy_changed indices src dst changed = Some (dst, changed).
Proof.
  induction indices as [|i rest IH]; intros dst changed Hsub Hsame; [done|].
  cbn [Nv.copy_changed].
  destruct (Hsame i) as [[d Hd] Heq]; [apply Hsub; by left|].
  rewrite <- Heq, Hd. cbn. rewrite Z.eqb_refl. cbn [negb].
  apply IH; [|done]. intros j Hj. apply Hsub. by right.
Qed.

Lemma UpdateNetworkAddress_again (dst : Nv.NvData -> list Z)
    (set_dst : list Z -> Nv.NvData -> Nv.NvData) (src : list Z) s s1 :
  (forall n, set_dst (dst n) n = n) ->
  (forall bytes n, dst (set_dst bytes n) = bytes) ->
  Nv.UpdateNetworkAddress FLASH_SAVE_ENABLED dst set_dst src s = Some s1 ->
  exists s2,
    Nv.UpdateNetworkAddress FLASH_SAVE_ENABLED dst set_dst src s1 = Some s2
    /\ Nv.flashWrites s2 = Nv.flashWrites s1
    /\ Nv.nvData s2 = Nv.nvData s1.
Proof.
  intros Hid Hget. unfold Nv.UpdateNetworkAddress at 1.
  destruct (Nv.copy_changed (seq 0 4) src (dst (Nv.nvData s)) false)
    as [[bytes changed]|] eqn:Hcopy; [|done].
  intros Hrun. cbn in Hrun. injection Hrun as <-.
  destruct (copy_changed_in_step _ _ _ _ _ _ Hcopy) as (_ & Hlen & Hbytes & _).
  match goal with
  | |- context [Nv.UpdateNetworkAddress _ _ _ _ ?x] => set (s1 := x)
  end.
  assert (dst (Nv.nvData s1) = bytes) as Hdst.
  { subst s1. unfold Nv.WriteNvData.
    destruct (changed && _), FLASH_SAVE_ENABLED; nvfields; by rewrite Hget. }
  unfold Nv.UpdateNetworkAddress. rewrite Hdst.
  rewrite (copy_changed_again src (seq 0 4) (seq 0 4)); [|done|].
  - cbn. eexists. split; [reflexivity|]. nvfields.
    split; [done|]. rewrite <- Hdst at 1. apply Hid.
  - intros i Hi. pose proof (Hbytes i Hi) as Heq. split; [|done].
    apply lookup_lt_is_Some. rewrite Hlen.
    assert (is_Some (dst (Nv.nvData s) !! i)) as Hsome; [|by apply lookup_lt_is_Some].
    clear -Hcopy Hi. revert Hcopy. generalize (dst (Nv.nvData s)). intros l Hcopy.
    apply lookup_lt_is_Some.
    assert (4 <= length l)%nat; [|apply elem_of_seq in Hi; lia].
    cbn in Hcopy.
    repeat (match type of Hcopy with
            | context [?l0 !! ?k] =>
                let E := fresh in
                destruct (l0 !! k) eqn:E; [|done];
                apply lookup_lt_Some in E; rewrite ?length_insert in E
            end; cbn in Hcopy;
            try match type of Hcopy with
                | context [if ?c then _ else _] => destruct c
                end).
    all: lia.
Qed.

(** X23. Setting what is already set is not saved again: when one of
    the setters of the probe type, the probe channel, the emulation or a
    network address is called a second time with the same argument, the
    settings stay as they are and nothing is written to the flash. *)
Theorem repeated_setting_is_not_saved_again (c : Nv.Call) s s1 :
  (forall axes, c <> Nv.CallSetZProbeAxes axes) ->
  Nv.call Filter_Init FLASH_SAVE_ENABLED c s = Some s1 ->
  exists s2,
    Nv.call Filter_Init FLASH_SAVE_ENABLED c s1 = Some s2
    /\ Nv.flashWrites s2 = Nv.flashWrites s1
    /\ Nv.nvData s2 = Nv.nvData s1.
Proof.
  intros Hc. destruct c as [pt|ch|axes|c|ip|gw|nm]; cbn [Nv.call].
  - intros [= <-].
    set (s1 := Nv.SetZProbeType Filter_Init FLASH_SAVE_ENABLED pt s).
    pose proof (SetZProbeType_type pt s) as Ht. fold s1 in Ht. clearbody s1.
    eexists. split; [reflexivity|].
    unfold Nv.SetZProbeType. cbv zeta. rewrite Ht, Z.eqb_refl. cbn [negb].
    by destruct (InitZProbe_settings Filter Filter_Init s1) as (-> & _ & -> & _).
  - intros [= <-].
    set (s1 := Nv.SetZProbeChannel FLASH_SAVE_ENABLED ch s).
    pose proof (SetZProbeChannel_channel ch s) as Ht. fold s1 in Ht. clearbody s1.
    eexists. split; [reflexivity|].
    unfold Nv.SetZProbeChannel.
    destruct (ch =? 1); cbv beta iota; nvfields; rewrite Ht, Z.eqb_refl; by cbn [negb].
  - by destruct (Hc axes).
  - intros [= <-]. eexists. split; [reflexivity|].
    unfold Nv.SetEmulating, Nv.auto_save, Nv.WriteNvData.
    destruct c; try done;
      destruct (Nv.compatibility (Nv.nvData s)) eqn:Hold;
      destruct (Nv.autoSaveEnabled s) eqn:Hauto; destruct FLASH_SAVE_ENABLED;
      cbn; rewrite ?Hold, ?Hauto; cbn; done.
  - apply UpdateNetworkAddress_again; [by intros []|done].
  - apply UpdateNetworkAddress_again; [by intros []|done].
  - apply UpdateNetworkAddress_again; [by intros []|done].
Qed.

(** X24. Once the probe type has been set, with whatever number, it is
    one of 0 to 3, and the dive height that is set is the dive height
    that is read. *)
Theorem dive_height_is_kept (DEFAULT_Z_DIVE height : float) (pt : Z) s :
  let s1 := Nv.SetZProbeType Filter_Init FLASH_SAVE_ENABLED pt s in
  0 <= Nv.GetZProbeType s1 <= 3
  /\ Nv.GetZProbeDiveHeight DEFAULT_Z_DIVE (Nv.SetZProbeDiveHeight height s1) = height.
Proof.
  intros s1. pose proof (SetZProbeType_type pt s) as Ht. fold s1 in Ht. clearbody s1.
  unfold Nv.GetZProbeType, Nv.GetZProbeDiveHeight, Nv.SetZProbeDiveHeight. cbv zeta.
  assert (0 <= Nv.zProbeType (Nv.nvData s1) <= 3) as Hrange.
  { rewrite Ht. destruct (Z.leb_spec 0 pt), (Z.leb_spec pt 3); cbn; lia. }
  split; [done|].
  assert (Nv.zProbeType (Nv.nvData s1) = 0 \/ Nv.zProbeType (Nv.nvData s1) = 1
          \/ Nv.zProbeType (Nv.nvData s1) = 2 \/ Nv.zProbeType (Nv.nvData s1) = 3)
    as [Hv|[Hv|[Hv|Hv]]] by lia; rewrite Hv; cbn; nvfields; by rewrite Hv.
Qed.

(** X25. Settings written to the flash come back: when the settings in
    memory carry the magic number, [WriteNvData] followed, after whatever
    happens to the settings in memory, by [ReadNvData] restores them. *)
Theorem saved_settings_are_read_back (magicValue : Z) (factory : Nv.NvData) s s' :
  Nv.magic (Nv.nvData s) = magicValue ->
  Nv.flashImage s' = Nv.flashImage (Nv.WriteNvData true s) ->
  Nv.nvData (Nv.ReadNvData true magicValue factory s') = Nv.nvData s.
Proof.
  intros Hmagic Himage. unfold Nv.ReadNvData, Nv.WriteNvData in *. nvfields.
  by rewrite Himage, Hmagic, Z.eqb_refl.
Qed.

End Settings.

Lemma flash_follows_the_settings_witness :
  Nv.flashImage Nv.reconfigured = Nv.nvData Nv.reconfigured
  /\ Nv.autoSaveEnabled Nv.reconfigured = true.
Proof.
  apply (flash_follows_the_settings Z (fun v => v) Nv.some_calls Nv.started Nv.reconfigured).
  - reflexivity.
  - reflexivity.
  - reflexivity.
Defined.

Lemma repeated_setting_is_not_saved_again_witness :
  exists s2,
    Nv.call (fun v => v) true (Nv.CallSetIPAddress [10; 0; 0; 2]) Nv.readdressed = Some s2
    /\ Nv.flashWrites s2 = Nv.flashWrites Nv.readdressed
    /\ Nv.nvData s2 = Nv.nvData Nv.readdressed.
Proof.
  apply (repeated_setting_is_not_saved_again Z (fun v => v) true
           (Nv.CallSetIPAddress [10; 0; 0; 2]) Nv.started Nv.readdressed).
  - intros axes. discriminate.
  - reflexivity.
Defined.

Lemma saved_settings_are_read_back_witness :
  Nv.nvData (Nv.ReadNvData true 7 Nv.shipped Nv.saved_then_changed) = Nv.nvData Nv.started.
Proof.
  apply (saved_settings_are_read_back Z 7 Nv.shipped Nv.started Nv.saved_then_changed).
  - reflexivity.
  - reflexivity.
Defined.

Section MacroEnd.
Context `{Config}.
Variable ActOnCode : BufferId -> M bool.

(** X26. A macro whose file has been read to its end is left through
    the stack: the call answers "done", no macro is running any more, the
    frame pushed when the macro started is popped (the stack pointer is
    one less, the file being printed and the two relative flags are those
    of the frame), the macro's buffer is reset, and the position read
    back from the planner is left queued as a move. *)
Theorem finished_macro_returns (name : string) (r : RepRap) (p : list float) :
  let g := gCodes r in
  let sp := pred (stackPointer g) in
  doingCannedCycleFile g = true ->
  fileBeingPrinted g = None ->
  (0 < stackPointer g)%nat ->
  moveAvailable g = false ->
  allMovesAreFinished (move r) = true ->
  currentUserPosition (move r) = Some p ->
  exists r',
    GCodes.DoFileCannedCycles ActOnCode name r = Some (true, r')
    /\ doingCannedCycleFile (gCodes r') = false
    /\ stackPointer (gCodes r') = sp
    /\ fileBeingPrinted (gCodes r') = mjoin (fileStack g !! sp)
    /\ drivesRelative (gCodes r') = bget (drivesRelativeStack g) sp
    /\ axesRelative (gCodes r') = bget (axesRelativeStack g) sp
    /\ cannedCycleGCode (gCodes r') = GCodeBuffer.Init (cannedCycleGCode g)
    /\ moveAvailable (gCodes r') = true.
Proof.
  intros g sp Hdoing Hfile Hsp Hpending Hfin Hpos.
  destruct (Pop_run r p) as (r1 & HPop & Hg1 & _); try done.
  fold g sp in Hg1.
  unfold GCodes.DoFileCannedCycles. run. unfold id. fold g. rewrite Hdoing. run.
  unfold FileData.IsLive. run. unfold id. fold g.
  change (file_var BeingPrinted g) with (fileBeingPrinted g). rewrite Hfile.
  rewrite bool_decide_eq_false_2 by (by intros [? ?]). run.
  rewrite HPop. run. unfold GCodes.InitBuffer. run.
  eexists. split; [reflexivity|]. fields. rewrite Hg1. fields.
  unfold file_var, set_file_var. fields. by repeat split.
Qed.

(** X27. M99 inside a macro ends the macro but leaves its frame on the
    stack: with the planner idle, [FileCannedCyclesReturn] answers "done",
    clears [doingCannedCycleFile], resets the macro's buffer and drops the
    file, while the stack pointer, the stacked values and the two relative
    flags stay as the macro left them. *)
Theorem macro_return_keeps_the_frame (r : RepRap) (p : list float) :
  let g := gCodes r in
  doingCannedCycleFile g = true ->
  moveAvailable g = false ->
  allMovesAreFinished (move r) = true ->
  currentUserPosition (move r) = Some p ->
  exists r',
    GCodes.FileCannedCyclesReturn r = Some (true, r')
    /\ doingCannedCycleFile (gCodes r') = false
    /\ fileBeingPrinted (gCodes r') = None
    /\ cannedCycleGCode (gCodes r') = GCodeBuffer.Init (cannedCycleGCode g)
    /\ stackPointer (gCodes r') = stackPointer g
    /\ fileStack (gCodes r') = fileStack g
    /\ drivesRelativeStack (gCodes r') = drivesRelativeStack g
    /\ axesRelativeStack (gCodes r') = axesRelativeStack g
    /\ drivesRelative (gCodes r') = drivesRelative g
    /\ axesRelative (gCodes r') = axesRelative g
    /\ moveAvailable (gCodes r') = false.
Proof.
  intros g Hdoing Hpending Hfin Hpos.
  unfold GCodes.FileCannedCyclesReturn. run. unfold id. fold g. rewrite Hdoing. run.
  rewrite (AllMoves_idle r p) by done. run. unfold GCodes.InitBuffer. run.
  match goal with
  | |- context [FileData.Close BeingPrinted ?s] =>
      destruct (FileData_Close_gCodes BeingPrinted s) as (r' & -> & Hg & _)
  end.
  exists r'. split; [done|]. rewrite Hg. fields.
  unfold set_file_var. fields. fold g. by repeat split.
Qed.
End MacroEnd.

Lemma finished_macro_returns_witness :
  exists r',
    GCodes.DoFileCannedCycles (GCodes.ActOnCode 0) "homex.g" macro_read = Some (true, r')
    /\ doingCannedCycleFile (gCodes r') = false
    /\ stackPointer (gCodes r') = pred (stackPointer (gCodes macro_read))
    /\ fileBeingPrinted (gCodes r')
       = mjoin (fileStack (gCodes macro_read) !! pred (stackPointer (gCodes macro_read)))
    /\ drivesRelative (gCodes r')
       = bget (drivesRelativeStack (gCodes macro_read)) (pred (stackPointer (gCodes macro_read)))
    /\ axesRelative (gCodes r')
       = bget (axesRelativeStack (gCodes macro_read)) (pred (stackPointer (gCodes macro_read)))
    /\ cannedCycleGCode (gCodes r') = GCodeBuffer.Init (cannedCycleGCode (gCodes macro_read))
    /\ moveAvailable (gCodes r') = true.
Proof.
  apply (finished_macro_returns (GCodes.ActOnCode 0) "homex.g" macro_read
           (replicate 9 Float.zero)).
  - vm_compute. reflexivity.
  - vm_compute. reflexivity.
  - vm_compute. lia.
  - vm_compute. reflexivity.
  - vm_compute. reflexivity.
  - vm_compute. reflexivity.
Defined.

Lemma macro_return_keeps_the_frame_witness :
  exists r',
    GCodes.FileCannedCyclesReturn macro_started = Some (true, r')
    /\ doingCannedCycleFile (gCodes r') = false
    /\ fileBeingPrinted (gCodes r') = None
    /\ cannedCycleGCode (gCodes r') = GCodeBuffer.Init (cannedCycleGCode (gCodes macro_started))
    /\ stackPointer (gCodes r') = stackPointer (gCodes macro_started)
    /\ fileStack (gCodes r') = fileStack (gCodes macro_started)
    /\ drivesRelativeStack (gCodes r') = drivesRelativeStack (gCodes macro_started)
    /\ axesRelativeStack (gCodes r') = axesRelativeStack (gCodes macro_started)
    /\ drivesRelative (gCodes r') = drivesRelative (gCodes macro_started)
    /\ axesRelative (gCodes r') = axesRelative (gCodes macro_started)
    /\ moveAvailable (gCodes r') = false.
Proof.
  apply (macro_return_keeps_the_frame macro_started (replicate 9 Float.zero)).
  - vm_compute. reflexivity.
  - vm_compute. reflexivity.
  - vm_compute. reflexivity.
  - vm_compute. reflexivity.
Defined.

(** ** Starting a macro *)

Lemma first_free_spec (fs : list FileStore) : forall (k i : nat),
  Platform.first_free fs k = Some i ->
  (k <= i)%nat /\ exists f, fs !! (i - k)%nat = Some f /\ inUse f = false.
Proof.
  induction fs as [|f fs IH]; intros k i; cbn [Platform.first_free]; [done|].
  destruct (inUse f) eqn:Huse.
  - intros (Hk & g & Hg & Hfree)%IH. split; [lia|]. exists g.
    replace (i - k)%nat with (S (i - S k)) by lia. done.
  - intros [= <-]. split; [lia|]. exists f. by rewrite Nat.sub_diag.
Qed.

(** The first free store is found by the [inUse] flags alone. *)
Lemma first_free_ext (fs : list FileStore) : forall (fs' : list FileStore) (k : nat),
  length fs' = length fs ->
  (forall j, inUse (default Platform.closed_store (fs' !! j))
             = inUse (default Platform.closed_store (fs !! j))) ->
  Platform.first_free fs' k = Platform.first_free fs k.
Proof.
  induction fs as [|f fs IH]; intros [|f' fs'] k Hlen Hsame; try done.
  cbn [Platform.first_free]. pose proof (Hsame 0%nat) as H0. cbn in H0. rewrite H0.
  destruct (inUse f); [|done]. apply IH; [by injection Hlen|].
  intros j. apply (Hsame (S j)).
Qed.

Lemma store_at_update (p : Platform) (i j : nat) (f : FileStore) :
  (i < length (files p))%nat ->
  Platform.store_at (set_files (<[i := f]> (files p)) p) j
  = if decide (i = j) then f else Platform.store_at p j.
Proof.
  intros Hi. unfold Platform.store_at. fields. case_decide as Hij.
  - subst j. by rewrite list_lookup_insert_eq.
  - by rewrite list_lookup_insert_ne.
Qed.

(** A file that is on the card is opened at its first byte; the other
    stores, the interpreter and the planner are not involved. *)
Lemma Open_found (i : nat) (directory fileName : string) (bytes : list ascii) (r : RepRap) :
  sdCard (platform r) directory fileName = Some bytes ->
  (i < length (files (platform r)))%nat ->
  exists r',
    Platform.Open i directory fileName false r = Some (true, r')
    /\ Platform.store_at (platform r') i
       = set_openCount 1
           (set_inUse true
              (set_data bytes
                 (set_bytesRead 0 (set_writing false (Platform.store_at (platform r) i)))))
    /\ (forall j, j <> i ->
          Platform.store_at (platform r') j = Platform.store_at (platform r) j)
    /\ gCodes r' = gCodes r /\ move r' = move r
    /\ length (files (platform r')) = length (files (platform r)).
Proof.
  intros Hcard Hi. unfold Platform.Open. run. unfold id.
  destruct (Platform.location (platform r) directory fileName) as [name msgs].
  destruct (Open_messages msgs r) as (r1 & -> & Hg1 & Hm1 & Hf1 & _).
  unfold Platform.update_store. run. rewrite Hcard. run.
  eexists. split; [reflexivity|]. fields.
  unfold Platform.store_at. fields. rewrite Hf1.
  rewrite !list_lookup_insert_eq by (rewrite ?length_insert; done).
  cbn [default from_option id]. rewrite !length_insert.
  split; [done|]. split; [|done].
  intros j Hj. by rewrite !list_lookup_insert_ne.
Qed.

Lemma GetFileStore_found (directory fileName : string) (bytes : list ascii) (i : nat)
    (r : RepRap) :
  fileStructureInitialised (platform r) = true ->
  Platform.first_free (files (platform r)) 0 = Some i ->
  sdCard (platform r) directory fileName = Some bytes ->
  exists r',
    Platform.GetFileStore directory fileName false r = Some (Some i, r')
    /\ Platform.store_at (platform r') i = mkFileStore true 1 false bytes 0
    /\ (forall j, j <> i ->
          Platform.store_at (platform r') j = Platform.store_at (platform r) j)
    /\ gCodes r' = gCodes r /\ move r' = move r.
Proof.
  intros Hinit Hfree Hcard.
  destruct (first_free_spec _ _ _ Hfree) as (_ & f & Hf & _).
  rewrite Nat.sub_0_r in Hf. apply lookup_lt_Some in Hf.
  unfold Platform.GetFileStore. run. unfold id.
  rewrite Hinit. run. rewrite Hfree. run.
  unfold Platform.update_store at 1. run.
  match goal with
  | |- context [Platform.Open _ directory fileName false ?x] =>
      destruct (Open_found i directory fileName bytes x)
        as (r1 & -> & Hstore & Hothers & Hg & Hm & _); [done|fields; by rewrite length_insert|]
  end.
  exists r1. split; [done|]. rewrite Hstore, Hg, Hm. fields.
  rewrite store_at_update by done. rewrite decide_True by done. fields.
  split; [done|]. split; [|done].
  intros j Hj. rewrite (Hothers j Hj). fields.
  rewrite store_at_update by done. by rewrite decide_False by done.
Qed.

Lemma Close_other_store (i j : nat) (ok : bool) (r r' : RepRap) :
  j <> i ->
  Platform.Close i r = Some (ok, r') ->
  Platform.store_at (platform r') j = Platform.store_at (platform r) j.
Proof.
  intros Hj. unfold Platform.Close, Platform.update_store, Platform.Message. run.
  destruct (inUse (Platform.store_at (platform r) i)) eqn:Huse; run.
  - pose proof (store_at_in_use _ _ Huse) as Hi.
    destruct (negb (openCount (Platform.store_at (platform r) i) - 1 =? 0)); run;
      intros [= _ <-]; unfold Platform.store_at; fields;
      by rewrite !list_lookup_insert_ne.
  - by intros [= _ <-].
Qed.

Section MacroStart.
Context `{Config}.
Variable ActOnCode : BufferId -> M bool.

(** With nothing in the slot of the stack, [Push] leaves every store in
    use or free as it was. *)
Lemma Push_stores (r r1 : RepRap) (p : list float) :
  (stackPointer (gCodes r) < STACK)%nat ->
  moveAvailable (gCodes r) = false ->
  allMovesAreFinished (move r) = true ->
  currentUserPosition (move r) = Some p ->
  mjoin (fileStack (gCodes r) !! stackPointer (gCodes r)) = None ->
  GCodes.Push r = Some (true, r1) ->
  length (files (platform r1)) = length (files (platform r))
  /\ forall j, inUse (Platform.store_at (platform r1) j)
               = inUse (Platform.store_at (platform r) j).
Proof.
  intros Hsp Hpending Hfin Hpos Hslot. unfold GCodes.Push.
  unfold bind at 1. unfold gc at 1, gets at 1. cbv beta iota.
  rewrite decide_False by lia.
  unfold bind at 1. rewrite (AllMoves_idle r p) by done. cbn [negb].
  unfold FileData.CopyFrom, FileData.Close, Platform.PushMessageIndent,
    Platform.Duplicate, Platform.update_store, Platform.Message. run.
  unfold file_var. fields. rewrite Hslot. run.
  destruct (fileBeingPrinted (gCodes r)) as [i0|]; run; [|by intros [= <-]].
  destruct (inUse (Platform.store_at (platform r) i0)) eqn:Huse; run;
    intros [= <-]; fields; [|done].
  pose proof (store_at_in_use _ _ Huse) as Hi0.
  rewrite length_insert. split; [done|]. intros j.
  unfold Platform.store_at in *. fields.
  destruct (decide (i0 = j)) as [->|Hj].
  - rewrite list_lookup_insert_eq by done. by fields.
  - by rewrite list_lookup_insert_ne.
Qed.

(** A macro that is called while none is running is started, whether or
    not a file is being printed. *)
Lemma macro_start_run (name : string) (bytes : list ascii) (i : nat)
    (r : RepRap) (p : list float) :
  let g := gCodes r in
  let sp := stackPointer g in
  doingCannedCycleFile g = false ->
  (sp < STACK)%nat ->
  length (drivesRelativeStack g) = STACK ->
  length (axesRelativeStack g) = STACK ->
  moveAvailable g = false ->
  allMovesAreFinished (move r) = true ->
  currentUserPosition (move r) = Some p ->
  (forall i0, fileBeingPrinted g = Some i0 ->
              inUse (Platform.store_at (platform r) i0) = true) ->
  mjoin (fileStack g !! sp) = None ->
  fileStructureInitialised (platform r) = true ->
  Platform.first_free (files (platform r)) 0 = Some i ->
  sdCard (platform r) (sysDir (platform r)) name = Some bytes ->
  exists r',
    GCodes.DoFileCannedCycles ActOnCode name r = Some (false, r')
    /\ doingCannedCycleFile (gCodes r') = true
    /\ fileBeingPrinted (gCodes r') = Some i
    /\ Platform.store_at (platform r') i = mkFileStore true 1 false bytes 0
    /\ stackPointer (gCodes r') = S sp
    /\ bget (drivesRelativeStack (gCodes r')) sp = drivesRelative g
    /\ bget (axesRelativeStack (gCodes r')) sp = axesRelative g
    /\ drivesRelative (gCodes r') = drivesRelative g
    /\ axesRelative (gCodes r') = axesRelative g
    /\ cannedCycleGCode (gCodes r') = GCodeBuffer.Init (cannedCycleGCode g)
    /\ moveAvailable (gCodes r') = false
    /\ homeX (gCodes r') = homeX g /\ homeY (gCodes r') = homeY g
    /\ homeZ (gCodes r') = homeZ g
    /\ axisIsHomed (gCodes r') = axisIsHomed g.
Proof.
  intros g sp Hidle Hsp Hds Has Hpending Hfin Hpos Hfile Hslot Hinit Hfree Hcard.
  destruct (Push_run r p) as (r1 & HPush & Hg1 & _); try done.
  fold g sp in Hg1.
  destruct (Push_stores r r1 p Hsp Hpending Hfin Hpos Hslot HPush) as [Hlen1 Huse1].
  destruct (kept_Push _ _ _ HPush) as (K1 & K2 & _ & K4 & _).
  assert (Platform.first_free (files (platform r1)) 0 = Some i) as Hfree1.
  { rewrite <- Hfree. apply first_free_ext; [done|]. intros j. apply Huse1. }
  destruct (GetFileStore_found (sysDir (platform r1)) name bytes i r1)
    as (r2 & HOpen & Hstore & Hothers & Hg2 & _); [by rewrite K4|done|by rewrite K1, K2|].
  assert (fileBeingPrinted (gCodes r2) = fileBeingPrinted g) as Hfbp.
  { rewrite Hg2, Hg1. unfold set_file_var. by fields. }
  assert (exists r3,
            FileData.Close BeingPrinted r2 = Some (tt, r3)
            /\ gCodes r3 = set_fileBeingPrinted None (gCodes r2)
            /\ Platform.store_at (platform r3) i = Platform.store_at (platform r2) i)
    as (r3 & HClose & Hg3 & Hstore3).
  { unfold FileData.Close. run. unfold file_var. rewrite Hfbp.
    destruct (fileBeingPrinted g) as [i0|] eqn:Hi0; run.
    - assert (i <> i0) as Hne.
      { intros <-. destruct (first_free_spec _ _ _ Hfree) as (_ & f & Hf & Hfreef).
        rewrite Nat.sub_0_r in Hf. specialize (Hfile i eq_refl).
        unfold Platform.store_at in Hfile. rewrite Hf in Hfile. cbn in Hfile. congruence. }
      destruct (Platform_Close_gCodes i0 r2) as (ok & r3 & HC & Hg & _). rewrite HC.
      eexists. split; [reflexivity|]. fields. rewrite Hg. split; [done|].
      by eapply Close_other_store.
    - eexists. split; [reflexivity|]. split; [|done].
      rewrite <- Hfbp. by destruct r2 as [[] ? ? ? ? ?]. }
  unfold GCodes.DoFileCannedCycles. run. unfold id. fold g. rewrite Hidle. run.
  rewrite HPush. run. unfold id. rewrite HOpen. run.
  unfold FileData.Set_. unfold bind at 1. rewrite HClose. run.
  unfold GCodes.InitBuffer. run.
  eexists. split; [reflexivity|]. fields. rewrite Hstore3, Hstore, Hg3, Hg2, Hg1.
  unfold set_file_var. fields.
  unfold bget. rewrite !list_lookup_insert_eq by lia. cbn [default from_option id].
  by repeat split.
Qed.

(** X28. A macro called while nothing is being printed is started, not
    run: the call answers "not done", a frame is pushed (the stack pointer
    is one more, the two relative flags are saved in it), the macro file
    is opened at its first byte in the first free store and becomes the
    file being printed, [doingCannedCycleFile] is set, the macro's buffer
    is reset, and no move is queued. *)
Theorem macro_is_started (name : string) (bytes : list ascii) (i : nat)
    (r : RepRap) (p : list float) :
  let g := gCodes r in
  let sp := stackPointer g in
  doingCannedCycleFile g = false ->
  (sp < STACK)%nat ->
  length (drivesRelativeStack g) = STACK ->
  length (axesRelativeStack g) = STACK ->
  moveAvailable g = false ->
  allMovesAreFinished (move r) = true ->
  currentUserPosition (move r) = Some p ->
  fileBeingPrinted g = None ->
  mjoin (fileStack g !! sp) = None ->
  fileStructureInitialised (platform r) = true ->
  Platform.first_free (files (platform r)) 0 = Some i ->
  sdCard (platform r) (sysDir (platform r)) name = Some bytes ->
  exists r',
    GCodes.DoFileCannedCycles ActOnCode name r = Some (false, r')
    /\ doingCannedCycleFile (gCodes r') = true
    /\ fileBeingPrinted (gCodes r') = Some i
    /\ Platform.store_at (platform r') i = mkFileStore true 1 false bytes 0
    /\ stackPointer (gCodes r') = S sp
    /\ bget (drivesRelativeStack (gCodes r')) sp = drivesRelative g
    /\ bget (axesRelativeStack (gCodes r')) sp = axesRelative g
    /\ drivesRelative (gCodes r') = drivesRelative g
    /\ axesRelative (gCodes r') = axesRelative g
    /\ cannedCycleGCode (gCodes r') = GCodeBuffer.Init (cannedCycleGCode g)
    /\ moveAvailable (gCodes r') = false.
Proof.
  intros g sp Hidle Hsp Hds Has Hpending Hfin Hpos Hfile Hslot Hinit Hfree Hcard.
  destruct (macro_start_run name bytes i r p)
    as (r' & Hrun & H1 & H2 & H3 & H4 & H5 & H6 & H7 & H8 & H9 & H10 & _); try done.
  { intros i0 Hi0. fold g in Hi0. congruence. }
  exists r'. by repeat split.
Qed.
End MacroStart.

Lemma macro_is_started_witness :
  exists r',
    GCodes.DoFileCannedCycles (GCodes.ActOnCode 0) "homex.g" with_card = Some (false, r')
    /\ doingCannedCycleFile (gCodes r') = true
    /\ fileBeingPrinted (gCodes r') = Some 0%nat
    /\ Platform.store_at (platform r') 0 = mkFileStore true 1 false (line "G1 X1") 0
    /\ stackPointer (gCodes r') = S (stackPointer (gCodes with_card))
    /\ bget (drivesRelativeStack (gCodes r')) (stackPointer (gCodes with_card))
       = drivesRelative (gCodes with_card)
    /\ bget (axesRelativeStack (gCodes r')) (stackPointer (gCodes with_card))
       = axesRelative (gCodes with_card)
    /\ drivesRelative (gCodes r') = drivesRelative (gCodes with_card)
    /\ axesRelative (gCodes r') = axesRelative (gCodes with_card)
    /\ cannedCycleGCode (gCodes r') = GCodeBuffer.Init (cannedCycleGCode (gCodes with_card))
    /\ moveAvailable (gCodes r') = false.
Proof.
  apply (macro_is_started (GCodes.ActOnCode 0) "homex.g" (line "G1 X1") 0%nat with_card
           (replicate 9 Float.zero)).
  - reflexivity.
  - vm_compute. lia.
  - reflexivity.
  - reflexivity.
  - reflexivity.
  - reflexivity.
  - reflexivity.
  - reflexivity.
  - reflexivity.
  - reflexivity.
  - reflexivity.
  - reflexivity.
Defined.

(** ** End-stop moves *)

#[export] Instance endstop_flags_preorder : PreOrder endstop_flags_kept.
Proof.
  split; [by intros r|]. intros r1 r2 r3 [? ?] [? ?]. split; congruence.
Qed.

Lemma flags_update (f : GCodes -> GCodes) :
  (forall g, checkEndStops (f g) = checkEndStops g
             /\ waitingForMoveToComplete (f g) = waitingForMoveToComplete g) ->
  Frame endstop_flags_kept (update f).
Proof. intros Hf. apply Frame_modify. intros r. apply Hf. Qed.

Lemma flags_only_output (r r' : RepRap) : only_output r r' -> endstop_flags_kept r r'.
Proof. intros (Hg & _). unfold endstop_flags_kept. by rewrite Hg. Qed.

Lemma flags_Message (t : MessageType) (s : string) :
  Frame endstop_flags_kept (Platform.Message t s).
Proof.
  intros r a r' Hrun. destruct (Message_output t s r) as (r1 & Hr1 & Hout).
  rewrite Hr1 in Hrun. injection Hrun as _ <-. by apply flags_only_output.
Qed.

Lemma flags_on_buffer {A} (b : BufferId) (f : GCodeBuffer -> A * GCodeBuffer * list string) :
  Frame endstop_flags_kept (GCodes.on_buffer b f).
Proof.
  intros r a r' Hrun. destruct (on_buffer_run b f r) as (r1 & Hr1 & Hg & _).
  rewrite Hr1 in Hrun. injection Hrun as _ <-.
  unfold endstop_flags_kept. rewrite Hg. by destruct b.
Qed.

Ltac flags_step :=
  match goal with
  | |- Frame _ (ret _) => apply Frame_ret; apply _
  | |- Frame _ fail => apply Frame_fail
  | |- Frame _ (gets _) => apply Frame_gets; apply _
  | |- Frame _ (gc _) => apply Frame_gc; apply _
  | |- Frame _ (plat _) => apply Frame_plat; apply _
  | |- Frame _ (when _ _) => apply Frame_when; [apply _|]
  | |- Frame _ (for_each _ _) => apply Frame_for_each; [apply _|intros ?]
  | |- Frame _ (bind _ _) => apply Frame_bind; [apply _| |intros ?]
  | |- Frame endstop_flags_kept (GCodes.on_buffer _ _) => apply flags_on_buffer
  | |- Frame endstop_flags_kept (Platform.Message _ _) => apply flags_Message
  | |- Frame endstop_flags_kept (update _) => apply flags_update; intros ?; by fields
  | |- Frame _ (if ?c then _ else _) => destruct c
  | |- Frame _ (match ?x with _ => _ end) => destruct x
  end.

Ltac flags := repeat first [assumption | solve [auto 1] | flags_step | progress cbv zeta].

Section EndStops.
Context `{Config}.

Lemma flags_load_extrusion (b : BufferId) (doingG92 : bool) :
  Frame endstop_flags_kept (GCodes.load_extrusion b doingG92).
Proof.
  unfold GCodes.load_extrusion, GCodes.Seen, GCodes.GetFloatArray, GCodes.Buffer. flags.
  apply flags_update. intros g.
  match goal with
  | |- context [foldl (GCodes.load_extruder ?d ?t ?e) g (seq 0 ?n)] =>
      destruct (load_extruders_frame d t e n g) as (? & ? & -> & _)
  end.
  by fields.
Qed.

Lemma flags_load_axis (b : BufferId) (doingG92 applyLimits : bool) (axis : nat) :
  Frame endstop_flags_kept (GCodes.load_axis b doingG92 applyLimits axis).
Proof. unfold GCodes.load_axis, GCodes.Seen, GCodes.GetFValue. flags. Qed.

(** Loading the fields of the line into the move slot leaves the two
    flags alone. *)
Lemma flags_LoadMoveBuffer (b : BufferId) (doingG92 applyLimits : bool) :
  Frame endstop_flags_kept (GCodes.LoadMoveBufferFromGCode b doingG92 applyLimits).
Proof.
  pose proof (flags_load_extrusion b doingG92).
  pose proof (flags_load_axis b doingG92 applyLimits).
  unfold GCodes.LoadMoveBufferFromGCode, GCodes.Seen, GCodes.GetFValue. flags.
Qed.

(** The number after a tag depends on the text of the line only. *)
Lemma code_after_text (c : ascii) (gb gb' : GCodeBuffer) :
  gcodeBuffer gb' = gcodeBuffer gb -> code_after c gb' = code_after c gb.
Proof.
  intros Htext. unfold code_after, GCodeBuffer.Seen. rewrite Htext.
  destruct (GCodeBuffer.Seen_loop c (gcodeBuffer gb) 0) as [j|]; [|done].
  unfold GCodeBuffer.GetIValue, GCodeBuffer.GetLValue, GCodeBuffer.field_text. fields.
  destruct (Z.ltb_spec j 0); [done|]. by rewrite Htext.
Qed.

(** With the slot free and the planner's position at hand, a line with
    the field [S1] makes [SetUpMove] set [checkEndStops] and answer 2. *)
Lemma SetUpMove_endstop (b : BufferId) (r : RepRap) :
  moveAvailable (gCodes r) = false ->
  is_Some (currentUserPosition (move r)) ->
  code_after "S" (buffer b (gCodes r)) = Some 1 ->
  exists r1,
    GCodes.SetUpMove b r = Some (2, r1)
    /\ checkEndStops (gCodes r1) = true
    /\ waitingForMoveToComplete (gCodes r1) = waitingForMoveToComplete (gCodes r).
Proof.
  intros Hfree [p Hp] HS.
  unfold GCodes.SetUpMove, Move.GetCurrentUserPosition. run. rewrite Hfree. run.
  rewrite Hp. run. rewrite (Seen_on_buffer b). fields.
  set (g1 := set_checkEndStops false _).
  assert (buffer b g1 = buffer b (gCodes r)) as -> by (by destruct b).
  unfold code_after in HS.
  destruct (GCodeBuffer.Seen "S" (buffer b (gCodes r))) as [[] gb1] eqn:HSeen; [|done].
  cbn [fst snd]. injection HS as HS.
  apply Seen_found in HSeen as (Hptr & _ & _).
  rewrite (GetIValue_after_Seen b) by (fields; by rewrite buffer_set_buffer).
  fields. rewrite !buffer_set_buffer, !set_buffer_twice.
  unfold GCodeBuffer.GetIValue, GCodeBuffer.GetLValue in HS.
  destruct (Z.ltb_spec (readPointer gb1) 0) as [?|_]; [lia|]. cbn [fst snd] in HS.
  rewrite HS. cbn [Z.eqb Pos.eqb]. fields.
  match goal with
  | |- context [GCodes.LoadMoveBufferFromGCode b false false ?s] => set (ra := s)
  end.
  destruct (Returns_LoadMoveBuffer b false false ra) as [[loaded rb] Hrun].
  destruct (flags_LoadMoveBuffer b false false _ _ _ Hrun) as [Hstops Hwait].
  rewrite Hrun. exists (set_gCodes (set_moveAvailable loaded (gCodes rb)) rb).
  fields. rewrite Hstops, Hwait. subst ra g1. fields.
  split; [reflexivity|]. split; [reflexivity|]. by destruct b.
Qed.

Variable ActOnCode : BufferId -> M bool.

(** C4.  A G0/G1 handler invocation made while nothing is waited for, the
    move slot is free and the planner's position can be read, on a line
    with the field [S1]: [SetUpMove] marks the move as end-stop checking
    ([checkEndStops]) and returns 2, and the handler sets
    [waitingForMoveToComplete] and returns [false].  A G0/G1 handler
    invocation made while [waitingForMoveToComplete] is set sets up no
    move: it leaves [moveAvailable] as it found it, returns [false] and
    keeps the flag set unless the gate
    [AllMovesAreFinishedAndMoveBufferIsLoaded] is open, that is the slot
    has been emptied by the planner, the planner has finished every move
    and its position can be read; only then does it return [true] and
    clear the flag, so that the next G0/G1 is set up. *)
Theorem endstop_moves_are_serialized (b : BufferId) (r r0 : RepRap) (code : Z) :
  GCodes.GetIValue b r = Some (code, r0) ->
  code = 0 \/ code = 1 ->
  (waitingForMoveToComplete (gCodes r) = false ->
   moveAvailable (gCodes r) = false ->
   is_Some (currentUserPosition (move r)) ->
   code_after "S" (buffer b (gCodes r)) = Some 1 ->
   exists r1 r',
     GCodes.SetUpMove b r0 = Some (2, r1)
     /\ checkEndStops (gCodes r1) = true
     /\ GCodes.HandleGcode ActOnCode b r = Some (false, r')
     /\ r' = set_gCodes (set_waitingForMoveToComplete true (gCodes r1)) r1
     /\ checkEndStops (gCodes r') = true
     /\ waitingForMoveToComplete (gCodes r') = true)
  /\ (waitingForMoveToComplete (gCodes r) = true ->
      exists result r',
        GCodes.HandleGcode ActOnCode b r = Some (result, r')
        /\ moveAvailable (gCodes r') = moveAvailable (gCodes r)
        /\ (result = true <-> gate_open r)
        /\ waitingForMoveToComplete (gCodes r') = negb result).
Proof.
  intros HGet Hcode.
  destruct (GetIValue_frame b r) as (code' & r0' & HGet' & gb' & Hout & Htext).
  rewrite HGet in HGet'. injection HGet' as <- <-.
  destruct Hout as (Hg0 & Hm0 & _).
  assert (waitingForMoveToComplete (gCodes r0) = waitingForMoveToComplete (gCodes r)
          /\ moveAvailable (gCodes r0) = moveAvailable (gCodes r)) as [Hw0 Hp0].
  { rewrite Hg0. by destruct b. }
  assert ((code =? 0) || (code =? 1) = true) as Hcase by (destruct Hcode; by subst).
  assert (GCodes.HandleGcode ActOnCode b r =
          (let* '(result, error, reply) :=
             (let* waiting := gc waitingForMoveToComplete in
              if waiting then
                let* result := GCodes.AllMovesAreFinishedAndMoveBufferIsLoaded in
                when result (update (set_waitingForMoveToComplete false)) >>
                ret (result, false, EmptyString)
              else
                let* res := GCodes.SetUpMove b in
                when (res =? 2) (update (set_waitingForMoveToComplete true)) >>
                ret (res =? 1, false, EmptyString)) in
           when result (GCodes.HandleReply error (GCodes.is_serial b) reply "G" code false) >>
           ret result) r0) as ->.
  { unfold GCodes.HandleGcode. unfold bind at 1. by rewrite HGet, Hcase. }
  split.
  - intros Hw Hfree Hpos HS.
    destruct (SetUpMove_endstop b r0) as (r1 & HSet & Hstops & _).
    + congruence.
    + by rewrite Hm0.
    + rewrite <- HS. apply code_after_text. rewrite Hg0, buffer_with_buffer. exact Htext.
    + exists r1, (set_gCodes (set_waitingForMoveToComplete true (gCodes r1)) r1).
      split; [exact HSet|]. split; [exact Hstops|].
      split; [|by repeat split].
      run. rewrite Hw0, Hw. run. rewrite HSet. run. reflexivity.
  - intros Hw.
    destruct (AllMoves_spec r0) as (res & r1 & HAll & Hres & Hp1 & Hw1 & _).
    assert (gate_open r0 <-> gate_open r) as Hgate.
    { unfold gate_open. by rewrite Hp0, Hm0. }
    destruct res.
    + run. rewrite Hw0, Hw, HAll. run.
      match goal with
      | |- context [GCodes.HandleReply ?e ?f ?t ?g ?c ?rs ?x] =>
          destruct (HandleReply_output e f t g c rs x) as (r' & -> & Hg' & _)
      end.
      eexists _, _; split; [reflexivity|]. rewrite Hg'. fields.
      split; [congruence|]. split; [|done]. rewrite <- Hgate. tauto.
    + run. rewrite Hw0, Hw, HAll. run. eexists _, _; split; [reflexivity|].
      split; [congruence|]. split; [|simpl; congruence].
      rewrite <- Hgate, <- Hres. done.
Qed.
End EndStops.

(** ** Homing *)

Section Homing.
Context `{Config}.
Variable ActOnCode : BufferId -> M bool.

(** C7.  With Z alone requested: if the platform wants X and Y homed first
    and one of them is not, [DoHome] completes at once with the error
    reply, drops the request and changes nothing else, so the homed flags
    (that of Z among them) are as before.  If X and Y are both homed, no
    call of [DoHome] answers with another reply or error flag than those
    passed in; and the call made when no macro is being run, the stack
    has room, the move slot is free, the planner is at rest and
    [homez.g] is on the card in the system directory starts the macro:
    the file is opened at its first byte as the file being printed,
    [doingCannedCycleFile] is set, [false] is answered so that [DoHome]
    is called again, and the request and the homed flags stand. *)
Theorem Z_is_homed_only_after_X_and_Y (reply : string) (error : bool) (r : RepRap) :
  let g := gCodes r in
  homeX g = false -> homeY g = false -> homeZ g = true ->
  (Platform.MustHomeXYBeforeZ (platform r) = true ->
   bget (axisIsHomed g) X_AXIS = false \/ bget (axisIsHomed g) Y_AXIS = false ->
   exists r',
     GCodes.DoHome ActOnCode reply error r
     = Some ((true, "Must home X and Y before homing Z"%string, true), r')
     /\ r' = set_gCodes (set_homeZ false g) r
     /\ homeZ (gCodes r') = false
     /\ axisIsHomed (gCodes r') = axisIsHomed g
     /\ (bget (axisIsHomed g) Z_AXIS = false ->
         bget (axisIsHomed (gCodes r')) Z_AXIS = false))
  /\ (bget (axisIsHomed g) X_AXIS = true -> bget (axisIsHomed g) Y_AXIS = true ->
      (forall res r', GCodes.DoHome ActOnCode reply error r = Some (res, r') ->
         res.1.2 = reply /\ res.2 = error)
      /\ forall (i : nat) (bytes : list ascii) (p : list float),
           doingCannedCycleFile g = false ->
           (stackPointer g < STACK)%nat ->
           length (drivesRelativeStack g) = STACK ->
           length (axesRelativeStack g) = STACK ->
           moveAvailable g = false ->
           allMovesAreFinished (move r) = true ->
           currentUserPosition (move r) = Some p ->
           (forall i0, fileBeingPrinted g = Some i0 ->
                       inUse (Platform.store_at (platform r) i0) = true) ->
           mjoin (fileStack g !! stackPointer g) = None ->
           fileStructureInitialised (platform r) = true ->
           Platform.first_free (files (platform r)) 0 = Some i ->
           sdCard (platform r) (sysDir (platform r)) HOME_Z_G = Some bytes ->
           exists r',
             GCodes.DoHome ActOnCode reply error r = Some ((false, reply, error), r')
             /\ doingCannedCycleFile (gCodes r') = true
             /\ fileBeingPrinted (gCodes r') = Some i
             /\ Platform.store_at (platform r') i = mkFileStore true 1 false bytes 0
             /\ homeZ (gCodes r') = true
             /\ axisIsHomed (gCodes r') = axisIsHomed g).
Proof.
  intros g HX HY HZ.
  assert (GCodes.DoHome ActOnCode reply error r
          = (let* p := plat id in
             if Platform.MustHomeXYBeforeZ p
                && (negb (bget (axisIsHomed g) X_AXIS) || negb (bget (axisIsHomed g) Y_AXIS))
             then
               update (set_homeZ false) >>
               ret (true, "Must home X and Y before homing Z"%string, true)
             else
               let* done := GCodes.DoFileCannedCycles ActOnCode HOME_Z_G in
               if done then
                 update (set_homeZ false) >>
                 let* res := gc GCodes.NoHome in ret (res, reply, error)
               else ret (false, reply, error)) r) as Hhome.
  { unfold GCodes.DoHome. unfold bind at 1, gc at 1, gets at 1.
    change (id (gCodes r)) with g. cbv beta. by rewrite HX, HY, HZ. }
  split.
  - intros Hmust Hxy. exists (set_gCodes (set_homeZ false g) r).
    split; [|by repeat split].
    rewrite Hhome. run. unfold id. rewrite Hmust.
    by destruct Hxy as [-> | ->]; rewrite ?orb_true_r.
  - intros Hx Hy.
    assert (GCodes.DoHome ActOnCode reply error r
            = (let* done := GCodes.DoFileCannedCycles ActOnCode HOME_Z_G in
               if done then
                 update (set_homeZ false) >>
                 let* res := gc GCodes.NoHome in ret (res, reply, error)
               else ret (false, reply, error)) r) as Hmacro.
    { rewrite Hhome. unfold bind at 1, plat at 1, gets at 1. cbv beta.
      by rewrite Hx, Hy, andb_false_r. }
    split.
    + intros res r'. rewrite Hmacro. unfold bind at 1.
      destruct (GCodes.DoFileCannedCycles ActOnCode HOME_Z_G r) as [[[] r1]|]; run.
      * by intros [= <- <-].
      * by intros [= <- <-].
      * done.
    + intros i bytes p Hidle Hsp Hds Has Hfree Hfin Hpos Hfile Hslot Hinit Hstore Hcard.
      destruct (macro_start_run ActOnCode HOME_Z_G bytes i r p)
        as (r' & Hrun & Hdoing & Hprinted & Hopened & _ & _ & _ & _ & _ & _ & _ & _ & _
            & Hrequest & Hhomed); try done.
      exists r'. rewrite Hmacro. unfold bind at 1. rewrite Hrun. run.
      split; [reflexivity|]. split; [exact Hdoing|]. split; [exact Hprinted|].
      split; [exact Hopened|]. split; [|exact Hhomed]. by rewrite Hrequest.
Qed.
End Homing.

(** ** End-stop moves and homing on the concrete machine *)

Lemma endstop_moves_are_serialized_witness :
  (exists r1 r',
     GCodes.SetUpMove WebGCode (number_read endstop_move_arrives) = Some (2, r1)
     /\ checkEndStops (gCodes r1) = true
     /\ GCodes.HandleGcode (GCodes.ActOnCode 1) WebGCode endstop_move_arrives
        = Some (false, r')
     /\ r' = set_gCodes (set_waitingForMoveToComplete true (gCodes r1)) r1
     /\ checkEndStops (gCodes r') = true
     /\ waitingForMoveToComplete (gCodes r') = true)
  /\ exists result r',
       GCodes.HandleGcode (GCodes.ActOnCode 1) WebGCode at_endstop_move = Some (result, r')
       /\ moveAvailable (gCodes r') = moveAvailable (gCodes at_endstop_move)
       /\ (result = true <-> gate_open at_endstop_move)
       /\ waitingForMoveToComplete (gCodes r') = negb result.
Proof.
  split.
  - apply (proj1 (endstop_moves_are_serialized (GCodes.ActOnCode 1) WebGCode
                    endstop_move_arrives (number_read endstop_move_arrives) 1
                    ltac:(vm_compute; reflexivity) (or_intror eq_refl))).
    + reflexivity.
    + reflexivity.
    + vm_compute. eexists. reflexivity.
    + vm_compute. reflexivity.
  - apply (proj2 (endstop_moves_are_serialized (GCodes.ActOnCode 1) WebGCode
                    at_endstop_move (number_read at_endstop_move) 1
                    ltac:(vm_compute; reflexivity) (or_intror eq_refl))).
    reflexivity.
Defined.

Lemma Z_is_homed_only_after_X_and_Y_witness :
  (exists r',
     GCodes.DoHome (GCodes.ActOnCode 1) EmptyString false asked_to_home_Z
     = Some ((true, "Must home X and Y before homing Z"%string, true), r')
     /\ homeZ (gCodes r') = false
     /\ bget (axisIsHomed (gCodes r')) Z_AXIS = false)
  /\ exists r',
       GCodes.DoHome (GCodes.ActOnCode 1) EmptyString false asked_to_home_Z_after_XY
       = Some ((false, EmptyString, false), r')
       /\ doingCannedCycleFile (gCodes r') = true
       /\ fileBeingPrinted (gCodes r') = Some 0%nat
       /\ Platform.store_at (platform r') 0
          = mkFileStore true 1 false (line "G1 S1 Z-200") 0
       /\ homeZ (gCodes r') = true
       /\ axisIsHomed (gCodes r') = axisIsHomed (gCodes asked_to_home_Z_after_XY).
Proof.
  split.
  - destruct (proj1 (Z_is_homed_only_after_X_and_Y (GCodes.ActOnCode 1) EmptyString false
                       asked_to_home_Z eq_refl eq_refl eq_refl))
      as (r' & Hrun & _ & Hz & _ & Hhomed).
    + reflexivity.
    + left. reflexivity.
    + exists r'. split; [exact Hrun|]. split; [exact Hz|]. apply Hhomed. reflexivity.
  - apply (proj2 (proj2 (Z_is_homed_only_after_X_and_Y (GCodes.ActOnCode 1) EmptyString
                           false asked_to_home_Z_after_XY eq_refl eq_refl eq_refl)
                   eq_refl eq_refl)
             0%nat (line "G1 S1 Z-200") (replicate 9 Float.zero)).
    + reflexivity.
    + vm_compute. lia.
    + reflexivity.
    + reflexivity.
    + reflexivity.
    + reflexivity.
    + reflexivity.
    + intros i0 Hprinted. discriminate Hprinted.
    + reflexivity.
    + reflexivity.
    + reflexivity.
    + reflexivity.
Defined.
